(* ===== verification/_CoqProject ===== *)
-Q . S2P
Prelude.v
Database.v
Shuffle.v
Uniform.v
Occupancy.v
Allocator.v
AllocInv.v
AllocTrace.v
AllocEdge.v
AllocCount.v
Spec.v
Refine.v
Generate.v
GenerateDraws.v
GenerateEdge.v
GenerateCount.v
Cost.v
GenerateOrder.v
GenerateAttrs.v
GenerateSpec.v
Crud.v
CrudSpec.v
Report.v
Json.v
Session.v
EntryIds.v
Connection.v
Http.v
Concurrent.v
ConcurrentInv.v
ConcurrentLive.v
Service.v
