(* ===== verification/Prelude.v ===== *)
(** * Timetable-Scheduler: a verification development for [src/app.py]

    ** The program

    [src/app.py] is a FastAPI service over one SQLite file with five
    tables: rooms, batches, faculties, subjects (the entities) and
    timetable (the generated sessions).  Its handlers are
    - the entity endpoints [get_*], [add_*], [delete_*] (lines 81-177),
      each one SQL statement and a commit;
    - [generate_timetable] (lines 187-231): delete the stored timetable,
      read the entities, and for every batch, day of [DAYS] and slot below
      [SLOTS_PER_DAY], in this order, shuffle the subjects and store a
      session for the first subject whose faculty is free in that cell, in
      the first room that is free in that cell; count the attempt as
      unscheduled when there is none.  Busy cells are kept in two tables
      [global_fac_slot] and [global_room_slot], dicts of dicts of lists;
    - [get_timetable_batch] (lines 237-262): join the stored sessions of a
      batch with the names of room, subject and faculty, and lay them out
      in a dict from day to a list of six cells;
    - [root] (lines 180-185): the front page.
    The framework routes a request to a handler by method and path (the
    decorators), validates a body against a request model (lines 55-77),
    runs the handler in a thread of its pool on a connection of its own
    ([get_db], lines 29-32), and answers with what the handler returns as
    JSON, or with a server error when it raises.

    ** The files

    - [Prelude] (this file): what the handlers use of Python.  A
      computation that can raise is a [result] ([Ok] or [Raise] of a
      [py_error]: [KeyError], [IndexError], [OverflowError] or the
      [ProgrammingError] of [sqlite3]) with the
      monad notation of stdpp; dicts are [gmap string _], lists are lists; [dict_get],
      [list_get], [list_set], [list_set_int] are the subscripts with the
      exceptions they raise, [py_index] the meaning of a negative index,
      [truthy] the truth value of a string, [dict_of_list] a dict
      comprehension, [for_each] a [for] statement over a state.  The
      lemmas are the loop rules every component uses: invariant, invariant
      indexed by the processed prefix, total correctness, exception,
      counting, flattening of nested loops.  For the threads: the sum
      [map_sum] of a measure over a finite map, and termination of a
      relation that decreases a measure ([measure_sn], [measure_nsteps]).
    - [Database]: the schema of [init_db] as records, a table as the list
      of its rows in scan order, [sql_delete], [sql_insert_or_replace] and
      [sql_find] for the statements on entity tables, the timetable with
      its [AUTOINCREMENT] sequence ([sql_delete_timetable] keeps the
      sequence, [sql_insert_timetable] takes the next id), and the primary
      key constraints [table_wf], [timetable_wf], [db_wf].  An [INTEGER]
      column holds 64 bits ([int64]); [sql_int] is the binding of a Python
      [int] as a parameter, which raises [OverflowError] outside them.
    - [Shuffle]: the interface [Shuffler] between the allocator and
      [random.shuffle] (a generator state and a function that returns a
      permutation), and an instance [fisher_yates]: the loop of CPython's
      [random.shuffle] over a tape of draws.  The instance is modelled from
      the library's documentation, since [random] is no file of the
      repository; the theorems on the allocator are proved for every
      instance of the interface, so they hold for any shuffle.  [draws]
      are the tapes whose draws are in range.
    - [Uniform]: [orders], the results of [random.shuffle] over all tapes
      of draws in range, and the counting argument that they are the
      permutations of the list, each once.
    - [Occupancy]: the tables [global_fac_slot] and [global_room_slot]:
      [occ_init] (the comprehensions of lines 201-202), [occ_busy] (the
      read [t[id][day][slot]]), [occ_mark] (the assignment of [True]), the
      shape [occ_shape] under which they do not raise.
    - [Allocator]: the pass.  [alloc_state] is the state of the loops (the
      two tables, the rows written through the cursor, the counter
      [unscheduled], the generator); [free_room] is the [next(...)] of line
      212, [try_subjects] the loop over the shuffled subjects with its
      [break], [place] the statements under the [if], [attempt] the body of
      the slot loop, [slot_loop], [day_loop], [batch_loop] the three loops,
      [allocate] the whole.  The condition of line 213 is evaluated as
      Python does: [free_room] is tested for truth (the empty string is
      false), and the faculty table is read only if that test succeeds.
    - [AllocInv]: the invariants of the pass.  [shape_inv]: the tables keep
      their shape, so the only exception is the [KeyError] of a faculty id
      that is no key of the faculty dict.  [alloc_inv]: a cell of a table is
      [True] exactly when a stored row books it, and no two rows book the
      same cell.
    - [AllocTrace]: [trace_inv] relates the rows and the counter to the
      sequence [attempts] of (batch, day, slot): one row or one count per
      attempt, rows in the order of the attempts, entry ids in sequence,
      each row built from a room of the list and a subject of the list.
    - [AllocEdge]: runs without a usable room, the capacity of the
      tables (a room or a faculty is booked at most once per cell), and
      the first attempt of a pass in which no subject has a faculty.
    - [AllocCount]: the rows of one cell of the grid along the pass:
      [pass_inv] adds to the invariants above that a cell holds one row
      per attempt made at it, up to the number of rooms and of faculties
      that teach a subject.
    - [Spec]: the algorithm of section 4.1 of the specification, over sets
      of busy cells, with no exceptions; modelled from the specification's
      text.  [Refine]: the relation [refines] between a state of the pass
      and a state of the specification, and the simulation: under the
      specification's precondition and with room ids that are not empty,
      each attempt of the code returns and takes the specification's step.
    - [Generate], [GenerateEdge], [GenerateCount], [GenerateOrder],
      [GenerateSpec]: the handler [generate_timetable] as a function from the database and
      the generator to the database it leaves and either its answer or
      the exception.  The handler's transaction is modelled by its
      outcome: the new timetable is stored by [commit]; an exception
      leaves the function before [conn.commit()], so the database is
      returned unchanged.
    - [GenerateAttrs]: the relation [same_ids] between databases that
      agree on what the loops read of their rows.
    - [GenerateDraws]: the calls of [random.shuffle] a run makes
      ([shuffles], [pass_made], [generate_made]) and, for the instance
      [fisher_yates], the draws it takes from the tape.
    - [Cost]: the cells of the occupancy tables a run reads, attempt by
      attempt ([free_room_reads], [try_subjects_reads], [pass_reads],
      [generate_reads]), as a function of the inputs of the pass that
      follows its control flow.
    - [Report]: [get_timetable_batch]: [join_row] and [select_batch_rows]
      are the query, [fill] the body of the loop, a Python item assignment
      at index [slot - 1].
    - [Crud]: the request models with their defaults and the twelve
      entity handlers, as functions from the database to the database
      they commit and their answer or exception; [bind_room] and
      [bind_batch] are the parameters of the two statements that bind
      integers, [crud_handle] routes a request.
    - [CrudSpec]: the abstraction [table_map] of a table to a finite map
      from its primary key, [abs_store] of a database to a [store] of four
      maps, the requests on a store ([crud_spec]), and the equivalence
      [db_equiv] of databases that are the same store.
    - [Json]: the values that cross the HTTP boundary ([json]), their
      types ([schema], [has_type]), [dict_from_row] as the class [Row] with
      an instance for each table (encoding, schema, decoding and their
      laws), and the validation of a body against a request model
      ([validate_room] and the like): fields are read in the order of the
      class, a missing field without default or a value the validator
      refuses ends the validation.  What the validation library accepts for
      a value of another type than the declared one differs between its
      versions, so it is the interface [Validator]: a value of the declared
      type is taken as it is, [None] is refused; [strict] is an instance.
    - [Session]: the service as a transition system.  A state is the
      database and the state of the random generator; [step] has one rule
      per route and outcome (a handler that raises is answered by an
      internal server error), [handle] is the same as a function, [run]
      answers a list of requests, [reachable] are the states reached from
      the one [startup] leaves on a fresh file.
    - [EntryIds]: the sequence of entry ids over a run of the service:
      [scheduled_total] adds up the sessions the answers report.
    - [Connection]: the handlers statement by statement.  The state of the
      process is the file, the connections made and the generator
      ([process]); a handler is a program of the monad [io] of that state
      with exceptions, written with the calls of the source: [get_db],
      [conn_execute], [conn_fetchall], [loops], [conn_commit],
      [conn_close].  A connection is open or closed and inside a
      transaction or not; a statement that writes opens the transaction
      before its parameters are bound.  [handler] routes a request to its
      program, [serve] runs it from [arrival] (no connection yet) and drops
      the connections when the handler is left ([departure]).
    - [Http]: the service behind HTTP.  [locate] is the route table on the
      segments of a path, [methods] the methods of its decorators,
      [arguments] the parameters of the handler from the path and the
      validated body, [encode] the answer to what the handler returns;
      [http_handle] composes them with [Session.handle]: 404 for a path of
      no route, 405 for a method the path does not have, 422 for a body the
      model refuses, 500 for an exception, 200 otherwise.
    - [Concurrent]: requests in flight.  A handler is the sequence of its
      database statements ([pc] names the statement a thread has reached,
      [tstep] is one statement); a thread has its own connection, whose
      transaction sees its own writes ([view]); the file has one write
      lock, taken by the first writing statement of a transaction and held
      until its commit or, for an exception, until the connection is
      dropped; a thread that finds the lock taken waits or gives up with
      the error of the timeout.  [cstep] interleaves the threads and the
      arrival of requests, labelled by the exchange a step completes;
      [fire] and [schedule] run a given interleaving.
    - [ConcurrentInv]: the invariant [sys_inv] of the pool (the thread in
      a transaction is the one that holds the lock; its connection holds
      what its statements have written on top of the file), the
      abstraction [abs] of a pool to a state of [Session], and the
      simulation: a step of the pool is a step of [Session.step] on the
      abstraction, or no step.
    - [ConcurrentLive]: the measure [work] (statements left, at most seven
      for a thread) and progress: while a thread has no answer, some thread
      can step.
    - [Service]: the parts together.  [routes] is an HTTP request that
      reaches a handler, [http_run] the sequential service over HTTP,
      [serve_all] the handlers of [Connection] one after the other,
      [run_alone] a thread of [Concurrent] that no other interleaves with.

    ** The theorems

    - Safety of generation ([Generate]): no faculty and no room is booked
      twice in a cell ([generate_no_faculty_clash],
      [generate_no_room_clash]); the counts of the answer are the rows
      stored and the attempts without a row ([generate_counts]); rows
      follow the order of the attempts, at most one per attempt
      ([generate_rows_follow_attempts], [generate_one_row_per_attempt]);
      every row refers to entities of the database and lies in the grid
      ([generate_rows_ok]); the previous timetable is replaced and entry
      ids stay unique ([generate_replaces]).
    - Exceptions of generation: the handler returns whenever every
      subject's faculty is in the faculty table ([generate_total]); if it
      raises, the exception is the [KeyError] of a subject whose faculty
      is not, and the database is unchanged ([generate_raises]); it does
      raise, at the first attempt, when no subject has a faculty and the
      first room is usable ([generate_unresolved_raises]).
    - Refinement ([GenerateSpec]): when every subject's faculty is in the
      faculty table and no room id is empty, the handler returns exactly
      what the specification's algorithm computes: entries, counts and
      generator ([generate_refines_spec]).
    - The number of sessions ([GenerateCount]): with distinct rooms whose
      ids are not empty, every cell of the grid gets min(batches, rooms,
      teaching faculties) sessions whatever the shuffle
      ([generate_cell_count]), so the counts of the answer are determined
      by the input ([generate_scheduled]); the stored timetable is valid
      and no valid timetable has more sessions ([generate_optimal]).
    - The random source ([Uniform], [GenerateDraws]): a list of [n]
      distinct elements has [n!] tapes of draws in range, and every order
      of the list is the result of exactly one of them
      ([random_shuffle_uniform], [random_shuffle_orders]): with uniform
      draws, [random.shuffle] is the uniform shuffle the specification asks
      for.  A run that returns has shuffled 30 times for each batch
      ([generate_shuffles]) and taken [|subjects| - 1] draws each time
      ([generate_draws]); a run that raises has shuffled at least once
      ([generate_gen_shuffles]).
    - Cost ([Cost]): a run reads at most [rooms + 1] cells for each
      subject of each attempt ([generate_reads_bound]); the search for a
      room is repeated for every subject, so a run with more batches than
      rooms reads the cells of all rooms for each subject in each attempt
      of the later batches ([generate_reads_saturated]): the number of
      rooms is a factor of the cost.
    - Order of rows ([GenerateOrder]): the answer is the same for every
      order of the rows of the entity tables ([generate_order_independent]);
      the relation [db_perm] and the [Proper] instances for it make this a
      rewriting argument.  What does depend on the shuffle is which
      subject a session gets: every subject can be the first one stored
      ([generate_any_subject_first], by [random_shuffle_surj]).
    - Attributes ([GenerateAttrs]): a run reads the ids of rooms, batches
      and faculties and nothing else of them, so capacity, size and the
      other columns have no effect on the sessions
      ([generate_ignores_attributes]).
    - Boundaries ([GenerateEdge]): no room, or a first room whose id is
      the empty string, schedules nothing and raises nothing
      ([generate_without_rooms], [generate_empty_room_id_blocks]);
      scheduled sessions are bounded by 30 per room, faculty and batch
      ([generate_capacity]).
    - Connections ([Connection]): the statements of every handler, run on
      a connection of their own, leave the database, the generator and the
      answer of the one-step handler of [Session] ([serve_handle], from
      [handler_spec], which also gives the connection); a handler that
      returns has closed its connection ([handler_returns_closed]); a
      handler that raises has not, except [get_timetable_batch]: its
      connection stays open inside a transaction, for [generate_timetable]
      the one of the [DELETE] and of the rows inserted up to the exception
      ([generate_txn]), and nothing of it reaches the file
      ([handler_raises_open]).  [io] satisfies the monad laws.
    - Reporting ([Report]): the grid holds, at index slot - 1 of its day,
      the names of each stored session of the batch and [None] elsewhere
      ([report_projection]); in general a cell holds the last row written
      to it ([report_last_row_wins]); the exceptions are those of rows
      outside the grid ([report_raises]); a session whose room was deleted
      is dropped by the join ([report_drops_deleted_room]).
    - The service ([Session]): by induction on the steps, every reachable
      state has unique primary keys and a stored timetable without clashes
      and inside the grid ([run_inv]); hence the timetable of a batch is
      always answered ([reachable_timetable_total]); the stored integers
      fit their columns ([reachable_ints]); the internal server errors are
      the [OverflowError] of an integer outside 64 bits and the [KeyError]
      of generation on a subject without faculty, and both leave the
      database as it was ([step_error_cases]); after a generation, the
      timetable of a batch shows every stored session with the names of
      its subject, faculty and room ([generate_then_timetable]); GET
      requests change nothing ([get_read_only]).  Two runs evaluated with
      [fisher_yates] show that the error, and sessions hidden by a deleted
      room, are reached through the API.  The sequence of entry ids stands
      at the number of sessions scheduled since the service started, and
      the stored ids lie between 1 and it ([steps_entry_ids]), so they fit
      their column while that number is below [2^63] ([entry_ids_fit]).
    - Entity endpoints ([Crud]): a request raises exactly when one of its
      integers does not fit 64 bits ([crud_handle_overflow]); [add_room]
      then lookup ([add_room_find]); [delete_room] ([delete_room_spec]);
      [delete_faculty] leaves the subjects of the faculty in place
      ([delete_faculty_leaves_subjects]).  The handlers refine a
      key-value store ([crud_handle_refines], from [table_map_insert] and
      [table_map_delete]); a request repeated changes nothing more
      ([crud_handle_idem]); requests on different keys commute up to the
      order of the rows ([crud_handle_commute], [crud_handle_commute_perm]),
      the order under which the answer of a generation is the same.
    - HTTP ([Http]): every answer has one of five status codes and an
      answer with status 200 is JSON of the type of its handler
      ([http_handle_typed]); only an answer with status 200 can have
      written ([http_error_no_write]); a room whose id is the empty string
      cannot be deleted, no path having an empty segment
      ([empty_room_id_stays]); a posted room is returned by the
      list of rooms as a dict that can be posted again ([post_get_room]),
      while the dicts of faculties and subjects cannot, their keys being
      the columns' names and not the models' ([get_faculty_not_postable]).
    - Concurrency ([ConcurrentInv], [ConcurrentLive]): whatever the
      interleaving, the exchanges of an execution are an execution of the
      sequential service, in the order of the reads and commits
      ([concurrent_serialisable]); the file always holds a timetable a
      completed run has left ([concurrent_file_inv]); at most one thread is
      in a transaction, the holder of the lock ([concurrent_exclusive]);
      what a run has read is what the file holds until it commits
      ([generate_reads_snapshot]).  With no further arrival every
      execution ends within seven steps for each thread
      ([drain_terminates]), and it ends with every thread answered
      ([drain_answers_all]); an answer can be the error of the lock, also
      for a run on consistent data ([concurrent_generate_locked]).
    - The whole service ([Service]): for every execution of concurrent
      requests and HTTP requests routed to the handlers of its exchanges,
      the sequential service over HTTP returns the encoded answers of the
      execution, in the order they took effect, and ends in the state of
      the pool; the same holds for the handlers run statement by statement
      ([service_serialisable]).  A thread on its own takes at most seven
      steps and does what [Session.handle] does ([thread_alone]); when no
      further request arrives, every client gets an answer with status 200
      or 500 ([service_answers]).

    ** Bounds, fuel, assumptions

    No definition of a handler uses fuel: every loop of the program is a
    [for] over a finite list and is modelled by structural recursion on
    that list.  [run_alone] schedules one thread a given number of times;
    seven are enough for every request ([thread_alone]), the number of
    statements of [generate_timetable].
    [fisher_yates] reads its draws from a finite tape and draws 0 when the
    tape is exhausted; nothing proved depends on the draws.  When
    [generate_timetable] raises, the generator is left where the shuffles
    of the attempts made have brought it ([generate_gen]), so [step] is
    the graph of [handle] ([step_handle]); the rows inserted up to there
    ([allocate_cur]) are in the transaction of the connection, which is
    dropped with it.
    Integers are [Z] and [nat]: Python integers do not overflow.  The
    integers of a request are checked against the 64 bits of an [INTEGER]
    where they are bound; a slot is between 1 and 6; the entry ids of the
    [AUTOINCREMENT] sequence are taken without a bound, and
    [entry_ids_fit] shows that they stay below [2^63] until the service
    has scheduled that many sessions.  The order of the rows of a [SELECT] without [ORDER BY] is
    taken to be the order of insertion, with a replaced row moved to the
    end; the safety theorems hold for every order, since they quantify
    over the tables as lists, and [generate_order_independent] shows that
    the answer of a generation does not depend on it.

    The threads rest on what the documentation of [sqlite3] and of SQLite
    says of a connection in its default mode: a [SELECT] outside a
    transaction reads the committed file; the first statement that writes
    opens a transaction and takes the write lock of the file, which no
    other connection gets before the commit or the end of the connection;
    a connection that waits for the lock longer than its timeout raises;
    a parameter is bound, and an [int] outside 64 bits refused, before the
    statement runs and after the transaction was opened; [close] discards
    a transaction that was not committed, and so does the end of a
    connection that was not closed.  The measure [work] gives a thread seven statements:
    those of [generate_timetable] (the [DELETE], four [SELECT]s, the pass
    with its inserts, the commit with the return); the other handlers
    need at most three.  The interface of the framework
    (status codes, one thread for a request) is taken from its
    documentation; the existence of [static/index.html] is an input of
    [http_handle].

    ** Not modelled

    The CORS middleware (lines 17-22): it is configured there and
    implemented by the framework, adds headers to answers and answers
    preflight requests itself, and neither reads nor writes the state of
    the service; requests and answers of the model have no headers.  The
    files under [/static] (line 26): [http_handle] gives no answer for
    these paths, nor for a path with an empty segment, which the framework
    redirects.  [HEAD] and [OPTIONS] requests.  Floating point numbers and
    booleans in a request body, and the list of errors in the body of a
    422 answer (the model keeps the first).  Of SQLite: the file format,
    type affinity and [NULL] (every value a handler binds has the type of
    its column).  A statement is one step of a thread: the shared lock
    of a [SELECT] is taken and given back within its step, so no commit
    finds the database busy; parallel execution inside one statement is
    not modelled.  When the connection of a handler that raised is
    collected is the runtime's matter: [Concurrent] drops it in the step
    that answers the error, [Connection] when the handler is left. *)

From stdpp Require Import base tactics option list strings gmap fin_maps relations.

(** ** Python exceptions and results

    The handlers of [src/app.py] either return or raise.  The exceptions
    they can raise on their own data are [KeyError] (a dict subscript with an
    absent key), [IndexError] (a list subscript out of range) and
    [OverflowError] (an [int] handed to SQLite that does not fit 64 bits);
    [ProgrammingError] is what [sqlite3] raises for a statement on a closed
    connection.  A computation that can raise returns a [result]. *)

Inductive py_error : Type :=
| KeyError (key : string)
| IndexError
| OverflowError
| ProgrammingError.

Inductive result (A : Type) : Type :=
| Ok (a : A)
| Raise (e : py_error).

Arguments Ok {A} a.
Arguments Raise {A} e.

#[export] Instance py_error_eq_dec : EqDecision py_error.
Proof. solve_decision. Defined.

#[export] Instance result_eq_dec `{EqDecision A} : EqDecision (result A).
Proof. solve_decision. Defined.

#[export] Instance result_ret : MRet result := @Ok.

#[export] Instance result_bind : MBind result :=
  λ A B f m, match m with Ok a => f a | Raise e => Raise e end.

#[export] Instance result_fmap : FMap result :=
  λ A B f m, match m with Ok a => Ok (f a) | Raise e => Raise e end.

Definition is_ok {A} (m : result A) : Prop := ∃ a, m = Ok a.

#[export] Instance is_ok_dec {A} (m : result A) : Decision (is_ok m).
Proof.
  refine (match m with Ok a => left _ | Raise e => right _ end);
    [by exists a | by intros [? ?]].
Defined.

(** ** Python values used by the handlers *)

(** [bool(s)] for a [str]: the empty string is falsy. *)
Definition truthy (s : string) : bool :=
  match s with
  | EmptyString => false
  | String _ _ => true
  end.

(** [d[k]] for a dict with [str] keys. *)
Definition dict_get {V} (d : gmap string V) (k : string) : result V :=
  match d !! k with
  | Some v => Ok v
  | None => Raise (KeyError k)
  end.

(** [{k: v for (k, v) in l}]: a later binding of a key overwrites an
    earlier one. *)
Definition dict_of_list {V} (l : list (string * V)) : gmap string V :=
  foldl (λ d kv, <[kv.1 := kv.2]> d) ∅ l.

(** [d.keys()]: each key once. *)
Definition dict_keys {V} (d : gmap string V) : list string :=
  (map_to_list d).*1.

(** [l[i]] for a list and an index [i >= 0]. *)
Definition list_get {A} (l : list A) (i : nat) : result A :=
  match l !! i with
  | Some x => Ok x
  | None => Raise IndexError
  end.

(** [l[i] = x] for a list and an index [i >= 0]: in range it replaces the
    cell, out of range it raises (stdpp's insert alone would do nothing). *)
Definition list_set {A} (l : list A) (i : nat) (x : A) : result (list A) :=
  if decide (i < length l) then Ok (<[i := x]> l) else Raise IndexError.

(** The cell an [int] index denotes in a list of [len] cells: a negative
    index counts from the end; [None] where Python raises [IndexError]. *)
Definition py_index (len : nat) (i : Z) : option nat :=
  if decide (0 ≤ i < Z.of_nat len)%Z then Some (Z.to_nat i)
  else if decide (- Z.of_nat len ≤ i < 0)%Z then Some (Z.to_nat (i + Z.of_nat len))
  else None.

(** [l[i] = x] for any [int] index. *)
Definition list_set_int {A} (l : list A) (i : Z) (x : A) : result (list A) :=
  match py_index (length l) i with
  | Some n => Ok (<[n := x]> l)
  | None => Raise IndexError
  end.

(** A [for] statement whose body can raise: the body runs on each element
    in order, threading the state; the first exception ends the loop. *)
Fixpoint for_each {A S} (body : A → S → result S) (l : list A) (s : S)
  : result S :=
  match l with
  | [] => Ok s
  | a :: l' => s' ← body a s; for_each body l' s'
  end.

(** ** Notations, in a scope of their own *)

Declare Scope py_scope.
Delimit Scope py_scope with py.
Notation "d .[ k ]" := (dict_get d k)
  (at level 1, left associativity, format "d .[ k ]") : py_scope.
Notation "l .@[ i ]" := (list_get l i)
  (at level 1, left associativity, format "l .@[ i ]") : py_scope.

(** ** Automation *)

Create HintDb py discriminated.

(** Inversion of a successful bind: the tactic [result_inv] below applies it
    to every hypothesis that says a sequence of steps returned. *)
Lemma bind_Ok {A B} (f : A → result B) (m : result A) (b : B) :
  m ≫= f = Ok b ↔ ∃ a, m = Ok a ∧ f a = Ok b.
Proof. destruct m; simpl; naive_solver. Qed.

Lemma bind_Raise {A B} (f : A → result B) (m : result A) (e : py_error) :
  m ≫= f = Raise e ↔ m = Raise e ∨ ∃ a, m = Ok a ∧ f a = Raise e.
Proof. destruct m; simpl; naive_solver. Qed.

Lemma bind_is_ok {A B} (f : A → result B) (m : result A) :
  is_ok (m ≫= f) ↔ ∃ a, m = Ok a ∧ is_ok (f a).
Proof. unfold is_ok. setoid_rewrite bind_Ok. naive_solver. Qed.

Lemma is_ok_Ok {A} (a : A) : is_ok (Ok a).
Proof. by exists a. Qed.

Lemma not_is_ok_Raise {A} (e : py_error) : ¬ is_ok (@Raise A e).
Proof. by intros [? ?]. Qed.

#[export] Hint Resolve is_ok_Ok list_elem_of_here list_elem_of_further : py.

Ltac result_inv :=
  repeat match goal with
  | H : Ok _ = Ok _ |- _ => injection H as H
  | H : Raise _ = Ok _ |- _ => discriminate H
  | H : Ok _ = Raise _ |- _ => discriminate H
  | H : mret _ = Ok _ |- _ => injection H as H
  | H : mbind _ _ = Ok _ |- _ =>
      let a := fresh "r" in
      let H1 := fresh H in
      apply bind_Ok in H as (a & H1 & H)
  | H : is_ok (Raise _) |- _ => destruct (not_is_ok_Raise _ H)
  | _ => progress simplify_eq
  end.

(** Case analysis on the [match] or [if] at the head of the goal or of a
    hypothesis, keeping the equation. *)
Ltac case_step :=
  match goal with
  | |- context [match ?x with _ => _ end] => destruct x eqn:?
  | H : context [match ?x with _ => _ end] |- _ => destruct x eqn:?
  end; simplify_eq/=.

Lemma truthy_ne (s : string) : s ≠ ""%string → truthy s = true.
Proof. by destruct s. Qed.

(** ** Lemmas on dict and list subscripts *)

Section subscripts.
Context {V : Type}.
Implicit Types (d : gmap string V) (l : list V) (k : string) (i : nat).

Lemma dict_get_Ok d k v : dict_get d k = Ok v ↔ d !! k = Some v.
Proof. unfold dict_get. destruct (d !! k); naive_solver. Qed.

Lemma dict_get_Raise d k e : dict_get d k = Raise e ↔ d !! k = None ∧ e = KeyError k.
Proof. unfold dict_get. destruct (d !! k); naive_solver. Qed.

Lemma dict_get_is_ok d k : is_ok (dict_get d k) ↔ is_Some (d !! k).
Proof. unfold is_ok, is_Some. by setoid_rewrite dict_get_Ok. Qed.

Lemma dict_of_list_snoc (kvs : list (string * V)) k v :
  dict_of_list (kvs ++ [(k, v)]) = <[k := v]> (dict_of_list kvs).
Proof. unfold dict_of_list. by rewrite foldl_snoc. Qed.

Lemma dict_of_list_is_Some (kvs : list (string * V)) k :
  is_Some (dict_of_list kvs !! k) ↔ k ∈ kvs.*1.
Proof.
  induction kvs as [|[k' v] kvs IH] using rev_ind.
  - unfold dict_of_list. simpl. rewrite lookup_empty, elem_of_nil.
    split; [by intros [? ?]|done].
  - rewrite dict_of_list_snoc, lookup_insert_is_Some, fmap_app, elem_of_app, IH.
    simpl. rewrite list_elem_of_singleton. destruct (decide (k' = k)); naive_solver.
Qed.

Lemma dict_of_list_Some (kvs : list (string * V)) k v :
  dict_of_list kvs !! k = Some v → (k, v) ∈ kvs.
Proof.
  induction kvs as [|[k' v'] kvs IH] using rev_ind; [done|].
  rewrite dict_of_list_snoc, elem_of_app, list_elem_of_singleton.
  destruct (decide (k' = k)) as [->|]; simplify_map_eq; naive_solver.
Qed.

Lemma elem_of_dict_keys d k : k ∈ dict_keys d ↔ is_Some (d !! k).
Proof.
  unfold dict_keys. rewrite list_elem_of_fmap. split.
  - intros ([k' v] & -> & Hkv). apply elem_of_map_to_list in Hkv. eauto.
  - intros [v Hv]. exists (k, v). split; [done|]. by apply elem_of_map_to_list.
Qed.

Lemma NoDup_dict_keys d : NoDup (dict_keys d).
Proof. apply NoDup_fst_map_to_list. Qed.

Lemma list_get_Ok l i x : list_get l i = Ok x ↔ l !! i = Some x.
Proof. unfold list_get. destruct (l !! i); naive_solver. Qed.

Lemma list_get_is_ok l i : is_ok (list_get l i) ↔ i < length l.
Proof.
  unfold is_ok. setoid_rewrite list_get_Ok. apply lookup_lt_is_Some.
Qed.

Lemma list_set_Ok l i x l' :
  list_set l i x = Ok l' ↔ i < length l ∧ l' = <[i := x]> l.
Proof. unfold list_set. case_decide; naive_solver. Qed.

Lemma list_set_is_ok l i x : is_ok (list_set l i x) ↔ i < length l.
Proof. unfold is_ok. setoid_rewrite list_set_Ok. naive_solver. Qed.

Lemma py_index_lt len (z : Z) n : py_index len z = Some n → n < len.
Proof. unfold py_index. repeat case_decide; intros; simplify_eq; lia. Qed.

Lemma py_index_nonneg len (n : nat) : n < len → py_index len (Z.of_nat n) = Some n.
Proof.
  intros Hn. unfold py_index. rewrite decide_True by lia. by rewrite Nat2Z.id.
Qed.

Lemma list_set_int_Ok l (z : Z) x l' :
  list_set_int l z x = Ok l' ↔ ∃ n, py_index (length l) z = Some n ∧ l' = <[n := x]> l.
Proof. unfold list_set_int. destruct (py_index _ z); naive_solver. Qed.

Lemma list_set_int_Raise l (z : Z) x e :
  list_set_int l z x = Raise e ↔ py_index (length l) z = None ∧ e = IndexError.
Proof. unfold list_set_int. destruct (py_index _ z); naive_solver. Qed.

End subscripts.

(** ** Lists *)

Lemma length_concat_le {A} (ls : list (list A)) (c : nat) :
  Forall (λ l, length l ≤ c) ls → length (concat ls) ≤ length ls * c.
Proof. induction 1; simpl; [done|]. rewrite length_app. lia. Qed.

Lemma length_bind_const {A B} (f : A → list B) (l : list A) (k : nat) :
  (∀ a, length (f a) = k) → length (l ≫= f) = length l * k.
Proof.
  intros Hf. induction l as [|a l IH]; [done|].
  rewrite bind_cons, length_app, Hf, IH. simpl. lia.
Qed.

Lemma length_bind_Forall {A B} (f : A → list B) (l : list A) (k : nat) :
  Forall (λ a, length (f a) = k) l → length (l ≫= f) = length l * k.
Proof.
  induction 1 as [|a l Ha _ IH]; [done|].
  rewrite bind_cons, length_app, Ha, IH. simpl. lia.
Qed.

(** A function whose image of a list has no duplicates is injective on
    the members of the list. *)
Lemma NoDup_fmap_inj_on {A B} (f : A → B) (l : list A) (x y : A) :
  NoDup (f <$> l) → x ∈ l → y ∈ l → f x = f y → x = y.
Proof.
  intros Hnd [i Hi]%list_elem_of_lookup [j Hj]%list_elem_of_lookup Hxy.
  assert (i = j) as ->; [|congruence].
  eapply NoDup_lookup; [done| |]; rewrite list_lookup_fmap.
  - by rewrite Hi.
  - rewrite Hj. simpl. congruence.
Qed.

(** A list without duplicates whose members all belong to [k] is no longer
    than [k]. *)
Lemma NoDup_length_le {A} (l k : list A) :
  NoDup l → (∀ x, x ∈ l → x ∈ k) → length l ≤ length k.
Proof. intros Hnd Hin. by apply submseteq_length, NoDup_submseteq. Qed.

(** Filters: extensionality on the members, commutation with [omap], and
    filtering by a unique key. *)
Section filters.
Context {A : Type}.

Lemma filter_iff_in (P Q : A → Prop) `{!∀ x, Decision (P x), !∀ x, Decision (Q x)}
    (l : list A) :
  (∀ x, x ∈ l → P x ↔ Q x) → filter P l = filter Q l.
Proof.
  induction l as [|x l IH]; intros Hiff; [done|]. rewrite !filter_cons.
  rewrite IH by (intros ??; by apply Hiff, list_elem_of_further).
  pose proof (Hiff x (list_elem_of_here _ _)). repeat case_decide; naive_solver.
Qed.

(** A filter after a partial map is a partial map after the filter the map
    reflects. *)
Lemma filter_omap {B} (P : B → Prop) (Q : A → Prop)
    `{!∀ y, Decision (P y), !∀ x, Decision (Q x)} (f : A → option B) (l : list A) :
  (∀ x y, x ∈ l → f x = Some y → P y ↔ Q x) →
  filter P (omap f l) = omap f (filter Q l).
Proof.
  induction l as [|x l IH]; intros Hiff; [done|].
  assert (filter P (omap f l) = omap f (filter Q l)) as IH'
    by (apply IH; intros ????; by eapply Hiff; [apply list_elem_of_further|]).
  pose proof (Hiff x) as Hx. rewrite (filter_cons Q).
  change (omap f (x :: l)) with (from_option (λ y, y :: omap f l) (omap f l) (f x)).
  destruct (f x) as [y|] eqn:Hy; simpl.
  - specialize (Hx y (list_elem_of_here _ _) eq_refl). rewrite filter_cons.
    destruct (decide (P y)), (decide (Q x)); try tauto;
      change (omap f (x :: ?k)) with (from_option (λ y, y :: omap f k) (omap f k) (f x));
      by rewrite ?Hy, IH'.
  - destruct (decide (Q x)); [|done].
    change (omap f (x :: ?k)) with (from_option (λ y, y :: omap f k) (omap f k) (f x)).
    by rewrite Hy.
Qed.

Lemma filter_key_nil {K} `{EqDecision K} (key : A → K) (l : list A) (k : K) :
  k ∉ key <$> l → filter (λ y, key y = k) l = [].
Proof.
  intros Hk. induction l as [|a l IH]; [done|].
  rewrite fmap_cons, not_elem_of_cons in Hk. destruct Hk as [Ha Hl].
  by rewrite filter_cons, decide_False, IH.
Qed.

(** Under a key that is unique in the list, the rows with the key of a row
    of the list are that row alone. *)
Lemma filter_key_NoDup {K} `{EqDecision K} (key : A → K) (l : list A) (x : A) :
  NoDup (key <$> l) → x ∈ l → filter (λ y, key y = key x) l = [x].
Proof.
  induction l as [|a l IH]; intros Hnd Hx; [by apply elem_of_nil in Hx|].
  rewrite fmap_cons, NoDup_cons in Hnd. destruct Hnd as [Ha Hnd].
  rewrite filter_cons. apply elem_of_cons in Hx as [->|Hx].
  - rewrite decide_True by done. f_equal.
    apply filter_key_nil. by rewrite list_elem_of_fmap in Ha |- *.
  - rewrite decide_False, IH; try done.
    intros Heq. apply Ha. rewrite Heq. by apply list_elem_of_fmap_2.
Qed.
End filters.

(** Sums over a list, and the partition of a list by the keys of its
    members. *)
Section partition.
Context {A K : Type} `{EqDecision K}.

Lemma sum_list_with_ext_in (f g : K → nat) (ks : list K) :
  (∀ k, k ∈ ks → f k = g k) → sum_list_with f ks = sum_list_with g ks.
Proof.
  induction ks as [|k ks IH]; intros Hext; simpl; [done|].
  rewrite Hext, IH; [done| |apply list_elem_of_here].
  intros ??. by apply Hext, list_elem_of_further.
Qed.

Lemma sum_list_with_le (f : K → nat) (c : nat) (ks : list K) :
  (∀ k, k ∈ ks → f k ≤ c) → sum_list_with f ks ≤ length ks * c.
Proof.
  induction ks as [|k ks IH]; intros Hle; simpl; [done|].
  pose proof (Hle k (list_elem_of_here _ _)).
  assert (sum_list_with f ks ≤ length ks * c)
    by (apply IH; intros ??; by apply Hle, list_elem_of_further).
  lia.
Qed.

Lemma sum_list_with_const (f : K → nat) (c : nat) (ks : list K) :
  (∀ k, k ∈ ks → f k = c) → sum_list_with f ks = length ks * c.
Proof.
  intros Hc. rewrite (sum_list_with_ext_in f (λ _, c)) by done.
  induction ks as [|k ks IH]; simpl; [done|]. rewrite IH; [lia|].
  intros ??. by apply Hc, list_elem_of_further.
Qed.

(** A list whose members have their keys in [ks] is as long as its parts,
    one for each key. *)
Lemma length_filter_keys (key : A → K) (ks : list K) (l : list A) :
  NoDup ks → (∀ x, x ∈ l → key x ∈ ks) →
  length l = sum_list_with (λ k, length (filter (λ x, key x = k) l)) ks.
Proof.
  revert l. induction ks as [|k ks IH]; intros l Hnd Hin; simpl.
  - destruct l as [|x l]; [done|].
    by destruct (not_elem_of_nil (key x)); apply Hin, list_elem_of_here.
  - apply NoDup_cons in Hnd as [Hk Hnd].
    rewrite <- (filter_app_complement (λ x, key x = k) l) at 1.
    rewrite length_app. f_equal.
    rewrite (IH (filter (λ x, ¬ key x = k) l) Hnd).
    + apply sum_list_with_ext_in. intros k' Hk'. f_equal.
      rewrite list_filter_filter. apply filter_iff_in. intros x _.
      split; [tauto|]. intros <-. split; [done|]. intros Heq. by rewrite Heq in Hk'.
    + intros x [Hne Hx]%list_elem_of_filter.
      apply Hin, elem_of_cons in Hx as [?|?]; done.
Qed.

End partition.

(** ** Loop rules for [for_each] *)

Section for_each.
Context {A S : Type}.
Implicit Types (body : A → S → result S) (l : list A) (s : S).

Lemma for_each_app body l1 l2 s :
  for_each body (l1 ++ l2) s = (s' ← for_each body l1 s; for_each body l2 s').
Proof.
  revert s. induction l1 as [|a l1 IH]; intros s; simpl; [done|].
  destruct (body a s); simpl; auto.
Qed.

(** Invariant rule: a property kept by every iteration that returns holds
    after the loop, when the loop returns. *)
Lemma for_each_inv (I : S → Prop) body l s s' :
  (∀ a s1 s2, a ∈ l → I s1 → body a s1 = Ok s2 → I s2) →
  I s → for_each body l s = Ok s' → I s'.
Proof.
  revert s. induction l as [|a l IH]; intros s Hstep Hs Hrun; simpl in *.
  - by result_inv.
  - result_inv. eapply IH; [|eapply Hstep|]; eauto using list_elem_of_here.
    intros ????; apply Hstep. by apply list_elem_of_further.
Qed.

(** The same with the invariant indexed by the elements already processed. *)
Lemma for_each_inv_prefix (I : list A → S → Prop) body l s s' :
  (∀ pre a s1 s2, a ∈ l → I pre s1 → body a s1 = Ok s2 → I (pre ++ [a]) s2) →
  I [] s → for_each body l s = Ok s' → I l s'.
Proof.
  intros Hstep.
  enough (∀ pre l', (∀ a, a ∈ l' → a ∈ l) → ∀ s, I pre s →
            for_each body l' s = Ok s' → I (pre ++ l') s')
    as Hgen by (apply (Hgen [] l); auto).
  intros pre l'. revert pre.
  induction l' as [|a l' IH]; intros pre Hin s0 Hs Hrun; simpl in *.
  - result_inv. by rewrite app_nil_r.
  - result_inv. rewrite cons_middle, app_assoc.
    eapply IH; [|eapply Hstep|]; eauto using list_elem_of_here, list_elem_of_further.
Qed.

(** Total-correctness rule: under an invariant that makes every iteration
    return, the loop returns. *)
Lemma for_each_is_ok (I : S → Prop) body l s :
  (∀ a s1, a ∈ l → I s1 → ∃ s2, body a s1 = Ok s2 ∧ I s2) →
  I s → ∃ s', for_each body l s = Ok s' ∧ I s'.
Proof.
  revert s. induction l as [|a l IH]; intros s Hstep Hs; simpl; [eauto|].
  destruct (Hstep a s) as (s2 & -> & Hs2); [apply list_elem_of_here|done|].
  simpl. apply IH; [|done]. intros ????; apply Hstep; [|done].
  by apply list_elem_of_further.
Qed.

(** Converse rule: when an iteration returns only on elements satisfying
    [P], a loop that returns has run over such elements only. *)
Lemma for_each_Ok_Forall (I : S → Prop) (P : A → Prop) body l s s' :
  (∀ a s1 s2, a ∈ l → I s1 → body a s1 = Ok s2 → P a ∧ I s2) →
  I s → for_each body l s = Ok s' → Forall P l.
Proof.
  revert s. induction l as [|a l IH]; intros s Hstep Hs Hrun; simpl in *; [done|].
  apply bind_Ok in Hrun as (s2 & Ha & Hrun).
  destruct (Hstep a s s2) as [? ?]; [apply list_elem_of_here|done..|].
  constructor; [done|]. eapply IH; [|done..].
  intros ?????. by eapply Hstep; [apply list_elem_of_further|..].
Qed.

(** Counting rule: when every iteration adds [c] to a measure, the loop adds
    [c] for each element. *)
Lemma for_each_measure (m : S → Z) (c : Z) body l s s' :
  (∀ a s1 s2, a ∈ l → body a s1 = Ok s2 → m s2 = (m s1 + c)%Z) →
  for_each body l s = Ok s' → m s' = (m s + c * Z.of_nat (length l))%Z.
Proof.
  revert s. induction l as [|a l IH]; intros s Hstep Hrun; simpl in *.
  - result_inv. lia.
  - result_inv. erewrite IH; [|by eauto using list_elem_of_further|done].
    erewrite (Hstep a s); [lia|apply list_elem_of_here|done].
Qed.

End for_each.

(** A loop over a concatenation of lists is a nested loop, and a loop over
    an image is a loop over the source. *)
Lemma for_each_bind {A B S} (body : B → S → result S) (f : A → list B)
    (la : list A) (s : S) :
  for_each body (la ≫= f) s = for_each (λ a, for_each body (f a)) la s.
Proof.
  revert s. induction la as [|a la IH]; intros s; simpl; [done|].
  rewrite for_each_app. destruct (for_each body (f a) s); simpl; auto.
Qed.

Lemma for_each_fmap {A B S} (body : B → S → result S) (f : A → B)
    (l : list A) (s : S) :
  for_each body (f <$> l) s = for_each (λ a, body (f a)) l s.
Proof.
  revert s. induction l as [|a l IH]; intros s; simpl; [done|].
  destruct (body (f a) s); simpl; auto.
Qed.

Lemma for_each_ext {A S} (body1 body2 : A → S → result S) (l : list A) (s : S) :
  (∀ a s, a ∈ l → body1 a s = body2 a s) →
  for_each body1 l s = for_each body2 l s.
Proof.
  revert s. induction l as [|a l IH]; intros s Hext; simpl; [done|].
  rewrite Hext by apply list_elem_of_here. destruct (body2 a s); simpl; [|done].
  apply IH. intros ???. by apply Hext, list_elem_of_further.
Qed.

(** Two loops over lists related element by element, with bodies that
    agree on related elements. *)
Lemma for_each_Forall2 {A B S} (R : A → B → Prop) (body1 : A → S → result S)
    (body2 : B → S → result S) (l1 : list A) (l2 : list B) (s : S) :
  Forall2 R l1 l2 → (∀ a b s, R a b → body1 a s = body2 b s) →
  for_each body1 l1 s = for_each body2 l2 s.
Proof.
  intros Hl Hbody. revert s. induction Hl as [|a b l1 l2 Hab _ IH]; intros s; simpl; [done|].
  rewrite (Hbody a b s Hab). destruct (body2 b s); simpl; [apply IH|done].
Qed.

(** Simulation rule: when every iteration returns and takes the step [f] of
    a fold under the relation [R], the loop returns and ends in a state
    related to the result of the fold. *)
Lemma for_each_foldl {A S T} (R : S → T → Prop) (body : A → S → result S)
    (f : T → A → T) (l : list A) (s : S) (t : T) :
  (∀ a s1 t1, a ∈ l → R s1 t1 → ∃ s2, body a s1 = Ok s2 ∧ R s2 (f t1 a)) →
  R s t → ∃ s', for_each body l s = Ok s' ∧ R s' (foldl f t l).
Proof.
  revert s t. induction l as [|a l IH]; intros s t Hstep Hst; simpl; [eauto|].
  destruct (Hstep a s t) as (s2 & -> & Hs2); [apply list_elem_of_here|done|].
  simpl. apply IH; [|done]. intros ?????. by apply Hstep; [apply list_elem_of_further|].
Qed.

(** A fold over a concatenation of lists is a nested fold. *)
Lemma foldl_bind {A B T} (f : T → B → T) (g : A → list B) (l : list A) (t : T) :
  foldl f t (l ≫= g) = foldl (λ t a, foldl f t (g a)) t l.
Proof.
  revert t. induction l as [|a l IH]; intros t; [done|].
  by rewrite bind_cons, foldl_app, IH.
Qed.

(** Exception rule: an exception out of a loop comes out of an iteration
    that started in a state satisfying the invariant. *)
Lemma for_each_Raise {A S} (I : S → Prop) (body : A → S → result S)
    (l : list A) (s : S) (e : py_error) :
  (∀ a s1 s2, a ∈ l → I s1 → body a s1 = Ok s2 → I s2) →
  I s → for_each body l s = Raise e →
  ∃ a s1, a ∈ l ∧ I s1 ∧ body a s1 = Raise e.
Proof.
  revert s. induction l as [|a l IH]; intros s Hstep Hs Hrun; simpl in *; [done|].
  apply bind_Raise in Hrun as [Hrun|(s2 & Hs2 & Hrun)].
  - exists a, s. eauto using list_elem_of_here.
  - destruct (IH s2) as (a' & s1 & ? & ? & ?); [|by eauto using list_elem_of_here|done|].
    + intros ????. by apply Hstep, list_elem_of_further.
    + exists a', s1. eauto using list_elem_of_further.
Qed.

(** ** Sums over finite maps, and termination from a measure *)

Section map_sum.
Context {K : Type} `{Countable K} {A : Type} (f : A → nat).
Implicit Types (m : gmap K A) (i : K) (x y : A).

(** The sum of [f] over the values of a map. *)
Definition map_sum m : nat := map_fold (λ _ x n, f x + n) 0 m.

Lemma map_sum_empty : map_sum ∅ = 0.
Proof. apply map_fold_empty. Qed.

Lemma map_sum_insert m i x : m !! i = None → map_sum (<[i := x]> m) = f x + map_sum m.
Proof.
  intros Hi. apply (map_fold_insert_L (λ _ x n, f x + n) 0 i x m); [intros; lia|done].
Qed.

(** Replacing a value moves the sum by the difference. *)
Lemma map_sum_update m i x y :
  m !! i = Some x → map_sum (<[i := y]> m) + f x = map_sum m + f y.
Proof.
  intros Hi. rewrite <- (insert_delete_id m i x) at 2 by done.
  rewrite <- (insert_delete_eq m i y), !map_sum_insert by apply lookup_delete_eq. lia.
Qed.

Lemma map_sum_le m k : (∀ x, f x ≤ k) → map_sum m ≤ k * size m.
Proof.
  intros Hk. induction m as [|i x m Hi IH] using map_ind.
  - rewrite map_sum_empty. lia.
  - rewrite map_sum_insert, map_size_insert_None by done. specialize (Hk x). lia.
Qed.

End map_sum.

(** A relation whose steps decrease a measure has no infinite chain, and a
    chain of [n] steps lowers the measure by [n] at least. *)
Lemma measure_sn {A} (R : relation A) (μ : A → nat) :
  (∀ x y, R x y → μ y < μ x) → ∀ x, sn R x.
Proof.
  intros Hdec x. remember (μ x) as n eqn:Hn. revert x Hn.
  induction n as [n IH] using lt_wf_ind. intros x ->.
  constructor. intros y Hxy. eapply IH; [by apply Hdec|done].
Qed.

Lemma measure_nsteps {A} (R : relation A) (μ : A → nat) n x y :
  (∀ x y, R x y → μ y < μ x) → nsteps R n x y → n + μ y ≤ μ x.
Proof.
  intros Hdec. induction 1 as [|n x y z Hxy _ IH]; [done|].
  specialize (Hdec _ _ Hxy). lia.
Qed.
