(* ===== verification/Database.v ===== *)
(** * Database: the SQLite store of [src/app.py]

    The five tables created by [init_db] (lines 37-48), their rows as
    records, and the SQL statements the handlers execute, as functions on
    tables.  A table is the list of its rows in scan order (the order in
    which [SELECT *] returns them); a table with a [TEXT PRIMARY KEY] holds
    at most one row per key.  [INSERT OR REPLACE] removes the row with the
    same key, if any, and appends the new row (it gets a fresh rowid, so it
    comes last in scan order).  The [timetable] table has an [AUTOINCREMENT]
    key: its sequence never goes back, also across [DELETE FROM timetable]. *)

From stdpp Require Import base tactics option list strings gmap fin_maps.
From S2P Require Import Prelude.

(** ** Configuration constants (lines 11-12) *)

Definition DAYS : list string :=
  ["Monday"; "Tuesday"; "Wednesday"; "Thursday"; "Friday"]%string.

Definition SLOTS_PER_DAY : nat := 6.

Lemma DAYS_NoDup : NoDup DAYS.
Proof. apply (bool_decide_unpack _). by vm_compute. Qed.

(** ** Integers

    An [INTEGER] of SQLite has 64 bits, an [int] of Python has no bound:
    [conn.execute] raises [OverflowError] when a parameter is an [int]
    outside the range, before the statement runs. *)

Definition INT64_MIN : Z := - 2 ^ 63.
Definition INT64_MAX : Z := 2 ^ 63 - 1.

Definition int64 (n : Z) : Prop := (INT64_MIN ≤ n ≤ INT64_MAX)%Z.

#[export] Instance int64_dec n : Decision (int64 n).
Proof. unfold int64. apply _. Defined.

Definition sql_int (n : Z) : result Z :=
  if decide (int64 n) then Ok n else Raise OverflowError.

Lemma sql_int_Ok n m : sql_int n = Ok m ↔ m = n ∧ int64 n.
Proof. unfold sql_int. case_decide; naive_solver. Qed.

Lemma sql_int_Raise n e : sql_int n = Raise e ↔ e = OverflowError ∧ ¬ int64 n.
Proof. unfold sql_int. case_decide; naive_solver. Qed.

(** ** Rows (the columns of the [CREATE TABLE] statements, lines 41-45) *)

Record room_row : Type := RoomRow {
  room_id : string;
  room_name : string;
  capacity : Z;
  type : string;
  resources : string
}.

Record batch_row : Type := BatchRow {
  batch_id : string;
  department : string;
  year : Z;
  section : string;
  batch_size : Z;
  shift : Z
}.

Record faculty_row : Type := FacultyRow {
  fac_id : string;
  fac_name : string
}.

Record subject_row : Type := SubjectRow {
  sub_id : string;
  sub_name : string;
  faculty_id : string
}.

Record timetable_row : Type := TimetableRow {
  entry_id : Z;
  t_batch_id : string;
  t_day : string;
  t_slot : Z;
  t_subject_id : string;
  t_faculty_id : string;
  t_room_id : string
}.

(** What a row books: its faculty, and its room, at its day and slot. *)
Definition fac_key (r : timetable_row) : string * string * Z :=
  (t_faculty_id r, t_day r, t_slot r).

Definition room_key (r : timetable_row) : string * string * Z :=
  (t_room_id r, t_day r, t_slot r).

(** The attempt a row answers: its batch, day and slot. *)
Definition batch_key (r : timetable_row) : string * string * Z :=
  (t_batch_id r, t_day r, t_slot r).

#[export] Instance room_row_eq_dec : EqDecision room_row.
Proof. solve_decision. Defined.
#[export] Instance batch_row_eq_dec : EqDecision batch_row.
Proof. solve_decision. Defined.
#[export] Instance faculty_row_eq_dec : EqDecision faculty_row.
Proof. solve_decision. Defined.
#[export] Instance subject_row_eq_dec : EqDecision subject_row.
Proof. solve_decision. Defined.
#[export] Instance timetable_row_eq_dec : EqDecision timetable_row.
Proof. solve_decision. Defined.

(** ** Tables with a text primary key *)

Section table.
Context {R : Type} (key : R → string).
Implicit Types (t : list R) (r : R) (k : string).

(** [DELETE FROM t WHERE key = k] *)
Definition sql_delete (k : string) (t : list R) : list R :=
  filter (λ r, key r ≠ k) t.

(** [INSERT OR REPLACE INTO t VALUES r] *)
Definition sql_insert_or_replace (r : R) (t : list R) : list R :=
  sql_delete (key r) t ++ [r].

(** The row with key [k], if any. *)
Definition sql_find (k : string) (t : list R) : option R :=
  head (filter (λ r, key r = k) t).

(** The primary-key constraint. *)
Definition table_wf (t : list R) : Prop := NoDup (key <$> t).

#[export] Instance table_wf_dec t : Decision (table_wf t).
Proof. unfold table_wf. apply _. Defined.

Lemma elem_of_sql_delete r k t : r ∈ sql_delete k t ↔ key r ≠ k ∧ r ∈ t.
Proof. unfold sql_delete. by rewrite list_elem_of_filter. Qed.

Lemma sql_delete_keys k t :
  key <$> sql_delete k t = filter (λ k', k' ≠ k) (key <$> t).
Proof.
  unfold sql_delete. induction t as [|r t IH]; [done|].
  rewrite fmap_cons, !filter_cons. simpl.
  destruct (decide (key r ≠ k)); by rewrite ?fmap_cons, IH.
Qed.

Lemma sql_delete_wf k t : table_wf t → table_wf (sql_delete k t).
Proof. unfold table_wf. rewrite sql_delete_keys. apply NoDup_filter. Qed.

Lemma sql_delete_absent k t : k ∉ key <$> sql_delete k t.
Proof. rewrite sql_delete_keys, list_elem_of_filter. naive_solver. Qed.

Lemma sql_delete_id k t : k ∉ key <$> t → sql_delete k t = t.
Proof.
  intros Hk. unfold sql_delete. induction t as [|r t IH]; [done|].
  rewrite fmap_cons, not_elem_of_cons in Hk. destruct Hk as [Hr Ht].
  rewrite filter_cons_True by done. by rewrite IH.
Qed.

Lemma sql_insert_or_replace_wf r t :
  table_wf t → table_wf (sql_insert_or_replace r t).
Proof.
  intros Hwf. unfold table_wf, sql_insert_or_replace.
  rewrite fmap_app. apply NoDup_app. split_and!.
  - by apply sql_delete_wf.
  - intros k Hk ->%list_elem_of_singleton. by apply sql_delete_absent in Hk.
  - apply NoDup_singleton.
Qed.

Lemma elem_of_sql_insert_or_replace r r' t :
  r' ∈ sql_insert_or_replace r t ↔ r' = r ∨ (key r' ≠ key r ∧ r' ∈ t).
Proof.
  unfold sql_insert_or_replace.
  rewrite elem_of_app, elem_of_sql_delete, list_elem_of_singleton. tauto.
Qed.

(** The statements keep what holds of every row. *)
Lemma sql_delete_Forall (P : R → Prop) k t : Forall P t → Forall P (sql_delete k t).
Proof.
  rewrite !Forall_forall. intros HP r [_ Hr]%elem_of_sql_delete. by apply HP.
Qed.

Lemma sql_insert_or_replace_Forall (P : R → Prop) r t :
  P r → Forall P t → Forall P (sql_insert_or_replace r t).
Proof.
  intros Hr Ht. apply Forall_app. split; [by apply sql_delete_Forall|by apply Forall_singleton].
Qed.

Lemma sql_find_Some k t r : sql_find k t = Some r → r ∈ t ∧ key r = k.
Proof.
  intros Hf%head_Some_elem_of. apply list_elem_of_filter in Hf. tauto.
Qed.

Lemma sql_find_None k t : sql_find k t = None ↔ k ∉ key <$> t.
Proof.
  unfold sql_find. rewrite head_None, list_elem_of_fmap. split.
  - intros Hnil (r & -> & Hr). by apply (filter_nil_not_elem_of _ _ r) in Hnil.
  - intros Hk. destruct (filter _ t) as [|r t'] eqn:Hf; [done|].
    assert (r ∈ filter (λ r, key r = k) t) as [? ?]%list_elem_of_filter
      by (rewrite Hf; apply list_elem_of_here).
    destruct Hk. eauto.
Qed.

Lemma sql_find_wf k t r : table_wf t → r ∈ t → key r = k → sql_find k t = Some r.
Proof.
  unfold table_wf. intros Hwf Hr Hk.
  destruct (sql_find k t) as [r'|] eqn:Hf.
  - apply sql_find_Some in Hf as [Hr' Hk']. f_equal.
    eapply NoDup_fmap_inj_on; [done..|congruence].
  - apply sql_find_None in Hf. destruct Hf. rewrite list_elem_of_fmap. eauto.
Qed.

Lemma sql_find_app k t1 t2 :
  sql_find k (t1 ++ t2) = match sql_find k t1 with
                          | Some r => Some r
                          | None => sql_find k t2
                          end.
Proof. unfold sql_find. rewrite filter_app. by destruct (filter _ t1). Qed.

Lemma sql_find_delete_ne k k' t :
  k ≠ k' → sql_find k (sql_delete k' t) = sql_find k t.
Proof.
  intros Hne. unfold sql_find, sql_delete. f_equal.
  induction t as [|r t IH]; [done|]. rewrite !filter_cons.
  repeat case_decide; rewrite ?filter_cons; repeat case_decide; simplify_eq;
    by rewrite ?IH.
Qed.

(** Read over write for [INSERT OR REPLACE]. *)
Lemma sql_find_insert_or_replace r t :
  sql_find (key r) (sql_insert_or_replace r t) = Some r.
Proof.
  unfold sql_insert_or_replace. rewrite sql_find_app.
  rewrite (proj2 (sql_find_None _ _)) by apply sql_delete_absent.
  unfold sql_find. by rewrite list.filter_singleton_True.
Qed.

Lemma sql_find_insert_or_replace_ne r k t :
  k ≠ key r → sql_find k (sql_insert_or_replace r t) = sql_find k t.
Proof.
  intros Hne. unfold sql_insert_or_replace. rewrite sql_find_app.
  rewrite sql_find_delete_ne by done. destruct (sql_find k t); [done|].
  unfold sql_find. by rewrite list.filter_singleton_False.
Qed.
End table.

(** ** The [timetable] table: rows and its [AUTOINCREMENT] sequence *)

Record timetable_table : Type := TimetableTable {
  tt_rows : list timetable_row;
  tt_seq : Z
}.

(** [DELETE FROM timetable]: every row goes, the sequence stays. *)
Definition sql_delete_timetable (tt : timetable_table) : timetable_table :=
  {| tt_rows := []; tt_seq := tt_seq tt |}.

(** [INSERT INTO timetable (batch_id, day, slot, subject_id, faculty_id,
    room_id) VALUES (?, ?, ?, ?, ?, ?)]: the row gets the next entry id. *)
Definition sql_insert_timetable (batch day : string) (slot : Z)
    (subject faculty room : string) (tt : timetable_table) : timetable_table :=
  let id := (tt_seq tt + 1)%Z in
  {| tt_rows := tt_rows tt ++ [TimetableRow id batch day slot subject faculty room];
     tt_seq := id |}.

(** Entry ids are distinct and none is above the sequence. *)
Definition timetable_wf (tt : timetable_table) : Prop :=
  NoDup (entry_id <$> tt_rows tt) ∧
  Forall (λ r, (entry_id r ≤ tt_seq tt)%Z) (tt_rows tt).

(** ** The database *)

Record db : Type := Db {
  db_rooms : list room_row;
  db_batches : list batch_row;
  db_faculties : list faculty_row;
  db_subjects : list subject_row;
  db_timetable : timetable_table
}.

(** The database file before the first start: no table yet. *)
Definition empty_db : db :=
  {| db_rooms := []; db_batches := []; db_faculties := []; db_subjects := [];
     db_timetable := {| tt_rows := []; tt_seq := 0 |} |}.

(** [init_db]: [CREATE TABLE IF NOT EXISTS] creates the five tables, empty,
    when the file has none ([None]) and changes nothing otherwise. *)
Definition init_db (file : option db) : db := default empty_db file.

(** The constraints SQLite maintains: primary keys are unique. *)
Definition db_wf (d : db) : Prop :=
  table_wf room_id (db_rooms d) ∧ table_wf batch_id (db_batches d) ∧
  table_wf fac_id (db_faculties d) ∧ table_wf sub_id (db_subjects d) ∧
  timetable_wf (db_timetable d).

Lemma sql_delete_timetable_wf tt :
  timetable_wf tt → timetable_wf (sql_delete_timetable tt).
Proof. intros _. split; simpl; [apply NoDup_nil_2|apply Forall_nil_2]. Qed.

Lemma sql_insert_timetable_wf b d s su f r tt :
  timetable_wf tt → timetable_wf (sql_insert_timetable b d s su f r tt).
Proof.
  intros [Hnd Hle]. split; simpl.
  - rewrite fmap_app. apply NoDup_app. split_and!; [done| |apply NoDup_singleton].
    intros i (r' & -> & Hr')%list_elem_of_fmap Hi%list_elem_of_singleton.
    rewrite Forall_forall in Hle. apply Hle in Hr'. simpl in Hi. lia.
  - apply Forall_app. split; [|by apply Forall_singleton; simpl; lia].
    eapply Forall_impl; [done|]. simpl. lia.
Qed.

Lemma empty_db_wf : db_wf empty_db.
Proof.
  repeat split; simpl; try apply NoDup_nil_2. apply Forall_nil_2.
Qed.

#[export] Hint Resolve DAYS_NoDup sql_delete_wf sql_insert_or_replace_wf
  sql_delete_timetable_wf sql_insert_timetable_wf empty_db_wf : py.

Lemma init_db_wf file : from_option db_wf True file → db_wf (init_db file).
Proof. destruct file; simpl; auto with py. Qed.
