(* ===== verification/Shuffle.v ===== *)
(** * Shuffle: the random source of the allocator

    [generate_timetable] calls [random.shuffle] on a copy of the subject list
    before every attempt (lines 207-208).  The allocator's theorems are
    proved against the interface [Shuffler]: a generator state and a shuffle
    that returns a permutation of its argument.  The interface is discharged
    by [random_shuffle], the Fisher-Yates loop of CPython's [random.shuffle],
    driven by a tape of raw draws that stands for the generator.  Every
    order of the list is the result of some tape ([random_shuffle_surj]). *)

From stdpp Require Import base tactics option list strings gmap fin_maps.
From S2P Require Import Prelude.

(** ** The interface *)

Class Shuffler : Type := {
  rng : Type;
  shuffle : ∀ {A : Type}, list A → rng → list A * rng;
  shuffle_perm : ∀ {A : Type} (l : list A) (g : rng), (shuffle l g).1 ≡ₚ l
}.

(** ** CPython's [random.shuffle] *)

(** The generator: the raw draws still to come.  [randbelow n] reduces the
    next draw below [n]; an exhausted tape draws 0. *)
Definition tape : Type := list nat.

Definition randbelow (n : nat) (g : tape) : nat * tape :=
  match g with
  | [] => (0, [])
  | x :: g' => (x `mod` n, g')
  end.

(** [x[i], x[j] = x[j], x[i]]: both cells are read, then [x[i]] and [x[j]]
    are written in this order. *)
Definition swap {A} (x : list A) (i j : nat) : list A :=
  match x !! i, x !! j with
  | Some xi, Some xj => <[j := xi]> (<[i := xj]> x)
  | _, _ => x
  end.

(** [for i in reversed(range(1, len(x))): j = randbelow(i + 1); swap]:
    [shuffle_loop k] runs the iterations [i = k, k-1, ..., 1]. *)
Fixpoint shuffle_loop {A} (k : nat) (x : list A) (g : tape) : list A * tape :=
  match k with
  | 0 => (x, g)
  | S k' =>
      let '(j, g') := randbelow (S k) g in
      shuffle_loop k' (swap x k j) g'
  end.

Definition random_shuffle {A} (x : list A) (g : tape) : list A * tape :=
  shuffle_loop (length x - 1) x g.

(** The tapes of [k] draws in range, one for each of the iterations
    [i = k, ..., 1]: a draw of iteration [i] is one of [0, ..., i]. *)
Fixpoint draws (k : nat) : list tape :=
  match k with
  | 0 => [[]]
  | S k' => j ← seq 0 (S (S k')); (j ::.) <$> draws k'
  end.

(** ** Lemmas *)

Lemma draws_S k : draws (S k) = j ← seq 0 (S (S k)); (j ::.) <$> draws k.
Proof. done. Qed.

Lemma elem_of_draws_S k g :
  g ∈ draws (S k) ↔ ∃ j g', g = j :: g' ∧ j ≤ S k ∧ g' ∈ draws k.
Proof.
  rewrite draws_S, list_elem_of_bind. split.
  - intros (j & (g' & -> & Hg')%list_elem_of_fmap & Hj%elem_of_seq).
    exists j, g'. split_and!; [done|lia|done].
  - intros (j & g' & -> & Hj & Hg'). exists j. split.
    + apply list_elem_of_fmap. eauto.
    + apply elem_of_seq. lia.
Qed.

Lemma randbelow_lt n g : 0 < n → (randbelow n g).1 < n.
Proof.
  intros Hn. destruct g as [|x g]; simpl; [done|].
  apply Nat.mod_upper_bound. lia.
Qed.

Section swap.
Context {A : Type}.
Implicit Types (x : list A) (i j : nat).

Lemma swap_length x i j : length (swap x i j) = length x.
Proof.
  unfold swap. destruct (x !! i), (x !! j); by rewrite ?length_insert.
Qed.

Lemma swap_same x i : swap x i i = x.
Proof.
  unfold swap. destruct (x !! i) as [xi|] eqn:Hi; [|done].
  by rewrite list_insert_insert_eq, list_insert_id.
Qed.

Lemma insert_insert_perm x i j xi xj :
  i ≠ j → x !! i = Some xi → x !! j = Some xj →
  <[j := xi]> (<[i := xj]> x) ≡ₚ x.
Proof.
  revert i j. induction x as [|a x IH]; intros [|i] [|j] Hne Hi Hj;
    simplify_eq/=.
  - rewrite insert_take_drop by (eapply lookup_lt_Some; eauto).
    rewrite <- (take_drop_middle x j xj) at 3 by done.
    rewrite <- !Permutation_middle. apply perm_swap.
  - rewrite insert_take_drop by (eapply lookup_lt_Some; eauto).
    rewrite <- (take_drop_middle x i xi) at 3 by done.
    rewrite <- !Permutation_middle. apply perm_swap.
  - f_equiv. apply IH; [congruence|done..].
Qed.

Lemma swap_perm x i j : swap x i j ≡ₚ x.
Proof.
  unfold swap. destruct (x !! i) as [xi|] eqn:Hi; [|done].
  destruct (x !! j) as [xj|] eqn:Hj; [|done].
  destruct (decide (i = j)) as [->|Hne].
  - simplify_eq. by rewrite list_insert_insert_eq, list_insert_id.
  - by apply insert_insert_perm.
Qed.

Lemma shuffle_loop_perm k x g : (shuffle_loop k x g).1 ≡ₚ x.
Proof.
  revert x g. induction k as [|k IH]; intros x g; [done|].
  simpl. destruct (randbelow _ g) as [j g'].
  rewrite IH. apply swap_perm.
Qed.

Lemma random_shuffle_perm x g : (random_shuffle x g).1 ≡ₚ x.
Proof. apply shuffle_loop_perm. Qed.

Lemma random_shuffle_length x g : length (random_shuffle x g).1 = length x.
Proof. by rewrite random_shuffle_perm. Qed.

End swap.

(** ** Every order is drawn by some tape *)

Section surjective.
Context {A : Type}.
Implicit Types (x y z : list A) (i j k : nat) (g : tape).

Lemma swap_app x z i j :
  i < length x → j < length x → swap (x ++ z) i j = swap x i j ++ z.
Proof.
  intros Hi Hj. unfold swap. rewrite !lookup_app_l by done.
  destruct (lookup_lt_is_Some_2 x i Hi) as [xi ->].
  destruct (lookup_lt_is_Some_2 x j Hj) as [xj ->].
  by rewrite !insert_app_l by (rewrite ?length_insert; done).
Qed.

(** The iterations [i = k, ..., 1] touch the first [k + 1] cells only. *)
Lemma shuffle_loop_app k x z g :
  k < length x →
  shuffle_loop k (x ++ z) g = ((shuffle_loop k x g).1 ++ z, (shuffle_loop k x g).2).
Proof.
  revert x g. induction k as [|k IH]; intros x g Hk; [done|]. simpl.
  pose proof (randbelow_lt (S (S k)) g) as Hj.
  destruct (randbelow (S (S k)) g) as [j g']. simpl in Hj.
  rewrite swap_app by lia. apply IH. rewrite swap_length. lia.
Qed.

(** An iteration with a draw in range makes the swap the draw names. *)
Lemma shuffle_loop_draw k x j g :
  j ≤ S k → shuffle_loop (S k) x (j :: g) = shuffle_loop k (swap x (S k) j) g.
Proof.
  intros Hj.
  change (shuffle_loop (S k) x (j :: g))
    with (shuffle_loop k (swap x (S k) (j `mod` S (S k))) g).
  by rewrite Nat.mod_small by lia.
Qed.

(** A list whose last cell holds [a]. *)
Lemma list_last_cell x k a : length x = S k → x !! k = Some a → x = take k x ++ [a].
Proof.
  intros Hlen Hk. rewrite <- (take_S_r x k a Hk). by rewrite take_ge by lia.
Qed.

(** One swap brings any member of the list to its last cell. *)
Lemma swap_to_last x k a :
  length x = S k → a ∈ x →
  ∃ j y, j ≤ k ∧ swap x k j = y ++ [a] ∧ length y = k.
Proof.
  intros Hlen [j Hj]%list_elem_of_lookup.
  assert (j < S k) by (rewrite <- Hlen; by eapply lookup_lt_Some).
  exists j, (take k (swap x k j)). split; [lia|]. split.
  - apply list_last_cell; [by rewrite swap_length|]. unfold swap.
    destruct (lookup_lt_is_Some_2 x k) as [xk Hk]; [lia|]. rewrite Hk, Hj.
    destruct (decide (j = k)) as [->|Hne].
    + rewrite list_lookup_insert_eq by (rewrite length_insert; lia). congruence.
    + rewrite list_lookup_insert_ne by done. apply list_lookup_insert_eq. lia.
  - rewrite length_take, swap_length. lia.
Qed.

(** Every permutation of a list is the result of [random_shuffle] on some
    tape of draws in range. *)
Lemma random_shuffle_surj_draws x x' :
  x ≡ₚ x' → ∃ g, g ∈ draws (length x - 1) ∧ (random_shuffle x g).1 = x'.
Proof.
  revert x. induction x' as [|a x' IH] using rev_ind; intros x Hperm.
  { apply Permutation_nil_r in Hperm as ->. exists []. by split; [left|]. }
  assert (length x = S (length x')) as Hlen
    by (rewrite Hperm, length_app; simpl; lia).
  destruct (swap_to_last x (length x') a) as (j & y & Hj & Hswap & Hy); [done|..].
  { rewrite Hperm. set_solver. }
  destruct (IH y) as (g & Hdraws & Hg).
  { apply (Permutation_app_inv_r [a]). by rewrite <- Hswap, swap_perm. }
  unfold random_shuffle in *. rewrite Hlen, Hy in *. simpl. rewrite Nat.sub_0_r.
  destruct x' as [|b x'] using rev_ind.
  - exists []. split; [by left|]. simpl in *. assert (j = 0) as -> by lia.
    rewrite swap_same in Hswap. by destruct y.
  - clear IHx'. rewrite length_app in *. simpl in *.
    rewrite Nat.add_1_r in *. exists (j :: g).
    rewrite shuffle_loop_draw, Hswap, shuffle_loop_app by lia. simpl in *.
    rewrite Nat.sub_0_r in Hg, Hdraws. rewrite Hg.
    split; [apply elem_of_draws_S; eauto 6|done].
Qed.

Lemma random_shuffle_surj x x' :
  x ≡ₚ x' → ∃ g, (random_shuffle x g).1 = x'.
Proof. intros (g & _ & Hg)%random_shuffle_surj_draws. eauto. Qed.

End surjective.

(** [random.shuffle] meets the interface. *)
#[export] Instance fisher_yates : Shuffler := {|
  rng := tape;
  shuffle := @random_shuffle;
  shuffle_perm := @random_shuffle_perm
|}.

(** ** Consequences of the interface, for the clients *)

Section shuffler.
Context `{Shuffler} {A : Type}.
Implicit Types (l : list A) (g : rng).

Lemma elem_of_shuffle l g a : a ∈ (shuffle l g).1 ↔ a ∈ l.
Proof. by rewrite shuffle_perm. Qed.

Lemma shuffle_length l g : length (shuffle l g).1 = length l.
Proof. by rewrite shuffle_perm. Qed.

Lemma shuffle_nil g : (shuffle (@nil A) g).1 = [].
Proof. apply Permutation_nil_r, shuffle_perm. Qed.

Lemma shuffle_Forall (P : A → Prop) l g : Forall P (shuffle l g).1 ↔ Forall P l.
Proof. by rewrite shuffle_perm. Qed.

End shuffler.
