(* ===== verification/Uniform.v ===== *)
(** * Uniform: every order is equally likely

    The specification asks for a shuffle that draws the subjects in a
    uniformly random order (section 9).  For the loop of [random.shuffle]
    this is a counting fact about the tapes of draws in range, [draws]: a
    list of [n] distinct elements has [n!] of them ([length_draws]), every
    order of the list is the result of one of them and of no other
    ([random_shuffle_uniform]), so the results over all tapes are the
    permutations of the list, each once ([random_shuffle_orders]).  With
    draws that are uniform and independent, every order has the
    probability [1 / n!].

    The file also has the tape a shuffle leaves: it takes one draw for each
    iteration ([random_shuffle_tape]). *)

From stdpp Require Import base tactics option list.
From S2P Require Import Prelude Shuffle.

(** The result of [random.shuffle] on each tape of draws in range. *)
Definition orders {A} (x : list A) : list (list A) :=
  (λ g, (random_shuffle x g).1) <$> draws (length x - 1).

(** ** The tapes *)

Lemma length_draws k : length (draws k) = fact (S k).
Proof.
  induction k as [|k IH]; [done|].
  rewrite draws_S, (length_bind_const _ _ (fact (S k))), length_seq; [done|].
  intros j. by rewrite length_fmap.
Qed.

Lemma NoDup_draws k : NoDup (draws k).
Proof.
  induction k as [|k IH]; [apply NoDup_singleton|].
  rewrite draws_S. apply NoDup_bind; [|by intros; apply (NoDup_fmap_2 _)|apply NoDup_seq].
  by intros j1 j2 g _ _ (g1 & -> & _)%list_elem_of_fmap (g2 & [= -> _] & _)%list_elem_of_fmap.
Qed.

Section uniform.
Context {A : Type}.
Implicit Types (x y : list A) (i j k : nat) (g : tape).

(** ** The cells a swap and the loop touch *)

Lemma swap_lookup_ne x i j l : l ≠ i → l ≠ j → swap x i j !! l = x !! l.
Proof.
  intros Hi Hj. unfold swap. destruct (x !! i), (x !! j); try done.
  by rewrite !list_lookup_insert_ne by done.
Qed.

Lemma swap_lookup_l x i j : i < length x → j < length x → swap x i j !! i = x !! j.
Proof.
  intros Hi Hj. unfold swap.
  destruct (lookup_lt_is_Some_2 x i Hi) as [xi Hxi].
  destruct (lookup_lt_is_Some_2 x j Hj) as [xj Hxj]. rewrite Hxi, Hxj.
  destruct (decide (i = j)) as [->|Hne].
  - rewrite list_lookup_insert_eq by (rewrite length_insert; lia). congruence.
  - rewrite list_lookup_insert_ne by done. by rewrite list_lookup_insert_eq.
Qed.

(** The iterations [i = k, ..., 1] leave the cells above [k] as they are. *)
Lemma shuffle_loop_above k x g i : k < i → (shuffle_loop k x g).1 !! i = x !! i.
Proof.
  revert x g. induction k as [|k IH]; intros x g Hi; [done|]. simpl.
  pose proof (randbelow_lt (S (S k)) g) as Hj.
  destruct (randbelow (S (S k)) g) as [j g']. simpl in Hj.
  rewrite IH by lia. apply swap_lookup_ne; lia.
Qed.

(** The first draw of a shuffle is read off its result: the cell the first
    iteration fills is not touched again. *)
Lemma shuffle_loop_first k x j g :
  j ≤ S k → S k < length x → (shuffle_loop (S k) x (j :: g)).1 !! S k = x !! j.
Proof.
  intros Hj Hk. rewrite shuffle_loop_draw by done.
  rewrite shuffle_loop_above by lia. apply swap_lookup_l; lia.
Qed.

(** ** One draw for each iteration *)

Lemma shuffle_loop_tape k x g : (shuffle_loop k x g).2 = drop k g.
Proof.
  revert x g. induction k as [|k IH]; intros x g; [done|]. simpl.
  destruct g as [|j g]; simpl; rewrite IH; [by rewrite drop_nil|done].
Qed.

Lemma random_shuffle_tape x g : (random_shuffle x g).2 = drop (length x - 1) g.
Proof. apply shuffle_loop_tape. Qed.

(** ** Two tapes in range give two orders *)

Lemma shuffle_loop_inj k x g1 g2 :
  NoDup x → k ≤ length x - 1 → g1 ∈ draws k → g2 ∈ draws k →
  (shuffle_loop k x g1).1 = (shuffle_loop k x g2).1 → g1 = g2.
Proof.
  revert x g1 g2. induction k as [|k IH]; intros x g1 g2 Hx Hk Hg1 Hg2 Heq.
  { apply list_elem_of_singleton in Hg1 as ->.
    by apply list_elem_of_singleton in Hg2 as ->. }
  apply elem_of_draws_S in Hg1 as (j1 & g1' & -> & Hj1 & Hg1).
  apply elem_of_draws_S in Hg2 as (j2 & g2' & -> & Hj2 & Hg2).
  assert (j1 = j2) as <-.
  { pose proof (f_equal (.!! S k) Heq) as Hcell. cbv beta in Hcell.
    rewrite !shuffle_loop_first in Hcell by lia.
    destruct (lookup_lt_is_Some_2 x j1) as [a Ha]; [lia|].
    rewrite Ha in Hcell. by eapply NoDup_lookup. }
  f_equal. rewrite !shuffle_loop_draw in Heq by done.
  apply (IH (swap x (S k) j1)); [by rewrite swap_perm|rewrite swap_length; lia|done..].
Qed.

Lemma NoDup_orders x : NoDup x → NoDup (orders x).
Proof.
  intros Hx. apply NoDup_fmap_2_strong; [|apply NoDup_draws].
  intros g1 g2 Hg1 Hg2. by apply shuffle_loop_inj.
Qed.

Lemma length_orders x : length (orders x) = fact (length x).
Proof.
  unfold orders. rewrite length_fmap, length_draws.
  destruct x; simpl; by rewrite ?Nat.sub_0_r.
Qed.

Lemma elem_of_orders x x' : x' ∈ orders x ↔ x ≡ₚ x'.
Proof.
  unfold orders. rewrite list_elem_of_fmap. split.
  - intros (g & -> & _). by rewrite random_shuffle_perm.
  - intros (g & Hg & <-)%random_shuffle_surj_draws. eauto.
Qed.

(** ** The permutations of a list *)

Lemma length_interleave (a : A) x : length (interleave a x) = S (length x).
Proof. induction x as [|b x IH]; simpl; [done|]. by rewrite length_fmap, IH. Qed.

Lemma length_permutations x : length (permutations x) = fact (length x).
Proof.
  induction x as [|a x IH]; [done|]. simpl.
  rewrite (length_bind_Forall _ _ (S (length x))), IH; [lia|].
  apply Forall_forall. intros y Hy%permutations_Permutation.
  by rewrite length_interleave, <- Hy.
Qed.

(** ** Uniformity *)

(** Every order of a list without duplicates is the result of one tape of
    draws in range, and of no other. *)
Theorem random_shuffle_uniform x x' :
  NoDup x → x ≡ₚ x' →
  ∃ g, g ∈ draws (length x - 1) ∧ (random_shuffle x g).1 = x' ∧
    ∀ g', g' ∈ draws (length x - 1) → (random_shuffle x g').1 = x' → g' = g.
Proof.
  intros Hx (g & Hg & Hres)%random_shuffle_surj_draws. exists g. split_and!; [done..|].
  intros g' Hg' Hres'. apply (shuffle_loop_inj (length x - 1) x); [done..|].
  unfold random_shuffle in *. congruence.
Qed.

(** The results over all tapes of draws in range are the permutations of
    the list, each once. *)
Theorem random_shuffle_orders x : NoDup x → orders x ≡ₚ permutations x.
Proof.
  intros Hx. apply submseteq_length_Permutation.
  - apply NoDup_submseteq; [by apply NoDup_orders|].
    intros x' Hx'%elem_of_orders. by apply permutations_Permutation.
  - by rewrite length_orders, length_permutations.
Qed.

End uniform.

(** The six orders of a list of three, from the six tapes. *)
Example orders_of_three :
  orders [1; 2; 3] = [[2; 3; 1]; [3; 2; 1]; [3; 1; 2]; [1; 3; 2]; [2; 1; 3]; [1; 2; 3]].
Proof. reflexivity. Qed.
