(* ===== verification/Occupancy.v ===== *)
(** * Occupancy: the faculty and room occupancy tables

    [global_fac_slot] and [global_room_slot] of [generate_timetable]
    (lines 201-202) are dicts from an id to a dict from a day to a list of
    [SLOTS_PER_DAY] booleans.  Each inner list is built by its own
    evaluation of [[False]*SLOTS_PER_DAY], so no two cells share a list
    object and an assignment to one cell changes that cell only: the tables
    are modelled as values, a [gmap] of [gmap]s of lists.

    The file gives the three operations the handler performs on a table
    (build, read a cell, set a cell), each raising what Python raises, the
    shape invariant, and the read-over-write lemmas the allocator's proofs
    use. *)

From stdpp Require Import base tactics option list strings gmap fin_maps.
From S2P Require Import Prelude.

#[local] Open Scope py_scope.

Abbreviation occ := (gmap string (gmap string (list bool))).

(** ** Operations *)

(** [{day: [False]*n for day in days}] *)
Definition occ_days (days : list string) (n : nat) : gmap string (list bool) :=
  dict_of_list ((λ day, (day, replicate n false)) <$> days).

(** [{id: {day: [False]*n for day in days} for id in ids}] *)
Definition occ_init (ids days : list string) (n : nat) : occ :=
  dict_of_list ((λ id, (id, occ_days days n)) <$> ids).

(** [t[id][day][slot]] *)
Definition occ_busy (t : occ) (id day : string) (slot : nat) : result bool :=
  by_day ← t.[id]; l ← by_day.[day]; l.@[slot].

(** [t[id][day][slot] = True] *)
Definition occ_mark (t : occ) (id day : string) (slot : nat) : result occ :=
  by_day ← t.[id];
  l ← by_day.[day];
  l' ← list_set l slot true;
  Ok (<[id := <[day := l']> by_day]> t).

(** The cell as a partial function: [None] where a subscript would raise. *)
Definition occ_cell (t : occ) (id day : string) (slot : nat) : option bool :=
  by_day ← t !! id; l ← by_day !! day; l !! slot.

(** The shape the tables have throughout a run: exactly the ids, under each
    exactly the days, under each a list of [n] cells. *)
Definition occ_shape (ids days : list string) (n : nat) (t : occ) : Prop :=
  (∀ id, is_Some (t !! id) ↔ id ∈ ids) ∧
  (∀ id by_day, t !! id = Some by_day →
     (∀ day, is_Some (by_day !! day) ↔ day ∈ days) ∧
     (∀ day l, by_day !! day = Some l → length l = n)).

(** ** Lemmas *)

Section occupancy.
Implicit Types (t : occ) (id day : string) (slot n : nat) (ids days : list string).

Lemma occ_busy_Ok t id day slot b :
  occ_busy t id day slot = Ok b ↔ occ_cell t id day slot = Some b.
Proof.
  unfold occ_busy, occ_cell, dict_get, list_get.
  destruct (t !! id) as [by_day|]; simpl; [|done].
  destruct (by_day !! day) as [l|]; simpl; [|done].
  destruct (l !! slot); naive_solver.
Qed.

Lemma occ_busy_is_ok t id day slot :
  is_ok (occ_busy t id day slot) ↔ is_Some (occ_cell t id day slot).
Proof. unfold is_ok, is_Some. by setoid_rewrite occ_busy_Ok. Qed.

Lemma occ_busy_KeyError t id day slot :
  t !! id = None → occ_busy t id day slot = Raise (KeyError id).
Proof. intros Hid. unfold occ_busy, dict_get. by rewrite Hid. Qed.

Lemma occ_mark_Ok t id day slot t' :
  occ_mark t id day slot = Ok t' ↔
  ∃ by_day l, t !! id = Some by_day ∧ by_day !! day = Some l ∧ slot < length l ∧
    t' = <[id := <[day := <[slot := true]> l]> by_day]> t.
Proof.
  unfold occ_mark. split.
  - intros Hm. result_inv. apply dict_get_Ok in Hm1, Hm0.
    apply list_set_Ok in Hm2 as [? ->]. eauto 6.
  - intros (by_day & l & Hid & Hday & Hslot & ->).
    apply dict_get_Ok in Hid, Hday. rewrite Hid. simpl. rewrite Hday. simpl.
    unfold list_set. by rewrite decide_True.
Qed.

Lemma occ_mark_is_ok t id day slot :
  is_ok (occ_mark t id day slot) ↔ is_Some (occ_cell t id day slot).
Proof.
  unfold is_ok. setoid_rewrite occ_mark_Ok. unfold occ_cell. split.
  - intros (t' & by_day & l & -> & Hday & Hslot & _). simpl. rewrite Hday. simpl.
    by apply lookup_lt_is_Some.
  - destruct (t !! id) as [by_day|]; simpl; [|by intros [? ?]].
    destruct (by_day !! day) as [l|] eqn:Hday; simpl; [|by intros [? ?]].
    intros Hslot%lookup_lt_is_Some. eexists _, _, _. repeat split; eauto.
Qed.

(** Read over write: marking a cell sets it and changes no other cell. *)
Lemma occ_mark_cell t id day slot t' id' day' slot' :
  occ_mark t id day slot = Ok t' →
  occ_cell t' id' day' slot' =
    if decide (id' = id ∧ day' = day ∧ slot' = slot) then Some true
    else occ_cell t id' day' slot'.
Proof.
  intros (by_day & l & Hid & Hday & Hslot & ->)%occ_mark_Ok. unfold occ_cell.
  destruct (decide (id' = id)) as [->|Hne]; simplify_map_eq/=;
    [|by rewrite decide_False by naive_solver].
  destruct (decide (day' = day)) as [->|Hne]; simplify_map_eq/=;
    [|by rewrite decide_False by naive_solver].
  destruct (decide (slot' = slot)) as [->|Hne].
  - rewrite decide_True by done. by apply list_lookup_insert_eq.
  - rewrite decide_False by naive_solver. by apply list_lookup_insert_ne.
Qed.

Lemma occ_mark_cell_eq t id day slot t' :
  occ_mark t id day slot = Ok t' → occ_cell t' id day slot = Some true.
Proof. intros Hm. rewrite (occ_mark_cell _ _ _ _ _ _ _ _ Hm). by rewrite decide_True. Qed.

Lemma occ_mark_cell_ne t id day slot t' id' day' slot' :
  occ_mark t id day slot = Ok t' → (id', day', slot') ≠ (id, day, slot) →
  occ_cell t' id' day' slot' = occ_cell t id' day' slot'.
Proof.
  intros Hm Hne. rewrite (occ_mark_cell _ _ _ _ _ _ _ _ Hm).
  rewrite decide_False; [done|]. intros (-> & -> & ->). done.
Qed.

Lemma occ_mark_shape ids days n t id day slot t' :
  occ_shape ids days n t → occ_mark t id day slot = Ok t' → occ_shape ids days n t'.
Proof.
  intros [Hids Hrows] (by_day & l & Hid & Hday & Hslot & ->)%occ_mark_Ok.
  destruct (Hrows _ _ Hid) as [Hdays Hlen]. split.
  - intros id'. rewrite lookup_insert_is_Some, <- Hids.
    destruct (decide (id = id')) as [->|]; naive_solver.
  - intros id' by_day'. destruct (decide (id = id')) as [<-|Hne].
    + rewrite lookup_insert_eq. intros [= <-]. split.
      * intros day'. rewrite lookup_insert_is_Some, <- Hdays.
        destruct (decide (day = day')) as [->|]; naive_solver.
      * intros day' l'. destruct (decide (day = day')) as [<-|].
        -- rewrite lookup_insert_eq. intros [= <-]. rewrite length_insert. eauto.
        -- rewrite lookup_insert_ne by done. apply Hlen.
    + rewrite lookup_insert_ne by done. apply Hrows.
Qed.

(** [{k: f(k) for k in ks}] binds exactly the keys of [ks], each to [f k]. *)
Lemma dict_of_keys_lookup {V} (f : string → V) (ks : list string) (k : string) :
  dict_of_list ((λ k, (k, f k)) <$> ks) !! k = if decide (k ∈ ks) then Some (f k) else None.
Proof.
  pose proof (dict_of_list_is_Some ((λ k, (k, f k)) <$> ks) k) as Hs.
  rewrite <- list_fmap_compose, list_fmap_id in Hs.
  case_decide as Hin.
  - apply Hs in Hin as [v Hv]. rewrite Hv.
    by apply dict_of_list_Some, list_elem_of_fmap in Hv as (? & [= <- ->] & _).
  - apply eq_None_not_Some. by rewrite Hs.
Qed.

Lemma occ_days_lookup days n day :
  occ_days days n !! day = if decide (day ∈ days) then Some (replicate n false) else None.
Proof. apply (dict_of_keys_lookup (λ _, replicate n false)). Qed.

Lemma occ_init_lookup ids days n id :
  occ_init ids days n !! id = if decide (id ∈ ids) then Some (occ_days days n) else None.
Proof. apply (dict_of_keys_lookup (λ _, occ_days days n)). Qed.

Lemma occ_init_shape ids days n : occ_shape ids days n (occ_init ids days n).
Proof.
  split.
  - intros id. rewrite occ_init_lookup. case_decide; naive_solver.
  - intros id by_day. rewrite occ_init_lookup. case_decide; [|done].
    intros [= <-]. split.
    + intros day. rewrite occ_days_lookup. case_decide; naive_solver.
    + intros day l. rewrite occ_days_lookup. case_decide; [|done].
      intros [= <-]. apply length_replicate.
Qed.

(** Every cell of a fresh table is free. *)
Lemma occ_init_cell ids days n id day slot :
  occ_cell (occ_init ids days n) id day slot =
    if decide (id ∈ ids ∧ day ∈ days ∧ slot < n) then Some false else None.
Proof.
  unfold occ_cell. rewrite occ_init_lookup.
  destruct (decide (id ∈ ids)); simpl; [|by rewrite decide_False by tauto].
  rewrite occ_days_lookup.
  destruct (decide (day ∈ days)); simpl; [|by rewrite decide_False by tauto].
  destruct (decide (slot < n)).
  - rewrite decide_True by done. by apply lookup_replicate_2.
  - rewrite decide_False by tauto. apply lookup_replicate_None. lia.
Qed.

(** Under the shape invariant the cells that exist are those of the grid. *)
Lemma occ_shape_cell ids days n t id day slot :
  occ_shape ids days n t →
  is_Some (occ_cell t id day slot) ↔ id ∈ ids ∧ day ∈ days ∧ slot < n.
Proof.
  intros [Hids Hrows]. unfold occ_cell. rewrite <- Hids.
  destruct (t !! id) as [by_day|] eqn:Hid; simpl;
    [|split; [by intros [? ?]|by intros [[? ?] _]]].
  destruct (Hrows _ _ Hid) as [Hdays Hlen]. rewrite <- Hdays.
  destruct (by_day !! day) as [l|] eqn:Hday; simpl;
    [|split; [by intros [? ?]|by intros (_ & [? ?] & _)]].
  rewrite lookup_lt_is_Some, (Hlen _ _ Hday). naive_solver.
Qed.

Lemma occ_shape_absent ids days n t id :
  occ_shape ids days n t → id ∉ ids → t !! id = None.
Proof. intros [Hids _] Hid. apply eq_None_not_Some. by rewrite Hids. Qed.

(** Inside the grid, the only exception of a read is the [KeyError] of an
    id the table does not have. *)
Lemma occ_busy_Raise ids days n t id day slot e :
  occ_shape ids days n t → day ∈ days → slot < n →
  occ_busy t id day slot = Raise e → id ∉ ids ∧ e = KeyError id.
Proof.
  intros Hshape Hday Hslot Hraise. destruct (decide (id ∈ ids)) as [Hid|Hid].
  - assert (is_ok (occ_busy t id day slot)) as [b Hb].
    { by apply occ_busy_is_ok, (occ_shape_cell ids days n). }
    congruence.
  - rewrite occ_busy_KeyError in Hraise by by eapply occ_shape_absent.
    by simplify_eq.
Qed.

End occupancy.

#[export] Hint Resolve occ_init_shape occ_mark_shape : py.
