(* ===== verification/Allocator.v ===== *)
(** * Allocator: the greedy pass of [generate_timetable]

    The loops of lines 199-223 of [src/app.py]: for every batch, day and
    slot, in this order, shuffle the subjects and place the first subject
    whose faculty is free in the first free room, or count the attempt as
    unscheduled.  The state of the pass is [alloc_state]: the two occupancy
    tables, the rows written through the cursor, the counter, and the
    generator.  The grid ([days], [slots_per_day]) is a parameter of the
    section; the handler instantiates it with [DAYS] and [SLOTS_PER_DAY]. *)

From stdpp Require Import base tactics option list strings gmap fin_maps.
From S2P Require Import Prelude Database Shuffle Occupancy.

#[local] Open Scope Z_scope.

Section allocator.
Context `{Shuffler}.

(** ** State *)

Record alloc_state : Type := AllocState {
  global_fac_slot : occ;
  global_room_slot : occ;
  cur : timetable_table;
  unscheduled : Z;
  gen : rng
}.

(** ** Operations *)

(** [random.shuffle] leaves the generator in a new state. *)
Definition set_gen (g : rng) (st : alloc_state) : alloc_state :=
  {| global_fac_slot := global_fac_slot st;
     global_room_slot := global_room_slot st;
     cur := cur st; unscheduled := unscheduled st; gen := g |}.

(** [unscheduled += 1] *)
Definition count_unscheduled (st : alloc_state) : alloc_state :=
  {| global_fac_slot := global_fac_slot st;
     global_room_slot := global_room_slot st;
     cur := cur st; unscheduled := unscheduled st + 1; gen := gen st |}.

(** [next((r for r in rooms if not global_room_slot[r][day][slot]), None)] *)
Fixpoint free_room (rooms : list string) (room_slot : occ) (day : string)
    (slot : nat) : result (option string) :=
  match rooms with
  | [] => Ok None
  | r :: rooms' =>
      busy ← occ_busy room_slot r day slot;
      if busy : bool then free_room rooms' room_slot day slot else Ok (Some r)
  end.

(** The statements under the [if] of line 213: insert the row, mark the
    faculty and the room. *)
Definition place (batch : batch_row) (day : string) (slot : nat)
    (subject : subject_row) (room : string) (st : alloc_state)
  : result alloc_state :=
  let fac_id := faculty_id subject in
  let cur' := sql_insert_timetable (batch_id batch) day (Z.of_nat slot + 1)
                (sub_id subject) fac_id room (cur st) in
  fac_slot' ← occ_mark (global_fac_slot st) fac_id day slot;
  room_slot' ← occ_mark (global_room_slot st) room day slot;
  Ok {| global_fac_slot := fac_slot'; global_room_slot := room_slot';
        cur := cur'; unscheduled := unscheduled st; gen := gen st |}.

(** [for subject in subjects_shuffled: ...] (lines 210-221), returning
    [placed] with the state.  The condition of line 213 is evaluated left to
    right: the faculty table is read only when [free_room] is truthy. *)
Fixpoint try_subjects (rooms : list string) (batch : batch_row) (day : string)
    (slot : nat) (subjects_shuffled : list subject_row) (st : alloc_state)
  : result (bool * alloc_state) :=
  match subjects_shuffled with
  | [] => Ok (false, st)
  | subject :: rest =>
      fr ← free_room rooms (global_room_slot st) day slot;
      match fr with
      | Some room =>
          if truthy room then
            busy ← occ_busy (global_fac_slot st) (faculty_id subject) day slot;
            if busy : bool then try_subjects rooms batch day slot rest st
            else st' ← place batch day slot subject room st; Ok (true, st')
          else try_subjects rooms batch day slot rest st
      | None => try_subjects rooms batch day slot rest st
      end
  end.

(** The body of the slot loop (lines 207-223): one attempt. *)
Definition attempt (rooms : list string) (subjects : list subject_row)
    (batch : batch_row) (day : string) (slot : nat) (st : alloc_state)
  : result alloc_state :=
  let '(subjects_shuffled, g) := shuffle subjects (gen st) in
  '(placed, st') ← try_subjects rooms batch day slot subjects_shuffled (set_gen g st);
  Ok (if placed : bool then st' else count_unscheduled st').

Section grid.
Variables (days : list string) (slots_per_day : nat).

(** [for slot in range(SLOTS_PER_DAY)] *)
Definition slot_loop (rooms : list string) (subjects : list subject_row)
    (batch : batch_row) (day : string) : alloc_state → result alloc_state :=
  for_each (attempt rooms subjects batch day) (seq 0 slots_per_day).

(** [for day in DAYS] *)
Definition day_loop (rooms : list string) (subjects : list subject_row)
    (batch : batch_row) : alloc_state → result alloc_state :=
  for_each (slot_loop rooms subjects batch) days.

(** [for batch in batches] *)
Definition batch_loop (rooms : list string) (subjects : list subject_row)
    (batches : list batch_row) : alloc_state → result alloc_state :=
  for_each (day_loop rooms subjects) batches.

(** Lines 199-202: the counter and the two fresh occupancy tables. *)
Definition alloc_init (faculties : gmap string string) (rooms : list string)
    (tt : timetable_table) (g : rng) : alloc_state :=
  {| global_fac_slot := occ_init (dict_keys faculties) days slots_per_day;
     global_room_slot := occ_init rooms days slots_per_day;
     cur := tt; unscheduled := 0; gen := g |}.

(** Lines 199-223: the whole pass. *)
Definition allocate (batches : list batch_row) (subjects : list subject_row)
    (faculties : gmap string string) (rooms : list string)
    (tt : timetable_table) (g : rng) : result alloc_state :=
  batch_loop rooms subjects batches (alloc_init faculties rooms tt g).

(** The attempts of a run, in the order the loops make them. *)
Definition attempts (batches : list batch_row) : list (batch_row * string * nat) :=
  b ← batches; d ← days; (λ s, (b, d, s)) <$> seq 0 slots_per_day.

End grid.

(** The body of the three loops, as a function of the attempt. *)
Definition attempt_at (rooms : list string) (subjects : list subject_row)
    (a : batch_row * string * nat) : alloc_state → result alloc_state :=
  attempt rooms subjects a.1.1 a.1.2 a.2.

(** The generator after the attempts [l], also when one of them raises:
    an attempt has shuffled (line 208) before the subscripts of its loop over
    the subjects can raise. *)
Fixpoint pass_gen (rooms : list string) (subjects : list subject_row)
    (l : list (batch_row * string * nat)) (st : alloc_state) : rng :=
  match l with
  | [] => gen st
  | a :: l' =>
      match attempt_at rooms subjects a st with
      | Ok st' => pass_gen rooms subjects l' st'
      | Raise _ => (shuffle subjects (gen st)).2
      end
  end.

(** The generator after the pass of lines 199-223, whether it returns or
    raises. *)
Definition allocate_gen (days : list string) (slots_per_day : nat)
    (batches : list batch_row) (subjects : list subject_row)
    (faculties : gmap string string) (rooms : list string)
    (tt : timetable_table) (g : rng) : rng :=
  pass_gen rooms subjects (attempts days slots_per_day batches)
    (alloc_init days slots_per_day faculties rooms tt g).

(** The rows of the cursor after the attempts [l], also when one of them
    raises: the subscripts that can raise are read before the [INSERT] of
    their attempt (lines 212-213), so an attempt that raises has inserted
    nothing. *)
Fixpoint pass_cur (rooms : list string) (subjects : list subject_row)
    (l : list (batch_row * string * nat)) (st : alloc_state) : timetable_table :=
  match l with
  | [] => cur st
  | a :: l' =>
      match attempt_at rooms subjects a st with
      | Ok st' => pass_cur rooms subjects l' st'
      | Raise _ => cur st
      end
  end.

(** The rows of the cursor after the pass of lines 199-223, whether it
    returns or raises. *)
Definition allocate_cur (days : list string) (slots_per_day : nat)
    (batches : list batch_row) (subjects : list subject_row)
    (faculties : gmap string string) (rooms : list string)
    (tt : timetable_table) (g : rng) : timetable_table :=
  pass_cur rooms subjects (attempts days slots_per_day batches)
    (alloc_init days slots_per_day faculties rooms tt g).

(** ** What each operation does *)

Implicit Types (st : alloc_state) (rooms : list string) (day : string) (slot : nat).

Lemma free_room_Some rooms room_slot day slot r :
  free_room rooms room_slot day slot = Ok (Some r) →
  ∃ pre post, rooms = pre ++ r :: post ∧
    Forall (λ r', occ_cell room_slot r' day slot = Some true) pre ∧
    occ_cell room_slot r day slot = Some false.
Proof.
  induction rooms as [|r' rooms IH]; simpl; intros Hf; [done|].
  apply bind_Ok in Hf as ([] & Hb%occ_busy_Ok & Hf).
  - destruct (IH Hf) as (pre & post & -> & Hpre & Hr).
    exists (r' :: pre), post. by repeat constructor.
  - result_inv. exists [], rooms. by repeat constructor.
Qed.

Lemma free_room_None rooms room_slot day slot :
  free_room rooms room_slot day slot = Ok None →
  Forall (λ r, occ_cell room_slot r day slot = Some true) rooms.
Proof.
  induction rooms as [|r' rooms IH]; simpl; intros Hf; [done|].
  apply bind_Ok in Hf as ([] & Hb%occ_busy_Ok & Hf); result_inv.
  constructor; auto.
Qed.

Lemma free_room_is_ok rooms room_slot day slot :
  Forall (λ r, is_Some (occ_cell room_slot r day slot)) rooms →
  is_ok (free_room rooms room_slot day slot).
Proof.
  induction 1 as [|r rooms [b Hb] _ IH]; simpl; [apply is_ok_Ok|].
  apply occ_busy_Ok in Hb. rewrite Hb. simpl. destruct b; [done|apply is_ok_Ok].
Qed.

Lemma place_Ok batch day slot subject room st st' :
  place batch day slot subject room st = Ok st' ↔
  ∃ fs rs, occ_mark (global_fac_slot st) (faculty_id subject) day slot = Ok fs ∧
    occ_mark (global_room_slot st) room day slot = Ok rs ∧
    st' = {| global_fac_slot := fs; global_room_slot := rs;
             cur := sql_insert_timetable (batch_id batch) day (Z.of_nat slot + 1)
                      (sub_id subject) (faculty_id subject) room (cur st);
             unscheduled := unscheduled st; gen := gen st |}.
Proof.
  unfold place. split.
  - intros Hp. apply bind_Ok in Hp as (fs & Hfs & Hp).
    apply bind_Ok in Hp as (rs & Hrs & Hp). result_inv. eauto.
  - intros (fs & rs & -> & -> & ->). done.
Qed.

(** What a successful attempt did: it took some subject of the list whose
    faculty was free and the first free room, which has a non-empty id. *)
Definition placement rooms (batch : batch_row) day slot (subs : list subject_row)
    st st' : Prop :=
  ∃ subject room, subject ∈ subs ∧
    free_room rooms (global_room_slot st) day slot = Ok (Some room) ∧
    truthy room = true ∧
    occ_cell (global_fac_slot st) (faculty_id subject) day slot = Some false ∧
    place batch day slot subject room st = Ok st'.

Lemma placement_cons rooms batch day slot subject subs st st' :
  placement rooms batch day slot subs st st' →
  placement rooms batch day slot (subject :: subs) st st'.
Proof.
  intros (s0 & r0 & ? & ?). exists s0, r0. split; [by right|done].
Qed.

Lemma try_subjects_Ok rooms batch day slot subs st placed st' :
  try_subjects rooms batch day slot subs st = Ok (placed, st') →
  (placed = true ∧ placement rooms batch day slot subs st st') ∨
  (placed = false ∧ st' = st).
Proof.
  induction subs as [|subject subs IH]; simpl; intros Ht; [by result_inv; auto|].
  assert (try_subjects rooms batch day slot subs st = Ok (placed, st') →
    (placed = true ∧ placement rooms batch day slot (subject :: subs) st st') ∨
    (placed = false ∧ st' = st)) as Hrest.
  { intros [[? ?]|?]%IH; eauto using placement_cons. }
  apply bind_Ok in Ht as (fr & Hfr & Ht).
  destruct fr as [room|]; [|by auto].
  destruct (truthy room) eqn:Htr; [|by auto].
  apply bind_Ok in Ht as ([] & Hb%occ_busy_Ok & Ht); [by auto|].
  apply bind_Ok in Ht as (st1 & Hp & Ht). result_inv.
  left. split; [done|]. exists subject, room. split_and!; try done. by left.
Qed.

(** What a failed attempt found: every subject's faculty busy, or no free
    room, or a first free room with an empty id. *)
Definition exhausted rooms day slot (subs : list subject_row) st : Prop :=
  Forall (λ subject,
    occ_cell (global_fac_slot st) (faculty_id subject) day slot = Some true) subs ∨
  free_room rooms (global_room_slot st) day slot = Ok None ∨
  ∃ room, free_room rooms (global_room_slot st) day slot = Ok (Some room) ∧
    truthy room = false.

Lemma try_subjects_false rooms batch day slot subs st st' :
  try_subjects rooms batch day slot subs st = Ok (false, st') →
  exhausted rooms day slot subs st.
Proof.
  unfold exhausted.
  induction subs as [|subject subs IH]; simpl; intros Ht; [by left|].
  apply bind_Ok in Ht as (fr & Hfr & Ht).
  destruct fr as [room|]; [|by auto].
  destruct (truthy room) eqn:Htr; [|by eauto].
  apply bind_Ok in Ht as ([] & Hb%occ_busy_Ok & Ht).
  - destruct (IH Ht) as [?|?]; auto.
  - apply bind_Ok in Ht as (? & _ & ?). result_inv.
Qed.

(** The two outcomes of an attempt that returned. *)
Lemma attempt_Ok rooms subjects batch day slot st st' :
  attempt rooms subjects batch day slot st = Ok st' →
  let st0 := set_gen (shuffle subjects (gen st)).2 st in
  placement rooms batch day slot subjects st0 st' ∨
  (exhausted rooms day slot subjects st0 ∧ st' = count_unscheduled st0).
Proof.
  unfold attempt. destruct (shuffle subjects (gen st)) as [subs g] eqn:Hsh.
  assert (subs = (shuffle subjects (gen st)).1) as Hsubs by (by rewrite Hsh).
  intros Ha. apply bind_Ok in Ha as ([placed st1] & Ht & Ha). result_inv. simpl.
  destruct (try_subjects_Ok _ _ _ _ _ _ _ _ Ht) as [[-> Hp]|[-> ->]]; [left|right].
  - destruct Hp as (s0 & r0 & Hin%elem_of_shuffle & ?). by exists s0, r0.
  - split; [|done]. apply try_subjects_false in Ht.
    destruct Ht as [Hall|?]; [left|by right]. by apply shuffle_Forall in Hall.
Qed.

(** ** The loops *)

(** The three nested loops make the attempts of [attempts], in order. *)
Lemma batch_loop_flat days n rooms subjects batches st :
  batch_loop days n rooms subjects batches st
  = for_each (attempt_at rooms subjects) (attempts days n batches) st.
Proof.
  unfold batch_loop, attempts. rewrite for_each_bind.
  apply for_each_ext. intros batch s1 _.
  unfold day_loop. rewrite for_each_bind. apply for_each_ext. intros d s2 _.
  unfold slot_loop. by rewrite for_each_fmap.
Qed.

Lemma pass_gen_Ok rooms subjects l st st' :
  for_each (attempt_at rooms subjects) l st = Ok st' →
  pass_gen rooms subjects l st = gen st'.
Proof.
  revert st. induction l as [|a l IH]; intros st; simpl; [by intros [= ->]|].
  intros (st1 & -> & Hrest)%bind_Ok. by apply IH.
Qed.

(** A pass that returns leaves the generator of its last state. *)
Lemma allocate_gen_Ok days n batches subjects faculties rooms tt g st :
  allocate days n batches subjects faculties rooms tt g = Ok st →
  allocate_gen days n batches subjects faculties rooms tt g = gen st.
Proof. unfold allocate. rewrite batch_loop_flat. apply pass_gen_Ok. Qed.

Lemma pass_cur_Ok rooms subjects l st st' :
  for_each (attempt_at rooms subjects) l st = Ok st' →
  pass_cur rooms subjects l st = cur st'.
Proof.
  revert st. induction l as [|a l IH]; intros st; simpl; [by intros [= ->]|].
  intros (st1 & -> & Hrest)%bind_Ok. by apply IH.
Qed.

(** A pass that returns leaves the rows of its last state in the cursor. *)
Lemma allocate_cur_Ok days n batches subjects faculties rooms tt g st :
  allocate days n batches subjects faculties rooms tt g = Ok st →
  allocate_cur days n batches subjects faculties rooms tt g = cur st.
Proof. unfold allocate. rewrite batch_loop_flat. apply pass_cur_Ok. Qed.

Lemma elem_of_attempts days n (batches : list batch_row) batch day slot :
  (batch, day, slot) ∈ attempts days n batches ↔
  batch ∈ batches ∧ day ∈ days ∧ (slot < n)%nat.
Proof.
  unfold attempts. rewrite list_elem_of_bind. setoid_rewrite list_elem_of_bind.
  setoid_rewrite list_elem_of_fmap. setoid_rewrite elem_of_seq. split.
  - intros (b & (d & (s & [= -> -> ->] & ?) & ?) & ?). auto with lia.
  - intros (? & ? & ?). exists batch. split; [|done]. exists day. split; [|done].
    exists slot. auto with lia.
Qed.

Lemma attempts_app days n (batches1 batches2 : list batch_row) :
  attempts days n (batches1 ++ batches2)
  = attempts days n batches1 ++ attempts days n batches2.
Proof. unfold attempts. apply bind_app. Qed.

Lemma attempts_length days n (batches : list batch_row) :
  length (attempts days n batches) = (length batches * length days * n)%nat.
Proof.
  unfold attempts. rewrite <- Nat.mul_assoc. apply length_bind_const. intros b.
  apply length_bind_const. intros d. by rewrite length_fmap, length_seq.
Qed.

End allocator.
