(* ===== verification/AllocInv.v ===== *)
(** * AllocInv: the invariant of the greedy pass

    The occupancy tables of [generate_timetable] are a cache of the rows
    written so far: a cell is set exactly when a row books it.  [tracks]
    states this for one table, [alloc_inv] for the state of the pass; every
    attempt preserves it, so the rows never book a faculty or a room twice.
    The file then derives the properties of a whole pass ([allocate]). *)

From stdpp Require Import base tactics option list strings gmap fin_maps.
From S2P Require Import Prelude Database Shuffle Occupancy Allocator.

#[local] Open Scope Z_scope.

(** ** The shape of the tables, and what it excludes *)

Section shape_inv.
Context `{Shuffler}.
Variables (fac_ids rooms days : list string) (n : nat).
Implicit Types (st : alloc_state) (day : string) (slot : nat).

Definition shape_inv (st : alloc_state) : Prop :=
  occ_shape fac_ids days n (global_fac_slot st) ∧
  occ_shape rooms days n (global_room_slot st).

Lemma shape_inv_place batch day slot subject room st st' :
  shape_inv st → place batch day slot subject room st = Ok st' → shape_inv st'.
Proof.
  intros [] (fs & rs & ? & ? & ->)%place_Ok. split; simpl; eauto with py.
Qed.

Lemma shape_inv_attempt subjects batch day slot st st' :
  shape_inv st → attempt rooms subjects batch day slot st = Ok st' → shape_inv st'.
Proof.
  intros Hs [(? & ? & _ & _ & _ & _ & Hp)|[_ ->]]%attempt_Ok; [|done].
  by eapply shape_inv_place in Hp.
Qed.

(** Inside the grid the search for a free room cannot raise, and what it
    finds is a room of the list whose cell is free. *)
Lemma free_room_total day slot st :
  shape_inv st → day ∈ days → (slot < n)%nat →
  ∃ fr, free_room rooms (global_room_slot st) day slot = Ok fr ∧
    ∀ room, fr = Some room →
      room ∈ rooms ∧ occ_cell (global_room_slot st) room day slot = Some false.
Proof.
  intros [_ Hrs] Hday Hslot.
  destruct (free_room_is_ok rooms (global_room_slot st) day slot) as [fr Hfr].
  { apply Forall_forall. intros room Hroom.
    by apply (occ_shape_cell rooms days n). }
  exists fr. split; [done|]. intros room ->.
  apply free_room_Some in Hfr as (pre & post & -> & _ & ?). set_solver.
Qed.

Lemma place_total batch day slot subject room st :
  is_Some (occ_cell (global_fac_slot st) (faculty_id subject) day slot) →
  is_Some (occ_cell (global_room_slot st) room day slot) →
  is_ok (place batch day slot subject room st).
Proof.
  intros [fs Hfs]%occ_mark_is_ok [rs Hrs]%occ_mark_is_ok.
  eexists. apply place_Ok. eauto.
Qed.

(** The only exception of the subject loop is the [KeyError] of a subject
    whose faculty is not a key of the faculty table. *)
Lemma try_subjects_Raise batch day slot subs st e :
  shape_inv st → day ∈ days → (slot < n)%nat →
  try_subjects rooms batch day slot subs st = Raise e →
  ∃ subject, subject ∈ subs ∧ faculty_id subject ∉ fac_ids ∧
    e = KeyError (faculty_id subject).
Proof.
  intros Hs Hday Hslot.
  destruct (free_room_total day slot st) as (fr & Hfr & Hroom); [done..|].
  induction subs as [|subject subs IH]; simpl; [done|].
  assert (try_subjects rooms batch day slot subs st = Raise e →
    ∃ subject0, subject0 ∈ subject :: subs ∧ faculty_id subject0 ∉ fac_ids ∧
      e = KeyError (faculty_id subject0)) as Hrest.
  { intros (s0 & ? & ?)%IH. exists s0. split; [by right|done]. }
  rewrite Hfr. simpl. destruct fr as [room|]; [|done].
  destruct (Hroom room) as [_ Hcell]; [done|].
  destruct (truthy room); [|done].
  intros [Hb|([] & Hb & Ht)]%bind_Raise; [|by auto|].
  - apply (occ_busy_Raise fac_ids days n) in Hb as [? ->]; [|by destruct Hs|done..].
    exists subject. split; [by left|done].
  - apply occ_busy_Ok in Hb.
    destruct (place_total batch day slot subject room st) as [st' Hp]; [by eauto..|].
    rewrite Hp in Ht. done.
Qed.

Lemma attempt_Raise subjects batch day slot st e :
  shape_inv st → day ∈ days → (slot < n)%nat →
  attempt rooms subjects batch day slot st = Raise e →
  ∃ subject, subject ∈ subjects ∧ faculty_id subject ∉ fac_ids ∧
    e = KeyError (faculty_id subject).
Proof.
  intros Hs Hday Hslot. unfold attempt.
  destruct (shuffle subjects (gen st)) as [subs g] eqn:Hsh.
  intros [Ht|([] & _ & ?)]%bind_Raise; [|done].
  apply try_subjects_Raise in Ht as (s0 & Hin & ?); [|done..].
  exists s0. split; [|done]. apply (f_equal fst) in Hsh. simpl in Hsh. subst subs.
  by apply elem_of_shuffle in Hin.
Qed.

(** When every subject's faculty is a key of the faculty table, an attempt
    inside the grid returns. *)
Lemma attempt_total subjects batch day slot st :
  Forall (λ subject, faculty_id subject ∈ fac_ids) subjects →
  shape_inv st → day ∈ days → (slot < n)%nat →
  ∃ st', attempt rooms subjects batch day slot st = Ok st' ∧ shape_inv st'.
Proof.
  intros Hrefs Hs Hday Hslot.
  destruct (attempt rooms subjects batch day slot st) as [st'|e] eqn:Ha.
  - eauto using shape_inv_attempt.
  - apply attempt_Raise in Ha as (s0 & Hin & Hnot & _); [|done..].
    rewrite Forall_forall in Hrefs. by apply Hrefs in Hin.
Qed.

(** *** The loops *)

Lemma shape_inv_attempt_at subjects a st st' :
  shape_inv st → attempt_at rooms subjects a st = Ok st' → shape_inv st'.
Proof. apply shape_inv_attempt. Qed.

(** The only exception of a pass is the [KeyError] of a subject whose
    faculty is not a key of the faculty table. *)
Lemma batch_loop_Raise subjects batches st e :
  shape_inv st → batch_loop days n rooms subjects batches st = Raise e →
  ∃ subject, subject ∈ subjects ∧ faculty_id subject ∉ fac_ids ∧
    e = KeyError (faculty_id subject).
Proof.
  intros Hs. rewrite batch_loop_flat. intros Hrun.
  apply (for_each_Raise shape_inv) in Hrun as ([[b d] s] & s1 & Hin & Hs1 & Ha);
    [|eauto using shape_inv_attempt_at..].
  apply elem_of_attempts in Hin as (_ & ? & ?). by eapply attempt_Raise.
Qed.

(** When every subject's faculty is a key of the faculty table, the pass
    returns. *)
Lemma batch_loop_total subjects batches st :
  Forall (λ subject, faculty_id subject ∈ fac_ids) subjects →
  shape_inv st → is_ok (batch_loop days n rooms subjects batches st).
Proof.
  intros Hrefs Hs. rewrite batch_loop_flat.
  destruct (for_each_is_ok shape_inv (attempt_at rooms subjects)
              (attempts days n batches) st) as (st' & ? & _); [|done|by exists st'].
  intros [[b d] s] s1 (_ & ? & ?)%elem_of_attempts Hs1. by apply attempt_total.
Qed.

End shape_inv.

(** ** An occupancy table tracks the rows written so far *)

(** [booked key rows id day slot]: some row books [id] at [day] and the
    0-based [slot] (rows store the slot 1-based). *)
Definition booked (key : timetable_row → string * string * Z)
    (rows : list timetable_row) (id day : string) (slot : nat) : Prop :=
  (id, day, Z.of_nat slot + 1) ∈ key <$> rows.

(** The table [t] tracks [rows] under [key]: a cell is set exactly when a
    row books it, and no two rows book the same cell. *)
Definition tracks (key : timetable_row → string * string * Z) (t : occ)
    (rows : list timetable_row) : Prop :=
  (∀ id day slot, occ_cell t id day slot = Some true ↔ booked key rows id day slot) ∧
  NoDup (key <$> rows).

Section tracks.
Context (key : timetable_row → string * string * Z).
Implicit Types (t : occ) (rows : list timetable_row) (row : timetable_row).

Lemma booked_snoc rows row id day slot :
  booked key (rows ++ [row]) id day slot ↔
  booked key rows id day slot ∨ key row = (id, day, Z.of_nat slot + 1).
Proof.
  unfold booked. rewrite fmap_app, elem_of_app. simpl.
  rewrite list_elem_of_singleton. naive_solver.
Qed.

Lemma tracks_init ids days n : tracks key (occ_init ids days n) [].
Proof.
  split; [|apply NoDup_nil_2]. intros id day slot. rewrite occ_init_cell.
  unfold booked. simpl. rewrite elem_of_nil. case_decide; naive_solver.
Qed.

(** Marking a free cell and writing a row that books it keeps the table
    tracking the rows. *)
Lemma tracks_mark t rows row id day slot t' :
  tracks key t rows →
  occ_cell t id day slot = Some false →
  occ_mark t id day slot = Ok t' →
  key row = (id, day, Z.of_nat slot + 1) →
  tracks key t' (rows ++ [row]).
Proof.
  intros [Hcell Hnd] Hfree Hmark Hkey. split.
  - intros id' day' slot'. rewrite booked_snoc, (occ_mark_cell _ _ _ _ _ _ _ _ Hmark), Hkey.
    case_decide as Hd.
    + destruct Hd as (-> & -> & ->). naive_solver.
    + rewrite Hcell. split; [by left|]. intros [?|[=]]; [done|].
      destruct Hd. split_and!; [done..|lia].
  - rewrite fmap_app. apply NoDup_app. split_and!; [done| |apply NoDup_singleton].
    intros k Hk ->%list_elem_of_singleton. rewrite Hkey in Hk.
    apply Hcell in Hk. congruence.
Qed.

(** Writing a row whose key is another table's leaves this table's cells
    as they are: the row must still not clash under [key]. *)
Lemma tracks_busy t rows id day slot :
  tracks key t rows → booked key rows id day slot → occ_cell t id day slot = Some true.
Proof. intros [Hcell _]. apply Hcell. Qed.

End tracks.

(** ** The invariant of the pass *)

Section alloc_inv.
Context `{Shuffler}.
Variables (fac_ids rooms days : list string) (n : nat).
Implicit Types (st : alloc_state) (day : string) (slot : nat).

Record alloc_inv (st : alloc_state) : Prop := AllocInv {
  inv_shape : shape_inv fac_ids rooms days n st;
  inv_fac_tracks : tracks fac_key (global_fac_slot st) (tt_rows (cur st));
  inv_room_tracks : tracks room_key (global_room_slot st) (tt_rows (cur st))
}.

(** The faculty of a stored row is a key of the faculty table. *)
Lemma alloc_inv_row_faculty st row slot :
  alloc_inv st → row ∈ tt_rows (cur st) → t_slot row = Z.of_nat slot + 1 →
  t_faculty_id row ∈ fac_ids.
Proof.
  intros [[Hfs _] [Hbusy _] _] Hrow Hslot.
  eapply (occ_shape_cell _ days n _ _ (t_day row) slot); [done|].
  exists true. apply Hbusy. unfold booked. rewrite <- Hslot.
  by apply (list_elem_of_fmap_2 fac_key).
Qed.

Lemma alloc_inv_placement batch day slot subjects st st' :
  alloc_inv st → placement rooms batch day slot subjects st st' → alloc_inv st'.
Proof.
  intros [] (subject & room & _ & Hfr & _ & Hfac & Hp).
  apply free_room_Some in Hfr as (_ & _ & _ & _ & Hroom).
  split; [by eapply shape_inv_place|..];
    apply place_Ok in Hp as (fs & rs & Hfs & Hrs & ->); simpl;
    eauto using tracks_mark.
Qed.

Lemma alloc_inv_attempt subjects a st st' :
  alloc_inv st → attempt_at rooms subjects a st = Ok st' → alloc_inv st'.
Proof.
  intros Hinv [Hp|[_ ->]]%attempt_Ok; [|by destruct Hinv].
  eapply alloc_inv_placement; [|done]. by destruct Hinv.
Qed.

Lemma alloc_inv_batch_loop subjects batches st st' :
  alloc_inv st → batch_loop days n rooms subjects batches st = Ok st' →
  alloc_inv st'.
Proof.
  rewrite batch_loop_flat. intros Hinv.
  apply for_each_inv; eauto using alloc_inv_attempt.
Qed.

End alloc_inv.

(** ** A whole pass *)

Section allocate.
Context `{Shuffler}.
Variables (days : list string) (n : nat).

Lemma shape_inv_init faculties rooms tt g :
  shape_inv (dict_keys faculties) rooms days n (alloc_init days n faculties rooms tt g).
Proof. split; apply occ_init_shape. Qed.

Lemma alloc_inv_init faculties rooms tt g :
  tt_rows tt = [] →
  alloc_inv (dict_keys faculties) rooms days n (alloc_init days n faculties rooms tt g).
Proof.
  intros Hrows. split; [apply shape_inv_init|..]; simpl; rewrite Hrows;
    apply tracks_init.
Qed.

Lemma allocate_inv batches subjects faculties rooms tt g st :
  tt_rows tt = [] →
  allocate days n batches subjects faculties rooms tt g = Ok st →
  alloc_inv (dict_keys faculties) rooms days n st.
Proof. intros Hrows. by apply alloc_inv_batch_loop, alloc_inv_init. Qed.

Lemma allocate_Raise batches subjects faculties rooms tt g e :
  allocate days n batches subjects faculties rooms tt g = Raise e →
  ∃ subject, subject ∈ subjects ∧ faculty_id subject ∉ dict_keys faculties ∧
    e = KeyError (faculty_id subject).
Proof.
  intros Hrun. eapply batch_loop_Raise; [|exact Hrun]. apply shape_inv_init.
Qed.

Lemma allocate_total batches subjects faculties rooms tt g :
  Forall (λ subject, faculty_id subject ∈ dict_keys faculties) subjects →
  is_ok (allocate days n batches subjects faculties rooms tt g).
Proof.
  intros Hrefs. eapply batch_loop_total; [exact Hrefs|apply shape_inv_init].
Qed.

End allocate.
