(* ===== verification/AllocTrace.v ===== *)
(** * AllocTrace: the rows and the counter along a pass

    What one attempt does to the rows and to [unscheduled], and the
    invariant of the pass indexed by the attempts made so far: the rows
    answer a subsequence of the attempts, rows and counter add up to the
    number of attempts, entry ids continue the sequence, and every row
    names a room and a subject of the input. *)

From stdpp Require Import base tactics option list strings gmap fin_maps.
From S2P Require Import Prelude Database Shuffle Occupancy Allocator AllocInv.

#[local] Open Scope Z_scope.

(** ** The outcome of one attempt, on the rows and the counter *)

(** The key of an attempt, as the rows store it. *)
Definition attempt_key (a : batch_row * string * nat) : string * string * Z :=
  (batch_id a.1.1, a.1.2, Z.of_nat a.2 + 1).

Section outcome.
Context `{Shuffler}.
Implicit Types (st : alloc_state) (rooms : list string)
  (subjects : list subject_row) (row : timetable_row).

(** [row] is what an attempt for [batch], [day], [slot] writes: it names a
    subject of the list with its faculty, and a room of the list with a
    non-empty id. *)
Definition placed_row rooms subjects (batch : batch_row) (day : string)
    (slot : nat) row : Prop :=
  t_batch_id row = batch_id batch ∧ t_day row = day ∧
  t_slot row = Z.of_nat slot + 1 ∧
  t_room_id row ∈ rooms ∧ truthy (t_room_id row) = true ∧
  ∃ subject, subject ∈ subjects ∧ t_subject_id row = sub_id subject ∧
    t_faculty_id row = faculty_id subject.

Lemma placement_outcome rooms batch day slot subjects st st' :
  placement rooms batch day slot subjects st st' →
  ∃ row, placed_row rooms subjects batch day slot row ∧
    entry_id row = tt_seq (cur st) + 1 ∧
    cur st' = {| tt_rows := tt_rows (cur st) ++ [row]; tt_seq := tt_seq (cur st) + 1 |} ∧
    unscheduled st' = unscheduled st.
Proof.
  intros (subject & room & Hin & Hfr & Htr & _ & Hp).
  apply free_room_Some in Hfr as (pre & post & -> & _).
  apply place_Ok in Hp as (fs & rs & _ & _ & ->).
  exists (TimetableRow (tt_seq (cur st) + 1) (batch_id batch) day (Z.of_nat slot + 1)
            (sub_id subject) (faculty_id subject) room).
  split_and!; [|done..]. repeat split; simpl; [set_solver|done|eauto].
Qed.

(** An attempt either appends one row for its batch, day and slot and
    leaves the counter, or leaves the rows and adds one to the counter. *)
Lemma attempt_outcome rooms subjects batch day slot st st' :
  attempt rooms subjects batch day slot st = Ok st' →
  (∃ row, placed_row rooms subjects batch day slot row ∧
     entry_id row = tt_seq (cur st) + 1 ∧
     cur st' = {| tt_rows := tt_rows (cur st) ++ [row]; tt_seq := tt_seq (cur st) + 1 |} ∧
     unscheduled st' = unscheduled st) ∨
  (cur st' = cur st ∧ unscheduled st' = unscheduled st + 1).
Proof.
  intros [Hp|[_ ->]]%attempt_Ok; [left|by right].
  by apply placement_outcome in Hp.
Qed.

End outcome.

(** ** The trace of a pass *)

Section trace.
Context `{Shuffler}.
Implicit Types (st : alloc_state) (rooms : list string)
  (subjects : list subject_row) (row : timetable_row)
  (pre : list (batch_row * string * nat)).

(** The references of a row: a room of the list with a non-empty id, and a
    subject of the list with its faculty. *)
Definition row_refs rooms subjects row : Prop :=
  t_room_id row ∈ rooms ∧ truthy (t_room_id row) = true ∧
  ∃ subject, subject ∈ subjects ∧ t_subject_id row = sub_id subject ∧
    t_faculty_id row = faculty_id subject.

(** What holds of the state after the attempts [pre], starting from an
    empty timetable whose sequence stood at [seq0]. *)
Record trace_inv (seq0 : Z) rooms subjects pre st : Prop := TraceInv {
  trace_keys : sublist (batch_key <$> tt_rows (cur st)) (attempt_key <$> pre);
  trace_count :
    Z.of_nat (length (tt_rows (cur st))) + unscheduled st = Z.of_nat (length pre);
  trace_unscheduled : 0 ≤ unscheduled st;
  trace_seq : tt_seq (cur st) = seq0 + Z.of_nat (length (tt_rows (cur st)));
  trace_ids :
    entry_id <$> tt_rows (cur st)
    = (λ i : nat, seq0 + Z.of_nat (S i)) <$> seq 0 (length (tt_rows (cur st)));
  trace_refs : Forall (row_refs rooms subjects) (tt_rows (cur st))
}.

Lemma trace_inv_init days n faculties rooms subjects tt g :
  tt_rows tt = [] →
  trace_inv (tt_seq tt) rooms subjects [] (alloc_init days n faculties rooms tt g).
Proof. intros Hrows. split; simpl; rewrite ?Hrows; simpl; auto with lia. Qed.

Lemma trace_inv_attempt seq0 rooms subjects pre a st st' :
  trace_inv seq0 rooms subjects pre st →
  attempt_at rooms subjects a st = Ok st' →
  trace_inv seq0 rooms subjects (pre ++ [a]) st'.
Proof.
  intros [Hkeys Hcount Hun Hseq Hids Hrefs] Ha.
  apply attempt_outcome in Ha as [(row & Hrow & Hid & Hcur & Hu)|[Hcur Hu]];
    rewrite ?fmap_app, ?length_app; simpl.
  - destruct Hrow as (Hb & Hd & Hs & Href).
    split; rewrite ?Hcur, ?Hu; simpl; rewrite ?fmap_app, ?length_app; simpl.
    + apply sublist_app; [done|]. unfold batch_key, attempt_key.
      by rewrite Hb, Hd, Hs.
    + lia.
    + done.
    + lia.
    + rewrite Nat.add_1_r, seq_S, fmap_app, <- Hids. simpl. do 2 f_equal. lia.
    + apply Forall_app. split; [done|]. by apply Forall_singleton.
  - split; rewrite ?Hcur, ?Hu; rewrite ?fmap_app, ?length_app; simpl;
      [by apply sublist_inserts_r|lia|lia|done..].
Qed.

Lemma allocate_trace days n batches subjects faculties rooms tt g st :
  tt_rows tt = [] →
  allocate days n batches subjects faculties rooms tt g = Ok st →
  trace_inv (tt_seq tt) rooms subjects (attempts days n batches) st.
Proof.
  intros Hrows. unfold allocate. rewrite batch_loop_flat.
  apply (for_each_inv_prefix (trace_inv (tt_seq tt) rooms subjects));
    eauto using trace_inv_attempt, trace_inv_init.
Qed.

End trace.

(** ** Consequences of the trace invariant *)

Section trace_facts.
Context `{Shuffler}.
Implicit Types (st : alloc_state) (rooms : list string)
  (subjects : list subject_row) (row : timetable_row)
  (pre : list (batch_row * string * nat)).

(** Distinct batch ids and distinct days make the attempts' keys distinct. *)
Lemma attempt_keys_NoDup days n (batches : list batch_row) :
  NoDup (batch_id <$> batches) → NoDup days →
  NoDup (attempt_key <$> attempts days n batches).
Proof.
  intros Hb Hd. apply NoDup_fmap_2_strong.
  - intros [[b d] s] [[b' d'] s'] (? & _)%elem_of_attempts (? & _)%elem_of_attempts.
    unfold attempt_key. simpl. intros [= Hid -> Hs].
    f_equal; [f_equal|lia]. by eapply NoDup_fmap_inj_on.
  - unfold attempts. apply NoDup_bind; [| |by eapply NoDup_fmap_1].
    + intros b b' [[? ?] ?] _ _ (? & (? & [= -> _ _] & _)%list_elem_of_fmap & _)%list_elem_of_bind
        (? & (? & [= -> _ _] & _)%list_elem_of_fmap & _)%list_elem_of_bind. done.
    + intros b _. apply NoDup_bind; [| |done].
      * intros d d' [[? ?] ?] _ _ (? & [= _ -> _] & _)%list_elem_of_fmap
          (? & [= _ -> _] & _)%list_elem_of_fmap. done.
      * intros d _. apply NoDup_fmap_2; [|apply NoDup_seq]. by intros ?? [=].
Qed.

(** Every row answers one of the attempts made. *)
Lemma trace_row_attempt seq0 rooms subjects pre st row :
  trace_inv seq0 rooms subjects pre st → row ∈ tt_rows (cur st) →
  ∃ a, a ∈ pre ∧ batch_key row = attempt_key a.
Proof.
  intros [Hkeys _ _ _ _ _] Hrow.
  assert (batch_key row ∈ attempt_key <$> pre) as (a & ? & ?)%list_elem_of_fmap; [|eauto].
  eapply elem_of_sublist; [|done]. by apply list_elem_of_fmap_2.
Qed.

(** Every row belongs to a batch of the list and lies in the grid. *)
Lemma trace_row_grid seq0 rooms subjects days n (batches : list batch_row) st row :
  trace_inv seq0 rooms subjects (attempts days n batches) st →
  row ∈ tt_rows (cur st) →
  t_batch_id row ∈ batch_id <$> batches ∧ t_day row ∈ days ∧
  ∃ slot : nat, (slot < n)%nat ∧ t_slot row = Z.of_nat slot + 1.
Proof.
  intros Htr Hrow.
  destruct (trace_row_attempt _ _ _ _ _ _ Htr Hrow) as ([[b day] slot] & Ha & Hkey).
  apply elem_of_attempts in Ha as (Hb & Hday & Hslot). injection Hkey as -> -> ->.
  split_and!; [by apply list_elem_of_fmap_2|done|eauto].
Qed.

(** The entry ids of the rows continue the sequence: they are distinct, above
    where the sequence stood, and not above where it stands. *)
Lemma trace_entry_ids seq0 rooms subjects pre st :
  trace_inv seq0 rooms subjects pre st →
  NoDup (entry_id <$> tt_rows (cur st)) ∧
  Forall (λ row, seq0 < entry_id row ≤ tt_seq (cur st)) (tt_rows (cur st)).
Proof.
  intros [_ _ _ Hseq Hids _]. split.
  - rewrite Hids. apply NoDup_fmap_2; [|apply NoDup_seq]. intros ???. lia.
  - apply Forall_forall. intros row Hrow.
    assert (entry_id row ∈ entry_id <$> tt_rows (cur st)) as Hid
      by by apply list_elem_of_fmap_2.
    rewrite Hids in Hid. apply list_elem_of_fmap in Hid as (i & -> & Hi).
    apply elem_of_seq in Hi. lia.
Qed.

End trace_facts.
