(* ===== verification/AllocEdge.v ===== *)
(** * AllocEdge: boundary behaviour of the greedy pass

    Runs that can place nothing (no room, or a first room whose id is the
    empty string), the capacity bound (the rows written are no more than
    the cells of the room table, nor of the faculty table), the pass that
    raises at its first attempt because no subject has a faculty, and the
    first row of a pass. *)

From stdpp Require Import base tactics option list strings gmap fin_maps.
From S2P Require Import Prelude Database Shuffle Occupancy Allocator AllocInv AllocTrace.

#[local] Open Scope Z_scope.

(** ** Runs that place nothing *)

(** The room list offers nothing: it is empty, or its first room has the
    empty id, which line 213 reads as "no free room". *)
Definition no_usable_room (rooms : list string) : Prop :=
  head rooms = None ∨ head rooms = Some ""%string.

#[export] Instance no_usable_room_dec rooms : Decision (no_usable_room rooms).
Proof. unfold no_usable_room. apply _. Defined.

Section blocked.
Context `{Shuffler}.
Variables (days : list string) (n : nat).
Implicit Types (st : alloc_state) (rooms : list string) (day : string) (slot : nat).

(** While the room table is as built, the search finds no room or the room
    with the empty id. *)
Lemma free_room_blocked rooms day slot :
  no_usable_room rooms → day ∈ days → (slot < n)%nat →
  ∃ fr, free_room rooms (occ_init rooms days n) day slot = Ok fr ∧
    (fr = None ∨ fr = Some ""%string).
Proof.
  intros [Hnil|Hempty] Hday Hslot; destruct rooms as [|room rooms]; simplify_eq/=;
    [by eauto..|].
  assert (occ_busy (occ_init ("" :: rooms) days n) "" day slot = Ok false) as ->.
  { apply occ_busy_Ok. rewrite occ_init_cell, decide_True; [done|].
    split_and!; [apply list_elem_of_here|done..]. }
  simpl. eauto.
Qed.

Lemma try_subjects_blocked rooms batch day slot subs st :
  (∃ fr, free_room rooms (global_room_slot st) day slot = Ok fr ∧
     (fr = None ∨ fr = Some ""%string)) →
  try_subjects rooms batch day slot subs st = Ok (false, st).
Proof.
  intros (fr & Hfr & Hcase). induction subs as [|subject subs IH]; simpl; [done|].
  rewrite Hfr. simpl. by destruct Hcase as [-> | ->].
Qed.

(** The invariant of such a run: the room table and the rows stay as they
    were at the start. *)
Definition blocked_inv rooms (tt : timetable_table) st : Prop :=
  global_room_slot st = occ_init rooms days n ∧ cur st = tt.

Lemma attempt_blocked rooms subjects tt batch day slot st :
  no_usable_room rooms → day ∈ days → (slot < n)%nat →
  blocked_inv rooms tt st →
  ∃ st', attempt rooms subjects batch day slot st = Ok st' ∧ blocked_inv rooms tt st'.
Proof.
  intros Hrooms Hday Hslot [Hrs Hcur]. unfold attempt.
  destruct (shuffle subjects (gen st)) as [subs g].
  rewrite try_subjects_blocked; [|simpl; rewrite Hrs; by apply free_room_blocked].
  simpl. eexists. split; [done|]. by split.
Qed.

(** A pass over rooms that offer nothing returns, writes no row, and counts
    every attempt as unscheduled, whatever the subjects and faculties. *)
Lemma allocate_blocked batches subjects faculties rooms tt g :
  no_usable_room rooms → tt_rows tt = [] →
  ∃ st, allocate days n batches subjects faculties rooms tt g = Ok st ∧
    cur st = tt ∧
    unscheduled st = Z.of_nat (length batches * length days * n).
Proof.
  intros Hrooms Hrows.
  destruct (for_each_is_ok (blocked_inv rooms tt) (attempt_at rooms subjects)
    (attempts days n batches) (alloc_init days n faculties rooms tt g))
    as (st & Hrun & _ & Hcur); [|done|].
  { intros [[b d] s] s1 (_ & ? & ?)%elem_of_attempts. by apply attempt_blocked. }
  rewrite <- batch_loop_flat in Hrun. exists st. split_and!; [done..|].
  apply allocate_trace in Hrun as [_ Hcount _ _ _ _]; [|done].
  rewrite Hcur, Hrows, attempts_length in Hcount. simpl in Hcount. lia.
Qed.

End blocked.

(** ** Capacity *)

(** The cells of a table over [ids], as the rows name them. *)
Definition grid (ids days : list string) (n : nat) : list (string * string * Z) :=
  id ← ids; day ← days; (λ slot : nat, (id, day, Z.of_nat slot + 1)) <$> seq 0 n.

Lemma grid_length ids days n : length (grid ids days n) = (length ids * length days * n)%nat.
Proof.
  unfold grid. rewrite <- Nat.mul_assoc. apply length_bind_const. intros id.
  apply length_bind_const. intros day. by rewrite length_fmap, length_seq.
Qed.

Lemma elem_of_grid ids days n id day (slot : nat) :
  id ∈ ids → day ∈ days → (slot < n)%nat → (id, day, Z.of_nat slot + 1) ∈ grid ids days n.
Proof.
  intros. unfold grid. apply list_elem_of_bind. exists id. split; [|done].
  apply list_elem_of_bind. exists day. split; [|done].
  apply list_elem_of_fmap. exists slot. split; [done|]. apply elem_of_seq. lia.
Qed.

(** Rows tracked by a table of shape [ids] x [days] x [n] are no more than
    its cells. *)
Lemma tracks_capacity key ids days n t rows :
  occ_shape ids days n t → tracks key t rows →
  Forall (λ row, ∃ slot : nat, (key row).2 = Z.of_nat slot + 1) rows →
  (length rows ≤ length ids * length days * n)%nat.
Proof.
  intros Hshape [Hcell Hnd] Hslots. rewrite <- grid_length, <- (length_fmap key).
  apply NoDup_length_le; [done|]. intros k (row & -> & Hrow)%list_elem_of_fmap.
  rewrite Forall_forall in Hslots. destruct (Hslots row Hrow) as [slot Hslot].
  destruct (key row) as [[id day] z] eqn:Hkey. simpl in Hslot. subst z.
  assert (is_Some (occ_cell t id day slot)) as Hsome.
  { exists true. apply Hcell. unfold booked. rewrite <- Hkey. by apply list_elem_of_fmap_2. }
  apply (occ_shape_cell ids days n) in Hsome as (? & ? & ?); [|done].
  by apply elem_of_grid.
Qed.

Section capacity.
Context `{Shuffler}.

(** A pass writes no more rows than the rooms have cells, nor than the
    faculty table has cells. *)
Lemma allocate_capacity days n batches subjects faculties rooms tt g st :
  tt_rows tt = [] →
  allocate days n batches subjects faculties rooms tt g = Ok st →
  (length (tt_rows (cur st)) ≤ length rooms * length days * n)%nat ∧
  (length (tt_rows (cur st)) ≤ length (dict_keys faculties) * length days * n)%nat.
Proof.
  intros Hrows Hrun.
  pose proof (allocate_inv _ _ _ _ _ _ _ _ _ Hrows Hrun) as [[Hfs Hrs] Hft Hrt].
  pose proof (allocate_trace _ _ _ _ _ _ _ _ _ Hrows Hrun) as Htr.
  assert (Forall (λ row, ∃ slot : nat, t_slot row = Z.of_nat slot + 1)
            (tt_rows (cur st))) as Hslots.
  { apply Forall_forall. intros row Hrow.
    destruct (trace_row_attempt _ _ _ _ _ _ Htr Hrow) as ([[? ?] slot] & _ & [= _ _ ?]).
    by exists slot. }
  split; eapply tracks_capacity; eauto.
Qed.

End capacity.

(** ** The first attempt when no subject has a faculty *)

Section unresolved.
Context `{Shuffler}.
Implicit Types (st : alloc_state) (rooms : list string) (day : string) (slot : nat).

(** The first room of a fresh room table is free. *)
Lemma free_room_init days n room rooms day slot :
  day ∈ days → (slot < n)%nat →
  free_room (room :: rooms) (occ_init (room :: rooms) days n) day slot = Ok (Some room).
Proof.
  intros Hday Hslot. simpl.
  assert (occ_busy (occ_init (room :: rooms) days n) room day slot = Ok false) as ->; [|done].
  apply occ_busy_Ok. rewrite occ_init_cell, decide_True; [done|].
  split_and!; [apply list_elem_of_here|done..].
Qed.

(** With a usable free room, the faculty of the first subject is looked up:
    a faculty id that is no key of the table raises. *)
Lemma try_subjects_KeyError rooms batch day slot subject rest st room :
  free_room rooms (global_room_slot st) day slot = Ok (Some room) →
  room ≠ ""%string → global_fac_slot st !! faculty_id subject = None →
  try_subjects rooms batch day slot (subject :: rest) st
  = Raise (KeyError (faculty_id subject)).
Proof.
  intros Hfr Hroom Hfac. simpl. rewrite Hfr. simpl.
  by rewrite (truthy_ne room Hroom), occ_busy_KeyError.
Qed.

(** On fresh tables with a usable first room, when no subject has a
    faculty, the attempt raises on the first subject the shuffle yields. *)
Lemma attempt_unresolved fac_ids days n room rooms subjects batch day slot tt g :
  day ∈ days → (slot < n)%nat → room ≠ ""%string → subjects ≠ [] →
  Forall (λ subject, faculty_id subject ∉ fac_ids) subjects →
  ∃ subject, subject ∈ subjects ∧
    attempt (room :: rooms) subjects batch day slot
      {| global_fac_slot := occ_init fac_ids days n;
         global_room_slot := occ_init (room :: rooms) days n;
         cur := tt; unscheduled := 0; gen := g |}
    = Raise (KeyError (faculty_id subject)).
Proof.
  intros Hday Hslot Hroom Hne Hall. unfold attempt. cbn [gen].
  pose proof (shuffle_perm subjects g) as Hperm.
  destruct (shuffle subjects g) as [[|subject rest] g'].
  { by apply Permutation_nil_l in Hperm. }
  assert (subject ∈ subjects) as Hin by (rewrite <- Hperm; apply list_elem_of_here).
  exists subject. split; [done|]. cbv beta iota.
  rewrite (try_subjects_KeyError _ _ _ _ _ _ _ room); [done|by apply free_room_init|done|].
  simpl. rewrite occ_init_lookup, decide_False; [done|].
  rewrite Forall_forall in Hall. by apply Hall.
Qed.

(** A pass with a batch, a usable first room, a day and a slot, in which no
    subject has a faculty, stops at its first attempt. *)
Lemma allocate_unresolved day days n batch batches subjects faculties room rooms tt g :
  (0 < n)%nat → room ≠ ""%string → subjects ≠ [] →
  Forall (λ subject, faculty_id subject ∉ dict_keys faculties) subjects →
  ∃ subject, subject ∈ subjects ∧
    allocate (day :: days) n (batch :: batches) subjects faculties (room :: rooms) tt g
    = Raise (KeyError (faculty_id subject)).
Proof.
  intros Hn Hroom Hne Hall.
  destruct (attempt_unresolved (dict_keys faculties) (day :: days) n room rooms
              subjects batch day 0 tt g) as (subject & Hin & Hraise);
    [apply list_elem_of_here|done..|].
  exists subject. split; [done|].
  unfold allocate, batch_loop, day_loop, slot_loop, alloc_init.
  destruct n as [|n]; [lia|]. simpl. by rewrite Hraise.
Qed.

End unresolved.

(** ** The first row of a pass *)

Section first_row.
Context `{Shuffler}.
Implicit Types (st : alloc_state) (rooms : list string) (day : string) (slot : nat).

(** An attempt whose shuffle puts [subject] first, with a usable free room
    and the faculty of [subject] free, stores a row for [subject]. *)
Lemma attempt_first rooms subjects batch day slot st st' subject rest room :
  (shuffle subjects (gen st)).1 = subject :: rest →
  free_room rooms (global_room_slot st) day slot = Ok (Some room) →
  room ≠ ""%string →
  occ_cell (global_fac_slot st) (faculty_id subject) day slot = Some false →
  attempt rooms subjects batch day slot st = Ok st' →
  cur st' = sql_insert_timetable (batch_id batch) day (Z.of_nat slot + 1)
              (sub_id subject) (faculty_id subject) room (cur st).
Proof.
  intros Hsh Hfr Hroom Hfac%occ_busy_Ok. unfold attempt.
  destruct (shuffle subjects (gen st)) as [subs g]. simpl in Hsh. subst subs.
  simpl. rewrite Hfr. simpl. rewrite (truthy_ne room Hroom), Hfac. simpl.
  intros Ha. apply bind_Ok in Ha as ([placed st1] & Hp & Ha).
  apply bind_Ok in Hp as (st2 & (fs & rs & _ & _ & ->)%place_Ok & Hp).
  by simplify_eq.
Qed.

(** Later attempts append rows: the first row stays. *)
Lemma attempt_at_head rooms subjects a st st' row :
  head (tt_rows (cur st)) = Some row → attempt_at rooms subjects a st = Ok st' →
  head (tt_rows (cur st')) = Some row.
Proof.
  intros Hhead [(r & _ & _ & -> & _)|[-> _]]%attempt_outcome; [|done]. simpl.
  by destruct (tt_rows (cur st)).
Qed.

(** The first row of a pass is for the subject the first shuffle puts
    first, in the first room, at the first cell of the first batch. *)
Lemma allocate_first_row day days n batch batches subjects faculties room rooms
    tt g st subject rest :
  (shuffle subjects g).1 = subject :: rest →
  faculty_id subject ∈ dict_keys faculties → room ≠ ""%string → (0 < n)%nat →
  tt_rows tt = [] →
  allocate (day :: days) n (batch :: batches) subjects faculties (room :: rooms) tt g
  = Ok st →
  head (tt_rows (cur st))
  = Some (TimetableRow (tt_seq tt + 1) (batch_id batch) day 1 (sub_id subject)
            (faculty_id subject) room).
Proof.
  intros Hsh Hfac Hroom Hn Hrows. unfold allocate. rewrite batch_loop_flat.
  destruct n as [|n]; [lia|].
  change (attempts (day :: days) (S n) (batch :: batches))
    with ((batch, day, 0%nat) ::
          (((λ s, (batch, day, s)) <$> seq 1 n) ++
           (d ← days; (λ s, (batch, d, s)) <$> seq 0 (S n))) ++
          attempts (day :: days) (S n) batches).
  simpl. intros Hrun. apply bind_Ok in Hrun as (st1 & Ha & Hrun).
  eapply (for_each_inv (λ st, head (tt_rows (cur st)) = Some _)) in Hrun;
    [done|eauto using attempt_at_head|].
  rewrite (attempt_first (room :: rooms) subjects batch day 0
             (alloc_init (day :: days) (S n) faculties (room :: rooms) tt g) st1
             subject rest room); [|done| |done| |done].
  - simpl. by rewrite Hrows.
  - apply (free_room_init (day :: days) (S n)); [apply list_elem_of_here|lia].
  - simpl. rewrite occ_init_cell, decide_True; [done|].
    split_and!; [done|apply list_elem_of_here|lia].
Qed.

End first_row.
