(* ===== verification/AllocCount.v ===== *)
(** * AllocCount: how many sessions the pass schedules

    The rows of one cell of the grid (a day and a slot) along a pass.  Every
    row of a cell uses a room and a faculty of its own, so a cell holds at
    most as many rows as there are rooms and as there are faculties teaching
    a subject; an attempt fails only when the cell has that many.  With
    distinct rooms whose ids are not empty, the number of rows of a cell is
    therefore a function of the input alone: the least of the number of
    batches, of rooms, and of teaching faculties. *)

From stdpp Require Import base tactics option list strings gmap fin_maps.
From S2P Require Import Prelude Database Shuffle Occupancy Allocator AllocInv AllocTrace.

#[local] Open Scope Z_scope.

(** ** Cells *)

(** The cell of a row: its day and its slot as stored. *)
Definition cell_key (row : timetable_row) : string * Z := (t_day row, t_slot row).

(** The cell of the 0-based [slot] of [day], as rows store it. *)
Definition cell_of (day : string) (slot : nat) : string * Z := (day, Z.of_nat slot + 1).

(** The rows of a cell. *)
Definition rows_at (k : string * Z) (rows : list timetable_row) : list timetable_row :=
  filter (λ row, cell_key row = k) rows.

(** The attempts made at a cell. *)
Definition attempts_at (k : string * Z) (pre : list (batch_row * string * nat))
  : list (batch_row * string * nat) :=
  filter (λ a, cell_of a.1.2 a.2 = k) pre.

(** The cells of the grid. *)
Definition cells (days : list string) (n : nat) : list (string * Z) :=
  d ← days; cell_of d <$> seq 0 n.

(** The faculty ids that teach a subject, each once. *)
Definition teaching (subjects : list subject_row) : list string :=
  remove_dups (faculty_id <$> subjects).

(** What a cell can hold. *)
Definition cell_capacity (rooms : list string) (subjects : list subject_row) : nat :=
  length rooms `min` length (teaching subjects).

(** ** Counting the rows of a cell by what they book *)

Section cell.
Variable (idf : timetable_row → string).
Implicit Types (rows : list timetable_row) (k : string * Z).

(** The rows of a cell book distinct ids when no two rows book the same id
    in the same cell. *)
Lemma rows_at_ids_NoDup rows k :
  NoDup ((λ row, (idf row, t_day row, t_slot row)) <$> rows) →
  NoDup (idf <$> rows_at k rows).
Proof.
  intros Hnd. apply (NoDup_fmap_1 (λ i, (i, k.1, k.2))).
  rewrite <- list_fmap_compose.
  eapply sublist_NoDup; [exact Hnd|].
  erewrite (list_fmap_ext _ (λ row, (idf row, t_day row, t_slot row)) (rows_at k rows)).
  - apply fmap_sublist, sublist_filter.
  - intros i row [<- _]%list_elem_of_lookup_2%list_elem_of_filter. done.
Qed.

Lemma rows_at_le rows k ids :
  NoDup ((λ row, (idf row, t_day row, t_slot row)) <$> rows) →
  (∀ row, row ∈ rows → idf row ∈ ids) →
  (length (rows_at k rows) ≤ length ids)%nat.
Proof.
  intros Hnd Hin. rewrite <- (length_fmap idf).
  apply NoDup_length_le; [by apply rows_at_ids_NoDup|].
  intros i (row & -> & [_ Hrow]%list_elem_of_filter)%list_elem_of_fmap. auto.
Qed.

Lemma rows_at_ge rows k ids :
  NoDup ids →
  (∀ i, i ∈ ids → (i, k.1, k.2) ∈ (λ row, (idf row, t_day row, t_slot row)) <$> rows) →
  (length ids ≤ length (rows_at k rows))%nat.
Proof.
  intros Hnd Hin. rewrite <- (length_fmap idf (rows_at k rows)).
  apply NoDup_length_le; [done|]. intros i Hi.
  apply Hin, list_elem_of_fmap in Hi as (row & [= -> Hd Hs] & Hrow).
  apply list_elem_of_fmap. exists row. split; [done|].
  apply list_elem_of_filter. split; [|done].
  unfold cell_key. rewrite <- Hd, <- Hs. by destruct k.
Qed.

End cell.

(** ** The pass *)

Section count.
Context `{Shuffler}.
Variables (fac_ids rooms days : list string) (n : nat)
  (subjects : list subject_row) (seq0 : Z).
Hypotheses (Hrooms : NoDup rooms) (Husable : Forall (λ r, r ≠ ""%string) rooms).
Implicit Types (st : alloc_state) (pre : list (batch_row * string * nat))
  (k : string * Z).

(** After the attempts [pre] a cell holds a row for each attempt made at it,
    up to its capacity. *)
Definition count_inv pre st : Prop :=
  ∀ k, length (rows_at k (tt_rows (cur st)))
       = (length (attempts_at k pre) `min` cell_capacity rooms subjects)%nat.

Record pass_inv pre st : Prop := PassInv {
  pass_alloc : alloc_inv fac_ids rooms days n st;
  pass_trace : trace_inv seq0 rooms subjects pre st;
  pass_count : count_inv pre st
}.

(** A cell never holds more than its capacity. *)
Lemma rows_at_capacity pre st k :
  alloc_inv fac_ids rooms days n st → trace_inv seq0 rooms subjects pre st →
  (length (rows_at k (tt_rows (cur st))) ≤ cell_capacity rooms subjects)%nat.
Proof.
  intros [_ [_ Hfac] [_ Hroom]] [_ _ _ _ _ Hrefs]. rewrite Forall_forall in Hrefs.
  apply Nat.min_glb.
  - apply (rows_at_le t_room_id); [done|]. intros row Hrow. by apply Hrefs.
  - apply (rows_at_le t_faculty_id); [done|]. intros row Hrow.
    destruct (Hrefs row Hrow) as (_ & _ & subject & ? & _ & ->).
    by apply elem_of_remove_dups, list_elem_of_fmap_2.
Qed.

(** An attempt fails only at a cell that is full. *)
Lemma exhausted_full st st0 day slot :
  alloc_inv fac_ids rooms days n st →
  global_fac_slot st0 = global_fac_slot st →
  global_room_slot st0 = global_room_slot st →
  exhausted rooms day slot subjects st0 →
  (cell_capacity rooms subjects
   ≤ length (rows_at (cell_of day slot) (tt_rows (cur st))))%nat.
Proof.
  intros [_ [Hfac _] [Hroom _]] Hf Hr Hex. unfold cell_capacity, exhausted in *.
  rewrite Hf, Hr in Hex.
  destruct Hex as [Hbusy|[Hnone%free_room_None|(room & Hsome & Hfalse)]].
  - etrans; [apply Nat.le_min_r|]. apply (rows_at_ge t_faculty_id);
      [apply NoDup_remove_dups|].
    intros i (subject & -> & Hin)%elem_of_remove_dups%list_elem_of_fmap.
    rewrite Forall_forall in Hbusy. by apply Hfac, Hbusy.
  - etrans; [apply Nat.le_min_l|]. apply (rows_at_ge t_room_id); [done|].
    intros i Hi. rewrite Forall_forall in Hnone. by apply Hroom, Hnone.
  - apply free_room_Some in Hsome as (l1 & l2 & Heq & _).
    rewrite Forall_forall in Husable.
    rewrite truthy_ne in Hfalse; [done|]. apply Husable. rewrite Heq. set_solver.
Qed.

Lemma attempts_at_snoc k pre a :
  attempts_at k (pre ++ [a])
  = attempts_at k pre ++ (if decide (cell_of a.1.2 a.2 = k) then [a] else []).
Proof. unfold attempts_at. by rewrite filter_app, filter_cons, filter_nil. Qed.

Lemma rows_at_snoc k rows row :
  rows_at k (rows ++ [row])
  = rows_at k rows ++ (if decide (cell_key row = k) then [row] else []).
Proof. unfold rows_at. by rewrite filter_app, filter_cons, filter_nil. Qed.

(** One attempt keeps the invariant. *)
Lemma pass_inv_attempt pre a st st' :
  pass_inv pre st → attempt_at rooms subjects a st = Ok st' →
  pass_inv (pre ++ [a]) st'.
Proof.
  intros [Hinv Htr Hcount] Ha.
  assert (alloc_inv fac_ids rooms days n st') as Hinv' by by eapply alloc_inv_attempt.
  assert (trace_inv seq0 rooms subjects (pre ++ [a]) st') as Htr'
    by by eapply trace_inv_attempt.
  split; [done..|]. intros k. rewrite attempts_at_snoc, length_app.
  pose proof (rows_at_capacity _ _ k Hinv' Htr') as Hcap. specialize (Hcount k).
  destruct a as [[batch day] slot]. unfold attempt_at in Ha. simpl in *.
  pose proof Ha as [Hp|[Hex Hst]]%attempt_Ok.
  - apply placement_outcome in Hp as (row & (_ & Hd & Hs & _) & _ & Hcur & _).
    simpl in Hcur. rewrite Hcur in Hcap |- *. simpl in *.
    rewrite rows_at_snoc, length_app in Hcap |- *.
    unfold cell_key, cell_of in *. rewrite Hd, Hs in Hcap |- *.
    case_decide; simpl in *; lia.
  - eapply (exhausted_full st) in Hex; [|done..]. rewrite Hst. simpl.
    case_decide; simplify_eq; simpl; lia.
Qed.

End count.

(** ** The cells of the grid *)

Lemma elem_of_cells days n k :
  k ∈ cells days n ↔ ∃ day slot, k = cell_of day slot ∧ day ∈ days ∧ (slot < n)%nat.
Proof.
  unfold cells. rewrite list_elem_of_bind. setoid_rewrite list_elem_of_fmap.
  setoid_rewrite elem_of_seq. split.
  - intros (day & (slot & -> & ?) & ?). exists day, slot. auto with lia.
  - intros (day & slot & -> & ? & ?). exists day. split; [|done].
    exists slot. auto with lia.
Qed.

Lemma cells_NoDup days n : NoDup days → NoDup (cells days n).
Proof.
  intros Hd. unfold cells. apply NoDup_bind; [| |done].
  - intros d d' k _ _ (? & -> & _)%list_elem_of_fmap (? & [= -> _] & _)%list_elem_of_fmap.
    done.
  - intros d _. apply NoDup_fmap_2; [|apply NoDup_seq]. intros ?? [= ?]. lia.
Qed.

Lemma cells_length days n : length (cells days n) = (length days * n)%nat.
Proof.
  unfold cells. apply length_bind_const. intros d. by rewrite length_fmap, length_seq.
Qed.

(** The attempts of one batch are at the cells of the grid, one each. *)
Lemma attempts_cells days n (batch : batch_row) :
  (λ a : batch_row * string * nat, cell_of a.1.2 a.2)
    <$> (d ← days; (λ s, (batch, d, s)) <$> seq 0 n)
  = cells days n.
Proof.
  unfold cells. induction days as [|d days IH]; [done|].
  rewrite !bind_cons, fmap_app, IH. f_equal. by rewrite <- list_fmap_compose.
Qed.

(** Every batch makes one attempt at each cell of the grid. *)
Lemma attempts_at_length days n (batches : list batch_row) day slot :
  NoDup days → day ∈ days → (slot < n)%nat →
  length (attempts_at (cell_of day slot) (attempts days n batches)) = length batches.
Proof.
  intros Hnd Hday Hslot. unfold attempts, attempts_at.
  induction batches as [|batch batches IH]; [done|].
  rewrite bind_cons, filter_app, length_app, IH. simpl. f_equal.
  rewrite (filter_key_NoDup (λ a : batch_row * string * nat, cell_of a.1.2 a.2)
             _ (batch, day, slot)); [done| |].
  - rewrite attempts_cells. by apply cells_NoDup.
  - apply list_elem_of_bind. exists day. split; [|done].
    apply list_elem_of_fmap. exists slot. split; [done|]. apply elem_of_seq. lia.
Qed.

(** ** The count of a pass *)

Section allocate_count.
Context `{Shuffler}.

Lemma allocate_pass_inv days n batches subjects faculties rooms tt g st :
  NoDup rooms → Forall (λ r, r ≠ ""%string) rooms → tt_rows tt = [] →
  allocate days n batches subjects faculties rooms tt g = Ok st →
  pass_inv (dict_keys faculties) rooms days n subjects (tt_seq tt)
    (attempts days n batches) st.
Proof.
  intros Hnd Husable Hrows. unfold allocate. rewrite batch_loop_flat.
  apply (for_each_inv_prefix
           (pass_inv (dict_keys faculties) rooms days n subjects (tt_seq tt))).
  - intros pre a s1 s2 _. by apply pass_inv_attempt.
  - split; [by apply alloc_inv_init|by apply trace_inv_init|].
    intros k. simpl. by rewrite Hrows.
Qed.

(** The rows of each cell of the grid: as many as batches, rooms and
    teaching faculties allow. *)
Lemma allocate_cell_count days n batches subjects faculties rooms tt g st day slot :
  NoDup rooms → Forall (λ r, r ≠ ""%string) rooms → tt_rows tt = [] → NoDup days →
  allocate days n batches subjects faculties rooms tt g = Ok st →
  day ∈ days → (slot < n)%nat →
  length (rows_at (cell_of day slot) (tt_rows (cur st)))
  = (length batches `min` cell_capacity rooms subjects)%nat.
Proof.
  intros Hnd Husable Hrows Hdays Hrun Hday Hslot.
  apply allocate_pass_inv in Hrun as [_ _ Hcount]; [|done..].
  by rewrite Hcount, attempts_at_length.
Qed.

(** The rows of a pass: the cells of the grid times what a cell holds. *)
Lemma allocate_count days n batches subjects faculties rooms tt g st :
  NoDup rooms → Forall (λ r, r ≠ ""%string) rooms → tt_rows tt = [] → NoDup days →
  allocate days n batches subjects faculties rooms tt g = Ok st →
  length (tt_rows (cur st))
  = (length days * n * (length batches `min` cell_capacity rooms subjects))%nat.
Proof.
  intros Hnd Husable Hrows Hdays Hrun.
  pose proof (allocate_trace _ _ _ _ _ _ _ _ _ Hrows Hrun) as Htr.
  rewrite (length_filter_keys cell_key (cells days n)), <- cells_length.
  - apply sum_list_with_const. intros k (day & slot & -> & ? & ?)%elem_of_cells.
    by eapply allocate_cell_count.
  - by apply cells_NoDup.
  - intros row Hrow.
    destruct (trace_row_grid _ _ _ _ _ _ _ _ Htr Hrow) as (_ & ? & slot & ? & Hs).
    apply elem_of_cells. exists (t_day row), slot. unfold cell_key, cell_of.
    by rewrite Hs.
Qed.

End allocate_count.
