(* ===== verification/Spec.v ===== *)
(** * Spec: the allocator as the specification states it

    The algorithm of section 4.1 of the specification, over the data model
    of its section 3: two occupancy tables as sets of busy (id, day, slot)
    cells, the entries produced so far and the count of unscheduled
    attempts.  Nothing here raises: the specification assumes that every
    subject's faculty resolves, and it has no notion of a room id that is
    tested for truth.  [Refine] relates this model to the code. *)

From stdpp Require Import base tactics option list strings gmap fin_maps.
From S2P Require Import Prelude Database Shuffle.

#[local] Open Scope Z_scope.

(** ** Data *)

(** A timetable entry: batch, day, 1-based slot, subject, faculty, room. *)
Record entry : Type := Entry {
  e_batch : string;
  e_day : string;
  e_slot : Z;
  e_subject : string;
  e_faculty : string;
  e_room : string
}.

#[export] Instance entry_eq_dec : EqDecision entry.
Proof. solve_decision. Defined.

(** An occupancy table: the cells (id, day, 0-based slot) that are busy. *)
Abbreviation busy := (gset (string * string * nat)).

Section spec.
Context `{Shuffler}.

Record spec_state : Type := SpecState {
  faculty_busy : busy;
  room_busy : busy;
  entries : list entry;
  unscheduled_count : Z;
  spec_gen : rng
}.

(** ** The algorithm *)

(** Step 1: both tables all free. *)
Definition spec_init (g : rng) : spec_state :=
  {| faculty_busy := ∅; room_busy := ∅; entries := []; unscheduled_count := 0;
     spec_gen := g |}.

(** Step 3b: the first room, in the order of the room list, that is free in
    the cell. *)
Definition spec_free_room (rooms : list string) (b : busy) (day : string)
    (slot : nat) : option string :=
  head (filter (λ room, (room, day, slot) ∉ b) rooms).

(** Step 3b: the first subject, in the shuffled order, whose faculty is free
    in the cell. *)
Definition spec_candidate (b : busy) (day : string) (slot : nat)
    (shuffled : list subject_row) : option subject_row :=
  head (filter (λ subject, (faculty_id subject, day, slot) ∉ b) shuffled).

(** Step 3b: the placement: both cells busy, one more entry. *)
Definition spec_place (batch : batch_row) (day : string) (slot : nat)
    (subject : subject_row) (room : string) (g : rng) (σ : spec_state) : spec_state :=
  {| faculty_busy := {[ (faculty_id subject, day, slot) ]} ∪ faculty_busy σ;
     room_busy := {[ (room, day, slot) ]} ∪ room_busy σ;
     entries := entries σ ++ [Entry (batch_id batch) day (Z.of_nat slot + 1)
                                (sub_id subject) (faculty_id subject) room];
     unscheduled_count := unscheduled_count σ;
     spec_gen := g |}.

(** Step 3c: the attempt is unschedulable. *)
Definition spec_skip (g : rng) (σ : spec_state) : spec_state :=
  {| faculty_busy := faculty_busy σ; room_busy := room_busy σ;
     entries := entries σ; unscheduled_count := unscheduled_count σ + 1;
     spec_gen := g |}.

(** Step 3: one attempt. *)
Definition spec_attempt (rooms : list string) (subjects : list subject_row)
    (batch : batch_row) (day : string) (slot : nat) (σ : spec_state) : spec_state :=
  let shuffled := shuffle subjects (spec_gen σ) in
  match spec_free_room rooms (room_busy σ) day slot,
        spec_candidate (faculty_busy σ) day slot shuffled.1 with
  | Some room, Some subject => spec_place batch day slot subject room shuffled.2 σ
  | _, _ => spec_skip shuffled.2 σ
  end.

(** Steps 2 and 4: batches in input order, days in declared order, slots
    ascending. *)
Definition spec_generate (days : list string) (n : nat) (batches : list batch_row)
    (subjects : list subject_row) (rooms : list string) (g : rng) : spec_state :=
  foldl (λ σ batch,
    foldl (λ σ day,
      foldl (λ σ slot, spec_attempt rooms subjects batch day slot σ) σ (seq 0 n))
      σ days)
    (spec_init g) batches.

(** ** What the specification's algorithm guarantees *)

(** The cells the entries book. *)
Definition booked_cells (who : entry → string) (es : list entry) : list (string * string * Z) :=
  (λ e, (who e, e_day e, e_slot e)) <$> es.

(** The tables hold exactly the cells the entries book, no cell twice. *)
Record spec_inv (σ : spec_state) : Prop := SpecInv {
  spec_fac : ∀ id day slot,
    (id, day, slot) ∈ faculty_busy σ ↔
    (id, day, Z.of_nat slot + 1) ∈ booked_cells e_faculty (entries σ);
  spec_room : ∀ id day slot,
    (id, day, slot) ∈ room_busy σ ↔
    (id, day, Z.of_nat slot + 1) ∈ booked_cells e_room (entries σ);
  spec_fac_NoDup : NoDup (booked_cells e_faculty (entries σ));
  spec_room_NoDup : NoDup (booked_cells e_room (entries σ))
}.

Lemma spec_init_inv g : spec_inv (spec_init g).
Proof. split; simpl; try apply NoDup_nil_2; intros; set_solver. Qed.

Lemma spec_free_room_Some rooms b day slot room :
  spec_free_room rooms b day slot = Some room → room ∈ rooms ∧ (room, day, slot) ∉ b.
Proof. intros Hh%head_Some_elem_of. apply list_elem_of_filter in Hh. tauto. Qed.

Lemma spec_candidate_Some b day slot shuffled subject :
  spec_candidate b day slot shuffled = Some subject →
  subject ∈ shuffled ∧ (faculty_id subject, day, slot) ∉ b.
Proof. intros Hh%head_Some_elem_of. apply list_elem_of_filter in Hh. tauto. Qed.

Lemma spec_attempt_inv rooms subjects batch day slot σ :
  spec_inv σ → spec_inv (spec_attempt rooms subjects batch day slot σ).
Proof.
  intros [Hf Hr Hfn Hrn]. unfold spec_attempt.
  destruct (spec_free_room _ _ _ _) as [room|] eqn:Hroom; [|done].
  destruct (spec_candidate _ _ _ _) as [subject|] eqn:Hsub; [|done].
  apply spec_free_room_Some in Hroom as [_ Hroom].
  apply spec_candidate_Some in Hsub as [_ Hsub].
  split; simpl; unfold booked_cells in *; rewrite fmap_app; simpl.
  - intros id d s. rewrite elem_of_union, elem_of_singleton, elem_of_app,
      list_elem_of_singleton, Hf. split; intros [?|?]; simplify_eq; auto.
    left. f_equal. lia.
  - intros id d s. rewrite elem_of_union, elem_of_singleton, elem_of_app,
      list_elem_of_singleton, Hr. split; intros [?|?]; simplify_eq; auto.
    left. f_equal. lia.
  - apply NoDup_app. split_and!; [done| |apply NoDup_singleton].
    intros k Hk ->%list_elem_of_singleton. by apply Hf in Hk.
  - apply NoDup_app. split_and!; [done| |apply NoDup_singleton].
    intros k Hk ->%list_elem_of_singleton. by apply Hr in Hk.
Qed.

(** No double booking, for the algorithm of the specification. *)
Lemma spec_generate_inv days n batches subjects rooms g :
  spec_inv (spec_generate days n batches subjects rooms g).
Proof.
  unfold spec_generate.
  assert (∀ {A} (f : spec_state → A → spec_state) (l : list A) σ,
            (∀ σ a, spec_inv σ → spec_inv (f σ a)) → spec_inv σ →
            spec_inv (foldl f σ l)) as Hfold.
  { intros A f l. induction l as [|a l IH]; simpl; auto. }
  apply Hfold; [|apply spec_init_inv]. intros σ batch Hσ.
  apply Hfold; [|done]. intros σ1 day Hσ1.
  apply Hfold; [|done]. intros σ2 slot. apply spec_attempt_inv.
Qed.

End spec.
