(* ===== verification/Refine.v ===== *)
(** * Refine: the pass of the code implements the specification's algorithm

    A simulation between [Allocator] and [Spec].  The state of the code
    refines a state of the specification when its occupancy tables have
    [True] exactly at the busy cells, its rows are the entries, and the
    counters agree.  Under the specification's precondition (every
    subject's faculty is a key of the faculty table) and with room ids that
    are not empty, every attempt of the code returns and takes the step of
    the specification. *)

From stdpp Require Import base tactics option list strings gmap fin_maps.
From S2P Require Import Prelude Database Shuffle Occupancy Allocator AllocInv AllocTrace.
From S2P Require Import AllocEdge Spec.

#[local] Open Scope Z_scope.

(** ** The refinement relation *)

(** The entry a row stores. *)
Definition row_entry (row : timetable_row) : entry :=
  Entry (t_batch_id row) (t_day row) (t_slot row) (t_subject_id row)
    (t_faculty_id row) (t_room_id row).

(** A table of the code and a set of busy cells. *)
Definition busy_of (t : occ) (b : busy) : Prop :=
  ∀ id day slot, occ_cell t id day slot = Some true ↔ (id, day, slot) ∈ b.

Section refine.
Context `{Shuffler}.
Variables (fac_ids rooms days : list string) (n : nat) (subjects : list subject_row).
Hypotheses (Hrefs : Forall (λ subject, faculty_id subject ∈ fac_ids) subjects)
  (Husable : Forall (λ room, room ≠ ""%string) rooms).
Implicit Types (st : alloc_state) (σ : spec_state) (day : string) (slot : nat).

(** The tables, the rows and the counter of [st] are those of [σ]. *)
Record refines_data st σ : Prop := RefinesData {
  ref_shape : shape_inv fac_ids rooms days n st;
  ref_fac : busy_of (global_fac_slot st) (faculty_busy σ);
  ref_room : busy_of (global_room_slot st) (room_busy σ);
  ref_entries : entries σ = row_entry <$> tt_rows (cur st);
  ref_unscheduled : unscheduled_count σ = unscheduled st
}.

(** The same, with the generator in the same state. *)
Definition refines st σ : Prop := refines_data st σ ∧ spec_gen σ = gen st.

(** ** Reads *)

(** Inside the grid a read of a table of the right shape returns whether
    the cell is busy. *)
Lemma occ_busy_spec ids t b id day slot :
  occ_shape ids days n t → busy_of t b → id ∈ ids → day ∈ days → (slot < n)%nat →
  occ_busy t id day slot = Ok (bool_decide ((id, day, slot) ∈ b)).
Proof.
  intros Hshape Hb Hid Hday Hslot. apply occ_busy_Ok.
  destruct (proj2 (occ_shape_cell ids days n t id day slot Hshape)) as [[] Hc];
    [done| |]; rewrite Hc.
  - by rewrite bool_decide_eq_true_2 by by apply Hb.
  - rewrite bool_decide_eq_false_2; [done|]. intros Hin%Hb. congruence.
Qed.

Lemma free_room_spec t b day slot rooms' :
  occ_shape rooms days n t → busy_of t b → rooms' ⊆ rooms →
  day ∈ days → (slot < n)%nat →
  free_room rooms' t day slot = Ok (spec_free_room rooms' b day slot).
Proof.
  intros Hshape Hb Hsub Hday Hslot. unfold spec_free_room.
  induction rooms' as [|room rooms' IH]; [done|]. simpl.
  rewrite (occ_busy_spec rooms t b), filter_cons by set_solver. simpl.
  case_bool_decide; [rewrite decide_False by tauto|by rewrite decide_True].
  apply IH. set_solver.
Qed.

(** ** The subject loop *)

Lemma try_subjects_spec batch day slot room subs st σ :
  refines_data st σ → day ∈ days → (slot < n)%nat →
  free_room rooms (global_room_slot st) day slot = Ok (Some room) →
  room ≠ ""%string → subs ⊆ subjects →
  try_subjects rooms batch day slot subs st =
    match spec_candidate (faculty_busy σ) day slot subs with
    | Some subject => st' ← place batch day slot subject room st; Ok (true, st')
    | None => Ok (false, st)
    end.
Proof.
  intros [[Hfs _] Hfb _ _ _] Hday Hslot Hfr Hroom Hsub. unfold spec_candidate.
  pose proof (proj1 (Forall_forall _ _) Hrefs) as Hin.
  induction subs as [|subject subs IH]; [done|]. simpl.
  rewrite Hfr. simpl. rewrite (truthy_ne room Hroom).
  rewrite (occ_busy_spec fac_ids _ (faculty_busy σ)), filter_cons;
    [|done|done|apply Hin; set_solver|done|done]. simpl.
  case_bool_decide; [rewrite decide_False by tauto|by rewrite decide_True].
  apply IH. set_solver.
Qed.

(** ** The placement *)

Lemma busy_of_mark t b id day slot t' :
  busy_of t b → occ_mark t id day slot = Ok t' →
  busy_of t' ({[ (id, day, slot) ]} ∪ b).
Proof.
  unfold busy_of. intros Hb Hm id' day' slot'.
  rewrite (occ_mark_cell _ _ _ _ _ _ _ _ Hm), elem_of_union, elem_of_singleton.
  case_decide as Hd.
  - destruct Hd as (-> & -> & ->). split; auto.
  - rewrite Hb. split; [auto|]. intros [[= -> -> ->]|?]; [|done]. by destruct Hd.
Qed.

Lemma place_spec batch day slot subject room g st σ :
  refines_data st σ → day ∈ days → (slot < n)%nat → room ∈ rooms →
  subject ∈ subjects →
  ∃ st', place batch day slot subject room st = Ok st' ∧ gen st' = gen st ∧
    refines_data st' (spec_place batch day slot subject room g σ).
Proof.
  intros [Hshape Hfb Hrb He Hu] Hday Hslot Hroom Hsub.
  pose proof (proj1 (Forall_forall _ _) Hrefs) as Hin.
  destruct (place_total batch day slot subject room st) as [st' Hp].
  { apply (occ_shape_cell fac_ids days n); [apply Hshape|auto]. }
  { apply (occ_shape_cell rooms days n); [apply Hshape|auto]. }
  exists st'. split; [done|].
  assert (shape_inv fac_ids rooms days n st') as Hshape' by by eapply shape_inv_place.
  apply place_Ok in Hp as (fs & rs & Hfs & Hrs & ->).
  split; [done|]. split; simpl; eauto using busy_of_mark.
  by rewrite fmap_app, He.
Qed.

(** ** One attempt *)

(** A failed attempt on both sides. *)
Lemma refines_data_skip g st σ :
  refines_data st σ → refines (count_unscheduled (set_gen g st)) (spec_skip g σ).
Proof. intros [? ? ? ? Hu]. split; [split|]; simpl; auto. by rewrite Hu. Qed.

Lemma attempt_spec batch day slot st σ :
  refines st σ → day ∈ days → (slot < n)%nat →
  ∃ st', attempt rooms subjects batch day slot st = Ok st' ∧
    refines st' (spec_attempt rooms subjects batch day slot σ).
Proof.
  intros [Href Hg] Hday Hslot. unfold attempt, spec_attempt. rewrite Hg.
  pose proof (shuffle_perm subjects (gen st)) as Hperm.
  destruct (shuffle subjects (gen st)) as [subs g]. simpl in Hperm |- *.
  assert (refines_data (set_gen g st) σ) as Href0 by by destruct Href.
  assert (free_room rooms (global_room_slot (set_gen g st)) day slot
          = Ok (spec_free_room rooms (room_busy σ) day slot)) as Hfr.
  { destruct Href as [[_ ?] _ ? _ _]. by apply free_room_spec. }
  destruct (spec_free_room rooms (room_busy σ) day slot) as [room|] eqn:Hroom.
  - apply spec_free_room_Some in Hroom as [Hin _].
    rewrite (try_subjects_spec batch day slot room subs (set_gen g st) σ);
      [|done|done|done|done| |intros x; by rewrite Hperm].
    + destruct (spec_candidate _ _ _ _) as [subject|] eqn:Hc.
      * apply spec_candidate_Some in Hc as [Hs _]. rewrite Hperm in Hs.
        destruct (place_spec batch day slot subject room g (set_gen g st) σ)
          as (st' & -> & Hgen & Hd); [done..|].
        simpl. exists st'. split; [done|]. split; [done|]. simpl. by rewrite Hgen.
      * simpl. eauto using refines_data_skip.
    + pose proof (proj1 (Forall_forall _ _) Husable). auto.
  - rewrite try_subjects_blocked by eauto. simpl. eauto using refines_data_skip.
Qed.

End refine.

(** ** The pass *)

Section refine_pass.
Context `{Shuffler}.

(** The nested folds of the specification make the attempts of [attempts],
    in order. *)
Lemma spec_generate_flat days n batches subjects rooms g :
  spec_generate days n batches subjects rooms g
  = foldl (λ σ a, spec_attempt rooms subjects a.1.1 a.1.2 a.2 σ) (spec_init g)
      (attempts days n batches).
Proof.
  unfold spec_generate, attempts. generalize (spec_init g).
  induction batches as [|batch batches IH]; intros σ; [done|].
  rewrite bind_cons, foldl_app. simpl. rewrite IH. f_equal. clear IH.
  revert σ. induction days as [|day days IH]; intros σ; [done|].
  rewrite bind_cons, foldl_app. simpl. rewrite IH. f_equal.
  by rewrite foldl_fmap.
Qed.

(** The start of the pass refines the start of the specification. *)
Lemma refines_init days n faculties rooms tt g :
  tt_rows tt = [] →
  refines (dict_keys faculties) rooms days n
    (alloc_init days n faculties rooms tt g) (spec_init g).
Proof.
  intros Hrows. split; [|done]. split; simpl; [apply shape_inv_init| | |by rewrite Hrows|done].
  - intros id day slot. rewrite occ_init_cell. case_decide; set_solver.
  - intros id day slot. rewrite occ_init_cell. case_decide; set_solver.
Qed.

(** Under the precondition of the specification and with room ids that are
    not empty, the pass returns, in a state that refines the result of the
    specification's algorithm. *)
Lemma allocate_refines days n batches subjects faculties rooms tt g :
  Forall (λ subject, faculty_id subject ∈ dict_keys faculties) subjects →
  Forall (λ room, room ≠ ""%string) rooms → tt_rows tt = [] →
  ∃ st, allocate days n batches subjects faculties rooms tt g = Ok st ∧
    refines (dict_keys faculties) rooms days n st
      (spec_generate days n batches subjects rooms g).
Proof.
  intros Hrefs Husable Hrows. unfold allocate.
  rewrite batch_loop_flat, spec_generate_flat.
  apply (for_each_foldl (refines (dict_keys faculties) rooms days n));
    [|by apply refines_init].
  intros [[batch day] slot] st σ (_ & ? & ?)%elem_of_attempts Href.
  by apply (attempt_spec (dict_keys faculties) rooms days n subjects).
Qed.

End refine_pass.
