(* ===== verification/Generate.v ===== *)
(** * Generate: the handler [generate_timetable]

    [POST /api/generate] (lines 187-231 of [src/app.py]): inside one
    transaction, delete the stored timetable, read the four entity tables,
    run the greedy pass, commit, and answer with the counts.  An exception
    leaves the handler before [conn.commit()]: the transaction is rolled back
    when the connection is dropped, so the database is as it was. *)

From stdpp Require Import base tactics option list strings gmap fin_maps.
From S2P Require Import Prelude Database Shuffle Occupancy Allocator AllocInv AllocTrace.

#[local] Open Scope Z_scope.

(** The body of the answer: [{"status": ..., "scheduled": ..., "unscheduled": ...}]. *)
Record generate_response : Type := GenerateResponse {
  resp_status : string;
  resp_scheduled : Z;
  resp_unscheduled : Z
}.

(** [len(batches) * len(DAYS) * SLOTS_PER_DAY], [scheduled] and the answer
    (lines 228-231). *)
Definition answer (batches : list batch_row) (unscheduled : Z) : generate_response :=
  let total_slots :=
    Z.of_nat (length batches) * Z.of_nat (length DAYS) * Z.of_nat SLOTS_PER_DAY in
  let scheduled := total_slots - unscheduled in
  {| resp_status := "ok"; resp_scheduled := scheduled; resp_unscheduled := unscheduled |}.

(** [{f["fac_id"]: f["fac_name"] for f in ...}] (line 196) *)
Definition faculties_dict (rows : list faculty_row) : gmap string string :=
  dict_of_list ((λ f, (fac_id f, fac_name f)) <$> rows).

(** [conn.commit()]: the transaction's timetable becomes the stored one. *)
Definition commit (d : db) (tt : timetable_table) : db :=
  {| db_rooms := db_rooms d; db_batches := db_batches d;
     db_faculties := db_faculties d; db_subjects := db_subjects d;
     db_timetable := tt |}.

(** The keys of the faculty dict are the ids of the faculty rows. *)
Lemma elem_of_faculties_dict (rows : list faculty_row) (k : string) :
  k ∈ dict_keys (faculties_dict rows) ↔ k ∈ fac_id <$> rows.
Proof.
  unfold faculties_dict. rewrite elem_of_dict_keys, dict_of_list_is_Some.
  by rewrite <- list_fmap_compose.
Qed.

(** Every subject's faculty is a row of the faculty table. *)
Definition refs_ok (d : db) : Prop :=
  Forall (λ subject, faculty_id subject ∈ fac_id <$> db_faculties d) (db_subjects d).

#[export] Instance refs_ok_dec d : Decision (refs_ok d).
Proof. unfold refs_ok. apply _. Defined.

(** A stored row refers to the database: its batch, room, subject and
    faculty are rows of their tables, the subject is taught by that faculty,
    the room id is not empty, and day and slot are in the grid. *)
Definition row_ok (d : db) (row : timetable_row) : Prop :=
  t_batch_id row ∈ batch_id <$> db_batches d ∧
  t_day row ∈ DAYS ∧ 1 ≤ t_slot row ≤ 6 ∧
  t_room_id row ∈ room_id <$> db_rooms d ∧ t_room_id row ≠ ""%string ∧
  t_faculty_id row ∈ fac_id <$> db_faculties d ∧
  ∃ subject, subject ∈ db_subjects d ∧ sub_id subject = t_subject_id row ∧
    faculty_id subject = t_faculty_id row.

(** The subjects of [d] whose faculty is no row of the faculty table. *)
Definition dangling (d : db) (subject : subject_row) : Prop :=
  subject ∈ db_subjects d ∧ faculty_id subject ∉ fac_id <$> db_faculties d.

(** A small database for the witnesses: two batches, three subjects taught
    by two faculty members, two rooms. *)
Definition demo_db : db :=
  {| db_rooms := [RoomRow "R1" "Room 1" 40 "Lecture" ""; RoomRow "R2" "Lab" 20 "Lab" "pc"];
     db_batches := [BatchRow "B1" "CS" 1 "A" 30 1; BatchRow "B2" "CS" 2 "A" 25 1];
     db_faculties := [FacultyRow "F1" "Dr. X"; FacultyRow "F2" "Dr. Y"];
     db_subjects := [SubjectRow "S1" "Math" "F1"; SubjectRow "S2" "Physics" "F2";
                     SubjectRow "S3" "Logic" "F1"];
     db_timetable := {| tt_rows := [TimetableRow 1 "B1" "Monday" 1 "S1" "F1" "R1"];
                        tt_seq := 1 |} |}.

(** The same with a subject whose faculty id is no row of [faculties]. *)
Definition demo_db_dangling : db :=
  {| db_rooms := db_rooms demo_db; db_batches := db_batches demo_db;
     db_faculties := db_faculties demo_db;
     db_subjects := [SubjectRow "S9" "Ghost" "F9"];
     db_timetable := db_timetable demo_db |}.

Definition demo_tape : tape := [3; 1; 4; 1; 5; 9; 2; 6; 5; 3; 5; 8; 9; 7; 9]%nat.

Section handler.
Context `{Shuffler}.

(** The handler, from the stored database and the generator's state to the
    database it leaves and its answer (or the exception it raises). *)
Definition generate_timetable (d : db) (g : rng)
  : db * result (rng * generate_response) :=
  let tt := sql_delete_timetable (db_timetable d) in
  let batches := db_batches d in
  let subjects := db_subjects d in
  let faculties := faculties_dict (db_faculties d) in
  let rooms := room_id <$> db_rooms d in
  match allocate DAYS SLOTS_PER_DAY batches subjects faculties rooms tt g with
  | Ok st =>
      let total_slots :=
        Z.of_nat (length batches) * Z.of_nat (length DAYS) * Z.of_nat SLOTS_PER_DAY in
      let scheduled := total_slots - unscheduled st in
      (commit d (cur st),
       Ok (gen st, {| resp_status := "ok"; resp_scheduled := scheduled;
                      resp_unscheduled := unscheduled st |}))
  | Raise e => (d, Raise e)
  end.

(** The state of the generator after the handler, whether it returns or
    raises: [random.shuffle] has run once for each attempt made. *)
Definition generate_gen (d : db) (g : rng) : rng :=
  allocate_gen DAYS SLOTS_PER_DAY (db_batches d) (db_subjects d)
    (faculties_dict (db_faculties d)) (room_id <$> db_rooms d)
    (sql_delete_timetable (db_timetable d)) g.

(** The transaction of the handler's connection when the handler stops,
    before a commit: the [DELETE] and the rows inserted up to there. *)
Definition generate_txn (d : db) (g : rng) : db :=
  commit d (allocate_cur DAYS SLOTS_PER_DAY (db_batches d) (db_subjects d)
              (faculties_dict (db_faculties d)) (room_id <$> db_rooms d)
              (sql_delete_timetable (db_timetable d)) g).

Lemma generate_gen_Ok d g d' g' resp :
  generate_timetable d g = (d', Ok (g', resp)) → generate_gen d g = g'.
Proof.
  unfold generate_timetable, generate_gen.
  destruct (allocate _ _ _ _ _ _ _ _) as [st|e] eqn:Hrun; intros [= <- <- <-].
  by apply allocate_gen_Ok.
Qed.

(** A handler that returns has committed its transaction. *)
Lemma generate_txn_Ok d g d' g' resp :
  generate_timetable d g = (d', Ok (g', resp)) → generate_txn d g = d'.
Proof.
  unfold generate_timetable, generate_txn.
  destruct (allocate _ _ _ _ _ _ _ _) as [st|e] eqn:Hrun; intros [= <- <- <-].
  by rewrite (allocate_cur_Ok _ _ _ _ _ _ _ _ _ Hrun).
Qed.

(** A successful run of the handler commits the state of a pass that
    satisfies the invariants of [AllocInv] and [AllocTrace]. *)
Lemma generate_timetable_Ok d g d' g' resp :
  generate_timetable d g = (d', Ok (g', resp)) →
  ∃ st,
    d' = commit d (cur st) ∧ g' = gen st ∧
    resp_unscheduled resp = unscheduled st ∧
    resp_scheduled resp =
      Z.of_nat (length (db_batches d)) * Z.of_nat (length DAYS)
        * Z.of_nat SLOTS_PER_DAY - unscheduled st ∧
    alloc_inv (dict_keys (faculties_dict (db_faculties d))) (room_id <$> db_rooms d)
      DAYS SLOTS_PER_DAY st ∧
    trace_inv (tt_seq (db_timetable d)) (room_id <$> db_rooms d) (db_subjects d)
      (attempts DAYS SLOTS_PER_DAY (db_batches d)) st.
Proof.
  unfold generate_timetable. destruct (allocate _ _ _ _ _ _ _ _) as [st|e] eqn:Hrun;
    intros [= <- <- <-]. exists st. split_and!; try done.
  - eapply allocate_inv; [|exact Hrun]. done.
  - by apply allocate_trace in Hrun.
Qed.

Lemma generate_timetable_status d g d' g' resp :
  generate_timetable d g = (d', Ok (g', resp)) → resp_status resp = "ok"%string.
Proof.
  unfold generate_timetable. destruct (allocate _ _ _ _ _ _ _ _); by intros [= <- <- <-].
Qed.

Lemma generate_timetable_Raise d g d' e :
  generate_timetable d g = (d', Raise e) →
  d' = d ∧
  allocate DAYS SLOTS_PER_DAY (db_batches d) (db_subjects d)
    (faculties_dict (db_faculties d)) (room_id <$> db_rooms d)
    (sql_delete_timetable (db_timetable d)) g = Raise e.
Proof.
  unfold generate_timetable. destruct (allocate _ _ _ _ _ _ _ _) as [st|e'];
    intros [= <- <-]. done.
Qed.

(** C1: in the timetable a successful generation stores, no faculty member
    is booked twice at the same day and slot. *)
Theorem generate_no_faculty_clash d g d' g' resp :
  generate_timetable d g = (d', Ok (g', resp)) →
  NoDup (fac_key <$> tt_rows (db_timetable d')).
Proof.
  by intros (st & -> & _ & _ & _ & [_ [_ ?] _] & _)%generate_timetable_Ok.
Qed.

(** C2: in the timetable a successful generation stores, no room is booked
    twice at the same day and slot. *)
Theorem generate_no_room_clash d g d' g' resp :
  generate_timetable d g = (d', Ok (g', resp)) →
  NoDup (room_key <$> tt_rows (db_timetable d')).
Proof.
  by intros (st & -> & _ & _ & _ & [_ _ [_ ?]] & _)%generate_timetable_Ok.
Qed.

(** C3: the answer's [scheduled] is the number of rows stored, [unscheduled]
    is not negative, and together they count every attempt: batches times 5
    days times 6 slots. *)
Theorem generate_counts d g d' g' resp :
  generate_timetable d g = (d', Ok (g', resp)) →
  resp_scheduled resp = Z.of_nat (length (tt_rows (db_timetable d'))) ∧
  0 ≤ resp_unscheduled resp ∧
  resp_scheduled resp + resp_unscheduled resp
    = Z.of_nat (length (db_batches d)) * 5 * 6.
Proof.
  intros (st & -> & _ & -> & -> & _ & [_ Hcount ? _ _ _])%generate_timetable_Ok.
  rewrite attempts_length in Hcount. unfold DAYS, SLOTS_PER_DAY in *.
  simpl in *. lia.
Qed.

(** C4: when no subject names a faculty id absent from the faculty table,
    the handler returns (it raises nothing). *)
Theorem generate_total d g :
  refs_ok d → ∃ d' g' resp, generate_timetable d g = (d', Ok (g', resp)).
Proof.
  intros Hrefs. unfold generate_timetable.
  destruct (allocate_total DAYS SLOTS_PER_DAY (db_batches d) (db_subjects d)
    (faculties_dict (db_faculties d)) (room_id <$> db_rooms d)
    (sql_delete_timetable (db_timetable d)) g) as [st ->]; [|by eauto].
  eapply Forall_impl; [exact Hrefs|]. intros subject. by rewrite elem_of_faculties_dict.
Qed.

(** C5: when the handler raises, the database is as it was, and the
    exception is the [KeyError] of a subject whose faculty id is absent from
    the faculty table. *)
Theorem generate_raises d g d' e :
  generate_timetable d g = (d', Raise e) →
  d' = d ∧ ∃ subject, dangling d subject ∧ e = KeyError (faculty_id subject).
Proof.
  intros [-> Hrun]%generate_timetable_Raise. split; [done|].
  apply allocate_Raise in Hrun as (subject & ? & Hnot & ->).
  rewrite elem_of_faculties_dict in Hnot. by exists subject.
Qed.

(** C6: the rows stored answer attempts in the order the loops make them:
    their (batch, day, slot) keys are a subsequence of the attempts' keys. *)
Theorem generate_rows_follow_attempts d g d' g' resp :
  generate_timetable d g = (d', Ok (g', resp)) →
  sublist (batch_key <$> tt_rows (db_timetable d'))
    (attempt_key <$> attempts DAYS SLOTS_PER_DAY (db_batches d)).
Proof.
  by intros (st & -> & _ & _ & _ & _ & [? _ _ _ _ _])%generate_timetable_Ok.
Qed.

(** C7: with distinct batch ids, the stored timetable has at most one row
    for a batch, day and slot. *)
Theorem generate_one_row_per_attempt d g d' g' resp :
  table_wf batch_id (db_batches d) →
  generate_timetable d g = (d', Ok (g', resp)) →
  NoDup (batch_key <$> tt_rows (db_timetable d')).
Proof.
  intros Hwf (st & -> & _ & _ & _ & _ & [Hsub _ _ _ _ _])%generate_timetable_Ok.
  eapply sublist_NoDup; [|exact Hsub].
  apply attempt_keys_NoDup; [done|apply DAYS_NoDup].
Qed.

(** C8: every row stored names a batch, a room with a non-empty id, a
    faculty and a subject of the database, the subject taught by that
    faculty, on a day of [DAYS] and a slot from 1 to 6. *)
Theorem generate_rows_ok d g d' g' resp :
  generate_timetable d g = (d', Ok (g', resp)) →
  Forall (row_ok d) (tt_rows (db_timetable d')).
Proof.
  intros (st & -> & _ & _ & _ & Hinv & Htr)%generate_timetable_Ok.
  apply Forall_forall. intros row Hrow. simpl in Hrow.
  destruct (trace_row_grid _ _ _ _ _ _ _ _ Htr Hrow) as (Hb & Hday & slot & Hlt & Hslot).
  pose proof (alloc_inv_row_faculty _ _ _ _ _ _ _ Hinv Hrow Hslot) as Hfac.
  destruct Htr as [_ _ _ _ _ Hrefs]. rewrite Forall_forall in Hrefs.
  destruct (Hrefs row Hrow) as (Hroom & Htruthy & subject & ? & ? & ?).
  unfold row_ok. split_and!; try done; try (unfold SLOTS_PER_DAY in Hlt; lia).
  - by intros Heq; rewrite Heq in Htruthy.
  - by apply elem_of_faculties_dict.
  - by exists subject.
Qed.

(** C9: generation replaces the timetable: no row stored before is a row of
    the new timetable, whose entry ids are distinct and continue the
    sequence. *)
Theorem generate_replaces d g d' g' resp :
  timetable_wf (db_timetable d) →
  generate_timetable d g = (d', Ok (g', resp)) →
  timetable_wf (db_timetable d') ∧
  ∀ row, row ∈ tt_rows (db_timetable d') → row ∉ tt_rows (db_timetable d).
Proof.
  intros [_ Hold] (st & -> & _ & _ & _ & _ & Htr)%generate_timetable_Ok.
  apply trace_entry_ids in Htr as [Hnd Hids]. simpl in *.
  rewrite Forall_forall in Hold, Hids. split.
  - split; [done|]. apply Forall_forall. intros row Hrow. by apply Hids.
  - intros row Hnew%Hids Hrow%Hold. lia.
Qed.
End handler.

Lemma generate_no_faculty_clash_witness :
  ∃ d' g' resp,
    generate_timetable (H := fisher_yates) demo_db demo_tape = (d', Ok (g', resp)) ∧
    NoDup (fac_key <$> tt_rows (db_timetable d')).
Proof.
  eexists _, _, _. split; [vm_compute; reflexivity|].
  eapply (generate_no_faculty_clash (H := fisher_yates) demo_db demo_tape).
  vm_compute; reflexivity.
Defined.

Lemma generate_no_room_clash_witness :
  ∃ d' g' resp,
    generate_timetable (H := fisher_yates) demo_db demo_tape = (d', Ok (g', resp)) ∧
    NoDup (room_key <$> tt_rows (db_timetable d')).
Proof.
  eexists _, _, _. split; [vm_compute; reflexivity|].
  eapply (generate_no_room_clash (H := fisher_yates) demo_db demo_tape).
  vm_compute; reflexivity.
Defined.

(** A witness applies [thm] to the run of the handler on [demo_db]. *)
Ltac demo_witness thm :=
  eexists _, _, _; split; [vm_compute; reflexivity|];
  eapply (thm fisher_yates demo_db demo_tape); try (vm_compute; reflexivity).

Lemma generate_counts_witness :
  ∃ d' g' resp,
    generate_timetable (H := fisher_yates) demo_db demo_tape = (d', Ok (g', resp)) ∧
    (resp_scheduled resp = Z.of_nat (length (tt_rows (db_timetable d'))) ∧
     0 ≤ resp_unscheduled resp ∧
     resp_scheduled resp + resp_unscheduled resp
       = Z.of_nat (length (db_batches demo_db)) * 5 * 6).
Proof. demo_witness @generate_counts. Defined.

Lemma generate_total_witness :
  refs_ok demo_db ∧
  ∃ d' g' resp,
    generate_timetable (H := fisher_yates) demo_db demo_tape = (d', Ok (g', resp)).
Proof.
  assert (refs_ok demo_db) as Hrefs by (apply (bool_decide_unpack _); by vm_compute).
  split; [done|]. by apply (generate_total (H := fisher_yates)).
Defined.

Lemma generate_raises_witness :
  ∃ e,
    generate_timetable (H := fisher_yates) demo_db_dangling demo_tape
      = (demo_db_dangling, Raise e) ∧
    (demo_db_dangling = demo_db_dangling ∧
     ∃ subject, dangling demo_db_dangling subject ∧ e = KeyError (faculty_id subject)).
Proof.
  eexists. split; [vm_compute; reflexivity|].
  eapply (generate_raises (H := fisher_yates) demo_db_dangling demo_tape).
  vm_compute; reflexivity.
Defined.

Lemma generate_rows_follow_attempts_witness :
  ∃ d' g' resp,
    generate_timetable (H := fisher_yates) demo_db demo_tape = (d', Ok (g', resp)) ∧
    sublist (batch_key <$> tt_rows (db_timetable d'))
      (attempt_key <$> attempts DAYS SLOTS_PER_DAY (db_batches demo_db)).
Proof. demo_witness @generate_rows_follow_attempts. Defined.

Lemma generate_one_row_per_attempt_witness :
  table_wf batch_id (db_batches demo_db) ∧
  ∃ d' g' resp,
    generate_timetable (H := fisher_yates) demo_db demo_tape = (d', Ok (g', resp)) ∧
    NoDup (batch_key <$> tt_rows (db_timetable d')).
Proof.
  assert (table_wf batch_id (db_batches demo_db)) as Hwf
    by (apply (bool_decide_unpack _); by vm_compute).
  split; [done|]. demo_witness @generate_one_row_per_attempt. done.
Defined.

Lemma generate_rows_ok_witness :
  ∃ d' g' resp,
    generate_timetable (H := fisher_yates) demo_db demo_tape = (d', Ok (g', resp)) ∧
    Forall (row_ok demo_db) (tt_rows (db_timetable d')).
Proof. demo_witness @generate_rows_ok. Defined.

Lemma generate_replaces_witness :
  timetable_wf (db_timetable demo_db) ∧
  ∃ d' g' resp,
    generate_timetable (H := fisher_yates) demo_db demo_tape = (d', Ok (g', resp)) ∧
    (timetable_wf (db_timetable d') ∧
     ∀ row, row ∈ tt_rows (db_timetable d') → row ∉ tt_rows (db_timetable demo_db)).
Proof.
  assert (timetable_wf (db_timetable demo_db)) as Hwf.
  { split; simpl; [apply NoDup_singleton|by apply Forall_singleton]. }
  split; [done|]. demo_witness @generate_replaces. done.
Defined.
