(* ===== verification/GenerateDraws.v ===== *)
(** * GenerateDraws: what a run takes from the generator

    [generate_timetable] calls [random.shuffle] once for each attempt it
    makes (line 208), on a copy of the same list of subjects.  The generator
    of the module is shared by all requests, so what a run leaves of it is
    what the next run shuffles with.  For every shuffle of the interface a
    run that returns has made [30 * |batches|] calls ([generate_shuffles]);
    a run that raises has made at least one and at most that many
    ([generate_gen_shuffles]).  For [random.shuffle] itself a call takes
    one draw for each subject but one, so a run that returns has taken
    [30 * |batches| * (|subjects| - 1)] draws ([generate_draws]). *)

From stdpp Require Import base tactics option list strings gmap fin_maps.
From S2P Require Import Prelude Database Shuffle Uniform Occupancy Allocator AllocInv Generate.

Section draws.
Context `{Shuffler}.

(** The generator after [n] calls of [random.shuffle] on copies of [l]. *)
Fixpoint shuffles {A} (n : nat) (l : list A) (g : rng) : rng :=
  match n with
  | 0 => g
  | S n' => shuffles n' l (shuffle l g).2
  end.

(** The attempts of a pass that were begun: all of them, or those up to
    the one that raised. *)
Fixpoint pass_made (rooms : list string) (subjects : list subject_row)
    (l : list (batch_row * string * nat)) (st : alloc_state) : nat :=
  match l with
  | [] => 0
  | a :: l' =>
      match attempt_at rooms subjects a st with
      | Ok st' => S (pass_made rooms subjects l' st')
      | Raise _ => 1
      end
  end.

(** The calls of [random.shuffle] a run of the handler makes. *)
Definition generate_made (d : db) (g : rng) : nat :=
  pass_made (room_id <$> db_rooms d) (db_subjects d)
    (attempts DAYS SLOTS_PER_DAY (db_batches d))
    (alloc_init DAYS SLOTS_PER_DAY (faculties_dict (db_faculties d))
       (room_id <$> db_rooms d) (sql_delete_timetable (db_timetable d)) g).

Implicit Types (st : alloc_state) (rooms : list string) (subjects : list subject_row).

(** An attempt leaves the generator where its shuffle left it. *)
Lemma attempt_gen rooms subjects batch day slot st st' :
  attempt rooms subjects batch day slot st = Ok st' →
  gen st' = (shuffle subjects (gen st)).2.
Proof.
  intros [(s0 & r0 & _ & _ & _ & _ & (fs & rs & _ & _ & ->)%place_Ok)|[_ ->]]%attempt_Ok;
    done.
Qed.

Lemma pass_gen_shuffles rooms subjects l st :
  pass_gen rooms subjects l st
  = shuffles (pass_made rooms subjects l st) subjects (gen st).
Proof.
  revert st. induction l as [|a l IH]; intros st; simpl; [done|].
  destruct (attempt_at rooms subjects a st) as [st'|e] eqn:Ha; simpl; [|done].
  by rewrite IH, (attempt_gen _ _ _ _ _ _ _ Ha).
Qed.

Lemma pass_made_le rooms subjects l st : pass_made rooms subjects l st ≤ length l.
Proof.
  revert st. induction l as [|a l IH]; intros st; simpl; [done|].
  destruct (attempt_at rooms subjects a st) as [st'|e]; [|lia].
  specialize (IH st'). lia.
Qed.

Lemma pass_made_Ok rooms subjects l st st' :
  for_each (attempt_at rooms subjects) l st = Ok st' →
  pass_made rooms subjects l st = length l.
Proof.
  revert st. induction l as [|a l IH]; intros st; simpl; [done|].
  intros (st1 & -> & Hrest)%bind_Ok. by rewrite (IH _ Hrest).
Qed.

Lemma pass_made_Raise rooms subjects l st e :
  for_each (attempt_at rooms subjects) l st = Raise e →
  0 < pass_made rooms subjects l st.
Proof.
  destruct l as [|a l]; simpl; [done|].
  destruct (attempt_at rooms subjects a st); lia.
Qed.

(** Whether the handler returns or raises, the generator is left where
    the shuffles of the attempts it began have brought it: at most 30 for a
    batch, and at least one when it raises. *)
Theorem generate_gen_shuffles d g :
  generate_gen d g = shuffles (generate_made d g) (db_subjects d) g ∧
  generate_made d g ≤ 30 * length (db_batches d) ∧
  (∀ e, (generate_timetable d g).2 = Raise e → 0 < generate_made d g).
Proof.
  unfold generate_gen, allocate_gen, generate_made. split_and!.
  - by rewrite pass_gen_shuffles.
  - etrans; [apply pass_made_le|]. rewrite attempts_length.
    change (length DAYS) with 5. change SLOTS_PER_DAY with 6. lia.
  - intros e. unfold generate_timetable, allocate. rewrite batch_loop_flat.
    destruct (for_each _ _ _) as [st|e'] eqn:Hrun; [done|].
    intros _. by eapply pass_made_Raise.
Qed.

(** A run that returns has shuffled 30 times for each batch. *)
Theorem generate_shuffles d g d' g' resp :
  generate_timetable d g = (d', Ok (g', resp)) →
  g' = shuffles (30 * length (db_batches d)) (db_subjects d) g.
Proof.
  intros Hg. rewrite <- (generate_gen_Ok _ _ _ _ _ Hg).
  unfold generate_gen, allocate_gen. rewrite pass_gen_shuffles. f_equal.
  revert Hg. unfold generate_timetable, allocate. rewrite batch_loop_flat.
  destruct (for_each _ _ _) as [st|e] eqn:Hrun; [|done]. intros _.
  rewrite (pass_made_Ok _ _ _ _ _ Hrun), attempts_length.
  change (length DAYS) with 5. change SLOTS_PER_DAY with 6. lia.
Qed.

End draws.

(** ** The draws of [random.shuffle] *)

Lemma shuffles_drop {A} (n : nat) (l : list A) (g : tape) :
  shuffles (H := fisher_yates) n l g = drop (n * (length l - 1)) g.
Proof.
  revert g. induction n as [|n IH]; intros g; simpl; [done|].
  by rewrite IH, random_shuffle_tape, drop_drop, Nat.add_comm.
Qed.

(** With [random.shuffle] a run that returns has taken one draw for each
    subject but one, 30 times for each batch. *)
Theorem generate_draws d (g : tape) d' g' resp :
  generate_timetable (H := fisher_yates) d g = (d', Ok (g', resp)) →
  g' = drop (30 * length (db_batches d) * (length (db_subjects d) - 1)) g.
Proof. intros ->%generate_shuffles. apply shuffles_drop. Qed.

Lemma generate_draws_witness :
  ∃ d' g' resp,
    generate_timetable (H := fisher_yates) demo_db demo_tape = (d', Ok (g', resp)) ∧
    g' = drop (30 * length (db_batches demo_db) * (length (db_subjects demo_db) - 1))
           demo_tape.
Proof.
  assert (∃ d' g' resp,
    generate_timetable (H := fisher_yates) demo_db demo_tape = (d', Ok (g', resp)))
    as (d' & g' & resp & Hg) by (eexists _, _, _; vm_compute; reflexivity).
  exists d', g', resp. split; [exact Hg|]. exact (generate_draws _ _ _ _ _ Hg).
Defined.
