(* ===== verification/GenerateEdge.v ===== *)
(** * GenerateEdge: boundary behaviour of [generate_timetable]

    The handler on a database without usable rooms, and the bound on what it
    can schedule. *)

From stdpp Require Import base tactics option list strings gmap fin_maps.
From S2P Require Import Prelude Database Shuffle Occupancy Allocator.
From S2P Require Import AllocInv AllocTrace AllocEdge Generate.

#[local] Open Scope Z_scope.

(** The answer of a run that scheduled nothing. *)
Definition nothing_scheduled (d : db) : generate_response :=
  {| resp_status := "ok"; resp_scheduled := 0;
     resp_unscheduled := Z.of_nat (length (db_batches d)) * 30 |}.

(** The cells of the weekly grid: 5 days of 6 slots. *)
Definition grid_cells : Z := Z.of_nat (length DAYS) * Z.of_nat SLOTS_PER_DAY.

(** [demo_db] with a first room whose id is the empty string. *)
Definition demo_db_empty_room : db :=
  {| db_rooms := RoomRow "" "Hall" 100 "Lecture" "" :: db_rooms demo_db;
     db_batches := db_batches demo_db; db_faculties := db_faculties demo_db;
     db_subjects := db_subjects demo_db; db_timetable := db_timetable demo_db |}.

(** [demo_db] without rooms, and with a subject of an unknown faculty. *)
Definition demo_db_no_room : db :=
  {| db_rooms := []; db_batches := db_batches demo_db;
     db_faculties := db_faculties demo_db;
     db_subjects := SubjectRow "S9" "Ghost" "F9" :: db_subjects demo_db;
     db_timetable := db_timetable demo_db |}.

(** No subject's faculty id is a row of the faculty table. *)
Definition all_unresolved (d : db) : Prop :=
  Forall (λ subject, faculty_id subject ∉ fac_id <$> db_faculties d) (db_subjects d).

#[export] Instance all_unresolved_dec d : Decision (all_unresolved d).
Proof. unfold all_unresolved. apply _. Defined.

(** The session of the first attempt of a run, for [subject]. *)
Definition first_session (d : db) (batch : batch_row) (subject : subject_row)
    (room : room_row) : timetable_row :=
  TimetableRow (tt_seq (db_timetable d) + 1) (batch_id batch) "Monday" 1
    (sub_id subject) (faculty_id subject) (room_id room).

Section handler_edge.
Context `{Shuffler}.

Lemma generate_blocked d g :
  no_usable_room (room_id <$> db_rooms d) →
  ∃ g', generate_timetable d g
        = (commit d (sql_delete_timetable (db_timetable d)),
           Ok (g', nothing_scheduled d)).
Proof.
  intros Hrooms. unfold generate_timetable.
  destruct (allocate_blocked DAYS SLOTS_PER_DAY (db_batches d) (db_subjects d)
    (faculties_dict (db_faculties d)) (room_id <$> db_rooms d)
    (sql_delete_timetable (db_timetable d)) g) as (st & -> & -> & Hun); [done..|].
  exists (gen st). unfold nothing_scheduled. rewrite Hun.
  do 3 f_equal. unfold DAYS, SLOTS_PER_DAY. simpl. f_equal; lia.
Qed.

(** C10: with no room in the database the handler returns, whatever the
    subjects, stores an empty timetable and reports every attempt as
    unscheduled. *)
Theorem generate_without_rooms d g :
  db_rooms d = [] →
  ∃ g', generate_timetable d g
        = (commit d (sql_delete_timetable (db_timetable d)),
           Ok (g', nothing_scheduled d)).
Proof. intros Hrooms. apply generate_blocked. rewrite Hrooms. by left. Qed.

(** C28: when the first room of the table has the empty string as its id,
    nothing is ever scheduled, however many other rooms are free: line 213
    tests the room id for truth, and the empty id stays the first free room
    of every attempt. *)
Theorem generate_empty_room_id_blocks d g room others :
  db_rooms d = room :: others → room_id room = ""%string →
  ∃ g', generate_timetable d g
        = (commit d (sql_delete_timetable (db_timetable d)),
           Ok (g', nothing_scheduled d)).
Proof.
  intros Hrooms Hid. apply generate_blocked. rewrite Hrooms. right. simpl.
  by rewrite Hid.
Qed.

(** The handler schedules at most one session per cell of the grid (30
    a week) for each room, for each faculty row and for each batch. *)
Theorem generate_capacity d g d' g' resp :
  generate_timetable d g = (d', Ok (g', resp)) →
  resp_scheduled resp ≤ grid_cells * Z.of_nat (length (db_rooms d)) ∧
  resp_scheduled resp ≤ grid_cells * Z.of_nat (length (db_faculties d)) ∧
  resp_scheduled resp ≤ grid_cells * Z.of_nat (length (db_batches d)).
Proof.
  unfold generate_timetable, grid_cells.
  destruct (allocate _ _ _ _ _ _ _ _) as [st|e] eqn:Hrun; [|done].
  intros [= <- <- <-]. simpl.
  pose proof Hrun as Htr. apply allocate_trace in Htr as [_ Hcount Hu _ _ _]; [|done].
  rewrite attempts_length in Hcount.
  apply allocate_capacity in Hrun as [Hr Hf]; [|done].
  rewrite length_fmap in Hr.
  assert (length (dict_keys (faculties_dict (db_faculties d)))
          ≤ length (db_faculties d))%nat as Hk.
  { rewrite <- (length_fmap fac_id). apply NoDup_length_le; [apply NoDup_dict_keys|].
    intros k. by rewrite elem_of_faculties_dict. }
  unfold DAYS, SLOTS_PER_DAY in *. simpl in *. nia.
Qed.

(** C29: with a batch, a first room whose id is not empty and a subject,
    when no subject's faculty id is a row of the faculty table the handler
    raises at its first attempt, whatever the shuffle: the [KeyError] of the
    faculty id of a subject, the database left as it was. *)
Theorem generate_unresolved_raises d g batch batches room rooms :
  db_batches d = batch :: batches → db_rooms d = room :: rooms →
  room_id room ≠ ""%string → db_subjects d ≠ [] → all_unresolved d →
  ∃ subject, subject ∈ db_subjects d ∧
    generate_timetable d g = (d, Raise (KeyError (faculty_id subject))).
Proof.
  intros Hb Hr Hid Hsub Hall. unfold generate_timetable. rewrite Hb, Hr, fmap_cons.
  destruct (allocate_unresolved "Monday" ["Tuesday"; "Wednesday"; "Thursday"; "Friday"]
              SLOTS_PER_DAY batch batches (db_subjects d)
              (faculties_dict (db_faculties d)) (room_id room) (room_id <$> rooms)
              (sql_delete_timetable (db_timetable d)) g)
    as (subject & Hin & Hraise); [unfold SLOTS_PER_DAY; lia|done..| |].
  - eapply Forall_impl; [exact Hall|]. intros subject.
    by rewrite elem_of_faculties_dict.
  - exists subject. split; [done|]. fold DAYS in Hraise. by rewrite Hraise.
Qed.

End handler_edge.

(** Which session is stored first depends on the shuffle alone: with
    [random.shuffle], for every subject there is a state of the generator
    from which the run returns and its first row is for that subject, in
    the first room, on Monday at slot 1, for the first batch. *)
Theorem generate_any_subject_first d batch batches room rooms subject :
  refs_ok d → db_batches d = batch :: batches → db_rooms d = room :: rooms →
  room_id room ≠ ""%string → subject ∈ db_subjects d →
  ∃ g d' g' resp,
    generate_timetable (H := fisher_yates) d g = (d', Ok (g', resp)) ∧
    head (tt_rows (db_timetable d')) = Some (first_session d batch subject room).
Proof.
  intros Hrefs Hb Hr Hid [rest Hperm]%elem_of_Permutation.
  destruct (random_shuffle_surj _ _ Hperm) as [g Hg]. exists g.
  assert (Forall (λ s, faculty_id s ∈ dict_keys (faculties_dict (db_faculties d)))
            (db_subjects d)) as Hkeys.
  { eapply Forall_impl; [exact Hrefs|]. intros s. by rewrite elem_of_faculties_dict. }
  unfold generate_timetable.
  destruct (allocate_total (H := fisher_yates) DAYS SLOTS_PER_DAY (db_batches d)
    (db_subjects d) (faculties_dict (db_faculties d)) (room_id <$> db_rooms d)
    (sql_delete_timetable (db_timetable d)) g Hkeys) as [st Hrun].
  rewrite Hrun. eexists _, _, _. split; [done|]. simpl.
  rewrite Hb, Hr in Hrun.
  eapply (allocate_first_row (H := fisher_yates)) in Hrun;
    [exact Hrun|exact Hg| |done|unfold SLOTS_PER_DAY; lia|done].
  rewrite Forall_forall in Hkeys. apply Hkeys. rewrite Hperm. apply list_elem_of_here.
Qed.

Lemma generate_without_rooms_witness :
  db_rooms demo_db_no_room = [] ∧
  ∃ g', generate_timetable (H := fisher_yates) demo_db_no_room demo_tape
        = (commit demo_db_no_room (sql_delete_timetable (db_timetable demo_db_no_room)),
           Ok (g', nothing_scheduled demo_db_no_room)).
Proof.
  split; [reflexivity|].
  apply (generate_without_rooms (H := fisher_yates) demo_db_no_room demo_tape).
  reflexivity.
Defined.

Lemma generate_empty_room_id_blocks_witness :
  ∃ g', generate_timetable (H := fisher_yates) demo_db_empty_room demo_tape
        = (commit demo_db_empty_room
             (sql_delete_timetable (db_timetable demo_db_empty_room)),
           Ok (g', nothing_scheduled demo_db_empty_room)).
Proof.
  eapply (generate_empty_room_id_blocks (H := fisher_yates) demo_db_empty_room demo_tape);
    reflexivity.
Defined.

Lemma generate_capacity_witness :
  ∃ d' g' resp,
    generate_timetable (H := fisher_yates) demo_db demo_tape = (d', Ok (g', resp)) ∧
    (resp_scheduled resp ≤ grid_cells * Z.of_nat (length (db_rooms demo_db)) ∧
     resp_scheduled resp ≤ grid_cells * Z.of_nat (length (db_faculties demo_db)) ∧
     resp_scheduled resp ≤ grid_cells * Z.of_nat (length (db_batches demo_db))).
Proof. demo_witness @generate_capacity. Defined.

Lemma generate_unresolved_raises_witness :
  ∃ subject, subject ∈ db_subjects demo_db_dangling ∧
    generate_timetable (H := fisher_yates) demo_db_dangling demo_tape
    = (demo_db_dangling, Raise (KeyError (faculty_id subject))).
Proof.
  eapply (generate_unresolved_raises (H := fisher_yates) demo_db_dangling demo_tape);
    [reflexivity|reflexivity|done|done|].
  apply (bool_decide_unpack _). by vm_compute.
Defined.

Lemma generate_any_subject_first_witness :
  ∃ g d' g' resp,
    generate_timetable (H := fisher_yates) demo_db g = (d', Ok (g', resp)) ∧
    head (tt_rows (db_timetable d'))
    = Some (first_session demo_db (BatchRow "B1" "CS" 1 "A" 30 1)
              (SubjectRow "S3" "Logic" "F1") (RoomRow "R1" "Room 1" 40 "Lecture" "")).
Proof.
  apply (generate_any_subject_first demo_db (BatchRow "B1" "CS" 1 "A" 30 1)
           [BatchRow "B2" "CS" 2 "A" 25 1] (RoomRow "R1" "Room 1" 40 "Lecture" "")
           [RoomRow "R2" "Lab" 20 "Lab" "pc"] (SubjectRow "S3" "Logic" "F1"));
    [|reflexivity|reflexivity|done|set_solver].
  apply (bool_decide_unpack _). by vm_compute.
Defined.
