(* ===== verification/GenerateCount.v ===== *)
(** * GenerateCount: how many sessions [generate_timetable] schedules

    With distinct rooms whose ids are not empty, the number of sessions the
    handler stores does not depend on the shuffle: each cell of the grid
    gets as many sessions as the batches, the rooms and the faculties that
    teach a subject allow.  No timetable without clashes has more. *)

From stdpp Require Import base tactics option list strings gmap fin_maps.
From S2P Require Import Prelude Database Shuffle Occupancy Allocator AllocInv AllocTrace.
From S2P Require Import AllocEdge AllocCount Generate.

#[local] Open Scope Z_scope.

(** Every room id is a non-empty string. *)
Definition usable_rooms (d : db) : Prop :=
  Forall (λ r, room_id r ≠ ""%string) (db_rooms d).

#[export] Instance usable_rooms_dec d : Decision (usable_rooms d).
Proof. unfold usable_rooms. apply _. Defined.

(** The sessions a cell of the grid can hold: one per batch, each in a room
    of its own with a faculty of its own. *)
Definition sessions_per_cell (d : db) : nat :=
  length (db_batches d)
    `min` (length (db_rooms d) `min` length (teaching (db_subjects d))).

(** A timetable for the entities of [d]: sessions in the grid, of batches
    and rooms of the tables and of faculties that teach a subject, at most
    one per batch, per faculty and per room in a cell. *)
Record valid_timetable (d : db) (rows : list timetable_row) : Prop := ValidTimetable {
  valid_grid : Forall (λ row, cell_key row ∈ cells DAYS SLOTS_PER_DAY) rows;
  valid_batch : Forall (λ row, t_batch_id row ∈ batch_id <$> db_batches d) rows;
  valid_room : Forall (λ row, t_room_id row ∈ room_id <$> db_rooms d) rows;
  valid_faculty : Forall (λ row, t_faculty_id row ∈ faculty_id <$> db_subjects d) rows;
  valid_batch_key : NoDup (batch_key <$> rows);
  valid_fac_key : NoDup (fac_key <$> rows);
  valid_room_key : NoDup (room_key <$> rows)
}.

(** A valid timetable has no more sessions in a cell than the cell can
    hold, hence no more than 30 times that. *)
Lemma valid_timetable_cell d rows k :
  valid_timetable d rows → (length (rows_at k rows) ≤ sessions_per_cell d)%nat.
Proof.
  intros [_ Hb Hr Hf Hbk Hfk Hrk]. rewrite Forall_forall in Hb, Hr, Hf.
  unfold sessions_per_cell. repeat apply Nat.min_glb.
  - rewrite <- (length_fmap batch_id). by apply (rows_at_le t_batch_id).
  - rewrite <- (length_fmap room_id). by apply (rows_at_le t_room_id).
  - apply (rows_at_le t_faculty_id); [done|]. intros row Hrow.
    by apply elem_of_remove_dups, Hf.
Qed.

Lemma valid_timetable_length d rows :
  valid_timetable d rows →
  (length rows ≤ length DAYS * SLOTS_PER_DAY * sessions_per_cell d)%nat.
Proof.
  intros Hvalid. pose proof Hvalid as [Hgrid _ _ _ _ _ _].
  rewrite Forall_forall in Hgrid.
  rewrite (length_filter_keys cell_key (cells DAYS SLOTS_PER_DAY)), <- cells_length;
    [|apply cells_NoDup, DAYS_NoDup|done].
  apply sum_list_with_le. intros k _. by apply valid_timetable_cell.
Qed.

Section handler_count.
Context `{Shuffler}.

(** The pass behind a run of the handler that returned. *)
Lemma generate_timetable_run d g d' g' resp :
  generate_timetable d g = (d', Ok (g', resp)) →
  ∃ st,
    allocate DAYS SLOTS_PER_DAY (db_batches d) (db_subjects d)
      (faculties_dict (db_faculties d)) (room_id <$> db_rooms d)
      (sql_delete_timetable (db_timetable d)) g = Ok st ∧
    d' = commit d (cur st) ∧
    resp_scheduled resp = Z.of_nat (length (tt_rows (cur st))).
Proof.
  unfold generate_timetable.
  destruct (allocate _ _ _ _ _ _ _ _) as [st|e] eqn:Hrun; intros [= <- <- <-].
  exists st. split_and!; [done..|]. simpl.
  apply allocate_trace in Hrun as [_ Hcount _ _ _ _]; [|done].
  rewrite attempts_length in Hcount. unfold DAYS, SLOTS_PER_DAY in *.
  simpl in *. lia.
Qed.

(** The timetable a run stores is a valid timetable. *)
Lemma generate_timetable_valid d g d' g' resp :
  table_wf batch_id (db_batches d) →
  generate_timetable d g = (d', Ok (g', resp)) →
  valid_timetable d (tt_rows (db_timetable d')).
Proof.
  intros Hwf (st & -> & _ & _ & _ & Hinv & Htr)%generate_timetable_Ok. simpl.
  pose proof Hinv as [_ [_ Hfac] [_ Hroom]]. pose proof Htr as [Hsub _ _ _ _ Hrefs].
  rewrite Forall_forall in Hrefs.
  split; try done; try (apply Forall_forall; intros row Hrow).
  - destruct (trace_row_grid _ _ _ _ _ _ _ _ Htr Hrow) as (_ & ? & slot & ? & Hs).
    apply elem_of_cells. exists (t_day row), slot. unfold cell_key, cell_of.
    by rewrite Hs.
  - by destruct (trace_row_grid _ _ _ _ _ _ _ _ Htr Hrow).
  - by destruct (Hrefs row Hrow).
  - destruct (Hrefs row Hrow) as (_ & _ & subject & ? & _ & ->).
    by apply list_elem_of_fmap_2.
  - eapply sublist_NoDup; [|exact Hsub]. apply attempt_keys_NoDup; [done|apply DAYS_NoDup].
Qed.

(** With distinct rooms whose ids are not empty, a run stores as many rows
    as the cells of the grid hold. *)
Lemma generate_timetable_length d g d' g' resp :
  table_wf room_id (db_rooms d) → usable_rooms d →
  generate_timetable d g = (d', Ok (g', resp)) →
  length (tt_rows (db_timetable d'))
  = (length DAYS * SLOTS_PER_DAY * sessions_per_cell d)%nat.
Proof.
  intros Hwf Husable (st & Hrun & -> & _)%generate_timetable_run. simpl.
  apply allocate_count in Hrun; [|done| |done|apply DAYS_NoDup].
  - rewrite Hrun. unfold sessions_per_cell, cell_capacity. by rewrite length_fmap.
  - apply Forall_fmap. by eapply Forall_impl.
Qed.

(** With distinct rooms whose ids are not empty, every cell of the grid
    gets the same number of sessions, whatever the shuffle: the least of the
    number of batches, of rooms, and of faculties that teach a subject. *)
Theorem generate_cell_count d g d' g' resp day slot :
  table_wf room_id (db_rooms d) → usable_rooms d →
  generate_timetable d g = (d', Ok (g', resp)) →
  day ∈ DAYS → 1 ≤ slot ≤ 6 →
  length (rows_at (day, slot) (tt_rows (db_timetable d'))) = sessions_per_cell d.
Proof.
  intros Hwf Husable (st & Hrun & -> & _)%generate_timetable_run Hday Hslot. simpl.
  replace (day, slot) with (cell_of day (Z.to_nat (slot - 1)))
    by (unfold cell_of; f_equal; lia).
  unfold sessions_per_cell. rewrite <- (length_fmap room_id (db_rooms d)).
  eapply (allocate_cell_count DAYS SLOTS_PER_DAY);
    [exact Hwf| | |apply DAYS_NoDup|exact Hrun|exact Hday|
     unfold SLOTS_PER_DAY; lia]; [|done].
  apply Forall_fmap. by eapply Forall_impl.
Qed.

(** C12: with distinct rooms whose ids are not empty, the answer does not
    depend on the shuffle: [scheduled] is 30 times what a cell can hold, and
    [unscheduled] is the rest of the attempts. *)
Theorem generate_scheduled d g d' g' resp :
  table_wf room_id (db_rooms d) → usable_rooms d →
  generate_timetable d g = (d', Ok (g', resp)) →
  resp_scheduled resp = 30 * Z.of_nat (sessions_per_cell d) ∧
  resp_unscheduled resp
  = 30 * (Z.of_nat (length (db_batches d)) - Z.of_nat (sessions_per_cell d)).
Proof.
  intros Hwf Husable Hgen.
  pose proof (generate_timetable_length _ _ _ _ _ Hwf Husable Hgen) as Hlen.
  pose proof Hgen as (st & _ & -> & Hs)%generate_timetable_run.
  apply generate_timetable_Ok in Hgen as (st' & _ & _ & Hu & Hs' & _).
  simpl in Hlen. rewrite Hs, Hlen in *. unfold DAYS, SLOTS_PER_DAY in *.
  simpl in *. lia.
Qed.

(** C13: the handler schedules as many sessions as a timetable can have: the
    timetable it stores is valid, and no valid timetable for the same
    entities has more rows. *)
Theorem generate_optimal d g d' g' resp rows :
  db_wf d → usable_rooms d →
  generate_timetable d g = (d', Ok (g', resp)) →
  valid_timetable d (tt_rows (db_timetable d')) ∧
  (valid_timetable d rows →
   (length rows ≤ length (tt_rows (db_timetable d')))%nat).
Proof.
  intros (Hr & Hb & _) Husable Hgen. split; [by eapply generate_timetable_valid|].
  intros Hlen%valid_timetable_length.
  by rewrite (generate_timetable_length _ _ _ _ _ Hr Husable Hgen).
Qed.

End handler_count.

Lemma demo_db_rooms_wf : table_wf room_id (db_rooms demo_db).
Proof. apply (bool_decide_unpack _). by vm_compute. Defined.

Lemma demo_db_usable : usable_rooms demo_db.
Proof. apply (bool_decide_unpack _). by vm_compute. Defined.

Lemma demo_db_wf : db_wf demo_db.
Proof.
  split_and!; apply (bool_decide_unpack _); by vm_compute.
Defined.

Lemma generate_cell_count_witness :
  ∃ d' g' resp,
    generate_timetable (H := fisher_yates) demo_db demo_tape = (d', Ok (g', resp)) ∧
    length (rows_at ("Monday"%string, 1) (tt_rows (db_timetable d')))
    = sessions_per_cell demo_db.
Proof.
  eexists _, _, _. split; [vm_compute; reflexivity|].
  eapply (generate_cell_count (H := fisher_yates) demo_db demo_tape);
    [exact demo_db_rooms_wf|exact demo_db_usable|vm_compute; reflexivity| |lia].
  apply list_elem_of_here.
Defined.

Lemma generate_scheduled_witness :
  ∃ d' g' resp,
    generate_timetable (H := fisher_yates) demo_db demo_tape = (d', Ok (g', resp)) ∧
    resp_scheduled resp = 30 * Z.of_nat (sessions_per_cell demo_db) ∧
    resp_unscheduled resp
    = 30 * (Z.of_nat (length (db_batches demo_db)) - Z.of_nat (sessions_per_cell demo_db)).
Proof.
  eexists _, _, _. split; [vm_compute; reflexivity|].
  eapply (generate_scheduled (H := fisher_yates) demo_db demo_tape);
    [exact demo_db_rooms_wf|exact demo_db_usable|vm_compute; reflexivity].
Defined.

Lemma generate_optimal_witness :
  ∃ d' g' resp,
    generate_timetable (H := fisher_yates) demo_db demo_tape = (d', Ok (g', resp)) ∧
    valid_timetable demo_db (tt_rows (db_timetable d')) ∧
    (valid_timetable demo_db [] →
     (length (@nil timetable_row) ≤ length (tt_rows (db_timetable d')))%nat).
Proof.
  eexists _, _, _. split; [vm_compute; reflexivity|].
  eapply (generate_optimal (H := fisher_yates) demo_db demo_tape);
    [exact demo_db_wf|exact demo_db_usable|vm_compute; reflexivity].
Defined.
