(* ===== verification/Cost.v ===== *)
(** * Cost: the occupancy cells a run reads

    What [generate_timetable] reads of its two occupancy tables (lines
    212-213 of [src/app.py]), as the sequence of the cells read by each
    attempt.  The search for a free room, [next(...)] of line 212, stands
    inside the loop over the shuffled subjects: it is evaluated anew for
    every candidate subject, and reads the cells of the rooms in order up to
    the first free one.  The reads are a function of the same inputs as the
    pass and follow its control flow through the definitions of [Allocator];
    the writes of lines 218-219 are not counted. *)

From stdpp Require Import base tactics option list strings gmap fin_maps.
From S2P Require Import Prelude Database Shuffle Occupancy Allocator AllocInv AllocTrace.
From S2P Require Import AllocEdge AllocCount Generate GenerateCount.

(** A read of [global_room_slot[room][day][slot]] or of
    [global_fac_slot[fac_id][day][slot]]. *)
Inductive read : Type :=
| RoomCell (room day : string) (slot : nat)
| FacultyCell (fac_id day : string) (slot : nat).

Section cost.
Context `{Shuffler}.
Implicit Types (st : alloc_state) (rooms : list string) (day : string) (slot : nat)
  (subjects : list subject_row) (a : batch_row * string * nat).

(** The cells [next(...)] of line 212 reads: those of the rooms in order,
    up to the first one that is free. *)
Fixpoint free_room_reads rooms (room_slot : occ) day slot : list read :=
  match rooms with
  | [] => []
  | r :: rooms' =>
      RoomCell r day slot ::
      match occ_busy room_slot r day slot with
      | Ok true => free_room_reads rooms' room_slot day slot
      | _ => []
      end
  end.

(** The cells the loop over the shuffled subjects reads (lines 210-213):
    for each subject the search for a room and, when it gives a truthy
    room, the cell of the subject's faculty; the loop ends with the first
    subject whose faculty is free. *)
Fixpoint try_subjects_reads rooms day slot (subjects_shuffled : list subject_row) st
  : list read :=
  match subjects_shuffled with
  | [] => []
  | subject :: rest =>
      free_room_reads rooms (global_room_slot st) day slot ++
      match free_room rooms (global_room_slot st) day slot with
      | Ok (Some room) =>
          if truthy room then
            FacultyCell (faculty_id subject) day slot ::
            match occ_busy (global_fac_slot st) (faculty_id subject) day slot with
            | Ok true => try_subjects_reads rooms day slot rest st
            | _ => []
            end
          else try_subjects_reads rooms day slot rest st
      | Ok None => try_subjects_reads rooms day slot rest st
      | Raise _ => []
      end
  end.

(** The cells one attempt reads (lines 207-213). *)
Definition attempt_reads rooms subjects a st : list read :=
  let '(subjects_shuffled, g) := shuffle subjects (gen st) in
  try_subjects_reads rooms a.1.2 a.2 subjects_shuffled (set_gen g st).

(** The reads of the attempts [l] from the state [st], attempt by attempt,
    up to the attempt that raises. *)
Fixpoint pass_reads rooms subjects (l : list (batch_row * string * nat)) st
  : list (list read) :=
  match l with
  | [] => []
  | a :: l' =>
      attempt_reads rooms subjects a st ::
      match attempt_at rooms subjects a st with
      | Ok st' => pass_reads rooms subjects l' st'
      | Raise _ => []
      end
  end.

(** The reads of the pass of lines 199-223. *)
Definition allocate_reads (days : list string) (n : nat) (batches : list batch_row)
    subjects (faculties : gmap string string) rooms (tt : timetable_table) (g : rng)
  : list (list read) :=
  pass_reads rooms subjects (attempts days n batches)
    (alloc_init days n faculties rooms tt g).

(** The reads of a run of the handler on the database [d]. *)
Definition generate_reads (d : db) (g : rng) : list (list read) :=
  allocate_reads DAYS SLOTS_PER_DAY (db_batches d) (db_subjects d)
    (faculties_dict (db_faculties d)) (room_id <$> db_rooms d)
    (sql_delete_timetable (db_timetable d)) g.

(** Every room is taken in every cell of the grid. *)
Definition saturated rooms (days : list string) (n : nat) st : Prop :=
  ∀ day slot, day ∈ days → slot < n →
    free_room rooms (global_room_slot st) day slot = Ok None.

(** ** The search for a room *)

Lemma free_room_reads_le rooms room_slot day slot :
  length (free_room_reads rooms room_slot day slot) ≤ length rooms.
Proof.
  induction rooms as [|r rooms IH]; simpl; [done|].
  destruct (occ_busy room_slot r day slot) as [[]|]; simpl; lia.
Qed.

(** A search that finds no room has read the cell of every room. *)
Lemma free_room_reads_None rooms room_slot day slot :
  free_room rooms room_slot day slot = Ok None →
  free_room_reads rooms room_slot day slot = (λ r, RoomCell r day slot) <$> rooms.
Proof.
  induction rooms as [|r rooms IH]; simpl; [done|]. intros Hf.
  apply bind_Ok in Hf as ([] & -> & Hf); [|done]. by rewrite IH.
Qed.

Lemma free_room_busy rooms room_slot day slot :
  Forall (λ r, occ_cell room_slot r day slot = Some true) rooms →
  free_room rooms room_slot day slot = Ok None.
Proof.
  induction 1 as [|r rooms Hr%occ_busy_Ok _ IH]; simpl; [done|]. by rewrite Hr.
Qed.

(** ** One attempt *)

Lemma try_subjects_reads_le rooms day slot subs st :
  length (try_subjects_reads rooms day slot subs st) ≤ length subs * S (length rooms).
Proof.
  induction subs as [|subject subs IH]; simpl; [done|].
  pose proof (free_room_reads_le rooms (global_room_slot st) day slot).
  rewrite length_app.
  destruct (free_room _ _ _ _) as [[room|]|]; simpl; [|lia..].
  destruct (truthy room); simpl; [|lia].
  destruct (occ_busy _ _ _ _) as [[]|]; simpl; lia.
Qed.

(** When no room is free, every subject of the list costs a scan of all
    the rooms. *)
Lemma try_subjects_reads_None rooms day slot subs st :
  free_room rooms (global_room_slot st) day slot = Ok None →
  try_subjects_reads rooms day slot subs st
  = subs ≫= λ _, (λ r, RoomCell r day slot) <$> rooms.
Proof.
  intros Hf. induction subs as [|subject subs IH]; simpl; [done|].
  by rewrite Hf, (free_room_reads_None _ _ _ _ Hf), IH.
Qed.

Lemma attempt_reads_le rooms subjects a st :
  length (attempt_reads rooms subjects a st) ≤ length subjects * S (length rooms).
Proof.
  unfold attempt_reads. pose proof (shuffle_perm subjects (gen st)) as Hp.
  destruct (shuffle subjects (gen st)) as [subs g]. simpl in Hp. rewrite <- Hp.
  apply try_subjects_reads_le.
Qed.

Lemma attempt_reads_None rooms subjects a st :
  free_room rooms (global_room_slot st) a.1.2 a.2 = Ok None →
  length (attempt_reads rooms subjects a st) = length subjects * length rooms.
Proof.
  intros Hf. unfold attempt_reads. pose proof (shuffle_perm subjects (gen st)) as Hp.
  destruct (shuffle subjects (gen st)) as [subs g]. simpl in Hp.
  rewrite try_subjects_reads_None by done. rewrite <- Hp.
  apply length_bind_const. intros _. by rewrite length_fmap.
Qed.

(** An attempt that finds no room leaves the tables as they are. *)
Lemma attempt_at_None rooms subjects a st :
  free_room rooms (global_room_slot st) a.1.2 a.2 = Ok None →
  ∃ st', attempt_at rooms subjects a st = Ok st' ∧
    global_room_slot st' = global_room_slot st.
Proof.
  intros Hf. unfold attempt_at, attempt.
  destruct (shuffle subjects (gen st)) as [subs g].
  rewrite try_subjects_blocked by (simpl; eauto). simpl. eauto.
Qed.

(** ** The pass *)

Lemma pass_reads_length rooms subjects l st :
  length (pass_reads rooms subjects l st) ≤ length l.
Proof.
  revert st. induction l as [|a l IH]; intros st; simpl; [done|].
  destruct (attempt_at rooms subjects a st) as [st'|]; simpl; [|lia].
  specialize (IH st'). lia.
Qed.

Lemma pass_reads_Forall rooms subjects l st :
  Forall (λ tr, length tr ≤ length subjects * S (length rooms))
    (pass_reads rooms subjects l st).
Proof.
  revert st. induction l as [|a l IH]; intros st; simpl; [done|].
  constructor; [apply attempt_reads_le|].
  destruct (attempt_at rooms subjects a st); [apply IH|done].
Qed.

Lemma pass_reads_app rooms subjects l1 l2 st st1 :
  for_each (attempt_at rooms subjects) l1 st = Ok st1 →
  pass_reads rooms subjects (l1 ++ l2) st
  = pass_reads rooms subjects l1 st ++ pass_reads rooms subjects l2 st1.
Proof.
  revert st. induction l1 as [|a l1 IH]; intros st; simpl; [by intros [= ->]|].
  intros (st' & -> & Hrest)%bind_Ok. by rewrite (IH _ Hrest).
Qed.

(** Once every room is taken everywhere, each further attempt scans all the
    rooms for each subject. *)
Lemma pass_reads_saturated rooms (days : list string) n subjects l st :
  saturated rooms days n st →
  Forall (λ a, a.1.2 ∈ days ∧ a.2 < n) l →
  length (concat (pass_reads rooms subjects l st))
  = length l * (length subjects * length rooms).
Proof.
  intros Hsat Hl. revert st Hsat.
  induction Hl as [|a l [Hday Hslot] _ IH]; intros st Hsat; simpl; [done|].
  pose proof (Hsat _ _ Hday Hslot) as Hf.
  destruct (attempt_at_None rooms subjects a st Hf) as (st' & -> & Hrs).
  rewrite length_app, (attempt_reads_None _ _ _ _ Hf), IH; [done|].
  intros day slot ??. rewrite Hrs. by apply Hsat.
Qed.

(** After as many batches as there are rooms, when at least as many
    faculties teach, every room is taken in every cell. *)
Lemma pass_inv_saturated fac_ids rooms days n subjects seq0
    (batches : list batch_row) st :
  NoDup days → length batches = length rooms →
  length rooms ≤ length (teaching subjects) →
  pass_inv fac_ids rooms days n subjects seq0 (attempts days n batches) st →
  saturated rooms days n st.
Proof.
  intros Hdays Hlen Hteach [[_ _ [Hbusy Hnd]] [_ _ _ _ _ Hrefs] Hcount] day slot Hday Hslot.
  apply free_room_busy, Forall_forall. intros r Hr. apply Hbusy.
  specialize (Hcount (cell_of day slot)).
  rewrite attempts_at_length in Hcount by done. unfold cell_capacity in Hcount.
  set (here := rows_at (cell_of day slot) (tt_rows (cur st))) in *.
  assert (t_room_id <$> here ≡ₚ rooms) as Hp.
  { apply submseteq_length_Permutation; [|rewrite length_fmap; lia].
    apply NoDup_submseteq; [by apply rows_at_ids_NoDup|].
    intros i (row & -> & [_ Hrow]%list_elem_of_filter)%list_elem_of_fmap.
    rewrite Forall_forall in Hrefs. by apply Hrefs. }
  rewrite <- Hp in Hr.
  apply list_elem_of_fmap in Hr as (row & -> & [[= <- Hs] Hrow]%list_elem_of_filter).
  apply list_elem_of_fmap. exists row. split; [|done]. unfold room_key. by rewrite Hs.
Qed.

(** A pass with more batches than rooms: the attempts of the batches after
    the first [length rooms] each scan every room for every subject. *)
Lemma allocate_reads_saturated days n batches subjects faculties rooms tt g st :
  NoDup rooms → Forall (λ r, r ≠ ""%string) rooms → tt_rows tt = [] → NoDup days →
  length rooms ≤ length (teaching subjects) →
  allocate days n batches subjects faculties rooms tt g = Ok st →
  (length batches - length rooms) * length days * n * (length subjects * length rooms)
  ≤ length (concat (allocate_reads days n batches subjects faculties rooms tt g)).
Proof.
  intros Hnd Husable Hrows Hdays Hteach Hrun.
  destruct (decide (length batches ≤ length rooms)) as [Hle|Hgt];
    [replace (length batches - length rooms) with 0 by lia; simpl; lia|].
  unfold allocate, allocate_reads in *. rewrite batch_loop_flat in Hrun.
  rewrite <- (take_drop (length rooms) batches), attempts_app in Hrun |- *.
  rewrite for_each_app in Hrun. apply bind_Ok in Hrun as (st1 & Hrun1 & _).
  assert (length (take (length rooms) batches) = length rooms) as Htake
    by (rewrite length_take; lia).
  rewrite (pass_reads_app _ _ _ _ _ _ Hrun1), concat_app, !length_app, Htake.
  rewrite <- batch_loop_flat in Hrun1.
  apply (allocate_pass_inv days n) in Hrun1; [|done..].
  apply pass_inv_saturated in Hrun1; [|done..].
  rewrite (pass_reads_saturated rooms days n subjects _ st1); [|done|].
  - rewrite attempts_length. lia.
  - apply Forall_forall. by intros [[b d'] s] (_ & ? & ?)%elem_of_attempts.
Qed.

(** ** The handler *)

Lemma grid_30 (k : nat) : k * length DAYS * SLOTS_PER_DAY = k * 30.
Proof. unfold DAYS, SLOTS_PER_DAY. simpl. lia. Qed.

(** A run reads at most [rooms + 1] cells for each subject of each
    attempt: the cells of the rooms up to the first free one, and the cell
    of the subject's faculty.  This holds for every database and generator,
    also for a run that raises. *)
Theorem generate_reads_bound d g :
  length (generate_reads d g) ≤ length (db_batches d) * 30 ∧
  length (concat (generate_reads d g))
  ≤ length (db_batches d) * 30 * (length (db_subjects d) * S (length (db_rooms d))).
Proof.
  unfold generate_reads, allocate_reads.
  pose proof (pass_reads_length (room_id <$> db_rooms d) (db_subjects d)
    (attempts DAYS SLOTS_PER_DAY (db_batches d))
    (alloc_init DAYS SLOTS_PER_DAY (faculties_dict (db_faculties d))
       (room_id <$> db_rooms d) (sql_delete_timetable (db_timetable d)) g)) as Hlen.
  rewrite attempts_length, grid_30 in Hlen. split; [lia|].
  etrans; [apply length_concat_le, pass_reads_Forall|].
  rewrite length_fmap. apply Nat.mul_le_mono_r. lia.
Qed.

(** C30: the search for a room is repeated for every subject.  With distinct
    rooms whose ids are not empty and at least as many teaching faculties as
    rooms, a run that returns has read, for every batch after the first
    [rooms] batches, in each of the 30 cells and for each subject, the cells
    of all the rooms: the reads grow with the product of subjects and
    rooms. *)
Theorem generate_reads_saturated d g d' g' resp :
  table_wf room_id (db_rooms d) → usable_rooms d →
  length (db_rooms d) ≤ length (teaching (db_subjects d)) →
  generate_timetable d g = (d', Ok (g', resp)) →
  (length (db_batches d) - length (db_rooms d)) * 30
    * (length (db_subjects d) * length (db_rooms d))
  ≤ length (concat (generate_reads d g)).
Proof.
  intros Hwf Husable Hteach (st & Hrun & _)%generate_timetable_run.
  apply allocate_reads_saturated in Hrun;
    [|done|apply Forall_fmap; by eapply Forall_impl|done|apply DAYS_NoDup|
     by rewrite length_fmap].
  rewrite length_fmap, grid_30 in Hrun. unfold generate_reads. lia.
Qed.

End cost.

(** ** A crowded database *)

(** The database of [Generate] with one room and a third batch. *)
Definition demo_db_crowded : db :=
  {| db_rooms := [RoomRow "R1" "Room 1" 40 "Lecture" ""];
     db_batches := db_batches demo_db ++ [BatchRow "B3" "CS" 3 "A" 20 1];
     db_faculties := db_faculties demo_db; db_subjects := db_subjects demo_db;
     db_timetable := db_timetable demo_db |}.

Lemma generate_reads_saturated_witness :
  ∃ d' g' resp,
    generate_timetable (H := fisher_yates) demo_db_crowded demo_tape
    = (d', Ok (g', resp)) ∧
    180 ≤ length (concat (generate_reads (H := fisher_yates) demo_db_crowded demo_tape)).
Proof.
  assert (∃ d' g' resp, generate_timetable (H := fisher_yates) demo_db_crowded demo_tape
                        = (d', Ok (g', resp))) as (d' & g' & resp & Hgen)
    by (eexists _, _, _; vm_compute; reflexivity).
  exists d', g', resp. split; [exact Hgen|].
  refine (generate_reads_saturated (H := fisher_yates) demo_db_crowded demo_tape
            d' g' resp _ _ _ Hgen).
  - apply (bool_decide_unpack _). by vm_compute.
  - apply (bool_decide_unpack _). by vm_compute.
  - vm_compute. lia.
Defined.
