(* ===== verification/GenerateOrder.v ===== *)
(** * GenerateOrder: the answer does not depend on the order of the rows

    The model reads a table as the list of its rows in scan order, which
    SQLite does not promise.  What [generate_timetable] answers is the same
    for every order of the rows of the entity tables, as for every state of
    the generator: the relation [db_perm] identifies such databases, and the
    quantities the answer is made of are [Proper] for it. *)

From stdpp Require Import base tactics option list strings gmap fin_maps.
From S2P Require Import Prelude Database Shuffle Occupancy Allocator AllocInv AllocTrace.
From S2P Require Import AllocEdge AllocCount Generate GenerateCount.
#[local] Open Scope Z_scope.

(** ** Databases up to the order of their rows

    SQLite returns the rows of a [SELECT] without [ORDER BY] in an order it
    chooses.  Two databases are equivalent when their entity tables hold the
    same rows, in any order. *)

Definition db_perm (d1 d2 : db) : Prop :=
  db_rooms d1 ≡ₚ db_rooms d2 ∧ db_batches d1 ≡ₚ db_batches d2 ∧
  db_faculties d1 ≡ₚ db_faculties d2 ∧ db_subjects d1 ≡ₚ db_subjects d2.

#[export] Instance db_perm_equiv : Equivalence db_perm.
Proof.
  split.
  - by intros d.
  - intros d1 d2 (? & ? & ? & ?). by repeat split.
  - intros d1 d2 d3 (? & ? & ? & ?) (? & ? & ? & ?).
    repeat split; by etrans.
Qed.

#[export] Instance db_rooms_proper : Proper (db_perm ==> (≡ₚ)) db_rooms.
Proof. by intros d1 d2 (? & _). Qed.

#[export] Instance db_batches_proper : Proper (db_perm ==> (≡ₚ)) db_batches.
Proof. by intros d1 d2 (_ & ? & _). Qed.

#[export] Instance db_faculties_proper : Proper (db_perm ==> (≡ₚ)) db_faculties.
Proof. by intros d1 d2 (_ & _ & ? & _). Qed.

#[export] Instance db_subjects_proper : Proper (db_perm ==> (≡ₚ)) db_subjects.
Proof. by intros d1 d2 (_ & _ & _ & ?). Qed.

#[export] Instance teaching_proper : Proper ((≡ₚ) ==> (≡ₚ)) teaching.
Proof.
  intros l1 l2 Hl. unfold teaching.
  apply NoDup_Permutation; [apply NoDup_remove_dups..|].
  intros x. by rewrite !elem_of_remove_dups, Hl.
Qed.

#[export] Instance sessions_per_cell_proper : Proper (db_perm ==> (=)) sessions_per_cell.
Proof. intros d1 d2 Hd. unfold sessions_per_cell. by rewrite Hd. Qed.

#[export] Instance usable_rooms_proper : Proper (db_perm ==> iff) usable_rooms.
Proof. intros d1 d2 Hd. unfold usable_rooms. by rewrite Hd. Qed.

#[export] Instance refs_ok_proper : Proper (db_perm ==> iff) refs_ok.
Proof.
  intros d1 d2 Hd. unfold refs_ok. rewrite Hd. apply Forall_proper; [|done].
  intros subject. by rewrite Hd.
Qed.

#[export] Instance table_wf_proper {R} (key : R → string) :
  Proper ((≡ₚ) ==> iff) (table_wf key).
Proof. intros t1 t2 Ht. unfold table_wf. by rewrite Ht. Qed.

Section handler_order.
Context `{Shuffler}.

(** C26: with distinct rooms whose ids are not empty, two runs that return,
    on databases whose entity tables hold the same rows in any order and
    from any two states of the generator, give the same answer. *)
Theorem generate_order_independent d1 d2 g1 g2 d1' g1' r1 d2' g2' r2 :
  db_perm d1 d2 → table_wf room_id (db_rooms d1) → usable_rooms d1 →
  generate_timetable d1 g1 = (d1', Ok (g1', r1)) →
  generate_timetable d2 g2 = (d2', Ok (g2', r2)) →
  r1 = r2.
Proof.
  intros Hd Hwf1 Hu1 Hgen1 Hgen2.
  assert (table_wf room_id (db_rooms d2)) as Hwf2 by by rewrite <- Hd.
  assert (usable_rooms d2) as Hu2 by by rewrite <- Hd.
  pose proof (generate_timetable_length _ _ _ _ _ Hwf1 Hu1 Hgen1) as Hl1.
  pose proof (generate_timetable_length _ _ _ _ _ Hwf2 Hu2 Hgen2) as Hl2.
  pose proof (generate_timetable_status _ _ _ _ _ Hgen1) as Hs1.
  pose proof (generate_timetable_status _ _ _ _ _ Hgen2) as Hs2.
  pose proof Hgen1 as (? & _ & -> & Hn1)%generate_timetable_run.
  pose proof Hgen2 as (? & _ & -> & Hn2)%generate_timetable_run.
  apply generate_timetable_Ok in Hgen1 as (? & _ & _ & Hun1 & Hc1 & _).
  apply generate_timetable_Ok in Hgen2 as (? & _ & _ & Hun2 & Hc2 & _).
  simpl in *. rewrite <- Hd in Hl2, Hc2.
  destruct r1, r2; simpl in *. f_equal; [congruence|lia..].
Qed.

End handler_order.

(** [demo_db] with the rows of its tables in another order. *)
Definition demo_db_reordered : db :=
  {| db_rooms := reverse (db_rooms demo_db); db_batches := reverse (db_batches demo_db);
     db_faculties := reverse (db_faculties demo_db);
     db_subjects := reverse (db_subjects demo_db);
     db_timetable := db_timetable demo_db |}.

Lemma generate_order_independent_witness :
  ∃ d1' g1' r1 d2' g2' r2,
    generate_timetable (H := fisher_yates) demo_db demo_tape = (d1', Ok (g1', r1)) ∧
    generate_timetable (H := fisher_yates) demo_db_reordered [] = (d2', Ok (g2', r2)) ∧
    r1 = r2.
Proof.
  eexists _, _, _, _, _, _. split; [vm_compute; reflexivity|].
  split; [vm_compute; reflexivity|].
  eapply (generate_order_independent (H := fisher_yates) demo_db demo_db_reordered
            demo_tape []);
    [|exact demo_db_rooms_wf|exact demo_db_usable|vm_compute; reflexivity..].
  repeat split; simpl; by rewrite reverse_Permutation.
Defined.
