(* ===== verification/GenerateAttrs.v ===== *)
(** * GenerateAttrs: what the allocator does not read

    Of a room the loops of [generate_timetable] use the id (line 197), of
    a faculty member the id (lines 196 and 201), of a batch the id (line
    217).  The capacity, type and resources of a room, the size, year,
    section, department and shift of a batch and the name of a faculty
    member are stored and returned by the entity endpoints, and never read
    by a run: two databases with the same ids in the same order get the
    same sessions ([generate_ignores_attributes]).  In particular no run
    compares the size of a batch with the capacity of its room. *)

From stdpp Require Import base tactics option list strings gmap fin_maps.
From S2P Require Import Prelude Database Shuffle Occupancy Allocator AllocInv Generate.

#[local] Open Scope Z_scope.

(** Databases with the same ids in their entity tables, the same subjects
    and the same sequence of entry ids. *)
Definition same_ids (d1 d2 : db) : Prop :=
  room_id <$> db_rooms d1 = room_id <$> db_rooms d2 ∧
  batch_id <$> db_batches d1 = batch_id <$> db_batches d2 ∧
  fac_id <$> db_faculties d1 = fac_id <$> db_faculties d2 ∧
  db_subjects d1 = db_subjects d2 ∧
  tt_seq (db_timetable d1) = tt_seq (db_timetable d2).

(** The attempts of two lists of batches with the same ids. *)
Definition same_attempt (a1 a2 : batch_row * string * nat) : Prop :=
  batch_id a1.1.1 = batch_id a2.1.1 ∧ a1.1.2 = a2.1.2 ∧ a1.2 = a2.2.

(** The rooms of [demo_db] with one seat each and its batches with 500
    students: the sessions are those of [demo_db]. *)
Definition demo_db_crammed : db :=
  {| db_rooms := [RoomRow "R1" "Closet" 1 "" ""; RoomRow "R2" "Booth" 1 "" ""];
     db_batches := [BatchRow "B1" "CS" 1 "A" 500 1; BatchRow "B2" "CS" 2 "A" 500 1];
     db_faculties := db_faculties demo_db;
     db_subjects := db_subjects demo_db;
     db_timetable := db_timetable demo_db |}.

#[export] Instance same_ids_equiv : Equivalence same_ids.
Proof.
  split.
  - by intros d.
  - intros d1 d2 (? & ? & ? & ? & ?). by repeat split.
  - intros d1 d2 d3 (? & ? & ? & ? & ?) (? & ? & ? & ? & ?).
    repeat split; by etrans.
Qed.

Section attrs.
Context `{Shuffler}.
Implicit Types (st : alloc_state) (rooms : list string) (b : batch_row).

(** ** A batch enters an attempt by its id *)

Lemma place_batch_id b1 b2 day slot subject room st :
  batch_id b1 = batch_id b2 →
  place b1 day slot subject room st = place b2 day slot subject room st.
Proof. intros Hid. unfold place. by rewrite Hid. Qed.

Lemma try_subjects_batch_id rooms b1 b2 day slot subs st :
  batch_id b1 = batch_id b2 →
  try_subjects rooms b1 day slot subs st = try_subjects rooms b2 day slot subs st.
Proof.
  intros Hid. induction subs as [|subject subs IH]; simpl; [done|]. rewrite IH.
  destruct (free_room _ _ _ _) as [[room|]|e]; simpl; try done.
  destruct (truthy room); [|done].
  destruct (occ_busy _ _ _ _) as [[]|e]; simpl; try done.
  by rewrite (place_batch_id b1 b2).
Qed.

Lemma attempt_batch_id rooms subjects b1 b2 day slot st :
  batch_id b1 = batch_id b2 →
  attempt rooms subjects b1 day slot st = attempt rooms subjects b2 day slot st.
Proof.
  intros Hid. unfold attempt. destruct (shuffle subjects (gen st)) as [subs g].
  by rewrite (try_subjects_batch_id _ b1 b2).
Qed.

Lemma attempt_at_same rooms subjects a1 a2 st :
  same_attempt a1 a2 → attempt_at rooms subjects a1 st = attempt_at rooms subjects a2 st.
Proof.
  destruct a1 as [[b1 day1] slot1], a2 as [[b2 day2] slot2].
  intros (Hid & Hday & Hslot). simpl in *. subst. by apply attempt_batch_id.
Qed.

Lemma attempts_same days n (bs1 bs2 : list batch_row) :
  batch_id <$> bs1 = batch_id <$> bs2 →
  Forall2 same_attempt (attempts days n bs1) (attempts days n bs2).
Proof.
  intros Hids.
  assert (Forall2 (λ b1 b2, batch_id b1 = batch_id b2) bs1 bs2) as Hbs
    by (by apply Forall2_fmap, list_eq_Forall2).
  clear Hids. induction Hbs as [|b1 b2 l1 l2 Hid _ IH]; [constructor|].
  unfold attempts in *. rewrite !bind_cons. apply Forall2_app; [|done].
  clear IH. induction days as [|day days IHd]; [constructor|].
  rewrite !bind_cons. apply Forall2_app; [|done].
  apply Forall2_fmap, Forall_Forall2_diag, Forall_forall. by intros slot _.
Qed.

Lemma pass_gen_same rooms subjects l1 l2 st :
  Forall2 same_attempt l1 l2 →
  pass_gen rooms subjects l1 st = pass_gen rooms subjects l2 st.
Proof.
  intros Hl. revert st. induction Hl as [|a1 a2 l1 l2 Ha _ IH]; intros st; simpl; [done|].
  rewrite (attempt_at_same _ _ a1 a2) by done.
  destruct (attempt_at rooms subjects a2 st); [apply IH|done].
Qed.

(** ** The faculty table enters the pass by its ids *)

Lemma occ_init_keys (ids1 ids2 days : list string) n :
  (∀ id, id ∈ ids1 ↔ id ∈ ids2) → occ_init ids1 days n = occ_init ids2 days n.
Proof.
  intros Hids. apply map_eq. intros id. rewrite !occ_init_lookup.
  specialize (Hids id). repeat case_decide; try done; tauto.
Qed.

Lemma alloc_init_same_ids days n (fs1 fs2 : list faculty_row) rooms tt g :
  fac_id <$> fs1 = fac_id <$> fs2 →
  alloc_init days n (faculties_dict fs1) rooms tt g
  = alloc_init days n (faculties_dict fs2) rooms tt g.
Proof.
  intros Hfs. unfold alloc_init.
  rewrite (occ_init_keys (dict_keys (faculties_dict fs1)) (dict_keys (faculties_dict fs2)));
    [done|].
  intros id. by rewrite !elem_of_faculties_dict, Hfs.
Qed.

Lemma allocate_same_ids days n (bs1 bs2 : list batch_row) subjects
    (fs1 fs2 : list faculty_row) rooms tt g :
  batch_id <$> bs1 = batch_id <$> bs2 → fac_id <$> fs1 = fac_id <$> fs2 →
  allocate days n bs1 subjects (faculties_dict fs1) rooms tt g
  = allocate days n bs2 subjects (faculties_dict fs2) rooms tt g ∧
  allocate_gen days n bs1 subjects (faculties_dict fs1) rooms tt g
  = allocate_gen days n bs2 subjects (faculties_dict fs2) rooms tt g.
Proof.
  intros Hbs Hfs. unfold allocate, allocate_gen.
  rewrite !batch_loop_flat, (alloc_init_same_ids _ _ fs1 fs2) by done. split.
  - apply (for_each_Forall2 same_attempt); [by apply attempts_same|].
    intros a1 a2 st. apply attempt_at_same.
  - by apply pass_gen_same, attempts_same.
Qed.

(** ** The handler *)

(** C27: Two databases with the same ids get the same sessions, the same
    answer or the same exception, and leave the generator in the same
    state, whatever the other columns of their rooms, batches and
    faculties hold. *)
Theorem generate_ignores_attributes d1 d2 g :
  same_ids d1 d2 →
  (generate_timetable d2 g).2 = (generate_timetable d1 g).2 ∧
  generate_gen d2 g = generate_gen d1 g ∧
  (is_ok (generate_timetable d1 g).2 →
   db_timetable (generate_timetable d2 g).1 = db_timetable (generate_timetable d1 g).1).
Proof.
  intros (Hr & Hb & Hf & Hs & Hseq).
  assert (sql_delete_timetable (db_timetable d2) = sql_delete_timetable (db_timetable d1))
    as Htt by (unfold sql_delete_timetable; by rewrite Hseq).
  destruct (allocate_same_ids DAYS SLOTS_PER_DAY _ _ (db_subjects d1) _ _
              (room_id <$> db_rooms d1) (sql_delete_timetable (db_timetable d1)) g
              Hb Hf) as [Hrun Hgen].
  unfold generate_timetable, generate_gen.
  rewrite <- Hr, <- Hs, Htt, <- Hrun, <- Hgen, <- (length_fmap batch_id (db_batches d2)),
    <- Hb, length_fmap.
  destruct (allocate _ _ _ _ _ _ _ _) as [st|e]; simpl; [done|].
  split_and!; [done..|]. by intros [? [=]].
Qed.

End attrs.

Lemma generate_ignores_attributes_witness :
  (generate_timetable (H := fisher_yates) demo_db_crammed demo_tape).2
  = (generate_timetable demo_db demo_tape).2 ∧
  generate_gen (H := fisher_yates) demo_db_crammed demo_tape
  = generate_gen demo_db demo_tape ∧
  (is_ok (generate_timetable demo_db demo_tape).2 →
   db_timetable (generate_timetable demo_db_crammed demo_tape).1
   = db_timetable (generate_timetable demo_db demo_tape).1).
Proof.
  apply (generate_ignores_attributes (H := fisher_yates) demo_db demo_db_crammed demo_tape).
  by repeat split.
Defined.
