(* ===== verification/GenerateSpec.v ===== *)
(** * GenerateSpec: the handler against the specification

    Under the precondition of the specification (every subject's faculty is
    a row of the faculty table) and with room ids that are not empty,
    [generate_timetable] returns what the algorithm of the specification
    computes from the same tables and the same generator: the same entries
    in the same order, the same counts, the generator in the same state. *)

From stdpp Require Import base tactics option list strings gmap fin_maps.
From S2P Require Import Prelude Database Shuffle Occupancy Allocator AllocInv AllocTrace.
From S2P Require Import AllocEdge AllocCount Spec Refine Generate GenerateCount.

#[local] Open Scope Z_scope.

Section handler_spec.
Context `{Shuffler}.

(** The run of the specification's algorithm on the tables of [d]. *)
Definition spec_run (d : db) (g : rng) : spec_state :=
  spec_generate DAYS SLOTS_PER_DAY (db_batches d) (db_subjects d)
    (room_id <$> db_rooms d) g.

(** Step 4 of the specification: the counts of the answer. *)
Definition spec_answer (d : db) (σ : spec_state) : generate_response :=
  {| resp_status := "ok";
     resp_scheduled :=
       Z.of_nat (length (db_batches d)) * Z.of_nat (length DAYS)
         * Z.of_nat SLOTS_PER_DAY - unscheduled_count σ;
     resp_unscheduled := unscheduled_count σ |}.

(** C11: when every subject's faculty is a row of the faculty table and no
    room id is empty, the handler returns the answer of the specification's
    algorithm, leaves the generator in the same state, changes no entity
    table, and stores the entries of the specification, in order. *)
Theorem generate_refines_spec d g :
  refs_ok d → usable_rooms d →
  ∃ d', generate_timetable d g
        = (d', Ok (spec_gen (spec_run d g), spec_answer d (spec_run d g))) ∧
    d' = commit d (db_timetable d') ∧
    row_entry <$> tt_rows (db_timetable d') = entries (spec_run d g).
Proof.
  intros Hrefs Husable. unfold generate_timetable, spec_run.
  destruct (allocate_refines DAYS SLOTS_PER_DAY (db_batches d) (db_subjects d)
              (faculties_dict (db_faculties d)) (room_id <$> db_rooms d)
              (sql_delete_timetable (db_timetable d)) g)
    as (st & -> & [[_ _ _ He Hu] Hg]); [| |done|].
  - eapply Forall_impl; [exact Hrefs|]. intros subject.
    by rewrite elem_of_faculties_dict.
  - apply Forall_fmap. by eapply Forall_impl.
  - exists (commit d (cur st)). unfold spec_answer. by rewrite Hg, Hu, He.
Qed.

End handler_spec.

Lemma demo_db_refs_ok : refs_ok demo_db.
Proof. apply (bool_decide_unpack _). by vm_compute. Defined.

Lemma generate_refines_spec_witness :
  ∃ d', generate_timetable (H := fisher_yates) demo_db demo_tape
        = (d', Ok (spec_gen (spec_run demo_db demo_tape),
                   spec_answer demo_db (spec_run demo_db demo_tape))) ∧
    d' = commit demo_db (db_timetable d') ∧
    row_entry <$> tt_rows (db_timetable d') = entries (spec_run demo_db demo_tape).
Proof.
  exact (generate_refines_spec (H := fisher_yates) demo_db demo_tape
           demo_db_refs_ok demo_db_usable).
Defined.

(** The two sides evaluated on the demo database: sixty entries each. *)
Example spec_run_demo :
  length (entries (spec_run (H := fisher_yates) demo_db demo_tape)) = 60%nat ∧
  (generate_timetable (H := fisher_yates) demo_db demo_tape).2
  = Ok (spec_gen (spec_run demo_db demo_tape), GenerateResponse "ok" 60 0).
Proof. by vm_compute. Qed.
