(* ===== verification/Crud.v ===== *)
(** * Crud: the entity endpoints

    The request models (lines 55-77 of [src/app.py]) and the twelve
    handlers for rooms, faculty, subjects and batches (lines 81-177).  A
    handler maps the database to the database it commits and its answer.
    [add_room] and [add_batch] hand integers to SQLite and raise
    [OverflowError], before anything is written, when one does not fit 64
    bits.  No handler checks a reference: a subject may name a faculty that
    is not (or is no longer) in the table. *)

From stdpp Require Import base tactics option list strings gmap fin_maps.
From S2P Require Import Prelude Database.

#[local] Open Scope Z_scope.

(** ** Request models, with the defaults of the class declarations *)

Module RoomIn.
Record t : Type := Make {
  room_id : string;
  room_name : string;
  capacity : Z;
  type : string;
  resources : string
}.
(** A body that leaves out [type] or [resources] gets the defaults. *)
Definition parse (room_id room_name : string) (capacity : Z)
    (type resources : option string) : t :=
  Make room_id room_name capacity (default "Lecture"%string type)
    (default ""%string resources).
End RoomIn.

Module FacultyIn.
Record t : Type := Make {
  faculty_id : string;
  name : string
}.
End FacultyIn.

Module SubjectIn.
Record t : Type := Make {
  subject_id : string;
  name : string;
  faculty_id : string
}.
End SubjectIn.

Module BatchIn.
Record t : Type := Make {
  batch_id : string;
  department : string;
  year : Z;
  section : string;
  size : Z;
  shift : Z
}.
(** Only [batch_id] is required. *)
Definition parse (batch_id : string) (department : option string)
    (year : option Z) (section : option string) (size shift : option Z) : t :=
  Make batch_id (default ""%string department) (default 1 year)
    (default ""%string section) (default 0 size) (default 1 shift).
End BatchIn.

(** ** Updates of one table of the database *)

Definition set_rooms (t : list room_row) (d : db) : db :=
  {| db_rooms := t; db_batches := db_batches d; db_faculties := db_faculties d;
     db_subjects := db_subjects d; db_timetable := db_timetable d |}.

Definition set_batches (t : list batch_row) (d : db) : db :=
  {| db_rooms := db_rooms d; db_batches := t; db_faculties := db_faculties d;
     db_subjects := db_subjects d; db_timetable := db_timetable d |}.

Definition set_faculties (t : list faculty_row) (d : db) : db :=
  {| db_rooms := db_rooms d; db_batches := db_batches d; db_faculties := t;
     db_subjects := db_subjects d; db_timetable := db_timetable d |}.

Definition set_subjects (t : list subject_row) (d : db) : db :=
  {| db_rooms := db_rooms d; db_batches := db_batches d;
     db_faculties := db_faculties d; db_subjects := t;
     db_timetable := db_timetable d |}.

(** The body of the answer of a handler that changes a table:
    [{"status": ...}]. *)
Inductive status : Type := StatusOk | StatusDeleted.

(** ** Rooms (lines 81-103) *)

Definition get_rooms (d : db) : list room_row := db_rooms d.

(** The parameters of the statement of line 91, as SQLite stores them. *)
Definition bind_room (r : RoomIn.t) : result room_row :=
  capacity ← sql_int (RoomIn.capacity r);
  Ok (RoomRow (RoomIn.room_id r) (RoomIn.room_name r) capacity
        (RoomIn.type r) (RoomIn.resources r)).

Definition add_room (r : RoomIn.t) (d : db) : db * result status :=
  match bind_room r with
  | Ok row => (set_rooms (sql_insert_or_replace room_id row (db_rooms d)) d, Ok StatusOk)
  | Raise e => (d, Raise e)
  end.

Definition delete_room (id : string) (d : db) : db * status :=
  (set_rooms (sql_delete room_id id (db_rooms d)) d, StatusDeleted).

(** ** Faculty (lines 106-127) *)

Definition get_faculty (d : db) : list faculty_row := db_faculties d.

Definition add_faculty (f : FacultyIn.t) (d : db) : db * status :=
  (set_faculties (sql_insert_or_replace fac_id
     (FacultyRow (FacultyIn.faculty_id f) (FacultyIn.name f)) (db_faculties d)) d,
   StatusOk).

Definition delete_faculty (id : string) (d : db) : db * status :=
  (set_faculties (sql_delete fac_id id (db_faculties d)) d, StatusDeleted).

(** ** Subjects (lines 130-152) *)

Definition get_subjects (d : db) : list subject_row := db_subjects d.

Definition add_subject (s : SubjectIn.t) (d : db) : db * status :=
  (set_subjects (sql_insert_or_replace sub_id
     (SubjectRow (SubjectIn.subject_id s) (SubjectIn.name s) (SubjectIn.faculty_id s))
     (db_subjects d)) d,
   StatusOk).

Definition delete_subject (id : string) (d : db) : db * status :=
  (set_subjects (sql_delete sub_id id (db_subjects d)) d, StatusDeleted).

(** ** Batches (lines 155-177) *)

Definition get_batches (d : db) : list batch_row := db_batches d.

(** The parameters of the statement of line 165, as SQLite stores them. *)
Definition bind_batch (b : BatchIn.t) : result batch_row :=
  year ← sql_int (BatchIn.year b);
  size ← sql_int (BatchIn.size b);
  shift ← sql_int (BatchIn.shift b);
  Ok (BatchRow (BatchIn.batch_id b) (BatchIn.department b) year
        (BatchIn.section b) size shift).

Definition add_batch (b : BatchIn.t) (d : db) : db * result status :=
  match bind_batch b with
  | Ok row => (set_batches (sql_insert_or_replace batch_id row (db_batches d)) d, Ok StatusOk)
  | Raise e => (d, Raise e)
  end.

Definition delete_batch (id : string) (d : db) : db * status :=
  (set_batches (sql_delete batch_id id (db_batches d)) d, StatusDeleted).

(** ** The requests that change an entity table, as one type *)

Inductive crud_request : Type :=
| AddRoom (r : RoomIn.t)
| DeleteRoom (id : string)
| AddFaculty (f : FacultyIn.t)
| DeleteFaculty (id : string)
| AddSubject (s : SubjectIn.t)
| DeleteSubject (id : string)
| AddBatch (b : BatchIn.t)
| DeleteBatch (id : string).

(** A handler that cannot raise. *)
Definition returns (x : db * status) : db * result status := (x.1, Ok x.2).

(** The routing of lines 88-177: each request to its handler. *)
Definition crud_handle (req : crud_request) (d : db) : db * result status :=
  match req with
  | AddRoom r => add_room r d
  | DeleteRoom id => returns (delete_room id d)
  | AddFaculty f => returns (add_faculty f d)
  | DeleteFaculty id => returns (delete_faculty id d)
  | AddSubject s => returns (add_subject s d)
  | DeleteSubject id => returns (delete_subject id d)
  | AddBatch b => add_batch b d
  | DeleteBatch id => returns (delete_batch id d)
  end.

(** The integers of a request all fit 64 bits. *)
Definition bindable (req : crud_request) : Prop :=
  match req with
  | AddRoom r => int64 (RoomIn.capacity r)
  | AddBatch b => int64 (BatchIn.year b) ∧ int64 (BatchIn.size b) ∧ int64 (BatchIn.shift b)
  | _ => True
  end.

#[export] Instance bindable_dec req : Decision (bindable req).
Proof. destruct req; apply _. Defined.

(** The integers a database stores all fit 64 bits. *)
Definition db_ints (d : db) : Prop :=
  Forall (λ r, int64 (capacity r)) (db_rooms d) ∧
  Forall (λ b, int64 (year b) ∧ int64 (batch_size b) ∧ int64 (shift b)) (db_batches d).

(** ** Properties *)

Lemma bind_room_Ok r row :
  bind_room r = Ok row ↔
  int64 (RoomIn.capacity r) ∧
  row = RoomRow (RoomIn.room_id r) (RoomIn.room_name r) (RoomIn.capacity r)
          (RoomIn.type r) (RoomIn.resources r).
Proof. unfold bind_room, sql_int. case_decide; simpl; naive_solver. Qed.

Lemma bind_room_Raise r e :
  bind_room r = Raise e ↔ ¬ int64 (RoomIn.capacity r) ∧ e = OverflowError.
Proof. unfold bind_room, sql_int. case_decide; simpl; naive_solver. Qed.

Lemma bind_batch_Ok b row :
  bind_batch b = Ok row ↔
  (int64 (BatchIn.year b) ∧ int64 (BatchIn.size b) ∧ int64 (BatchIn.shift b)) ∧
  row = BatchRow (BatchIn.batch_id b) (BatchIn.department b) (BatchIn.year b)
          (BatchIn.section b) (BatchIn.size b) (BatchIn.shift b).
Proof. unfold bind_batch, sql_int. repeat case_decide; simpl; naive_solver. Qed.

Lemma bind_batch_Raise b e :
  bind_batch b = Raise e ↔
  ¬ (int64 (BatchIn.year b) ∧ int64 (BatchIn.size b) ∧ int64 (BatchIn.shift b)) ∧
  e = OverflowError.
Proof. unfold bind_batch, sql_int. repeat case_decide; simpl; naive_solver. Qed.

(** A handler that raises has written nothing, and it raises exactly when an
    integer of the request does not fit. *)
Lemma crud_handle_Raise req d d' e :
  crud_handle req d = (d', Raise e) ↔ d' = d ∧ e = OverflowError ∧ ¬ bindable req.
Proof.
  destruct req as [r| | | | | |b|]; simpl; unfold returns, add_room, add_batch;
    try (split; [done|tauto]).
  - destruct (bind_room r) as [row|e'] eqn:Hbind.
    + apply bind_room_Ok in Hbind. naive_solver.
    + apply bind_room_Raise in Hbind. naive_solver.
  - destruct (bind_batch b) as [row|e'] eqn:Hbind; simpl.
    + apply bind_batch_Ok in Hbind. naive_solver.
    + apply bind_batch_Raise in Hbind. naive_solver.
Qed.

Lemma crud_handle_Ok req d d' st :
  crud_handle req d = (d', Ok st) → bindable req.
Proof.
  intros Hok. destruct (decide (bindable req)) as [|Hno]; [done|].
  assert (crud_handle req d = (d, Raise OverflowError)) by (by apply crud_handle_Raise).
  congruence.
Qed.

(** Every entity handler keeps the primary keys of the database unique and
    leaves the stored timetable as it is. *)
Lemma crud_handle_db_wf req d :
  db_wf d →
  db_wf (crud_handle req d).1 ∧
  db_timetable (crud_handle req d).1 = db_timetable d.
Proof.
  intros (Hr & Hb & Hf & Hs & Ht).
  destruct req as [r| | | | | |b|]; simpl; unfold add_room, add_batch;
    try destruct (bind_room r); try destruct (bind_batch b); simpl;
    (split; [|done]); repeat split; simpl; auto with py; apply Ht.
Qed.

(** Every entity handler stores integers of 64 bits only. *)
Lemma crud_handle_ints req d : db_ints d → db_ints (crud_handle req d).1.
Proof.
  intros [Hr Hb].
  destruct req as [r| | | | | |b|]; simpl; unfold add_room, add_batch; try done.
  - destruct (bind_room r) as [row|] eqn:Hbind; [|done].
    apply bind_room_Ok in Hbind as [? ->]. split; [simpl|done].
    by apply sql_insert_or_replace_Forall.
  - split; [simpl|done]. by apply sql_delete_Forall.
  - destruct (bind_batch b) as [row|] eqn:Hbind; [|done].
    apply bind_batch_Ok in Hbind as [? ->]. split; [done|simpl].
    by apply sql_insert_or_replace_Forall.
  - split; [done|simpl]. by apply sql_delete_Forall.
Qed.

(** A room that was added, with a capacity of 64 bits, is found under
    its id with the fields of the request, whatever was stored under that id
    before, and the rooms under other ids are found as before. *)
Theorem add_room_find r d :
  int64 (RoomIn.capacity r) →
  (add_room r d).2 = Ok StatusOk ∧
  sql_find room_id (RoomIn.room_id r) (get_rooms (add_room r d).1)
  = Some (RoomRow (RoomIn.room_id r) (RoomIn.room_name r) (RoomIn.capacity r)
            (RoomIn.type r) (RoomIn.resources r)) ∧
  ∀ id, id ≠ RoomIn.room_id r →
    sql_find room_id id (get_rooms (add_room r d).1) = sql_find room_id id (get_rooms d).
Proof.
  intros Hcap. unfold add_room, get_rooms.
  destruct (bind_room r) as [row|e] eqn:Hbind;
    [apply bind_room_Ok in Hbind as [_ ->]|apply bind_room_Raise in Hbind as [[] _]; done].
  simpl. split_and!; [done| |].
  - apply (sql_find_insert_or_replace room_id (RoomRow _ _ _ _ _)).
  - intros id Hne. by apply sql_find_insert_or_replace_ne.
Qed.

Lemma add_room_find_witness :
  let r := RoomIn.parse "R1" "Room 1" 40 None None in
  (add_room r empty_db).2 = Ok StatusOk ∧
  sql_find room_id (RoomIn.room_id r) (get_rooms (add_room r empty_db).1)
  = Some (RoomRow (RoomIn.room_id r) (RoomIn.room_name r) (RoomIn.capacity r)
            (RoomIn.type r) (RoomIn.resources r)) ∧
  ∀ id, id ≠ RoomIn.room_id r →
    sql_find room_id id (get_rooms (add_room r empty_db).1)
    = sql_find room_id id (get_rooms empty_db).
Proof.
  intros r. apply (add_room_find r empty_db). apply (bool_decide_unpack _). by vm_compute.
Defined.

(** C32: an integer that does not fit 64 bits is refused.  An entity request
    raises exactly when one of its integers is below [-2^63] or above
    [2^63 - 1]; the exception is [OverflowError] and nothing is written. *)
Theorem crud_handle_overflow req d :
  (bindable req → ∃ st, (crud_handle req d).2 = Ok st) ∧
  (¬ bindable req → crud_handle req d = (d, Raise OverflowError)).
Proof.
  split; [|intros; by apply crud_handle_Raise].
  intros Hb. destruct (crud_handle req d) as [d' [st|e]] eqn:Hh; [by exists st|].
  apply crud_handle_Raise in Hh. tauto.
Qed.

Lemma crud_handle_overflow_witness :
  let req := AddRoom (RoomIn.parse "R1" "Room 1" (2 ^ 63) None None) in
  (bindable req → ∃ st, (crud_handle req empty_db).2 = Ok st) ∧
  (¬ bindable req → crud_handle req empty_db = (empty_db, Raise OverflowError)).
Proof. intros req. exact (crud_handle_overflow req empty_db). Defined.

(** The capacity [2^63] is refused, [2^63 - 1] is stored. *)
Example add_room_capacity_limit :
  (add_room (RoomIn.parse "R1" "Room 1" (2 ^ 63) None None) empty_db).2
  = Raise OverflowError ∧
  (add_room (RoomIn.parse "R1" "Room 1" (2 ^ 63 - 1) None None) empty_db).2
  = Ok StatusOk.
Proof. by vm_compute. Qed.

(** After [delete_room] no room has that id, the other rooms are as
    they were, and deleting again changes nothing. *)
Theorem delete_room_spec id d :
  sql_find room_id id (get_rooms (delete_room id d).1) = None ∧
  (∀ r, r ∈ get_rooms (delete_room id d).1 ↔ r ∈ get_rooms d ∧ room_id r ≠ id) ∧
  (delete_room id (delete_room id d).1).1 = (delete_room id d).1.
Proof.
  unfold delete_room, get_rooms, set_rooms. simpl. split_and!.
  - apply sql_find_None, sql_delete_absent.
  - intros r. rewrite elem_of_sql_delete. tauto.
  - f_equal. apply sql_delete_id, sql_delete_absent.
Qed.

(** C40: [delete_faculty] does not look at the subjects: a subject of the
    deleted faculty stays, with its faculty id now absent from the table. *)
Theorem delete_faculty_leaves_subjects id d subject :
  subject ∈ db_subjects d → faculty_id subject = id →
  subject ∈ get_subjects (delete_faculty id d).1 ∧
  faculty_id subject ∉ fac_id <$> get_faculty (delete_faculty id d).1.
Proof.
  intros Hin <-. split; [done|]. apply sql_delete_absent.
Qed.

Lemma delete_faculty_leaves_subjects_witness :
  let d := {| db_rooms := []; db_batches := [];
              db_faculties := [FacultyRow "F1" "Dr. X"];
              db_subjects := [SubjectRow "S1" "Math" "F1"];
              db_timetable := TimetableTable [] 0 |} in
  SubjectRow "S1" "Math" "F1" ∈ get_subjects (delete_faculty "F1" d).1 ∧
  faculty_id (SubjectRow "S1" "Math" "F1") ∉ fac_id <$> get_faculty (delete_faculty "F1" d).1.
Proof.
  intros d. apply (delete_faculty_leaves_subjects "F1" d (SubjectRow "S1" "Math" "F1")).
  - apply list_elem_of_here.
  - reflexivity.
Defined.
