(* ===== verification/CrudSpec.v ===== *)
(** * CrudSpec: the entity tables as key-value stores

    What the entity endpoints promise is that of a store with one value for
    a key: [INSERT OR REPLACE] binds the key of the row, [DELETE] removes
    the key, and a request changes no table but its own.  [table_map] is
    the abstraction of a table, the list of its rows in scan order, to a
    finite map from the primary key; [abs_store] that of a database to a
    [store] of four maps.  The handlers of [Crud] refine the operations
    [crud_spec] on stores ([crud_handle_refines]); what follows from the
    laws of finite maps (a request repeated changes nothing more, requests
    on different keys commute) follows for the handlers up to the order of
    the rows ([crud_handle_idem], [crud_handle_commute]), which is the
    equivalence [db_perm] under which [GenerateOrder] shows the answer of a
    generation to be the same ([db_equiv_perm]). *)

From stdpp Require Import base tactics option list strings gmap fin_maps.
From S2P Require Import Prelude Database Shuffle Occupancy Allocator AllocInv AllocTrace.
From S2P Require Import AllocEdge AllocCount Generate GenerateCount GenerateOrder Crud.

#[local] Open Scope Z_scope.

(** ** Tables as maps *)

Section table_map.
Context {R : Type} (key : R → string).
Implicit Types (t : list R) (r : R) (k : string).

(** The rows of a table by their key.  Of two rows with the same key, which
    the constraint excludes, the first in scan order is kept. *)
Definition table_map (t : list R) : gmap string R :=
  list_to_map ((λ r, (key r, r)) <$> t).

End table_map.

(** ** Stores *)

Record store : Type := Store {
  st_rooms : gmap string room_row;
  st_batches : gmap string batch_row;
  st_faculties : gmap string faculty_row;
  st_subjects : gmap string subject_row
}.

Definition abs_store (d : db) : store :=
  {| st_rooms := table_map room_id (db_rooms d);
     st_batches := table_map batch_id (db_batches d);
     st_faculties := table_map fac_id (db_faculties d);
     st_subjects := table_map sub_id (db_subjects d) |}.

(** Databases that are the same store: the same rows in every entity
    table, in any order, and the same timetable. *)
Definition db_equiv (d1 d2 : db) : Prop :=
  abs_store d1 = abs_store d2 ∧ db_timetable d1 = db_timetable d2.

(** The entity requests on a store. *)
Definition crud_spec (req : crud_request) (σ : store) : store * result status :=
  match req with
  | AddRoom r =>
      match bind_room r with
      | Ok row => (Store (<[room_id row := row]> (st_rooms σ)) (st_batches σ)
                     (st_faculties σ) (st_subjects σ), Ok StatusOk)
      | Raise e => (σ, Raise e)
      end
  | DeleteRoom id =>
      (Store (delete id (st_rooms σ)) (st_batches σ) (st_faculties σ) (st_subjects σ),
       Ok StatusDeleted)
  | AddFaculty f =>
      (Store (st_rooms σ) (st_batches σ)
         (<[FacultyIn.faculty_id f :=
              FacultyRow (FacultyIn.faculty_id f) (FacultyIn.name f)]> (st_faculties σ))
         (st_subjects σ), Ok StatusOk)
  | DeleteFaculty id =>
      (Store (st_rooms σ) (st_batches σ) (delete id (st_faculties σ)) (st_subjects σ),
       Ok StatusDeleted)
  | AddSubject s =>
      (Store (st_rooms σ) (st_batches σ) (st_faculties σ)
         (<[SubjectIn.subject_id s :=
              SubjectRow (SubjectIn.subject_id s) (SubjectIn.name s)
                (SubjectIn.faculty_id s)]> (st_subjects σ)), Ok StatusOk)
  | DeleteSubject id =>
      (Store (st_rooms σ) (st_batches σ) (st_faculties σ) (delete id (st_subjects σ)),
       Ok StatusDeleted)
  | AddBatch b =>
      match bind_batch b with
      | Ok row => (Store (st_rooms σ) (<[batch_id row := row]> (st_batches σ))
                     (st_faculties σ) (st_subjects σ), Ok StatusOk)
      | Raise e => (σ, Raise e)
      end
  | DeleteBatch id =>
      (Store (st_rooms σ) (delete id (st_batches σ)) (st_faculties σ) (st_subjects σ),
       Ok StatusDeleted)
  end.

(** The table and the key a request writes. *)
Inductive table_name : Type := Rooms | Batches | Faculties | Subjects.

#[export] Instance table_name_eq_dec : EqDecision table_name.
Proof. solve_decision. Defined.

Definition written (req : crud_request) : table_name * string :=
  match req with
  | AddRoom r => (Rooms, RoomIn.room_id r)
  | DeleteRoom id => (Rooms, id)
  | AddFaculty f => (Faculties, FacultyIn.faculty_id f)
  | DeleteFaculty id => (Faculties, id)
  | AddSubject s => (Subjects, SubjectIn.subject_id s)
  | DeleteSubject id => (Subjects, id)
  | AddBatch b => (Batches, BatchIn.batch_id b)
  | DeleteBatch id => (Batches, id)
  end.

(** ** The statements on a table are the operations of a map *)

Section table_map_lemmas.
Context {R : Type} (key : R → string).
Implicit Types (t : list R) (r : R) (k : string).

Lemma table_map_cons r t : table_map key (r :: t) = <[key r := r]> (table_map key t).
Proof. done. Qed.

Lemma table_map_app t1 t2 :
  table_map key (t1 ++ t2) = table_map key t1 ∪ table_map key t2.
Proof. unfold table_map. by rewrite fmap_app, list_to_map_app. Qed.

Lemma table_map_lookup k t : table_map key t !! k = sql_find key k t.
Proof.
  induction t as [|r t IH]; [done|]. rewrite table_map_cons.
  unfold sql_find in *. rewrite filter_cons. case_decide as Hk.
  - subst. by rewrite lookup_insert_eq.
  - by rewrite lookup_insert_ne.
Qed.

Lemma table_map_delete k t : table_map key (sql_delete key k t) = delete k (table_map key t).
Proof.
  unfold sql_delete. induction t as [|r t IH]; [symmetry; apply delete_empty|].
  rewrite filter_cons, table_map_cons. case_decide as Hk.
  - by rewrite table_map_cons, IH, delete_insert_ne.
  - subst. by rewrite IH, delete_insert_eq.
Qed.

Lemma table_map_insert r t :
  table_map key (sql_insert_or_replace key r t) = <[key r := r]> (table_map key t).
Proof.
  unfold sql_insert_or_replace. rewrite table_map_app, table_map_delete.
  change (table_map key [r]) with ({[key r := r]} : gmap string R).
  rewrite <- insert_union_singleton_r by apply lookup_delete_eq.
  apply insert_delete_eq.
Qed.

(** The rows of a table are the values of its map, in some order. *)
Lemma table_map_values t : table_wf key t → (map_to_list (table_map key t)).*2 ≡ₚ t.
Proof.
  intros Hwf. unfold table_map. rewrite map_to_list_to_map.
  - by rewrite <- list_fmap_compose, list_fmap_id.
  - by rewrite <- list_fmap_compose.
Qed.

(** Two tables without duplicate keys have the same map exactly when they
    have the same rows, in any order. *)
Lemma table_map_perm t1 t2 :
  table_wf key t1 → table_wf key t2 →
  table_map key t1 = table_map key t2 ↔ t1 ≡ₚ t2.
Proof.
  intros Hwf1 Hwf2. split.
  - intros Heq. by rewrite <- (table_map_values t1), <- (table_map_values t2), Heq.
  - intros Hperm. unfold table_map. apply list_to_map_proper.
    + by rewrite <- list_fmap_compose.
    + by rewrite Hperm.
Qed.

End table_map_lemmas.

(** ** The handlers refine the store *)

#[export] Instance db_equiv_equiv : Equivalence db_equiv.
Proof.
  split.
  - by intros d.
  - by intros d1 d2 [? ?].
  - intros d1 d2 d3 [? ?] [? ?]. split; congruence.
Qed.

Lemma bind_room_id r row : bind_room r = Ok row → room_id row = RoomIn.room_id r.
Proof. by intros (_ & ->)%bind_room_Ok. Qed.

Lemma bind_batch_id b row : bind_batch b = Ok row → batch_id row = BatchIn.batch_id b.
Proof. by intros (_ & ->)%bind_batch_Ok. Qed.

(** C15: Every entity handler does on the tables what its request does on the
    store, with the same answer. *)
Theorem crud_handle_refines req d :
  crud_spec req (abs_store d) = (abs_store (crud_handle req d).1, (crud_handle req d).2).
Proof.
  destruct req as [r| | | | | |b|]; simpl; unfold add_room, add_batch, abs_store;
    try destruct (bind_room r); try destruct (bind_batch b); simpl;
    by rewrite ?table_map_insert, ?table_map_delete.
Qed.

(** The entity handlers leave the timetable as it is. *)
Lemma crud_handle_timetable req d : db_timetable (crud_handle req d).1 = db_timetable d.
Proof.
  destruct req as [r| | | | | |b|]; simpl; unfold add_room, add_batch;
    try destruct (bind_room r); try destruct (bind_batch b); done.
Qed.

#[export] Instance crud_handle_proper req :
  Proper (db_equiv ==> db_equiv) (λ d, (crud_handle req d).1).
Proof.
  intros d1 d2 [Hs Ht]. split.
  - pose proof (crud_handle_refines req d1) as H1.
    pose proof (crud_handle_refines req d2) as H2. rewrite Hs in H1. congruence.
  - by rewrite !crud_handle_timetable.
Qed.

(** ** Laws of the store *)

(** A request repeated changes nothing more. *)
Lemma crud_spec_idem req σ :
  (crud_spec req (crud_spec req σ).1).1 = (crud_spec req σ).1.
Proof.
  destruct req as [r| | | | | |b|]; simpl;
    try destruct (bind_room r); try destruct (bind_batch b); simpl;
    by rewrite ?insert_insert_eq, ?delete_delete_eq.
Qed.

(** Requests that write different keys, or different tables, commute. *)
Lemma crud_spec_commute req1 req2 σ :
  written req1 ≠ written req2 →
  (crud_spec req2 (crud_spec req1 σ).1).1 = (crud_spec req1 (crud_spec req2 σ).1).1.
Proof.
  destruct req1 as [r1| | | | | |b1|], req2 as [r2| | | | | |b2|]; simpl; intros Hne;
    try destruct (bind_room r1) as [row1|] eqn:Hr1;
    try destruct (bind_room r2) as [row2|] eqn:Hr2;
    try destruct (bind_batch b1) as [brow1|] eqn:Hb1;
    try destruct (bind_batch b2) as [brow2|] eqn:Hb2; simpl; try done;
    repeat match goal with
           | H : bind_room _ = Ok _ |- _ => apply bind_room_id in H
           | H : bind_batch _ = Ok _ |- _ => apply bind_batch_id in H
           end;
    f_equal;
    first [apply insert_insert_ne|apply delete_delete|apply delete_insert_ne
          |symmetry; apply delete_insert_ne]; congruence.
Qed.

(** ** The laws for the handlers *)

Theorem crud_handle_idem req d :
  db_equiv (crud_handle req (crud_handle req d).1).1 (crud_handle req d).1.
Proof.
  split; [|by rewrite !crud_handle_timetable].
  pose proof (crud_handle_refines req (crud_handle req d).1) as H2.
  pose proof (crud_handle_refines req d) as H1.
  pose proof (crud_spec_idem req (abs_store d)) as Hidem.
  rewrite H1 in Hidem. simpl in Hidem. rewrite H2 in Hidem. done.
Qed.

Theorem crud_handle_commute req1 req2 d :
  written req1 ≠ written req2 →
  db_equiv (crud_handle req2 (crud_handle req1 d).1).1
           (crud_handle req1 (crud_handle req2 d).1).1.
Proof.
  intros Hne. split; [|by rewrite !crud_handle_timetable].
  pose proof (crud_spec_commute req1 req2 (abs_store d) Hne) as Hc.
  rewrite (crud_handle_refines req1 d), (crud_handle_refines req2 d) in Hc. simpl in Hc.
  by rewrite !crud_handle_refines in Hc.
Qed.

(** The lists the [GET] handlers return are the values of the store, in
    the order of the scan. *)
Lemma get_refines d :
  db_wf d →
  get_rooms d ≡ₚ (map_to_list (st_rooms (abs_store d))).*2 ∧
  get_batches d ≡ₚ (map_to_list (st_batches (abs_store d))).*2 ∧
  get_faculty d ≡ₚ (map_to_list (st_faculties (abs_store d))).*2 ∧
  get_subjects d ≡ₚ (map_to_list (st_subjects (abs_store d))).*2.
Proof.
  intros (? & ? & ? & ? & _). split_and!; symmetry; by apply table_map_values.
Qed.

(** With the primary keys unique, the same store is the same rows, in any
    order. *)
Lemma db_equiv_perm d1 d2 : db_wf d1 → db_wf d2 → db_equiv d1 d2 → db_perm d1 d2.
Proof.
  intros (? & ? & ? & ? & _) (? & ? & ? & ? & _) [[= Hr Hb Hf Hs] _].
  split_and!; by eapply table_map_perm.
Qed.

(** Two requests that write different keys lead, in either order, to
    databases with the same rows. *)
Corollary crud_handle_commute_perm req1 req2 d :
  db_wf d → written req1 ≠ written req2 →
  db_perm (crud_handle req2 (crud_handle req1 d).1).1
          (crud_handle req1 (crud_handle req2 d).1).1.
Proof.
  intros Hwf Hne.
  apply db_equiv_perm; [by repeat apply crud_handle_db_wf..|by apply crud_handle_commute].
Qed.

Lemma crud_handle_commute_perm_witness :
  let req1 := AddRoom (RoomIn.parse "R1" "Room 1" 40 None None) in
  let req2 := DeleteRoom "R2" in
  db_perm (crud_handle req2 (crud_handle req1 empty_db).1).1
          (crud_handle req1 (crud_handle req2 empty_db).1).1.
Proof.
  apply (crud_handle_commute_perm _ _ empty_db); [apply empty_db_wf|by vm_compute].
Defined.
