(* ===== verification/Report.v ===== *)
(** * Report: the handler [get_timetable_batch]

    [GET /api/timetable/batch/{batch_id}] (lines 237-262 of [src/app.py]):
    select the batch's rows joined with the room, subject and faculty
    tables, and write each into a grid of [DAYS] by [SLOTS_PER_DAY] cells.
    The join is an inner join: a row whose room, subject or faculty is no
    longer in its table is left out.  Rows are written in the scan order of
    the timetable; a later row for the same cell overwrites an earlier one.
    The cell index is [slot - 1] as a Python index, so a slot from -5 to 0
    would address a cell from the end; [generate_timetable] stores slots from
    1 to 6 only. *)

From stdpp Require Import base tactics option list strings gmap fin_maps.
From S2P Require Import Prelude Database.

#[local] Open Scope Z_scope.
#[local] Open Scope py_scope.
#[local] Arguments SLOTS_PER_DAY : simpl never.

(** ** Data *)

(** A cell of the grid: [{"subject": ..., "faculty": ..., "room": ...}]. *)
Record cell : Type := Cell {
  subject : string;
  faculty : string;
  room : string
}.

#[export] Instance cell_eq_dec : EqDecision cell.
Proof. solve_decision. Defined.

(** A row of the query: the columns [day], [slot], and the three names. *)
Record report_row : Type := ReportRow {
  rr_day : string;
  rr_slot : Z;
  rr_cell : cell
}.

(** The answer: a dict from each day to its list of cells, [None] where
    nothing is scheduled. *)
Abbreviation report_grid := (gmap string (list (option cell))).

(** ** Operations *)

(** The three joins of the query on one timetable row. *)
Definition join_row (d : db) (t : timetable_row) : option report_row :=
  r ← sql_find room_id (t_room_id t) (db_rooms d);
  s ← sql_find sub_id (t_subject_id t) (db_subjects d);
  f ← sql_find fac_id (t_faculty_id t) (db_faculties d);
  Some {| rr_day := t_day t; rr_slot := t_slot t;
          rr_cell := {| subject := sub_name s; faculty := fac_name f;
                        room := room_name r |} |}.

(** The query of lines 240-250. *)
Definition select_batch_rows (batch : string) (d : db) : list report_row :=
  omap (join_row d) (filter (λ t, t_batch_id t = batch) (tt_rows (db_timetable d))).

(** [{day: [None]*SLOTS_PER_DAY for day in DAYS}] *)
Definition empty_grid : report_grid :=
  dict_of_list ((λ day, (day, replicate SLOTS_PER_DAY None)) <$> DAYS).

(** The body of the loop of lines 254-260:
    [timetable[row["day"]][row["slot"]-1] = {...}]. *)
Definition fill (row : report_row) (timetable : report_grid) : result report_grid :=
  l ← timetable.[rr_day row];
  l' ← list_set_int l (rr_slot row - 1) (Some (rr_cell row));
  Ok (<[rr_day row := l']> timetable).

Definition get_timetable_batch (batch : string) (d : db) : result report_grid :=
  for_each fill (select_batch_rows batch d) empty_grid.

(** The content of a cell of a grid. *)
Definition grid_cell (g : report_grid) (day : string) (i : nat) : option cell :=
  l ← g !! day; c ← l !! i; c.

(** The shape of the answer: exactly the days, six cells each. *)
Definition grid_shape (g : report_grid) : Prop :=
  ∀ day, (is_Some (g !! day) ↔ day ∈ DAYS) ∧
    ∀ l, g !! day = Some l → length l = SLOTS_PER_DAY.

(** The row that fills the cell [i] of [day]: the last row of the query for
    that day whose slot denotes that cell. *)
Definition cell_rows (day : string) (i : nat) (rows : list report_row)
  : list report_row :=
  filter (λ row, rr_day row = day ∧ py_index SLOTS_PER_DAY (rr_slot row - 1) = Some i) rows.

(** ** Lemmas *)

Lemma empty_grid_lookup day :
  empty_grid !! day = if decide (day ∈ DAYS) then Some (replicate SLOTS_PER_DAY None) else None.
Proof.
  unfold empty_grid.
  pose proof (dict_of_list_is_Some ((λ k, (k, replicate SLOTS_PER_DAY (@None cell))) <$> DAYS) day) as Hs.
  rewrite <- list_fmap_compose, list_fmap_id in Hs.
  case_decide as Hin.
  - apply Hs in Hin as [v Hv]. rewrite Hv.
    by apply dict_of_list_Some, list_elem_of_fmap in Hv as (? & [= <- ->] & _).
  - apply eq_None_not_Some. by rewrite Hs.
Qed.

Lemma empty_grid_shape : grid_shape empty_grid.
Proof.
  intros day. rewrite empty_grid_lookup. split.
  - case_decide; [naive_solver|]. split; [by intros [? ?]|done].
  - case_decide; [|done]. by intros l [= <-].
Qed.

Lemma empty_grid_cell day i : grid_cell empty_grid day i = None.
Proof.
  unfold grid_cell. rewrite empty_grid_lookup. case_decide; [|done].
  change (Some ?l ≫= ?f) with (f l). cbv beta.
  destruct (replicate SLOTS_PER_DAY None !! i) as [c|] eqn:Hl; [|done].
  by apply lookup_replicate in Hl as [-> _].
Qed.

Lemma fill_Ok row g g' :
  fill row g = Ok g' ↔
  ∃ l n, g !! rr_day row = Some l ∧ py_index (length l) (rr_slot row - 1) = Some n ∧
    g' = <[rr_day row := <[n := Some (rr_cell row)]> l]> g.
Proof.
  unfold fill. split.
  - intros Hf. apply bind_Ok in Hf as (l & Hl%dict_get_Ok & Hf).
    apply bind_Ok in Hf as (l' & (n & ? & ->)%list_set_int_Ok & Hf). result_inv. eauto.
  - intros (l & n & Hl%dict_get_Ok & Hn & ->). rewrite Hl. simpl.
    unfold list_set_int. by rewrite Hn.
Qed.

Lemma fill_shape row g g' : grid_shape g → fill row g = Ok g' → grid_shape g'.
Proof.
  intros Hshape (l & n & Hl & Hn & ->)%fill_Ok day.
  destruct (Hshape day) as [Hdays Hlen].
  destruct (decide (rr_day row = day)) as [<-|Hne].
  - rewrite lookup_insert_eq. split; [by rewrite <- Hdays, Hl|].
    intros ? [= <-]. rewrite length_insert. eauto.
  - by rewrite lookup_insert_ne.
Qed.

#[export] Hint Resolve empty_grid_shape fill_shape : py.

(** Read over write: [fill] sets the cell its row denotes and no other. *)
Lemma fill_cell row g g' day i :
  grid_shape g → fill row g = Ok g' →
  grid_cell g' day i =
    if decide (rr_day row = day ∧ py_index SLOTS_PER_DAY (rr_slot row - 1) = Some i)
    then Some (rr_cell row) else grid_cell g day i.
Proof.
  intros Hshape (l & n & Hl & Hn & ->)%fill_Ok. unfold grid_cell.
  destruct (Hshape (rr_day row)) as [_ Hlen]. rewrite (Hlen l Hl) in Hn.
  destruct (decide (rr_day row = day)) as [<-|Hne].
  - rewrite lookup_insert_eq, Hl. simpl. rewrite Hn.
    destruct (decide (n = i)) as [->|Hni].
    + rewrite decide_True by done. rewrite list_lookup_insert_eq; [done|].
      apply py_index_lt in Hn. by rewrite (Hlen l Hl).
    + rewrite decide_False by naive_solver. by rewrite list_lookup_insert_ne.
  - rewrite lookup_insert_ne by done. by rewrite decide_False by naive_solver.
Qed.

(** The only exceptions of [fill] on a grid of the right shape. *)
Lemma fill_Raise row g e :
  grid_shape g → fill row g = Raise e →
  (rr_day row ∉ DAYS ∧ e = KeyError (rr_day row)) ∨
  (py_index SLOTS_PER_DAY (rr_slot row - 1) = None ∧ e = IndexError).
Proof.
  intros Hshape. unfold fill. destruct (Hshape (rr_day row)) as [Hdays Hlen].
  intros [[Hl ->]%dict_get_Raise|(l & Hl%dict_get_Ok & Hf)]%bind_Raise.
  - left. split; [|done]. rewrite <- Hdays, Hl. by intros [? ?].
  - right. apply bind_Raise in Hf as [[Hn ->]%list_set_int_Raise|(? & _ & ?)]; [|done].
    by rewrite (Hlen l Hl) in Hn.
Qed.

Lemma last_cell_rows_snoc day i rows row :
  last (cell_rows day i (rows ++ [row])) =
    if decide (rr_day row = day ∧ py_index SLOTS_PER_DAY (rr_slot row - 1) = Some i)
    then Some row else last (cell_rows day i rows).
Proof.
  unfold cell_rows. rewrite filter_app, filter_cons, filter_nil.
  case_decide; [by rewrite last_snoc|by rewrite app_nil_r].
Qed.

(** ** The invariant of the loop

    After the rows [pre] the grid has its shape and each cell holds the last
    row of [pre] that denotes it. *)
Record report_inv (pre : list report_row) (g : report_grid) : Prop := {
  report_inv_shape : grid_shape g;
  report_inv_cells :
    ∀ day i, grid_cell g day i = rr_cell <$> last (cell_rows day i pre)
}.

Lemma report_inv_init : report_inv [] empty_grid.
Proof. split; [apply empty_grid_shape|]. intros day i. by rewrite empty_grid_cell. Qed.

Lemma report_inv_fill pre row g g' :
  report_inv pre g → fill row g = Ok g' → report_inv (pre ++ [row]) g'.
Proof.
  intros [Hshape Hcells] Hfill. split; [by eapply fill_shape|].
  intros day i. rewrite (fill_cell row g g') by done.
  rewrite last_cell_rows_snoc, Hcells. by case_decide.
Qed.

Lemma get_timetable_batch_inv batch d g :
  get_timetable_batch batch d = Ok g → report_inv (select_batch_rows batch d) g.
Proof.
  apply (for_each_inv_prefix report_inv); [|apply report_inv_init].
  intros pre row g1 g2 _. apply report_inv_fill.
Qed.

(** The rows a grid has a cell for. *)
Definition row_in_grid (row : report_row) : Prop :=
  rr_day row ∈ DAYS ∧ - Z.of_nat SLOTS_PER_DAY < rr_slot row ≤ Z.of_nat SLOTS_PER_DAY.

#[export] Instance row_in_grid_dec row : Decision (row_in_grid row).
Proof. unfold row_in_grid. apply _. Defined.

Lemma py_index_is_Some len z :
  is_Some (py_index len z) ↔ - Z.of_nat len ≤ z < Z.of_nat len.
Proof.
  unfold py_index. repeat case_decide; split; try (intros [? ?]; done); eauto; lia.
Qed.

Lemma fill_is_ok row g : grid_shape g → is_ok (fill row g) ↔ row_in_grid row.
Proof.
  intros Hshape. destruct (Hshape (rr_day row)) as [Hdays Hlen].
  unfold is_ok, row_in_grid. setoid_rewrite fill_Ok. rewrite <- Hdays. split.
  - intros (g' & l & n & Hl & Hn & _). split; [by eexists|].
    rewrite (Hlen l Hl) in Hn. assert (is_Some (py_index SLOTS_PER_DAY (rr_slot row - 1))) as Hs by eauto.
    apply py_index_is_Some in Hs. lia.
  - intros [[l Hl] Hslot].
    destruct (proj2 (py_index_is_Some (length l) (rr_slot row - 1))) as [n Hn];
      [rewrite (Hlen l Hl); lia|]. eauto 6.
Qed.

(** The handler returns exactly when every row of the query has a cell. *)
Lemma get_timetable_batch_is_ok batch d :
  is_ok (get_timetable_batch batch d) ↔ Forall row_in_grid (select_batch_rows batch d).
Proof.
  unfold get_timetable_batch. split.
  - intros [g Hrun]. eapply (for_each_Ok_Forall grid_shape); [|apply empty_grid_shape|done].
    intros row g1 g2 _ Hshape Hfill. split; [|by eapply fill_shape].
    apply (fill_is_ok row g1 Hshape). by eexists.
  - intros Hrows. rewrite Forall_forall in Hrows.
    destruct (for_each_is_ok grid_shape fill (select_batch_rows batch d) empty_grid)
      as (g & Hg & _); [|apply empty_grid_shape|by eexists].
    intros row g1 Hrow Hshape.
    destruct (proj2 (fill_is_ok row g1 Hshape) (Hrows row Hrow)) as [g2 Hg2].
    eauto with py.
Qed.

(** An exception of the handler is the [KeyError] of a row whose day is no
    day of the grid or the [IndexError] of a row whose slot has no cell. *)
Lemma get_timetable_batch_Raise batch d e :
  get_timetable_batch batch d = Raise e →
  ∃ row, row ∈ select_batch_rows batch d ∧
    ((rr_day row ∉ DAYS ∧ e = KeyError (rr_day row)) ∨
     (py_index SLOTS_PER_DAY (rr_slot row - 1) = None ∧ e = IndexError)).
Proof.
  intros Hrun.
  apply (for_each_Raise grid_shape) in Hrun as (row & g & Hrow & Hshape & Hfill);
    [|by eauto with py|auto with py].
  exists row. split; [done|]. by eapply fill_Raise.
Qed.

(** ** The query under the invariants of a generated timetable *)

(** Every stored row is on a day of the grid at a slot from 1 to 6. *)
Definition timetable_in_grid (d : db) : Prop :=
  Forall (λ t, t_day t ∈ DAYS ∧ 1 ≤ t_slot t ≤ Z.of_nat SLOTS_PER_DAY)
    (tt_rows (db_timetable d)).

#[export] Instance timetable_in_grid_dec d : Decision (timetable_in_grid d).
Proof. unfold timetable_in_grid. apply _. Defined.

Lemma join_row_Some d t row :
  join_row d t = Some row → rr_day row = t_day t ∧ rr_slot row = t_slot t.
Proof. unfold join_row. intros. by simplify_option_eq. Qed.

Lemma py_index_slot (slot : Z) (i : nat) :
  1 ≤ slot ≤ Z.of_nat SLOTS_PER_DAY →
  py_index SLOTS_PER_DAY (slot - 1) = Some i ↔ slot = Z.of_nat i + 1.
Proof.
  intros Hslot. unfold py_index. rewrite decide_True by lia. split.
  - intros [= <-]. lia.
  - intros ->. f_equal. lia.
Qed.

(** The rows of the query for one cell are the joins of the stored rows of
    that batch, day and slot. *)
Lemma cell_rows_select batch d day i :
  timetable_in_grid d →
  cell_rows day i (select_batch_rows batch d) =
    omap (join_row d)
      (filter (λ t, batch_key t = (batch, day, Z.of_nat i + 1)) (tt_rows (db_timetable d))).
Proof.
  intros Hgrid. unfold cell_rows, select_batch_rows, timetable_in_grid in *.
  rewrite Forall_forall in Hgrid.
  rewrite (filter_omap _
    (λ t, t_day t = day ∧ py_index SLOTS_PER_DAY (t_slot t - 1) = Some i)).
  - rewrite list_filter_filter. apply (f_equal (omap (join_row d))), filter_iff_in.
    intros t Ht.
    destruct (Hgrid t Ht) as [_ Hslot]. rewrite (py_index_slot _ i Hslot).
    unfold batch_key. split; [by intros [[-> ->] ->]|by intros [= -> -> ->]].
  - intros t row _ [-> ->]%join_row_Some. done.
Qed.

Lemma elem_of_select_batch_rows batch d row :
  row ∈ select_batch_rows batch d ↔
  ∃ t, t ∈ tt_rows (db_timetable d) ∧ t_batch_id t = batch ∧ join_row d t = Some row.
Proof.
  unfold select_batch_rows. rewrite list_elem_of_omap.
  setoid_rewrite list_elem_of_filter. naive_solver.
Qed.

Lemma get_timetable_batch_total batch d :
  timetable_in_grid d → is_ok (get_timetable_batch batch d).
Proof.
  intros Hgrid. apply get_timetable_batch_is_ok, Forall_forall.
  intros row (t & Ht & _ & [Hday Hslot]%join_row_Some)%elem_of_select_batch_rows.
  unfold timetable_in_grid in Hgrid. rewrite Forall_forall in Hgrid.
  destruct (Hgrid t Ht). unfold row_in_grid. rewrite Hday, Hslot. split; [done|lia].
Qed.

(** The key of a stored row in the grid, by the index of its cell. *)
Lemma batch_key_cell d t :
  timetable_in_grid d → t ∈ tt_rows (db_timetable d) →
  batch_key t = (t_batch_id t, t_day t, Z.of_nat (Z.to_nat (t_slot t - 1)) + 1).
Proof.
  unfold timetable_in_grid. rewrite Forall_forall. intros Hgrid Ht.
  destruct (Hgrid t Ht) as [_ Hslot]. unfold batch_key. f_equal. lia.
Qed.

(** Under one row per batch, day and slot, the cell of a stored row holds
    its join, and a cell without a stored row is empty. *)
Lemma get_timetable_batch_cell batch d g t :
  timetable_in_grid d → NoDup (batch_key <$> tt_rows (db_timetable d)) →
  get_timetable_batch batch d = Ok g →
  t ∈ tt_rows (db_timetable d) → t_batch_id t = batch →
  grid_cell g (t_day t) (Z.to_nat (t_slot t - 1)) = rr_cell <$> join_row d t.
Proof.
  intros Hgrid Hnd [_ Hcells]%get_timetable_batch_inv Ht <-.
  rewrite Hcells, cell_rows_select, <- (batch_key_cell d t) by done.
  rewrite (filter_key_NoDup batch_key _ t) by done. simpl.
  by destruct (join_row d t).
Qed.

Lemma get_timetable_batch_cell_None batch d g day i :
  timetable_in_grid d → get_timetable_batch batch d = Ok g →
  (batch, day, Z.of_nat i + 1) ∉ batch_key <$> tt_rows (db_timetable d) →
  grid_cell g day i = None.
Proof.
  intros Hgrid [_ Hcells]%get_timetable_batch_inv Hno.
  by rewrite Hcells, cell_rows_select, filter_key_nil.
Qed.


(** When the room, the subject and the faculty of a stored row are rows of
    their tables, the join gives their names. *)
Lemma join_row_names d t r s f :
  db_wf d → r ∈ db_rooms d → s ∈ db_subjects d → f ∈ db_faculties d →
  room_id r = t_room_id t → sub_id s = t_subject_id t → fac_id f = t_faculty_id t →
  join_row d t = Some (ReportRow (t_day t) (t_slot t)
                         (Cell (sub_name s) (fac_name f) (room_name r))).
Proof.
  intros (Hr & _ & Hf & Hs & _) ??? Hrk Hsk Hfk. unfold join_row.
  rewrite (sql_find_wf room_id _ _ r Hr), (sql_find_wf sub_id _ _ s Hs),
    (sql_find_wf fac_id _ _ f Hf); done.
Qed.

(** A small database with a stored timetable, for the witnesses: the entry
    of batch B1 on Monday at slot 3 is Math by Dr. X in room R1. *)
Definition report_db : db :=
  {| db_rooms := [RoomRow "R1" "Room 1" 40 "Lecture" ""];
     db_batches := [BatchRow "B1" "CS" 1 "A" 30 1; BatchRow "B2" "CS" 2 "A" 25 1];
     db_faculties := [FacultyRow "F1" "Dr. X"];
     db_subjects := [SubjectRow "S1" "Math" "F1"];
     db_timetable :=
       {| tt_rows := [TimetableRow 1 "B1" "Monday" 3 "S1" "F1" "R1";
                      TimetableRow 2 "B2" "Monday" 4 "S1" "F1" "R1";
                      TimetableRow 3 "B1" "Friday" 6 "S1" "F1" "R1"];
          tt_seq := 3 |} |}.

(** The same with a stored row at slot 7, which has no cell. *)
Definition report_db_slot7 : db :=
  {| db_rooms := db_rooms report_db; db_batches := db_batches report_db;
     db_faculties := db_faculties report_db; db_subjects := db_subjects report_db;
     db_timetable :=
       {| tt_rows := [TimetableRow 1 "B1" "Monday" 7 "S1" "F1" "R1"]; tt_seq := 1 |} |}.

(** [report_db] after its room was deleted. *)
Definition report_db_no_room : db :=
  {| db_rooms := []; db_batches := db_batches report_db;
     db_faculties := db_faculties report_db; db_subjects := db_subjects report_db;
     db_timetable := db_timetable report_db |}.

(** ** Properties *)

(** C24: on a timetable with at most one row per batch, day and slot, all on
    days of the grid at slots from 1 to 6, the handler returns a grid in
    which the cell of each stored row of the batch holds the names the join
    gives for it (at index slot - 1), and every cell without a stored row is
    empty. *)
Theorem report_projection batch d :
  timetable_in_grid d →
  NoDup (batch_key <$> tt_rows (db_timetable d)) →
  ∃ g, get_timetable_batch batch d = Ok g ∧
    (∀ t, t ∈ tt_rows (db_timetable d) → t_batch_id t = batch →
       grid_cell g (t_day t) (Z.to_nat (t_slot t - 1)) = rr_cell <$> join_row d t) ∧
    (∀ day i, (batch, day, Z.of_nat i + 1) ∉ batch_key <$> tt_rows (db_timetable d) →
       grid_cell g day i = None).
Proof.
  intros Hgrid Hnd. destruct (get_timetable_batch_total batch d Hgrid) as [g Hg].
  exists g. split; [done|]. split.
  - intros t. by apply get_timetable_batch_cell.
  - intros day i. by apply get_timetable_batch_cell_None.
Qed.

(** Whatever the stored rows, when the handler returns, the grid has a
    list of six cells for each day of [DAYS] and for nothing else, and each
    cell holds the last row of the query that denotes it: a later row
    overwrites an earlier one. *)
Theorem report_last_row_wins batch d g :
  get_timetable_batch batch d = Ok g →
  grid_shape g ∧
  ∀ day i, grid_cell g day i
           = rr_cell <$> last (cell_rows day i (select_batch_rows batch d)).
Proof. intros [? ?]%get_timetable_batch_inv. by split. Qed.

(** An exception of the handler comes from a stored row of the batch:
    the [KeyError] of a day that is no day of [DAYS], or the [IndexError] of
    a slot above 6 or below -5. *)
Theorem report_raises batch d e :
  get_timetable_batch batch d = Raise e →
  ∃ t, t ∈ tt_rows (db_timetable d) ∧ t_batch_id t = batch ∧
    ((t_day t ∉ DAYS ∧ e = KeyError (t_day t)) ∨
     (¬ (-5 ≤ t_slot t ≤ 6) ∧ e = IndexError)).
Proof.
  intros (row & Hrow & He)%get_timetable_batch_Raise.
  apply elem_of_select_batch_rows in Hrow as (t & Ht & <- & [Hday Hslot]%join_row_Some).
  exists t. rewrite <- Hday, <- Hslot. split_and!; [done..|].
  destruct He as [?|[Hnone ->]]; [by left|right]. split; [|done].
  intros Hr. apply eq_None_not_Some in Hnone. apply Hnone, py_index_is_Some.
  unfold SLOTS_PER_DAY. lia.
Qed.

(** C40: a stored row whose room is no longer in the room table is left
    out by the join: its cell is empty although the row is stored. *)
Theorem report_drops_deleted_room batch d t :
  timetable_in_grid d →
  NoDup (batch_key <$> tt_rows (db_timetable d)) →
  t ∈ tt_rows (db_timetable d) → t_batch_id t = batch →
  t_room_id t ∉ room_id <$> db_rooms d →
  ∃ g, get_timetable_batch batch d = Ok g ∧
    grid_cell g (t_day t) (Z.to_nat (t_slot t - 1)) = None.
Proof.
  intros Hgrid Hnd Ht <- Hroom.
  destruct (get_timetable_batch_total (t_batch_id t) d Hgrid) as [g Hg].
  exists g. split; [done|].
  rewrite (get_timetable_batch_cell (t_batch_id t) d g t) by done.
  unfold join_row. by rewrite (proj2 (sql_find_None room_id _ _) Hroom).
Qed.

(** The entry of the example: index 2 of Monday holds the names. *)
Example report_db_monday :
  (g ← get_timetable_batch "B1" report_db; Ok (grid_cell g "Monday" 2, grid_cell g "Monday" 3))
  = Ok (Some (Cell "Math" "Dr. X" "Room 1"), None).
Proof. by vm_compute. Qed.

Lemma report_db_in_grid : timetable_in_grid report_db.
Proof. apply (bool_decide_unpack _). by vm_compute. Defined.

Lemma report_db_NoDup : NoDup (batch_key <$> tt_rows (db_timetable report_db)).
Proof. apply (bool_decide_unpack _). by vm_compute. Defined.

Lemma report_projection_witness :
  ∃ g, get_timetable_batch "B1" report_db = Ok g ∧
    (∀ t, t ∈ tt_rows (db_timetable report_db) → t_batch_id t = "B1"%string →
       grid_cell g (t_day t) (Z.to_nat (t_slot t - 1)) = rr_cell <$> join_row report_db t) ∧
    (∀ day i, ("B1"%string, day, Z.of_nat i + 1)
                ∉ batch_key <$> tt_rows (db_timetable report_db) →
       grid_cell g day i = None).
Proof. exact (report_projection "B1" report_db report_db_in_grid report_db_NoDup). Defined.

Lemma report_last_row_wins_witness :
  ∃ g, get_timetable_batch "B1" report_db = Ok g ∧
    (grid_shape g ∧
     ∀ day i, grid_cell g day i
              = rr_cell <$> last (cell_rows day i (select_batch_rows "B1" report_db))).
Proof.
  eexists. split; [vm_compute; reflexivity|].
  apply (report_last_row_wins "B1" report_db). vm_compute; reflexivity.
Defined.

Lemma report_raises_witness :
  ∃ e, get_timetable_batch "B1" report_db_slot7 = Raise e ∧
    ∃ t, t ∈ tt_rows (db_timetable report_db_slot7) ∧ t_batch_id t = "B1"%string ∧
      ((t_day t ∉ DAYS ∧ e = KeyError (t_day t)) ∨
       (¬ (-5 ≤ t_slot t ≤ 6) ∧ e = IndexError)).
Proof.
  eexists. split; [vm_compute; reflexivity|].
  apply (report_raises "B1" report_db_slot7). vm_compute; reflexivity.
Defined.

Lemma report_drops_deleted_room_witness :
  ∃ g, get_timetable_batch "B1" report_db_no_room = Ok g ∧
    grid_cell g "Monday" 2 = None.
Proof.
  apply (report_drops_deleted_room "B1" report_db_no_room
           (TimetableRow 1 "B1" "Monday" 3 "S1" "F1" "R1")).
  - exact report_db_in_grid.
  - exact report_db_NoDup.
  - apply list_elem_of_here.
  - reflexivity.
  - apply not_elem_of_nil.
Defined.
