(* ===== verification/Json.v ===== *)
(** * Json: the values the handlers return and accept

    The Python values that cross the HTTP boundary of [src/app.py]: [None],
    [int], [str], [list] and [dict] with string keys, in insertion order.
    [dict_from_row] (lines 34-35) turns a row into the dict of its columns;
    the request models (lines 55-77) read their fields from the dict of the
    request body.  What the request models do with a value of another type
    than the declared one depends on the version of the validation library:
    the model takes it as an interface, [Validator], with the laws every
    version satisfies.  Floating point numbers and booleans are left out,
    and of the errors of a refused body the first one is kept. *)

From stdpp Require Import base tactics option list strings gmap fin_maps.
From S2P Require Import Prelude Database Crud.

#[local] Open Scope Z_scope.

(** ** Values *)

Inductive json : Type :=
| JNull
| JInt (n : Z)
| JStr (s : string)
| JList (l : list json)
| JDict (o : list (string * json)).

(** [o[k]] on the dict of a request body: the last binding of a key counts,
    as for the parser of the body. *)
Fixpoint dict_field (k : string) (o : list (string * json)) : option json :=
  match o with
  | [] => None
  | (k', v) :: o' =>
      match dict_field k o' with
      | Some v' => Some v'
      | None => if decide (k' = k) then Some v else None
      end
  end.

(** ** Types of values *)

Inductive schema : Type :=
| TInt
| TStr
| TOptional (t : schema)
| TList (t : schema)
| TArray (n : nat) (t : schema)
| TDict (fields : list (string * schema)).

(** [has_type t v]: [v] is an [int], a [str], [None] or a [t], a list of
    [t], a list of [n] values of type [t], a dict with exactly the given keys
    in the given order. *)
Fixpoint has_type (t : schema) (v : json) {struct t} : bool :=
  match t, v with
  | TInt, JInt _ => true
  | TStr, JStr _ => true
  | TOptional _, JNull => true
  | TOptional t', _ => has_type t' v
  | TList t', JList l => forallb (has_type t') l
  | TArray n t', JList l => bool_decide (length l = n) && forallb (has_type t') l
  | TDict fields, JDict o =>
      (fix go (fields : list (string * schema)) (o : list (string * json)) : bool :=
         match fields, o with
         | [], [] => true
         | (k, t') :: fields', (k', v') :: o' =>
             bool_decide (k = k') && has_type t' v' && go fields' o'
         | _, _ => false
         end) fields o
  | _, _ => false
  end.

(** The equations of [has_type] on dicts and lists. *)
Lemma has_type_dict_nil : has_type (TDict []) (JDict []) = true.
Proof. done. Qed.

Lemma has_type_dict_cons k t fields k' v o :
  has_type (TDict ((k, t) :: fields)) (JDict ((k', v) :: o))
  = bool_decide (k = k') && has_type t v && has_type (TDict fields) (JDict o).
Proof. done. Qed.

Lemma has_type_list t l :
  has_type (TList t) (JList l) = true ↔ Forall (λ v, has_type t v = true) l.
Proof.
  simpl. induction l as [|v l IH]; simpl; [by split|].
  by rewrite andb_true_iff, IH, Forall_cons.
Qed.

Lemma has_type_array n t l :
  has_type (TArray n t) (JList l) = true ↔
  length l = n ∧ Forall (λ v, has_type t v = true) l.
Proof.
  simpl. rewrite andb_true_iff, bool_decide_eq_true, <- has_type_list. done.
Qed.

(** ** Rows as dicts

    [dict(row)] has the columns of the table as keys, in the order of the
    [CREATE TABLE] statement.  The interface gives the encoding, the schema
    of the result and a decoding, with the laws that relate them. *)

Class Row (R : Type) : Type := {
  row_schema : schema;
  dict_from_row : R → json;
  row_from_dict : json → option R;
  row_typed r : has_type row_schema (dict_from_row r) = true;
  row_roundtrip r : row_from_dict (dict_from_row r) = Some r
}.

Definition get_str (k : string) (o : list (string * json)) : option string :=
  match dict_field k o with
  | Some (JStr s) => Some s
  | _ => None
  end.

Definition get_int (k : string) (o : list (string * json)) : option Z :=
  match dict_field k o with
  | Some (JInt n) => Some n
  | _ => None
  end.

#[export, refine] Instance room_row_Row : Row room_row := {|
  row_schema := TDict [("room_id", TStr); ("room_name", TStr); ("capacity", TInt);
                       ("type", TStr); ("resources", TStr)]%string;
  dict_from_row r :=
    JDict [("room_id", JStr (room_id r)); ("room_name", JStr (room_name r));
           ("capacity", JInt (capacity r)); ("type", JStr (type r));
           ("resources", JStr (resources r))]%string;
  row_from_dict v :=
    match v with
    | JDict o =>
        id ← get_str "room_id" o; name ← get_str "room_name" o;
        cap ← get_int "capacity" o; ty ← get_str "type" o;
        res ← get_str "resources" o; Some (RoomRow id name cap ty res)
    | _ => None
    end
|}.
Proof. all: by intros []. Defined.

#[export, refine] Instance batch_row_Row : Row batch_row := {|
  row_schema := TDict [("batch_id", TStr); ("department", TStr); ("year", TInt);
                       ("section", TStr); ("size", TInt); ("shift", TInt)]%string;
  dict_from_row b :=
    JDict [("batch_id", JStr (batch_id b)); ("department", JStr (department b));
           ("year", JInt (year b)); ("section", JStr (section b));
           ("size", JInt (batch_size b)); ("shift", JInt (shift b))]%string;
  row_from_dict v :=
    match v with
    | JDict o =>
        id ← get_str "batch_id" o; dep ← get_str "department" o;
        y ← get_int "year" o; sec ← get_str "section" o;
        sz ← get_int "size" o; sh ← get_int "shift" o;
        Some (BatchRow id dep y sec sz sh)
    | _ => None
    end
|}.
Proof. all: by intros []. Defined.

#[export, refine] Instance faculty_row_Row : Row faculty_row := {|
  row_schema := TDict [("fac_id", TStr); ("fac_name", TStr)]%string;
  dict_from_row f :=
    JDict [("fac_id", JStr (fac_id f)); ("fac_name", JStr (fac_name f))]%string;
  row_from_dict v :=
    match v with
    | JDict o => id ← get_str "fac_id" o; name ← get_str "fac_name" o;
                 Some (FacultyRow id name)
    | _ => None
    end
|}.
Proof. all: by intros []. Defined.

#[export, refine] Instance subject_row_Row : Row subject_row := {|
  row_schema := TDict [("sub_id", TStr); ("sub_name", TStr); ("faculty_id", TStr)]%string;
  dict_from_row s :=
    JDict [("sub_id", JStr (sub_id s)); ("sub_name", JStr (sub_name s));
           ("faculty_id", JStr (faculty_id s))]%string;
  row_from_dict v :=
    match v with
    | JDict o => id ← get_str "sub_id" o; name ← get_str "sub_name" o;
                 fac ← get_str "faculty_id" o; Some (SubjectRow id name fac)
    | _ => None
    end
|}.
Proof. all: by intros []. Defined.

(** [[dict_from_row(r) for r in rows]] *)
Definition dicts_from_rows `{Row R} (rows : list R) : json :=
  JList (dict_from_row <$> rows).

Lemma dicts_from_rows_typed `{Row R} (rows : list R) :
  has_type (TList row_schema) (dicts_from_rows rows) = true.
Proof.
  apply has_type_list, Forall_fmap, Forall_forall. intros r _. apply row_typed.
Qed.

(** The rows can be read back from the list. *)
Lemma dicts_from_rows_roundtrip `{Row R} (rows : list R) :
  mapM row_from_dict (dict_from_row <$> rows) = Some rows.
Proof.
  apply mapM_Some, Forall2_fmap_l, Forall_Forall2_diag, Forall_forall.
  intros r _. apply row_roundtrip.
Qed.

(** ** Request models *)

(** Why a body is refused. *)
Inductive rejection : Type :=
| NotADict
| Missing (field : string)
| Invalid (field : string).

Inductive validated (A : Type) : Type :=
| Valid (a : A)
| Unprocessable (why : rejection).

Arguments Valid {A} a.
Arguments Unprocessable {A} why.

#[export] Instance validated_ret : MRet validated := @Valid.

#[export] Instance validated_bind : MBind validated :=
  λ A B f m, match m with Valid a => f a | Unprocessable why => Unprocessable why end.

(** What the validation library accepts for a field declared [str] or
    [int].  A value of the declared type is taken as it is and [None] is
    refused; the rest differs between versions (whether a numeric string is
    an [int], whether an [int] is a [str]). *)
Class Validator : Type := {
  as_str : json → option string;
  as_int : json → option Z;
  as_str_JStr s : as_str (JStr s) = Some s;
  as_int_JInt n : as_int (JInt n) = Some n;
  as_str_JNull : as_str JNull = None;
  as_int_JNull : as_int JNull = None
}.

(** The validator that takes nothing but the declared type. *)
#[export, refine] Instance strict : Validator := {|
  as_str v := match v with JStr s => Some s | _ => None end;
  as_int v := match v with JInt n => Some n | _ => None end
|}.
Proof. all: done. Defined.

Section models.
Context `{Validator}.

(** A field without a default. *)
Definition required {A} (conv : json → option A) (k : string)
    (o : list (string * json)) : validated A :=
  match dict_field k o with
  | None => Unprocessable (Missing k)
  | Some v => from_option Valid (Unprocessable (Invalid k)) (conv v)
  end.

(** A field with a default: [None] when the body leaves it out. *)
Definition optional {A} (conv : json → option A) (k : string)
    (o : list (string * json)) : validated (option A) :=
  match dict_field k o with
  | None => Valid None
  | Some v => from_option (λ a, Valid (Some a)) (Unprocessable (Invalid k)) (conv v)
  end.

(** The dict of a body. *)
Definition dict_of (body : json) : validated (list (string * json)) :=
  match body with
  | JDict o => Valid o
  | _ => Unprocessable NotADict
  end.

(** [RoomIn] (lines 55-60) *)
Definition validate_room (body : json) : validated RoomIn.t :=
  o ← dict_of body;
  room_id ← required as_str "room_id" o;
  room_name ← required as_str "room_name" o;
  capacity ← required as_int "capacity" o;
  type ← optional as_str "type" o;
  resources ← optional as_str "resources" o;
  Valid (RoomIn.parse room_id room_name capacity type resources).

(** [FacultyIn] (lines 62-64) *)
Definition validate_faculty (body : json) : validated FacultyIn.t :=
  o ← dict_of body;
  faculty_id ← required as_str "faculty_id" o;
  name ← required as_str "name" o;
  Valid (FacultyIn.Make faculty_id name).

(** [SubjectIn] (lines 66-69) *)
Definition validate_subject (body : json) : validated SubjectIn.t :=
  o ← dict_of body;
  subject_id ← required as_str "subject_id" o;
  name ← required as_str "name" o;
  faculty_id ← required as_str "faculty_id" o;
  Valid (SubjectIn.Make subject_id name faculty_id).

(** [BatchIn] (lines 71-77) *)
Definition validate_batch (body : json) : validated BatchIn.t :=
  o ← dict_of body;
  batch_id ← required as_str "batch_id" o;
  department ← optional as_str "department" o;
  year ← optional as_int "year" o;
  section ← optional as_str "section" o;
  size ← optional as_int "size" o;
  shift ← optional as_int "shift" o;
  Valid (BatchIn.parse batch_id department year section size shift).

(** ** Lemmas *)

Lemma required_str k o s :
  dict_field k o = Some (JStr s) → required as_str k o = Valid s.
Proof. intros Hk. unfold required. by rewrite Hk, as_str_JStr. Qed.

Lemma required_int k o n :
  dict_field k o = Some (JInt n) → required as_int k o = Valid n.
Proof. intros Hk. unfold required. by rewrite Hk, as_int_JInt. Qed.

Lemma required_Missing {A} (conv : json → option A) k o :
  dict_field k o = None → required conv k o = Unprocessable (Missing k).
Proof. intros Hk. unfold required. by rewrite Hk. Qed.

Lemma optional_str k o s :
  dict_field k o = Some (JStr s) → optional as_str k o = Valid (Some s).
Proof. intros Hk. unfold optional. by rewrite Hk, as_str_JStr. Qed.

Lemma optional_int k o n :
  dict_field k o = Some (JInt n) → optional as_int k o = Valid (Some n).
Proof. intros Hk. unfold optional. by rewrite Hk, as_int_JInt. Qed.

Lemma optional_None {A} (conv : json → option A) k o :
  dict_field k o = None → optional conv k o = Valid None.
Proof. intros Hk. unfold optional. by rewrite Hk. Qed.

End models.
