(* ===== verification/Session.v ===== *)
(** * Session: the service as a state machine

    The routes of [src/app.py] as one transition system.  The state of the
    service is the database file and the state of the process-wide random
    generator; a request takes the handler's step and is answered by the
    handler's value, or by an internal server error when the handler raises.
    A raise of [generate_timetable] leaves the database as it was and the
    generator where the shuffles of the attempts made have left it. *)

From stdpp Require Import base tactics option list strings gmap fin_maps.
From S2P Require Import Prelude Database Shuffle Occupancy Allocator AllocInv AllocTrace.
From S2P Require Import Generate Crud Report.

#[local] Open Scope Z_scope.

(** ** Requests and responses *)

Inductive request : Type :=
| PostEntity (req : crud_request)
| GetRooms
| GetFaculty
| GetSubjects
| GetBatches
| PostGenerate
| GetTimetable (batch : string).

Inductive response : Type :=
| RespStatus (s : status)
| RespRooms (rows : list room_row)
| RespFaculty (rows : list faculty_row)
| RespSubjects (rows : list subject_row)
| RespBatches (rows : list batch_row)
| RespGenerated (r : generate_response)
| RespTimetable (g : report_grid)
| InternalServerError (e : py_error).

(** The requests that only read. *)
Definition is_get (req : request) : bool :=
  match req with
  | PostEntity _ | PostGenerate => false
  | _ => true
  end.

Section service.
Context `{Shuffler}.

(** ** State *)

Record service : Type := Service {
  store : db;
  random : rng
}.

(** The service after [startup] on a fresh database file. *)
Definition fresh (g : rng) : service := Service (init_db None) g.

(** ** The handlers as a function *)

Definition handle (req : request) (s : service) : service * response :=
  let d := store s in
  match req with
  | PostEntity r =>
      match crud_handle r d with
      | (d', Ok st) => (Service d' (random s), RespStatus st)
      | (d', Raise e) => (Service d' (random s), InternalServerError e)
      end
  | GetRooms => (s, RespRooms (get_rooms d))
  | GetFaculty => (s, RespFaculty (get_faculty d))
  | GetSubjects => (s, RespSubjects (get_subjects d))
  | GetBatches => (s, RespBatches (get_batches d))
  | PostGenerate =>
      match generate_timetable d (random s) with
      | (d', Ok (g', r)) => (Service d' g', RespGenerated r)
      | (d', Raise e) =>
          (Service d' (generate_gen d (random s)), InternalServerError e)
      end
  | GetTimetable batch =>
      match get_timetable_batch batch d with
      | Ok g => (s, RespTimetable g)
      | Raise e => (s, InternalServerError e)
      end
  end.

(** A sequence of requests, with the responses in order. *)
Fixpoint run (reqs : list request) (s : service) : service * list response :=
  match reqs with
  | [] => (s, [])
  | req :: reqs' =>
      let '(s1, resp) := handle req s in
      let '(s2, resps) := run reqs' s1 in
      (s2, resp :: resps)
  end.

(** ** The handlers as a step relation *)

Inductive step : service → request → response → service → Prop :=
| step_entity d g r d' st :
    crud_handle r d = (d', Ok st) →
    step (Service d g) (PostEntity r) (RespStatus st) (Service d' g)
| step_entity_raise d g r d' e :
    crud_handle r d = (d', Raise e) →
    step (Service d g) (PostEntity r) (InternalServerError e) (Service d' g)
| step_get_rooms d g :
    step (Service d g) GetRooms (RespRooms (get_rooms d)) (Service d g)
| step_get_faculty d g :
    step (Service d g) GetFaculty (RespFaculty (get_faculty d)) (Service d g)
| step_get_subjects d g :
    step (Service d g) GetSubjects (RespSubjects (get_subjects d)) (Service d g)
| step_get_batches d g :
    step (Service d g) GetBatches (RespBatches (get_batches d)) (Service d g)
| step_generate d g d' g' r :
    generate_timetable d g = (d', Ok (g', r)) →
    step (Service d g) PostGenerate (RespGenerated r) (Service d' g')
| step_generate_raise d g d' e :
    generate_timetable d g = (d', Raise e) →
    step (Service d g) PostGenerate (InternalServerError e)
      (Service d' (generate_gen d g))
| step_timetable d g batch grid :
    get_timetable_batch batch d = Ok grid →
    step (Service d g) (GetTimetable batch) (RespTimetable grid) (Service d g)
| step_timetable_raise d g batch e :
    get_timetable_batch batch d = Raise e →
    step (Service d g) (GetTimetable batch) (InternalServerError e) (Service d g).

(** The states the service reaches from [s0], with the exchanges that lead
    there. *)
Inductive steps (s0 : service) : list (request * response) → service → Prop :=
| steps_nil : steps s0 [] s0
| steps_snoc tr s req resp s' :
    steps s0 tr s → step s req resp s' → steps s0 (tr ++ [(req, resp)]) s'.

Definition reachable (s : service) : Prop := ∃ g tr, steps (fresh g) tr s.

(** ** The invariant of the service *)

(** The stored timetable is always one a generation could have left: keys
    unique in every table, every session in the grid, at most one session
    per batch, per faculty and per room in a cell. *)
Record service_inv (s : service) : Prop := ServiceInv {
  inv_wf : db_wf (store s);
  inv_grid : timetable_in_grid (store s);
  inv_batch : NoDup (batch_key <$> tt_rows (db_timetable (store s)));
  inv_fac : NoDup (fac_key <$> tt_rows (db_timetable (store s)));
  inv_room : NoDup (room_key <$> tt_rows (db_timetable (store s)))
}.

(** ** Lemmas *)

Lemma fresh_inv g : service_inv (fresh g).
Proof.
  split; simpl; [apply empty_db_wf|by apply Forall_nil_2|apply NoDup_nil_2..].
Qed.

(** A generation that returns leaves a timetable satisfying the invariant. *)
Lemma generate_timetable_inv d g d' g' r :
  db_wf d → generate_timetable d g = (d', Ok (g', r)) → service_inv (Service d' g').
Proof.
  intros (Hr & Hb & Hf & Hs & Ht)
    (st & -> & _ & _ & _ & [_ [_ Hfac] [_ Hroom]] & Htr)%generate_timetable_Ok.
  pose proof (trace_entry_ids _ _ _ _ _ Htr) as [Hnd Hids].
  split; simpl; [|apply Forall_forall; intros row Hrow| |done..].
  - split_and!; simpl; try done. split; [done|].
    eapply Forall_impl; [exact Hids|]. simpl. intros; lia.
  - destruct (trace_row_grid _ _ _ _ _ _ _ _ Htr Hrow) as (_ & ? & slot & ? & ->).
    split; [done|lia].
  - destruct Htr as [Hsub _ _ _ _ _]. eapply sublist_NoDup; [|exact Hsub].
    apply attempt_keys_NoDup; [done|apply DAYS_NoDup].
Qed.

(** An entity handler keeps the invariant. *)
Lemma crud_handle_inv d g r d' :
  service_inv (Service d g) → d' = (crud_handle r d).1 → service_inv (Service d' g).
Proof.
  intros [Hwf ? ? ? ?] ->. simpl in *.
  destruct (crud_handle_db_wf r d Hwf) as [? Htt].
  split; simpl; unfold timetable_in_grid in *; rewrite ?Htt; done.
Qed.

(** Every step keeps the invariant. *)
Lemma step_inv s req resp s' : service_inv s → step s req resp s' → service_inv s'.
Proof.
  intros Hinv Hstep.
  destruct Hstep as [d g r d' st Hh|d g r d' e Hh| | | | |d g d' g' r Hgen|d g d' e Hgen| |];
    try done.
  - eapply crud_handle_inv; [done|by rewrite Hh].
  - eapply crud_handle_inv; [done|by rewrite Hh].
  - eapply generate_timetable_inv; [apply Hinv|done].
  - apply generate_timetable_Raise in Hgen as [-> _]. by destruct Hinv.
Qed.

(** Every step stores integers of 64 bits only in the entity tables. *)
Lemma step_ints s req resp s' : db_ints (store s) → step s req resp s' → db_ints (store s').
Proof.
  intros Hints Hstep.
  destruct Hstep as [d g r d' st Hh|d g r d' e Hh| | | | |d g d' g' r Hgen|d g d' e Hgen| |];
    simpl in *; try done.
  - replace d' with (crud_handle r d).1 by (by rewrite Hh). by apply crud_handle_ints.
  - replace d' with (crud_handle r d).1 by (by rewrite Hh). by apply crud_handle_ints.
  - by apply generate_timetable_Ok in Hgen as (st & -> & _).
  - by apply generate_timetable_Raise in Hgen as [-> _].
Qed.

Lemma steps_inv s0 tr s : service_inv s0 → steps s0 tr s → service_inv s.
Proof. intros Hinv. induction 1; eauto using step_inv. Qed.

Lemma reachable_service_inv s : reachable s → service_inv s.
Proof. intros (g & tr & Hsteps). eapply steps_inv; [apply fresh_inv|done]. Qed.

(** The function [handle] takes a step of the relation. *)
Lemma handle_step req s : step s req (handle req s).2 (handle req s).1.
Proof.
  destruct s as [d g]. destruct req as [r| | | | | |]; simpl; try constructor.
  - destruct (crud_handle r d) as [d' [st|e]] eqn:Hh; simpl; by constructor.
  - destruct (generate_timetable d g) as [d' [[g' r]|e]] eqn:Hgen; simpl;
      by constructor.
  - destruct (get_timetable_batch batch d) as [grid|e] eqn:Hrep; simpl;
      by constructor.
Qed.

Lemma handle_step_eq req s s' resp : handle req s = (s', resp) → step s req resp s'.
Proof. intros Heq. pose proof (handle_step req s) as Hs. by rewrite Heq in Hs. Qed.

(** The relation is the graph of the function: the service is
    deterministic, given the state of the generator. *)
Lemma step_handle s req resp s' : step s req resp s' ↔ handle req s = (s', resp).
Proof.
  split; [|apply handle_step_eq].
  destruct 1; simpl; repeat match goal with Heq : _ = _ |- _ => rewrite Heq end; done.
Qed.

Lemma step_deterministic s req resp1 s1 resp2 s2 :
  step s req resp1 s1 → step s req resp2 s2 → resp1 = resp2 ∧ s1 = s2.
Proof. rewrite !step_handle. intros -> [= <- <-]. done. Qed.

(** A handler that raises has written nothing. *)
Lemma handle_raise_store req s s' e :
  handle req s = (s', InternalServerError e) → store s' = store s.
Proof.
  destruct s as [d g]. destruct req as [r| | | | | |batch]; simpl; try done.
  - destruct (crud_handle r d) as [d' [st|e']] eqn:Hh; intros [= <- <-]; simpl.
    by apply crud_handle_Raise in Hh as (-> & _).
  - destruct (generate_timetable d g) as [d' [[g' r]|e']] eqn:Hgen;
      intros [= <- <-]; simpl.
    by apply generate_timetable_Raise in Hgen as [-> _].
  - destruct (get_timetable_batch batch d); by intros [= <- <-].
Qed.

(** What a handler raises comes from its own data: a subscript or an
    integer that does not fit, never the misuse of a connection. *)
Lemma handle_raise_cases req s s' e :
  handle req s = (s', InternalServerError e) →
  e = OverflowError ∨ e = IndexError ∨ ∃ k, e = KeyError k.
Proof.
  destruct s as [d g]. destruct req as [r| | | | | |batch]; simpl; try done.
  - destruct (crud_handle r d) as [d' [st|e']] eqn:Hh; intros [= <- <-].
    apply crud_handle_Raise in Hh as (_ & -> & _). by left.
  - destruct (generate_timetable d g) as [d' [[g' r]|e']] eqn:Hgen; intros [= <- <-].
    apply generate_timetable_Raise in Hgen as [_ Hrun].
    apply allocate_Raise in Hrun as (subject & _ & _ & ->). eauto.
  - destruct (get_timetable_batch batch d) as [grid|e'] eqn:Hget; intros [= <- <-].
    apply get_timetable_batch_Raise in Hget as (row & _ & [[_ ->]|[_ ->]]); eauto.
Qed.

Lemma run_snoc reqs req s :
  run (reqs ++ [req]) s
  = let '(s1, resps) := run reqs s in
    let '(s2, resp) := handle req s1 in (s2, resps ++ [resp]).
Proof.
  revert s. induction reqs as [|req0 reqs IH]; intros s; simpl.
  - by destruct (handle req s).
  - destruct (handle req0 s) as [s1 resp1]. rewrite IH.
    destruct (run reqs s1) as [s2 resps]. by destruct (handle req s2).
Qed.

(** An execution of the relation is a run of the function on its requests. *)
Lemma steps_run s tr s' : steps s tr s' → run tr.*1 s = (s', tr.*2).
Proof.
  induction 1 as [|tr s1 req resp s2 _ IH Hstep%step_handle]; [done|].
  rewrite !fmap_app. simpl. rewrite run_snoc, IH. by rewrite Hstep.
Qed.

Lemma run_steps reqs s :
  steps s (zip reqs (run reqs s).2) (run reqs s).1.
Proof.
  enough (∀ s0 tr, steps s0 tr s →
            steps s0 (tr ++ zip reqs (run reqs s).2) (run reqs s).1) as Hgen
    by apply (Hgen s [] (steps_nil s)).
  revert s. induction reqs as [|req reqs IH]; intros s s0 tr Htr; simpl.
  - by rewrite app_nil_r.
  - pose proof (handle_step req s) as Hstep.
    destruct (handle req s) as [s1 resp]. specialize (IH s1).
    destruct (run reqs s1) as [s2 resps]. simpl in *.
    rewrite cons_middle, app_assoc. apply IH. by econstructor.
Qed.

(** After a generation the join of every stored row succeeds, with the
    names of a room, a subject and a faculty of the tables. *)
Lemma generate_timetable_join d g d' g' r row :
  db_wf d → generate_timetable d g = (d', Ok (g', r)) →
  row ∈ tt_rows (db_timetable d') →
  ∃ room subject fac,
    room ∈ db_rooms d' ∧ subject ∈ db_subjects d' ∧ fac ∈ db_faculties d' ∧
    room_id room = t_room_id row ∧ sub_id subject = t_subject_id row ∧
    fac_id fac = t_faculty_id row ∧ faculty_id subject = fac_id fac ∧
    join_row d' row = Some (ReportRow (t_day row) (t_slot row)
                              (Cell (sub_name subject) (fac_name fac) (room_name room))).
Proof.
  intros Hwf Hgen Hrow.
  pose proof (generate_timetable_inv _ _ _ _ _ Hwf Hgen) as [Hwf' _ _ _ _].
  apply generate_timetable_Ok in Hgen as (st & -> & _ & _ & _ & Hinv & Htr).
  simpl in *.
  destruct (trace_row_grid _ _ _ _ _ _ _ _ Htr Hrow) as (_ & _ & slot & _ & Hslot).
  pose proof (alloc_inv_row_faculty _ _ _ _ _ _ _ Hinv Hrow Hslot) as Hfac.
  apply elem_of_faculties_dict, list_elem_of_fmap in Hfac as (fac & Hfk & Hfac).
  destruct Htr as [_ _ _ _ _ Hrefs]. rewrite Forall_forall in Hrefs.
  destruct (Hrefs row Hrow)
    as ((room & Hrk & Hroom)%list_elem_of_fmap & _ & subject & Hsub & Hsk & Hsf).
  exists room, subject, fac. split_and!; try done; try congruence.
  by apply join_row_names.
Qed.

Lemma run_reachable reqs g : reachable (run reqs (fresh g)).1.
Proof. exists g, (zip reqs (run reqs (fresh g)).2). apply run_steps. Qed.

(** ** Properties *)

(** C14: whatever requests the service has answered since it started on a
    fresh database, the tables have unique primary keys and the stored
    timetable has every session in the grid and at most one session per
    batch, per faculty and per room in a cell. *)
Theorem run_inv reqs g : service_inv (run reqs (fresh g)).1.
Proof. apply reachable_service_inv, run_reachable. Qed.

(** In every state the service reaches, [GET /api/timetable/batch/...]
    is answered with a grid for every batch id: the handler does not
    raise, and it leaves the state as it is. *)
Theorem reachable_timetable_total s batch :
  reachable s → ∃ grid, step s (GetTimetable batch) (RespTimetable grid) s.
Proof.
  intros [_ Hgrid _ _ _]%reachable_service_inv.
  destruct (get_timetable_batch_total batch (store s) Hgrid) as [grid Hg].
  exists grid. destruct s. by constructor.
Qed.

(** C21: the service has two internal server errors, and both leave the
    database as it was: the [OverflowError] of an entity request with an
    integer that does not fit 64 bits, and the [KeyError] of
    [POST /api/generate] on a database with a subject whose faculty id is no
    row of the faculty table. *)
Theorem step_error_cases s req e s' :
  reachable s → step s req (InternalServerError e) s' →
  store s' = store s ∧
  ((∃ r, req = PostEntity r ∧ ¬ bindable r ∧ e = OverflowError) ∨
   (req = PostGenerate ∧
    ∃ subject, dangling (store s) subject ∧ e = KeyError (faculty_id subject))).
Proof.
  intros [_ Hgrid _ _ _]%reachable_service_inv Hstep.
  inversion Hstep as [|d g r d' e' Hh| | | | | |d g d' e' Hgen| |d g batch e' Hrep];
    subst; simpl in *.
  - apply crud_handle_Raise in Hh as (-> & -> & Hno). split; [done|]. left. by exists r.
  - apply generate_timetable_Raise in Hgen as [-> Hrun]. split; [done|]. right.
    split; [done|]. apply allocate_Raise in Hrun as (subject & ? & Hnot & ->).
    rewrite elem_of_faculties_dict in Hnot. by exists subject.
  - destruct (get_timetable_batch_total batch d Hgrid) as [grid Hg]. congruence.
Qed.


(** C25: after a generation that returned, the timetable of a batch shows
    every session stored for the batch: the cell at index slot - 1 of its
    day holds the names of the subject, of the faculty that teaches it and
    of the room, all rows of the tables. *)
Theorem generate_then_timetable s r s1 batch resp s2 :
  reachable s →
  step s PostGenerate (RespGenerated r) s1 →
  step s1 (GetTimetable batch) resp s2 →
  ∃ grid, resp = RespTimetable grid ∧ s2 = s1 ∧
    ∀ row, row ∈ tt_rows (db_timetable (store s1)) → t_batch_id row = batch →
      ∃ room subject fac,
        room ∈ db_rooms (store s1) ∧ subject ∈ db_subjects (store s1) ∧
        fac ∈ db_faculties (store s1) ∧
        room_id room = t_room_id row ∧ sub_id subject = t_subject_id row ∧
        fac_id fac = t_faculty_id row ∧ faculty_id subject = fac_id fac ∧
        grid_cell grid (t_day row) (Z.to_nat (t_slot row - 1))
        = Some (Cell (sub_name subject) (fac_name fac) (room_name room)).
Proof.
  intros [Hwf _ _ _ _]%reachable_service_inv Hgen Hrep.
  inversion Hgen as [| | | | | |d g d' g' r' Hg| | |]; subst; simpl in *.
  destruct (generate_timetable_inv _ _ _ _ _ Hwf Hg) as [_ Hgrid Hnd _ _].
  simpl in *.
  inversion Hrep as [| | | | | | | |d1 g1 b grid Hget|d1 g1 b e Hget]; subst;
    [|destruct (get_timetable_batch_total batch d' Hgrid); congruence].
  exists grid. split_and!; [done..|]. intros row Hrow Hb.
  destruct (generate_timetable_join _ _ _ _ _ row Hwf Hg Hrow)
    as (room & subject & fac & ? & ? & ? & ? & ? & ? & ? & Hjoin).
  exists room, subject, fac. split_and!; try done.
  by rewrite (get_timetable_batch_cell batch d' grid row), Hjoin.
Qed.

(** A request that only reads leaves the state of the service as it
    is, and its response is a function of the database alone. *)
Theorem get_read_only s req resp s' :
  is_get req = true → step s req resp s' →
  s' = s ∧ ∀ g, step (Service (store s) g) req resp (Service (store s) g).
Proof.
  intros Hget Hstep. destruct Hstep; try done; simpl; (split; [done|]);
    intros; by constructor.
Qed.

End service.

(** ** Runs of the service with the shuffle [fisher_yates] *)

(** The requests that enter one room, one faculty member, two subjects and
    one batch. *)
Definition demo_setup : list request :=
  [PostEntity (AddRoom (RoomIn.parse "R1" "Room 1" 40 None None));
   PostEntity (AddFaculty (FacultyIn.Make "F1" "Dr. X"));
   PostEntity (AddSubject (SubjectIn.Make "S1" "Math" "F1"));
   PostEntity (AddSubject (SubjectIn.Make "S2" "Logic" "F1"));
   PostEntity (AddBatch (BatchIn.parse "B1" (Some "CS"%string) None None None None))].

Definition demo_service : service (H := fisher_yates) :=
  (run demo_setup (fresh demo_tape)).1.

(** The same after the faculty member was deleted. *)
Definition demo_service_dangling : service (H := fisher_yates) :=
  (run (demo_setup ++ [PostEntity (DeleteFaculty "F1")]) (fresh demo_tape)).1.

Lemma demo_service_reachable : reachable demo_service.
Proof. apply run_reachable. Defined.

Lemma demo_service_dangling_reachable : reachable demo_service_dangling.
Proof. apply run_reachable. Defined.

Lemma reachable_timetable_total_witness :
  ∃ grid, step demo_service (GetTimetable "B1") (RespTimetable grid) demo_service.
Proof.
  exact (reachable_timetable_total demo_service "B1" demo_service_reachable).
Defined.


Lemma step_error_cases_witness :
  ∃ e s',
    step demo_service_dangling PostGenerate (InternalServerError e) s' ∧
    store s' = store demo_service_dangling ∧
    ((∃ r, PostGenerate = PostEntity r ∧ ¬ bindable r ∧ e = OverflowError) ∨
     (PostGenerate = PostGenerate ∧
      ∃ subject, dangling (store demo_service_dangling) subject ∧
        e = KeyError (faculty_id subject))).
Proof.
  assert (∃ e s', step demo_service_dangling PostGenerate (InternalServerError e) s')
    as (e & s' & Hstep)
    by (eexists _, _; apply handle_step_eq; vm_compute; reflexivity).
  exists e, s'. split; [exact Hstep|].
  exact (step_error_cases _ _ _ _ demo_service_dangling_reachable Hstep).
Defined.

Lemma generate_then_timetable_witness :
  ∃ r s1 resp s2,
    step demo_service PostGenerate (RespGenerated r) s1 ∧
    step s1 (GetTimetable "B1") resp s2 ∧
    ∃ grid, resp = RespTimetable grid ∧ s2 = s1 ∧
      ∀ row, row ∈ tt_rows (db_timetable (store s1)) → t_batch_id row = "B1"%string →
        ∃ room subject fac,
          room ∈ db_rooms (store s1) ∧ subject ∈ db_subjects (store s1) ∧
          fac ∈ db_faculties (store s1) ∧
          room_id room = t_room_id row ∧ sub_id subject = t_subject_id row ∧
          fac_id fac = t_faculty_id row ∧ faculty_id subject = fac_id fac ∧
          grid_cell grid (t_day row) (Z.to_nat (t_slot row - 1))
          = Some (Cell (sub_name subject) (fac_name fac) (room_name room)).
Proof.
  assert (∃ r s1, step demo_service PostGenerate (RespGenerated r) s1)
    as (r & s1 & Hgen)
    by (eexists _, _; apply handle_step_eq; vm_compute; reflexivity).
  pose proof (handle_step (GetTimetable "B1") s1) as Hrep.
  eexists r, s1, _, _. split; [exact Hgen|]. split; [exact Hrep|].
  exact (generate_then_timetable _ _ _ _ _ _ demo_service_reachable Hgen Hrep).
Defined.

Lemma get_read_only_witness :
  ∃ resp s',
    step demo_service GetRooms resp s' ∧
    s' = demo_service ∧
    ∀ g, step (Service (store demo_service) g) GetRooms resp
           (Service (store demo_service) g).
Proof.
  pose proof (handle_step GetRooms demo_service) as Hstep.
  eexists _, _. split; [exact Hstep|].
  exact (get_read_only _ GetRooms _ _ eq_refl Hstep).
Defined.

(** The error is reached through the API: after a faculty member with
    subjects is deleted, generation answers with the [KeyError] of that
    faculty id and stores nothing, and the timetable of the batch is
    empty. *)
Example dangling_error_run :
  (run (H := fisher_yates)
     (demo_setup ++ [PostEntity (DeleteFaculty "F1"); PostGenerate; GetTimetable "B1"])
     (fresh demo_tape)).2
  = replicate 5 (RespStatus StatusOk) ++
    [RespStatus StatusDeleted; InternalServerError (KeyError "F1");
     RespTimetable empty_grid].
Proof. vm_compute. reflexivity. Qed.

(** Sessions disappear from the report when their room is deleted:
    after a generation that scheduled all 30 attempts of the batch, deleting
    the room leaves the 30 rows stored and the grid of the batch empty. *)
Example deleted_room_run :
  let '(s, resps) :=
    run (H := fisher_yates)
      (demo_setup ++ [PostGenerate; PostEntity (DeleteRoom "R1"); GetTimetable "B1"])
      (fresh demo_tape) in
  resps !! 5%nat = Some (RespGenerated (GenerateResponse "ok" 30 0)) ∧
  length (tt_rows (db_timetable (store s))) = 30%nat ∧
  last resps = Some (RespTimetable empty_grid).
Proof. vm_compute. done. Qed.
