(* ===== verification/EntryIds.v ===== *)
(** * EntryIds: the [AUTOINCREMENT] sequence over the life of the service

    [DELETE FROM timetable] (line 192) removes the rows and keeps the
    sequence of [entry_id] (line 45), so the ids of a run continue those of
    the runs before it.  Over any sequence of requests since [startup] on a
    fresh file, the sequence stands at the number of sessions the answers
    of [generate_timetable] have reported as scheduled, and every stored
    entry id lies between 1 and that number ([steps_entry_ids]).  The model
    of [INSERT] takes the next id without a bound; the ids fit the 64 bits
    of the column as long as the service has scheduled fewer than [2^63]
    sessions in all ([entry_ids_fit]). *)

From stdpp Require Import base tactics option list strings gmap fin_maps.
From S2P Require Import Prelude Database Shuffle Occupancy Allocator AllocInv AllocTrace.
From S2P Require Import Generate Crud Report Session.

#[local] Open Scope Z_scope.

(** The sessions an answer reports as scheduled. *)
Definition scheduled_of (resp : response) : Z :=
  match resp with
  | RespGenerated r => resp_scheduled r
  | _ => 0
  end.

Definition scheduled_total (resps : list response) : Z :=
  foldr (λ resp n, scheduled_of resp + n) 0 resps.

Section ids.
Context `{Shuffler}.

(** Where the sequence stands, and the stored ids against it. *)
Definition ids_inv (n : Z) (s : service) : Prop :=
  tt_seq (db_timetable (store s)) = n ∧
  Forall (λ row, 1 ≤ entry_id row ≤ n) (tt_rows (db_timetable (store s))).

Lemma scheduled_total_snoc resps resp :
  scheduled_total (resps ++ [resp]) = scheduled_total resps + scheduled_of resp.
Proof. induction resps as [|r resps IH]; simpl; lia. Qed.

(** A run that returns moves the sequence by the sessions it scheduled. *)
Lemma generate_timetable_seq d g d' g' r :
  generate_timetable d g = (d', Ok (g', r)) →
  tt_seq (db_timetable d') = tt_seq (db_timetable d) + resp_scheduled r ∧
  0 ≤ resp_scheduled r ∧
  Forall (λ row, tt_seq (db_timetable d) < entry_id row ≤ tt_seq (db_timetable d'))
    (tt_rows (db_timetable d')).
Proof.
  intros Hg. destruct (generate_counts _ _ _ _ _ Hg) as (Hsched & _ & _).
  apply generate_timetable_Ok in Hg as (st & -> & _ & _ & _ & _ & Htr).
  pose proof (trace_entry_ids _ _ _ _ _ Htr) as [_ Hids].
  destruct Htr as [_ _ _ Hseq _ _]. simpl in *. split_and!; [lia..|done].
Qed.

Lemma step_ids n s req resp s' :
  service_inv s → 0 ≤ n → ids_inv n s → step s req resp s' →
  ids_inv (n + scheduled_of resp) s' ∧ 0 ≤ scheduled_of resp.
Proof.
  intros [Hwf _ _ _ _] Hn [Hseq Hids] Hstep.
  destruct Hstep as [d g r d' st Hh|d g r d' e Hh| | | | |d g d' g' r Hgen|d g d' e Hgen| |];
    simpl in *; rewrite ?Z.add_0_r; try done.
  - destruct (crud_handle_db_wf r d Hwf) as [_ Htt]. rewrite Hh in Htt. simpl in Htt.
    unfold ids_inv. simpl. by rewrite Htt.
  - destruct (crud_handle_db_wf r d Hwf) as [_ Htt]. rewrite Hh in Htt. simpl in Htt.
    unfold ids_inv. simpl. by rewrite Htt.
  - apply generate_timetable_seq in Hgen as (Hseq' & Hpos & Hids'). split; [|done].
    split; simpl; [lia|]. eapply Forall_impl; [exact Hids'|]. simpl. intros; lia.
  - by apply generate_timetable_Raise in Hgen as [-> _].
Qed.

Lemma steps_ids g tr s :
  steps (fresh g) tr s → ids_inv (scheduled_total tr.*2) s ∧ 0 ≤ scheduled_total tr.*2.
Proof.
  induction 1 as [|tr s req resp s' Hsteps [IH Hpos] Hstep]; [by repeat split|].
  rewrite fmap_app. change ([(req, resp)].*2) with [resp].
  rewrite scheduled_total_snoc.
  destruct (step_ids _ _ _ _ _ (steps_inv _ _ _ (fresh_inv g) Hsteps) Hpos IH Hstep).
  split; [done|lia].
Qed.

(** C36: Whatever requests the service has answered since it started on a
    fresh file, the sequence of entry ids stands at the number of sessions
    its answers have reported as scheduled, and the stored entry ids lie
    between 1 and that number. *)
Theorem steps_entry_ids g tr s :
  steps (fresh g) tr s →
  tt_seq (db_timetable (store s)) = scheduled_total tr.*2 ∧
  Forall (λ row, 1 ≤ entry_id row ≤ scheduled_total tr.*2)
    (tt_rows (db_timetable (store s))).
Proof. by intros [? _]%steps_ids. Qed.

(** The entry ids fit their column as long as the service has scheduled
    fewer than [2^63] sessions in all. *)
Theorem entry_ids_fit g tr s :
  steps (fresh g) tr s → scheduled_total tr.*2 ≤ INT64_MAX →
  Forall (λ row, int64 (entry_id row)) (tt_rows (db_timetable (store s))).
Proof.
  intros [_ Hids]%steps_entry_ids Hmax. eapply Forall_impl; [exact Hids|].
  simpl. unfold int64, INT64_MIN, INT64_MAX in *. intros; lia.
Qed.

End ids.

(** Two runs on the data of [demo_setup]: 30 sessions each, the ids of the
    second run from 31 to 60. *)
Lemma steps_entry_ids_witness :
  ∃ tr s,
    steps (H := fisher_yates) (fresh demo_tape) tr s ∧
    (tt_seq (db_timetable (store s)) = scheduled_total tr.*2 ∧
     Forall (λ row, 1 ≤ entry_id row ≤ scheduled_total tr.*2)
       (tt_rows (db_timetable (store s)))) ∧
    scheduled_total tr.*2 = 60 ∧
    entry_id <$> tt_rows (db_timetable (store s)) = seqZ 31 30.
Proof.
  pose (reqs := demo_setup ++ [PostGenerate; PostGenerate]).
  pose proof (run_steps (H := fisher_yates) reqs (fresh demo_tape)) as Hsteps.
  eexists _, _. split; [exact Hsteps|].
  split; [exact (steps_entry_ids _ _ _ Hsteps)|]. split; vm_compute; reflexivity.
Defined.
