(* ===== verification/Connection.v ===== *)
(** * Connection: the handlers statement by statement

    Each handler of [src/app.py] opens a connection ([get_db], lines
    29-32), executes its statements on it, commits and closes it.  This file
    has the handlers in that form: programs of a monad [io] over the state
    of the process (the database file, the connections made, the generator
    of [random]) that either return or raise, where a raise leaves the
    state as it is at that point.

    Of [sqlite3] the model has what the documentation says of a connection
    in its default mode: a statement that writes opens a transaction before
    its parameters are bound; a [SELECT] sees the transaction of its
    connection, or the file; [commit] writes the transaction to the file;
    [close] ends the connection and discards a transaction that was not
    committed; a statement on a closed connection raises
    [ProgrammingError].  The loops of [generate_timetable] are taken from
    [Allocator] as one computation on the rows of the cursor and on the
    generator; when they raise, the rows inserted so far are in the
    transaction of the connection, which is never committed. *)

From stdpp Require Import base tactics option list strings gmap fin_maps.
From S2P Require Import Prelude Database Shuffle Occupancy Allocator AllocInv AllocTrace.
From S2P Require Import Generate Crud Report Session.

#[local] Open Scope Z_scope.

Section connection.
Context `{Shuffler}.

(** ** The state of the process *)

(** A connection: open or closed, and the database as the statements of
    its transaction have left it, when it is inside one. *)
Record connection : Type := Connection {
  is_open : bool;
  txn : option db
}.

Record process : Type := Process {
  disk : db;
  conns : list connection;
  rand : rng
}.

(** ** Computations that return or raise *)

Definition io (A : Type) : Type := process → result A * process.

#[export] Instance io_ret : MRet io := λ A a pr, (Ok a, pr).

#[export] Instance io_bind : MBind io := λ A B f m pr,
  match m pr with
  | (Ok a, pr') => f a pr'
  | (Raise e, pr') => (Raise e, pr')
  end.

#[export] Instance io_fmap : FMap io := λ A B f m pr,
  match m pr with
  | (Ok a, pr') => (Ok (f a), pr')
  | (Raise e, pr') => (Raise e, pr')
  end.

(** A computation of [Prelude] inside a handler. *)
Definition lift {A} (r : result A) : io A := λ pr, (r, pr).

Definition gets {A} (f : process → A) : io A := λ pr, (Ok (f pr), pr).

Definition set_conn (c : nat) (cn : connection) : io unit := λ pr,
  (Ok (), Process (disk pr) (<[c := cn]> (conns pr)) (rand pr)).

Definition set_disk (d : db) : io unit := λ pr,
  (Ok (), Process d (conns pr) (rand pr)).

Definition set_rand (g : rng) : io unit := λ pr,
  (Ok (), Process (disk pr) (conns pr) g).

(** ** The connection API *)

(** [get_db] (lines 29-32): a new connection, outside a transaction. *)
Definition get_db : io nat := λ pr,
  (Ok (length (conns pr)),
   Process (disk pr) (conns pr ++ [Connection true None]) (rand pr)).

(** The connection a statement runs on, which must be open. *)
Definition the_open (c : nat) : io connection := λ pr,
  match conns pr !! c with
  | Some cn => if is_open cn then (Ok cn, pr) else (Raise ProgrammingError, pr)
  | None => (Raise ProgrammingError, pr)
  end.

(** What a [SELECT] on the connection sees. *)
Definition seen (cn : connection) : io db :=
  d ← gets disk; mret (default d (txn cn)).

(** [conn.execute("SELECT ...").fetchall()] *)
Definition conn_fetchall {A} (c : nat) (query : db → A) : io A :=
  cn ← the_open c; d ← seen cn; mret (query d).

(** [conn.execute] of a statement that writes: the transaction is opened,
    then the parameters are bound, then the statement runs. *)
Definition conn_execute {P} (c : nat) (parameters : result P) (stmt : P → db → db)
  : io unit :=
  cn ← the_open c; d ← seen cn;
  set_conn c (Connection true (Some d));;
  p ← lift parameters;
  set_conn c (Connection true (Some (stmt p d))).

(** [conn.commit()] *)
Definition conn_commit (c : nat) : io unit :=
  cn ← the_open c;
  match txn cn with
  | Some d => set_disk d;; set_conn c (Connection true None)
  | None => mret ()
  end.

(** [conn.close()]: a transaction that was not committed is discarded. *)
Definition conn_close (c : nat) : io unit := set_conn c (Connection false None).

(** The loops of lines 199-223 on the connection [c]: the rows go through
    the cursor into the transaction, the shuffles advance the generator,
    also when a subscript raises on the way. *)
Definition loops (c : nat) (batches : list batch_row) (subjects : list subject_row)
    (faculties : gmap string string) (rooms : list string) : io alloc_state :=
  cn ← the_open c; d ← seen cn; g ← gets rand;
  set_rand (allocate_gen DAYS SLOTS_PER_DAY batches subjects faculties rooms
              (db_timetable d) g);;
  set_conn c (Connection true
                (Some (commit d (allocate_cur DAYS SLOTS_PER_DAY batches subjects
                                   faculties rooms (db_timetable d) g))));;
  lift (allocate DAYS SLOTS_PER_DAY batches subjects faculties rooms
          (db_timetable d) g).

(** ** The handlers *)

(** [get_rooms] (lines 82-86) *)
Definition get_rooms_io : io (list room_row) :=
  conn ← get_db;
  rows ← conn_fetchall conn db_rooms;
  conn_close conn;;
  mret rows.

(** [add_room] (lines 89-95) *)
Definition add_room_io (r : RoomIn.t) : io status :=
  conn ← get_db;
  conn_execute conn (bind_room r)
    (λ row d, set_rooms (sql_insert_or_replace room_id row (db_rooms d)) d);;
  conn_commit conn;;
  conn_close conn;;
  mret StatusOk.

(** [delete_room] (lines 98-103) *)
Definition delete_room_io (id : string) : io status :=
  conn ← get_db;
  conn_execute conn (Ok id) (λ id d, set_rooms (sql_delete room_id id (db_rooms d)) d);;
  conn_commit conn;;
  conn_close conn;;
  mret StatusDeleted.

(** [get_faculty] (lines 107-111) *)
Definition get_faculty_io : io (list faculty_row) :=
  conn ← get_db;
  rows ← conn_fetchall conn db_faculties;
  conn_close conn;;
  mret rows.

(** [add_faculty] (lines 114-119) *)
Definition add_faculty_io (f : FacultyIn.t) : io status :=
  conn ← get_db;
  conn_execute conn (Ok (FacultyRow (FacultyIn.faculty_id f) (FacultyIn.name f)))
    (λ row d, set_faculties (sql_insert_or_replace fac_id row (db_faculties d)) d);;
  conn_commit conn;;
  conn_close conn;;
  mret StatusOk.

(** [delete_faculty] (lines 122-127) *)
Definition delete_faculty_io (id : string) : io status :=
  conn ← get_db;
  conn_execute conn (Ok id)
    (λ id d, set_faculties (sql_delete fac_id id (db_faculties d)) d);;
  conn_commit conn;;
  conn_close conn;;
  mret StatusDeleted.

(** [get_subjects] (lines 131-135) *)
Definition get_subjects_io : io (list subject_row) :=
  conn ← get_db;
  rows ← conn_fetchall conn db_subjects;
  conn_close conn;;
  mret rows.

(** [add_subject] (lines 138-144) *)
Definition add_subject_io (s : SubjectIn.t) : io status :=
  conn ← get_db;
  conn_execute conn
    (Ok (SubjectRow (SubjectIn.subject_id s) (SubjectIn.name s) (SubjectIn.faculty_id s)))
    (λ row d, set_subjects (sql_insert_or_replace sub_id row (db_subjects d)) d);;
  conn_commit conn;;
  conn_close conn;;
  mret StatusOk.

(** [delete_subject] (lines 147-152) *)
Definition delete_subject_io (id : string) : io status :=
  conn ← get_db;
  conn_execute conn (Ok id)
    (λ id d, set_subjects (sql_delete sub_id id (db_subjects d)) d);;
  conn_commit conn;;
  conn_close conn;;
  mret StatusDeleted.

(** [get_batches] (lines 156-160) *)
Definition get_batches_io : io (list batch_row) :=
  conn ← get_db;
  rows ← conn_fetchall conn db_batches;
  conn_close conn;;
  mret rows.

(** [add_batch] (lines 163-169) *)
Definition add_batch_io (b : BatchIn.t) : io status :=
  conn ← get_db;
  conn_execute conn (bind_batch b)
    (λ row d, set_batches (sql_insert_or_replace batch_id row (db_batches d)) d);;
  conn_commit conn;;
  conn_close conn;;
  mret StatusOk.

(** [delete_batch] (lines 172-177) *)
Definition delete_batch_io (id : string) : io status :=
  conn ← get_db;
  conn_execute conn (Ok id)
    (λ id d, set_batches (sql_delete batch_id id (db_batches d)) d);;
  conn_commit conn;;
  conn_close conn;;
  mret StatusDeleted.

(** [generate_timetable] (lines 188-231) *)
Definition generate_timetable_io : io generate_response :=
  conn ← get_db;
  conn_execute conn (Ok ()) (λ _ d, commit d (sql_delete_timetable (db_timetable d)));;
  batches ← conn_fetchall conn db_batches;
  subjects ← conn_fetchall conn db_subjects;
  faculties ← conn_fetchall conn (λ d, faculties_dict (db_faculties d));
  rooms ← conn_fetchall conn (λ d, room_id <$> db_rooms d);
  st ← loops conn batches subjects faculties rooms;
  conn_commit conn;;
  conn_close conn;;
  mret (answer batches (unscheduled st)).

(** [get_timetable_batch] (lines 238-262) *)
Definition get_timetable_batch_io (batch_id : string) : io report_grid :=
  conn ← get_db;
  rows ← conn_fetchall conn (select_batch_rows batch_id);
  conn_close conn;;
  lift (for_each fill rows empty_grid).

(** ** The service *)

(** The handler of an entity request. *)
Definition crud_io (req : crud_request) : io status :=
  match req with
  | AddRoom r => add_room_io r
  | DeleteRoom id => delete_room_io id
  | AddFaculty f => add_faculty_io f
  | DeleteFaculty id => delete_faculty_io id
  | AddSubject s => add_subject_io s
  | DeleteSubject id => delete_subject_io id
  | AddBatch b => add_batch_io b
  | DeleteBatch id => delete_batch_io id
  end.

(** The handler of a request, with what it returns as a response. *)
Definition handler (req : request) : io response :=
  match req with
  | PostEntity r => RespStatus <$> crud_io r
  | GetRooms => RespRooms <$> get_rooms_io
  | GetFaculty => RespFaculty <$> get_faculty_io
  | GetSubjects => RespSubjects <$> get_subjects_io
  | GetBatches => RespBatches <$> get_batches_io
  | PostGenerate => RespGenerated <$> generate_timetable_io
  | GetTimetable batch => RespTimetable <$> get_timetable_batch_io batch
  end.

(** The process when a request arrives: no connection yet. *)
Definition arrival (s : service) : process := Process (store s) [] (random s).

(** The service after the request.  The connections of the handler are
    dropped with its frame; what a transaction had not committed is gone. *)
Definition departure (pr : process) : service := Service (disk pr) (rand pr).

(** The answer to a request: what the handler returns, or an internal
    server error for what it raises. *)
Definition serve (req : request) (s : service) : service * response :=
  match handler req (arrival s) with
  | (Ok resp, pr) => (departure pr, resp)
  | (Raise e, pr) => (departure pr, InternalServerError e)
  end.

(** How a handler leaves its connection. *)
Inductive left_as : Type :=
| LeftClosed
| LeftOpen (transaction : db).

Definition leaves (pr : process) (how : left_as) : Prop :=
  conns pr = [match how with
              | LeftClosed => Connection false None
              | LeftOpen d => Connection true (Some d)
              end].

(** How the handler of [req] leaves its connection when it raises: the
    report raises after [conn.close()], the other handlers before. *)
Definition left_on_raise (req : request) (s : service) : left_as :=
  match req with
  | GetTimetable _ => LeftClosed
  | PostGenerate => LeftOpen (generate_txn (store s) (random s))
  | _ => LeftOpen (store s)
  end.

(** ** The monad laws *)

Lemma io_left_id {A B} (a : A) (f : A → io B) pr : (mret a ≫= f) pr = f a pr.
Proof. done. Qed.

Lemma io_right_id {A} (m : io A) pr : (m ≫= mret) pr = m pr.
Proof. unfold mbind, io_bind. by destruct (m pr) as [[a|e] pr']. Qed.

Lemma io_assoc {A B C} (m : io A) (f : A → io B) (g : B → io C) pr :
  ((m ≫= f) ≫= g) pr = (m ≫= λ a, f a ≫= g) pr.
Proof. unfold mbind, io_bind. by destruct (m pr) as [[a|e] pr']. Qed.

(** A raise ends the computation and keeps the state. *)
Lemma io_bind_Raise {A B} (m : io A) (f : A → io B) pr e pr' :
  m pr = (Raise e, pr') → (m ≫= f) pr = (Raise e, pr').
Proof. unfold mbind, io_bind. by intros ->. Qed.

Lemma io_bind_Ok {A B} (m : io A) (f : A → io B) pr a pr' :
  m pr = (Ok a, pr') → (m ≫= f) pr = f a pr'.
Proof. unfold mbind, io_bind. by intros ->. Qed.

(** ** The handlers one by one *)

(** A handler that reads: one [SELECT] on a connection it closes. *)
Lemma read_io {A} (query : db → A) s :
  (conn ← get_db; rows ← conn_fetchall conn query; conn_close conn;; mret rows)
    (arrival s)
  = (Ok (query (store s)), Process (store s) [Connection false None] (random s)).
Proof. done. Qed.

(** A handler that writes: one statement, [commit] and [close]. *)
Lemma write_io {P} (parameters : result P) (stmt : P → db → db) (st : status) s :
  (conn ← get_db; conn_execute conn parameters stmt;; conn_commit conn;;
   conn_close conn;; mret st) (arrival s)
  = match parameters with
    | Ok p => (Ok st, Process (stmt p (store s)) [Connection false None] (random s))
    | Raise e =>
        (Raise e, Process (store s) [Connection true (Some (store s))] (random s))
    end.
Proof. by destruct parameters. Qed.

Lemma crud_io_spec req s :
  crud_io req (arrival s)
  = match crud_handle req (store s) with
    | (d', Ok st) => (Ok st, Process d' [Connection false None] (random s))
    | (d', Raise e) =>
        (Raise e, Process d' [Connection true (Some (store s))] (random s))
    end.
Proof.
  destruct req as [r|id|f|id|sub|id|b|id]; unfold crud_io;
    [unfold add_room_io|unfold delete_room_io|unfold add_faculty_io
    |unfold delete_faculty_io|unfold add_subject_io|unfold delete_subject_io
    |unfold add_batch_io|unfold delete_batch_io];
    rewrite write_io; simpl; try done.
  - unfold add_room. by destruct (bind_room r).
  - unfold add_batch. by destruct (bind_batch b).
Qed.

Lemma generate_timetable_io_spec s :
  generate_timetable_io (arrival s)
  = match generate_timetable (store s) (random s) with
    | (d', Ok (g', resp)) => (Ok resp, Process d' [Connection false None] g')
    | (d', Raise e) =>
        (Raise e,
         Process d'
           [Connection true (Some (generate_txn (store s) (random s)))]
           (generate_gen (store s) (random s)))
    end.
Proof.
  destruct s as [d g].
  unfold generate_timetable_io, generate_timetable, generate_gen, generate_txn.
  unfold mbind, io_bind, loops. simpl. unfold mbind, io_bind, lift. simpl.
  destruct (allocate _ _ _ _ _ _ _ _) as [st|e] eqn:Hrun; simpl; [|done].
  by rewrite (allocate_gen_Ok _ _ _ _ _ _ _ _ _ Hrun),
    (allocate_cur_Ok _ _ _ _ _ _ _ _ _ Hrun).
Qed.

Lemma get_timetable_batch_io_spec batch s :
  get_timetable_batch_io batch (arrival s)
  = (get_timetable_batch batch (store s),
     Process (store s) [Connection false None] (random s)).
Proof. done. Qed.

(** What the handler of a request does to the process. *)
Lemma handler_spec req s :
  handler req (arrival s)
  = match handle req s with
    | (s', InternalServerError e) =>
        (Raise e,
         Process (store s')
           [match left_on_raise req s with
            | LeftClosed => Connection false None
            | LeftOpen d => Connection true (Some d)
            end] (random s'))
    | (s', resp) => (Ok resp, Process (store s') [Connection false None] (random s'))
    end.
Proof.
  destruct req as [r| | | | | |batch]; unfold handler, fmap, io_fmap;
    rewrite ?crud_io_spec, ?generate_timetable_io_spec, ?get_timetable_batch_io_spec;
    unfold get_rooms_io, get_faculty_io, get_subjects_io, get_batches_io;
    rewrite ?read_io; destruct s as [d g]; simpl; try done.
  - by destruct (crud_handle r d) as [d' [st|e]].
  - by destruct (generate_timetable d g) as [d' [[g' resp]|e]].
  - by destruct (get_timetable_batch batch d).
Qed.

(** C17: the handlers, statement by statement, do what the service of
    [Session] does in one step.  Running the statements of a handler on a
    connection of its own (open, execute, commit, close) and dropping the
    connection leaves the database and the generator as [handle] does, with
    the same answer. *)
Theorem serve_handle req s : serve req s = handle req s.
Proof.
  unfold serve. rewrite handler_spec.
  destruct (handle req s) as [[d' g'] resp]. by destruct resp.
Qed.

(** A handler that returns has closed its connection: the process is
    left with the one connection the handler made, closed and outside a
    transaction. *)
Theorem handler_returns_closed req s resp pr :
  handler req (arrival s) = (Ok resp, pr) → leaves pr LeftClosed.
Proof.
  rewrite handler_spec. destruct (handle req s) as [s' []]; by intros [= <- <-].
Qed.

(** C22: a handler that raises in a statement or in the loops leaves its
    connection open inside a transaction: no handler closes its connection
    on the way of an exception.  For an entity request it is the
    transaction its statement opened before the parameter was refused; for
    [generate_timetable] it is the transaction of the [DELETE], which holds
    the write lock of the file.  Nothing of it reaches the file. *)
Theorem handler_raises_open req s e pr :
  handler req (arrival s) = (Raise e, pr) →
  leaves pr (left_on_raise req s) ∧ disk pr = store s ∧
  e ≠ ProgrammingError ∧
  (is_get req = false → ∃ d, left_on_raise req s = LeftOpen d).
Proof.
  rewrite handler_spec. destruct (handle req s) as [s' resp] eqn:Hh.
  destruct resp; try (by intros [= <-]). intros [= <- <-].
  pose proof (handle_raise_cases _ _ _ _ Hh) as Hcases.
  apply handle_raise_store in Hh. split_and!; [done..|naive_solver|].
  destruct req; simpl; try done; eauto.
Qed.

End connection.

(** ** The handlers on the database of [Session] *)

Lemma handler_returns_closed_witness :
  ∃ resp pr,
    handler (H := fisher_yates) PostGenerate (arrival demo_service) = (Ok resp, pr) ∧
    leaves pr LeftClosed.
Proof.
  assert (∃ resp pr, handler (H := fisher_yates) PostGenerate (arrival demo_service)
                     = (Ok resp, pr)) as (resp & pr & Hh)
    by (eexists _, _; vm_compute; reflexivity).
  exists resp, pr. split; [exact Hh|]. exact (handler_returns_closed _ _ _ _ Hh).
Defined.

Lemma handler_raises_open_witness :
  ∃ e pr,
    handler (H := fisher_yates) PostGenerate (arrival demo_service_dangling)
    = (Raise e, pr) ∧
    leaves pr (left_on_raise PostGenerate demo_service_dangling) ∧
    disk pr = store demo_service_dangling ∧ e ≠ ProgrammingError ∧
    (is_get PostGenerate = false →
     ∃ d, left_on_raise PostGenerate demo_service_dangling = LeftOpen d).
Proof.
  assert (∃ e pr, handler (H := fisher_yates) PostGenerate (arrival demo_service_dangling)
                  = (Raise e, pr)) as (e & pr & Hh)
    by (eexists _, _; vm_compute; reflexivity).
  exists e, pr. split; [exact Hh|]. exact (handler_raises_open _ _ _ _ Hh).
Defined.
