(* ===== verification/Http.v ===== *)
(** * Http: routes, bodies and status codes

    The HTTP boundary of [src/app.py]: the route decorators (lines 81-238)
    as a table from method and path to handler ([path_of] lists the paths
    of the decorators, [locate] matches a request against them), the
    validation of request bodies against the request models, the handlers
    of [Session], and the encoding of what they return as the body of the
    answer.  A path is the list of its segments.  The files under [/static] (line 26) and paths with
    an empty segment, which the framework redirects, are outside the model:
    [http_handle] gives no answer for them.  [HEAD] and [OPTIONS] requests
    are left out. *)

From stdpp Require Import base tactics option list strings gmap fin_maps.
From S2P Require Import Prelude Database Shuffle Occupancy Allocator AllocInv AllocTrace.
From S2P Require Import Generate Crud Report Json Session.

#[local] Open Scope Z_scope.
#[local] Arguments has_type : simpl never.

(** ** Requests and answers *)

Inductive method : Type := GET | POST | DELETE | PUT | PATCH.

#[export] Instance method_eq_dec : EqDecision method.
Proof. solve_decision. Defined.

Record http_request : Type := HttpRequest {
  meth : method;
  path : list string;
  body : json
}.

(** The body of an answer: a JSON value, the text of an error page, the file
    of the front page, or the errors of the validation. *)
Inductive content : Type :=
| Json (v : json)
| Text (s : string)
| FileResponse (file : string)
| Errors (why : rejection).

Record http_response : Type := HttpResponse {
  status_code : Z;
  content_of : content
}.

(** ** The route table *)

(** The paths of the decorators, with their parameters. *)
Inductive endpoint : Type :=
| Root
| Rooms
| Room (room_id : string)
| Faculty
| FacultyMember (fac_id : string)
| Subjects
| Subject (sub_id : string)
| Batches
| Batch (batch_id : string)
| Generate
| TimetableOf (batch_id : string).

Inductive located : Type :=
| Endpoint (e : endpoint)
| Nowhere
| Outside.

(** The collection a path segment names. *)
Definition collection (name : string) : option endpoint :=
  if decide (name = "rooms"%string) then Some Rooms
  else if decide (name = "faculty"%string) then Some Faculty
  else if decide (name = "subjects"%string) then Some Subjects
  else if decide (name = "batches"%string) then Some Batches
  else if decide (name = "generate"%string) then Some Generate
  else None.

(** The member of a collection, for the paths with a parameter. *)
Definition member (e : endpoint) (id : string) : option endpoint :=
  match e with
  | Rooms => Some (Room id)
  | Faculty => Some (FacultyMember id)
  | Subjects => Some (Subject id)
  | Batches => Some (Batch id)
  | _ => None
  end.

Definition locate (p : list string) : located :=
  if decide (""%string ∈ p) then Outside
  else match p with
  | [] => Endpoint Root
  | seg :: rest =>
      if decide (seg = "static"%string) then Outside
      else if decide (seg = "api"%string) then
        match rest with
        | [name] => from_option Endpoint Nowhere (collection name)
        | [name; id] =>
            from_option Endpoint Nowhere (e ← collection name; member e id)
        | [a; b; id] =>
            if decide (a = "timetable"%string ∧ b = "batch"%string)
            then Endpoint (TimetableOf id) else Nowhere
        | _ => Nowhere
        end
      else Nowhere
  end.

(** The path of a decorator, with its parameter filled in. *)
Definition path_of (e : endpoint) : list string :=
  match e with
  | Root => []
  | Rooms => ["api"; "rooms"]
  | Room room_id => ["api"; "rooms"; room_id]
  | Faculty => ["api"; "faculty"]
  | FacultyMember fac_id => ["api"; "faculty"; fac_id]
  | Subjects => ["api"; "subjects"]
  | Subject sub_id => ["api"; "subjects"; sub_id]
  | Batches => ["api"; "batches"]
  | Batch batch_id => ["api"; "batches"; batch_id]
  | Generate => ["api"; "generate"]
  | TimetableOf batch_id => ["api"; "timetable"; "batch"; batch_id]
  end%string.

(** The methods of the decorators of a path. *)
Definition methods (e : endpoint) : list method :=
  match e with
  | Root | TimetableOf _ => [GET]
  | Rooms | Faculty | Subjects | Batches => [GET; POST]
  | Room _ | FacultyMember _ | Subject _ | Batch _ => [DELETE]
  | Generate => [POST]
  end.

(** What a routed request asks for: the front page or a handler of the
    service. *)
Inductive target : Type :=
| Page
| Api (req : request).

Section http.
Context `{Shuffler} `{Validator}.

(** The arguments of the handler, from the path and the validated body. *)
Definition arguments (e : endpoint) (m : method) (body : json) : validated target :=
  match e, m with
  | Root, _ => Valid Page
  | Rooms, GET => Valid (Api GetRooms)
  | Rooms, _ => r ← validate_room body; Valid (Api (PostEntity (AddRoom r)))
  | Room id, _ => Valid (Api (PostEntity (DeleteRoom id)))
  | Faculty, GET => Valid (Api GetFaculty)
  | Faculty, _ => f ← validate_faculty body; Valid (Api (PostEntity (AddFaculty f)))
  | FacultyMember id, _ => Valid (Api (PostEntity (DeleteFaculty id)))
  | Subjects, GET => Valid (Api GetSubjects)
  | Subjects, _ => s ← validate_subject body; Valid (Api (PostEntity (AddSubject s)))
  | Subject id, _ => Valid (Api (PostEntity (DeleteSubject id)))
  | Batches, GET => Valid (Api GetBatches)
  | Batches, _ => b ← validate_batch body; Valid (Api (PostEntity (AddBatch b)))
  | Batch id, _ => Valid (Api (PostEntity (DeleteBatch id)))
  | Generate, _ => Valid (Api PostGenerate)
  | TimetableOf id, _ => Valid (Api (GetTimetable id))
  end.

(** ** The bodies of the answers *)

(** [{"status": "ok"}] and [{"status": "deleted"}] *)
Definition status_json (st : status) : json :=
  JDict [("status"%string,
          JStr (match st with StatusOk => "ok" | StatusDeleted => "deleted" end))].

(** The dict of line 231. *)
Definition generated_json (r : generate_response) : json :=
  JDict [("status", JStr (resp_status r)); ("scheduled", JInt (resp_scheduled r));
         ("unscheduled", JInt (resp_unscheduled r))]%string.

(** A cell of the grid: [None] or the dict of lines 256-260. *)
Definition cell_json (c : option cell) : json :=
  match c with
  | None => JNull
  | Some c =>
      JDict [("subject", JStr (subject c)); ("faculty", JStr (faculty c));
             ("room", JStr (room c))]%string
  end.

(** The dict of line 253, with the days in the order of their insertion. *)
Definition grid_json (g : report_grid) : json :=
  JDict (omap (λ day, l ← g !! day; Some (day, JList (cell_json <$> l))) DAYS).

(** The answer to a handler's value: status 200 with the value as JSON, or
    the error page of the framework for an exception. *)
Definition encode (resp : response) : http_response :=
  match resp with
  | RespStatus st => HttpResponse 200 (Json (status_json st))
  | RespRooms rows => HttpResponse 200 (Json (dicts_from_rows rows))
  | RespFaculty rows => HttpResponse 200 (Json (dicts_from_rows rows))
  | RespSubjects rows => HttpResponse 200 (Json (dicts_from_rows rows))
  | RespBatches rows => HttpResponse 200 (Json (dicts_from_rows rows))
  | RespGenerated r => HttpResponse 200 (Json (generated_json r))
  | RespTimetable g => HttpResponse 200 (Json (grid_json g))
  | InternalServerError _ => HttpResponse 500 (Text "Internal Server Error")
  end.

(** [root] (lines 180-185): the front page when the file exists. *)
Definition root (index_exists : bool) : http_response :=
  if index_exists then HttpResponse 200 (FileResponse "static/index.html")
  else HttpResponse 200
         (Json (JDict [("msg"%string, JStr "Place index.html in the static folder.")])).

Definition not_found : http_response :=
  HttpResponse 404 (Json (JDict [("detail"%string, JStr "Not Found")])).

Definition method_not_allowed : http_response :=
  HttpResponse 405 (Json (JDict [("detail"%string, JStr "Method Not Allowed")])).

(** ** The service behind HTTP *)

Definition http_handle (index_exists : bool) (hr : http_request) (s : service)
  : option (service * http_response) :=
  match locate (path hr) with
  | Outside => None
  | Nowhere => Some (s, not_found)
  | Endpoint e =>
      if decide (meth hr ∈ methods e) then
        match arguments e (meth hr) (body hr) with
        | Unprocessable why => Some (s, HttpResponse 422 (Errors why))
        | Valid Page => Some (s, root index_exists)
        | Valid (Api req) => let '(s', resp) := handle req s in Some (s', encode resp)
        end
      else Some (s, method_not_allowed)
  end.

(** ** The types of the answers *)

Definition cell_schema : schema :=
  TOptional (TDict [("subject", TStr); ("faculty", TStr); ("room", TStr)]%string).

Definition grid_schema : schema :=
  TDict ((λ day, (day, TArray SLOTS_PER_DAY cell_schema)) <$> DAYS).

(** The type of the body a handler returns. *)
Definition response_schema (req : request) : schema :=
  match req with
  | PostEntity _ => TDict [("status"%string, TStr)]
  | GetRooms => TList (row_schema (R := room_row))
  | GetFaculty => TList (row_schema (R := faculty_row))
  | GetSubjects => TList (row_schema (R := subject_row))
  | GetBatches => TList (row_schema (R := batch_row))
  | PostGenerate =>
      TDict [("status", TStr); ("scheduled", TInt); ("unscheduled", TInt)]%string
  | GetTimetable _ => grid_schema
  end.

(** An answer has the type [t]: it is JSON of that type. *)
Definition answer_typed (t : schema) (r : http_response) : Prop :=
  ∃ v, content_of r = Json v ∧ has_type t v = true.

(** ** Lemmas *)

Lemma cell_json_typed c : has_type cell_schema (cell_json c) = true.
Proof. by destruct c. Qed.

(** The grid of a report has the type of the answer: the days in order, six
    cells for each. *)
Lemma grid_json_typed g : grid_shape g → has_type grid_schema (grid_json g) = true.
Proof.
  intros Hshape. unfold grid_schema, grid_json.
  assert (∀ day, day ∈ DAYS → ∃ l, g !! day = Some l ∧ length l = SLOTS_PER_DAY) as Hdays.
  { intros day [l Hl]%(Hshape day). exists l. split; [done|]. by apply (Hshape day). }
  induction DAYS as [|day days IH]; [done|]. simpl.
  destruct (Hdays day) as (l & -> & Hlen); [apply list_elem_of_here|]. simpl.
  rewrite has_type_dict_cons. apply andb_true_iff; split; [apply andb_true_iff; split|].
  - by apply bool_decide_eq_true.
  - apply has_type_array. split; [by rewrite length_fmap|].
    apply Forall_fmap, Forall_forall. intros c _. apply cell_json_typed.
  - apply IH. eauto using list_elem_of_further.
Qed.

(** A handler's answer is an error page or JSON of the type of the handler. *)
Lemma encode_typed req s :
  status_code (encode (handle req s).2) = 500 ∨
  status_code (encode (handle req s).2) = 200 ∧
  answer_typed (response_schema req) (encode (handle req s).2).
Proof.
  destruct s as [d g]. destruct req as [r| | | | | |batch]; simpl.
  - destruct (crud_handle r d) as [d' [st|e]]; simpl; [right|by left].
    split; [done|]. eexists. split; [done|]. by destruct st.
  - right. split; [done|]. eexists. split; [done|].
    exact (dicts_from_rows_typed (R := room_row) _).
  - right. split; [done|]. eexists. split; [done|].
    exact (dicts_from_rows_typed (R := faculty_row) _).
  - right. split; [done|]. eexists. split; [done|].
    exact (dicts_from_rows_typed (R := subject_row) _).
  - right. split; [done|]. eexists. split; [done|].
    exact (dicts_from_rows_typed (R := batch_row) _).
  - destruct (generate_timetable d g) as [d' [[g' r]|e]]; simpl; [right|by left].
    split; [done|]. by eexists.
  - destruct (get_timetable_batch batch d) as [grid|e] eqn:Hget; simpl; [right|by left].
    split; [done|]. eexists. split; [done|].
    apply grid_json_typed. by apply get_timetable_batch_inv in Hget as [? _].
Qed.

(** A handler that raises has written nothing. *)
Lemma handle_error_store req s :
  status_code (encode (handle req s).2) ≠ 200 → store (handle req s).1 = store s.
Proof.
  destruct s as [d g]. destruct req as [r| | | | | |batch]; simpl; try done.
  - destruct (crud_handle r d) as [d' [st|e]] eqn:Hh; simpl; [done|].
    by apply crud_handle_Raise in Hh as (-> & _).
  - destruct (generate_timetable d g) as [d' [[g' r]|e]] eqn:Hgen; simpl; [done|].
    by apply generate_timetable_Raise in Hgen as [-> _].
  - by destruct (get_timetable_batch batch d).
Qed.

(** The cases of [http_handle]. *)
Lemma http_handle_Some index_exists hr s s' r :
  http_handle index_exists hr s = Some (s', r) →
  (s' = s ∧ (r = not_found ∨ r = method_not_allowed ∨ r = root index_exists ∨
             ∃ why, r = HttpResponse 422 (Errors why))) ∨
  ∃ e req, locate (path hr) = Endpoint e ∧ meth hr ∈ methods e ∧
    arguments e (meth hr) (body hr) = Valid (Api req) ∧
    s' = (handle req s).1 ∧ r = encode (handle req s).2.
Proof.
  unfold http_handle. destruct (locate (path hr)) as [e| |]; [|naive_solver|done].
  case_decide as Hm; [|naive_solver].
  destruct (arguments e (meth hr) (body hr)) as [[|req]|why] eqn:Harg; [naive_solver| |naive_solver].
  destruct (handle req s) as [s1 resp] eqn:Hh. intros [= <- <-]. right.
  exists e, req. by rewrite Hh.
Qed.

(** C23: every answer of the service has a status code of the five the code
    and the framework produce, and an answer with status 200 to a request
    for a handler is JSON of the type of that handler: a dict with a status,
    a list of the dicts of the rows of a table, the counts of a run, or a
    grid with the days in order and six cells for each. *)
Theorem http_handle_typed index_exists hr s s' r :
  http_handle index_exists hr s = Some (s', r) →
  status_code r ∈ [200; 404; 405; 422; 500] ∧
  ∀ e req, locate (path hr) = Endpoint e →
    arguments e (meth hr) (body hr) = Valid (Api req) →
    status_code r = 200 → answer_typed (response_schema req) r.
Proof.
  unfold http_handle. destruct (locate (path hr)) as [e| |] eqn:Hloc;
    [|intros [= <- <-]; split; [set_solver|done]|done].
  case_decide as Hm; [|intros [= <- <-]; split; [set_solver|done]].
  destruct (arguments e (meth hr) (body hr)) as [[|req]|why] eqn:Harg.
  - intros [= <- <-]. split; [unfold root; destruct index_exists; set_solver|].
    intros e' req' [= <-]. congruence.
  - pose proof (encode_typed req s) as Htyped.
    destruct (handle req s) as [s1 resp]. intros [= <- <-]. simpl in Htyped. split.
    + destruct Htyped as [->|[-> _]]; set_solver.
    + intros e' req' [= <-] Harg' Hcode. rewrite Harg in Harg'. simplify_eq.
      destruct Htyped as [?|[_ ?]]; [congruence|done].
  - intros [= <- <-]. split; [set_solver|]. intros e' req' [= <-]. congruence.
Qed.

(** Only an answer with status 200 can have changed the database: a
    request that is not routed, not valid or whose handler raises leaves
    every table as it was. *)
Theorem http_error_no_write index_exists hr s s' r :
  http_handle index_exists hr s = Some (s', r) →
  status_code r ≠ 200 → store s' = store s.
Proof.
  intros [[-> _]|(e & req & _ & _ & _ & -> & ->)]%http_handle_Some Hcode; [done|].
  by apply handle_error_store.
Qed.

(** ** Round trips through the API *)

Lemma validate_room_dict (row : room_row) :
  validate_room (dict_from_row row)
  = Valid (RoomIn.Make (room_id row) (room_name row) (capacity row) (type row)
             (resources row)).
Proof.
  unfold validate_room. simpl.
  do 2 (erewrite required_str by reflexivity; simpl).
  erewrite required_int by reflexivity. simpl.
  by do 2 (erewrite optional_str by reflexivity; simpl).
Qed.

Lemma validate_batch_dict (row : batch_row) :
  validate_batch (dict_from_row row)
  = Valid (BatchIn.Make (batch_id row) (department row) (year row) (section row)
             (batch_size row) (shift row)).
Proof.
  unfold validate_batch. simpl.
  erewrite required_str by reflexivity. simpl.
  erewrite optional_str by reflexivity. simpl.
  erewrite optional_int by reflexivity. simpl.
  erewrite optional_str by reflexivity. simpl.
  by do 2 (erewrite optional_int by reflexivity; simpl).
Qed.

(** C38: what [POST /api/rooms] stores, [GET /api/rooms] returns, and what
    it returns can be posted again.  After a valid body with a capacity of 64
    bits was posted, the list of rooms ends with the dict of the request's
    fields, defaults filled in, and that dict is a body the request model
    accepts and reads as the same request. *)
Theorem post_get_room index_exists body r s :
  validate_room body = Valid r → int64 (RoomIn.capacity r) →
  ∃ s1 row rows,
    http_handle index_exists (HttpRequest POST ["api"; "rooms"]%string body) s
    = Some (s1, HttpResponse 200 (Json (status_json StatusOk))) ∧
    http_handle index_exists (HttpRequest GET ["api"; "rooms"]%string JNull) s1
    = Some (s1, HttpResponse 200 (Json (dicts_from_rows (rows ++ [row])))) ∧
    rows = sql_delete room_id (RoomIn.room_id r) (db_rooms (store s)) ∧
    validate_room (dict_from_row row) = Valid r.
Proof.
  intros Hvalid Hcap.
  assert (bind_room r = Ok (RoomRow (RoomIn.room_id r) (RoomIn.room_name r)
            (RoomIn.capacity r) (RoomIn.type r) (RoomIn.resources r))) as Hbind
    by (by apply bind_room_Ok).
  eexists _, _, _. split_and!.
  - unfold http_handle. simpl. rewrite Hvalid. simpl. unfold add_room.
    rewrite Hbind. simpl. reflexivity.
  - reflexivity.
  - done.
  - rewrite validate_room_dict. by destruct r.
Qed.

(** C39: what [GET /api/faculty] and [GET /api/subjects] return cannot be
    posted back.  The dicts have the names of the columns ([fac_id],
    [fac_name], [sub_id], [sub_name]) where the request models have
    [faculty_id], [subject_id] and [name]: in every state of the service,
    each dict of the two lists is a body that [POST] to the same path refuses
    with status 422, as lacking the first field of the model, whatever the
    validator accepts as a string. *)
Theorem get_faculty_not_postable index_exists s :
  ∃ faculty subjects,
    http_handle index_exists (HttpRequest GET ["api"; "faculty"]%string JNull) s
    = Some (s, HttpResponse 200 (Json (JList faculty))) ∧
    http_handle index_exists (HttpRequest GET ["api"; "subjects"]%string JNull) s
    = Some (s, HttpResponse 200 (Json (JList subjects))) ∧
    (∀ row, row ∈ faculty →
       http_handle index_exists (HttpRequest POST ["api"; "faculty"]%string row) s
       = Some (s, HttpResponse 422 (Errors (Missing "faculty_id")))) ∧
    (∀ row, row ∈ subjects →
       http_handle index_exists (HttpRequest POST ["api"; "subjects"]%string row) s
       = Some (s, HttpResponse 422 (Errors (Missing "subject_id")))).
Proof.
  eexists _, _. split_and!; [by destruct s..| |].
  - by intros row (f & -> & _)%list_elem_of_fmap.
  - by intros row (sub & -> & _)%list_elem_of_fmap.
Qed.

(** ** What the paths cannot name *)

Lemma collection_Some name e :
  collection name = Some e → path_of e = ["api"; name]%string.
Proof. unfold collection. repeat case_decide; intros [= <-]; by subst. Qed.

(** The route table finds the decorator whose path the request has: a path
    leads to an endpoint exactly when it is the path of the endpoint and has
    no empty segment. *)
Lemma locate_Endpoint p e :
  locate p = Endpoint e ↔ path_of e = p ∧ ""%string ∉ p.
Proof.
  split.
  - unfold locate. case_decide as Hempty; [done|].
    destruct p as [|seg rest]; [by intros [= <-]|]. repeat case_decide; try done.
    subst seg. destruct rest as [|name [|id [|id' [|? ?]]]]; try done.
    + destruct (collection name) as [e0|] eqn:Hc; [simpl|done]. intros [= <-].
      by apply collection_Some in Hc.
    + destruct (collection name) as [e0|] eqn:Hc; [simpl|done].
      apply collection_Some in Hc.
      destruct e0; simpl; intros [= <-]; simplify_eq/=; done.
    + case_decide as Hn; [|done]. destruct Hn as [-> ->]. by intros [= <-].
  - intros [<- Hempty]. unfold locate. rewrite decide_False by done. by destruct e.
Qed.

(** A parameter of a path is a segment, and no segment is empty. *)
Lemma locate_member p e :
  locate p = Endpoint e →
  match e with
  | Room id | FacultyMember id | Subject id | Batch id | TimetableOf id => id ≠ ""%string
  | _ => True
  end.
Proof.
  intros [<- Hempty]%locate_Endpoint. destruct e; try done; intros ->; set_solver.
Qed.

Lemma arguments_delete_room e m body id :
  arguments e m body = Valid (Api (PostEntity (DeleteRoom id))) → e = Room id.
Proof.
  destruct e, m; simpl; try (by intros [= ->]); try done.
  all: match goal with |- context [?v ≫= _] => by destruct v end.
Qed.

(** Every handler but [delete_room] on its id leaves a room in the table. *)
Lemma handle_keeps_room req s id :
  req ≠ PostEntity (DeleteRoom id) →
  id ∈ room_id <$> db_rooms (store s) →
  id ∈ room_id <$> db_rooms (store (handle req s).1).
Proof.
  destruct s as [d g]. intros Hreq Hid.
  destruct req as [r| | | | | |batch]; simpl; try done.
  - destruct r as [r|id'| | | | | |b]; simpl; try done.
    + unfold add_room. destruct (bind_room r) as [row|]; simpl; [|done].
      apply list_elem_of_fmap in Hid as (r1 & -> & Hr1). apply list_elem_of_fmap.
      destruct (decide (room_id r1 = room_id row)) as [Heq|Hne].
      * exists row. split; [done|]. apply elem_of_sql_insert_or_replace. by left.
      * exists r1. split; [done|]. apply elem_of_sql_insert_or_replace. by right.
    + apply list_elem_of_fmap in Hid as (r1 & -> & Hr1). apply list_elem_of_fmap.
      exists r1. split; [done|]. apply elem_of_sql_delete. split; [congruence|done].
    + unfold add_batch. by destruct (bind_batch b).
  - by destruct (generate_timetable d g) as [d' [[g' r]|e]] eqn:Hgen;
      [apply generate_timetable_Ok in Hgen as (st & -> & _)
      |apply generate_timetable_Raise in Hgen as [-> _]].
  - by destruct (get_timetable_batch batch d).
Qed.

(** C37: a room whose id is the empty string cannot be deleted through the
    API.  [RoomIn] accepts the empty string as [room_id], but the parameter
    of [DELETE /api/rooms/{room_id}] is a segment of the path, and no
    segment is empty: whatever request is answered, the room stays in the
    table. *)
Theorem empty_room_id_stays index_exists hr s s' r :
  http_handle index_exists hr s = Some (s', r) →
  ""%string ∈ room_id <$> db_rooms (store s) →
  ""%string ∈ room_id <$> db_rooms (store s').
Proof.
  intros [[-> _]|(e & req & Hloc%locate_member & _ & Harg & -> & _)]%http_handle_Some;
    [done|].
  apply handle_keeps_room. intros ->. by apply arguments_delete_room in Harg as ->.
Qed.

End http.

(** ** Requests to the service of [Session] *)

Lemma http_handle_typed_witness :
  let hr := HttpRequest GET ["api"; "timetable"; "batch"; "B1"]%string JNull in
  ∃ s' r,
    http_handle (H := fisher_yates) (H0 := strict) false hr demo_service = Some (s', r) ∧
    status_code r ∈ [200; 404; 405; 422; 500] ∧
    ∀ e req, locate (path hr) = Endpoint e →
      arguments e (meth hr) (body hr) = Valid (Api req) →
      status_code r = 200 → answer_typed (response_schema req) r.
Proof.
  intros hr.
  assert (∃ s' r, http_handle (H := fisher_yates) (H0 := strict) false hr demo_service
                  = Some (s', r)) as (s' & r & Hh)
    by (eexists _, _; vm_compute; reflexivity).
  exists s', r. split; [exact Hh|]. exact (http_handle_typed _ _ _ _ _ Hh).
Defined.

Lemma http_error_no_write_witness :
  let hr := HttpRequest POST ["api"; "rooms"]%string (JDict [("room_id"%string, JStr "R9")]) in
  ∃ s' r,
    http_handle (H := fisher_yates) (H0 := strict) false hr demo_service = Some (s', r) ∧
    status_code r = 422 ∧ store s' = store demo_service.
Proof.
  intros hr.
  assert (∃ s' r, http_handle (H := fisher_yates) (H0 := strict) false hr demo_service
                  = Some (s', r) ∧ status_code r = 422) as (s' & r & Hh & Hcode)
    by (eexists _, _; split; vm_compute; reflexivity).
  exists s', r. split; [exact Hh|]. split; [exact Hcode|].
  apply (http_error_no_write _ _ _ _ _ Hh). by rewrite Hcode.
Defined.

Lemma post_get_room_witness :
  let body := JDict [("room_id", JStr "R7"); ("room_name", JStr "Hall");
                     ("capacity", JInt 120)]%string in
  let r := RoomIn.Make "R7" "Hall" 120 "Lecture" "" in
  ∃ s1 row rows,
    http_handle (H := fisher_yates) (H0 := strict) false
      (HttpRequest POST ["api"; "rooms"]%string body) demo_service
    = Some (s1, HttpResponse 200 (Json (status_json StatusOk))) ∧
    http_handle (H := fisher_yates) (H0 := strict) false
      (HttpRequest GET ["api"; "rooms"]%string JNull) s1
    = Some (s1, HttpResponse 200 (Json (dicts_from_rows (rows ++ [row])))) ∧
    rows = sql_delete room_id (RoomIn.room_id r) (db_rooms (store demo_service)) ∧
    validate_room (dict_from_row row) = Valid r.
Proof.
  intros body r.
  apply (post_get_room (H := fisher_yates) (H0 := strict) false body r demo_service).
  - reflexivity.
  - apply (bool_decide_unpack _). by vm_compute.
Defined.

Lemma empty_room_id_stays_witness :
  let add := HttpRequest POST ["api"; "rooms"]%string
               (JDict [("room_id", JStr ""); ("room_name", JStr "Nowhere");
                       ("capacity", JInt 0)]%string) in
  let del := HttpRequest DELETE ["api"; "rooms"; ""]%string JNull in
  ∃ s1 r1,
    http_handle (H := fisher_yates) (H0 := strict) false add demo_service = Some (s1, r1) ∧
    status_code r1 = 200 ∧
    http_handle (H := fisher_yates) (H0 := strict) false del s1 = None ∧
    ∀ hr s2 r2,
      http_handle (H := fisher_yates) (H0 := strict) false hr s1 = Some (s2, r2) →
      ""%string ∈ room_id <$> db_rooms (store s2).
Proof.
  intros add del.
  assert (∃ s1 r1,
    http_handle (H := fisher_yates) (H0 := strict) false add demo_service = Some (s1, r1) ∧
    status_code r1 = 200 ∧
    http_handle (H := fisher_yates) (H0 := strict) false del s1 = None ∧
    ""%string ∈ room_id <$> db_rooms (store s1)) as (s1 & r1 & Hadd & Hcode & Hdel & Hin).
  { eexists _, _. split_and!; [vm_compute; reflexivity..|].
    apply (bool_decide_unpack _). by vm_compute. }
  exists s1, r1. do 3 (split; [done|]). intros hr s2 r2 Hh.
  exact (empty_room_id_stays false hr s1 s2 r2 Hh Hin).
Defined.
