(* ===== verification/Concurrent.v ===== *)
(** * Concurrent: requests in flight at the same time

    The handlers of [src/app.py] are plain functions, which the framework
    runs in worker threads: several requests can be in flight at once.  Each
    handler opens a connection of its own ([get_db], lines 29-32) on the one
    database file.  This file models a handler as the sequence of its
    database statements, in the order of the source, and the service as a
    pool of such threads whose statements interleave.

    What the model takes from SQLite and from the [sqlite3] module:
    - a [SELECT] outside a transaction reads the committed file; inside a
      transaction it reads the transaction's own view;
    - [DELETE] and [INSERT] open a transaction when none is open, and the
      first of them takes the write lock of the file, which only one
      connection holds at a time, until [commit] or until the connection is
      dropped (which rolls the transaction back);
    - a connection that waits for the lock longer than the timeout raises
      (database is locked), which the client sees as a server error.

    The loops of [generate_timetable] run while the thread holds the lock and
    touch nothing another thread can see but the process-wide generator, so
    they are one step. *)

From stdpp Require Import base tactics option list strings gmap fin_maps relations.
From S2P Require Import Prelude Database Shuffle Occupancy Allocator AllocInv AllocTrace.
From S2P Require Import Generate Crud Report Session.

#[local] Open Scope Z_scope.

Definition tid : Type := nat.

(** The answer of a handler that needs no lock: one that only reads, from
    the one [SELECT] it runs, or one whose statement is refused before it
    runs because an integer does not fit. *)
Definition unlocked (req : request) (d : db) : option response :=
  match req with
  | GetRooms => Some (RespRooms (get_rooms d))
  | GetFaculty => Some (RespFaculty (get_faculty d))
  | GetSubjects => Some (RespSubjects (get_subjects d))
  | GetBatches => Some (RespBatches (get_batches d))
  | GetTimetable batch =>
      Some (match get_timetable_batch batch d with
            | Ok g => RespTimetable g
            | Raise e => InternalServerError e
            end)
  | PostEntity r =>
      match crud_handle r d with
      | (_, Raise e) => Some (InternalServerError e)
      | (_, Ok _) => None
      end
  | PostGenerate => None
  end.

Section concurrent.
Context `{Shuffler}.

(** ** Threads *)

(** What a client gets: the handler's answer (or its exception), or the
    error of a connection that waited too long for the write lock. *)
Inductive outcome : Type :=
| Answered (resp : response)
| DatabaseLocked.

(** Where a handler is, named by the last statement it completed, with the
    local variables it has bound. *)
Inductive pc : Type :=
| Accepted
| Executed (st : status)
| Deleted
| ReadBatches (batches : list batch_row)
| ReadSubjects (batches : list batch_row) (subjects : list subject_row)
| ReadFaculties (batches : list batch_row) (subjects : list subject_row)
    (faculties : gmap string string)
| ReadRooms (batches : list batch_row) (subjects : list subject_row)
    (faculties : gmap string string) (rooms : list string)
| Looped (g0 : rng) (batches : list batch_row) (unscheduled : Z)
| Raised (g0 : rng) (e : py_error)
| Closed (o : outcome).

(** A request in flight: the request, the view of the open transaction of
    its connection ([None] when no transaction is open), and the place in the
    handler.  [Looped] and [Raised] remember the state the generator had
    before the loops. *)
Record thread : Type := Thread {
  thread_req : request;
  conn : option db;
  at_pc : pc
}.

(** ** The state the threads share *)

Record world : Type := World {
  file : db;
  generator : rng;
  lock : option tid
}.

Record system : Type := System {
  shared : world;
  pool : gmap tid thread
}.

(** The service with no request in flight. *)
Definition quiet (d : db) (g : rng) : system := System (World d g None) ∅.

(** The service after [startup] on a fresh database file. *)
Definition boot (g : rng) : system := quiet (init_db None) g.

(** What a [SELECT] on a connection sees. *)
Definition view (c : option db) (w : world) : db := default (file w) c.

(** [conn.commit()] and the drop of a connection give the lock back. *)
Definition release (t : tid) (w : world) : option tid :=
  if decide (lock w = Some t) then None else lock w.

(** ** The steps of one thread

    A step is labelled with the exchange that takes effect with it, if any:
    a read when it runs its [SELECT], a write when it commits. *)

Inductive tstep (t : tid) :
    world → thread → option (request * response) → world → thread → Prop :=
(* lines 84, 109, 133, 158, 240-262; lines 91 and 165 when a parameter
   does not fit *)
| t_unlocked w req resp :
    unlocked req (file w) = Some resp →
    tstep t w (Thread req None Accepted) (Some (req, resp))
      w (Thread req None (Closed (Answered resp)))
(* lines 91, 100, 116, 124, 140, 149, 165, 174 *)
| t_execute w r d' st :
    lock w = None → crud_handle r (file w) = (d', Ok st) →
    tstep t w (Thread (PostEntity r) None Accepted) None
      (World (file w) (generator w) (Some t))
      (Thread (PostEntity r) (Some d') (Executed st))
(* lines 93-95 and the like *)
| t_commit w r d' st :
    tstep t w (Thread (PostEntity r) (Some d') (Executed st))
      (Some (PostEntity r, RespStatus st))
      (World d' (generator w) (release t w))
      (Thread (PostEntity r) None (Closed (Answered (RespStatus st))))
(* the first statement of a handler that writes, when the lock stays taken *)
| t_locked w req t' :
    lock w = Some t' → t' ≠ t → unlocked req (file w) = None →
    tstep t w (Thread req None Accepted) None w (Thread req None (Closed DatabaseLocked))
(* line 192 *)
| t_delete w :
    lock w = None →
    tstep t w (Thread PostGenerate None Accepted) None
      (World (file w) (generator w) (Some t))
      (Thread PostGenerate
         (Some (commit (file w) (sql_delete_timetable (db_timetable (file w))))) Deleted)
(* line 194 *)
| t_batches w c :
    tstep t w (Thread PostGenerate c Deleted) None
      w (Thread PostGenerate c (ReadBatches (db_batches (view c w))))
(* line 195 *)
| t_subjects w c bs :
    tstep t w (Thread PostGenerate c (ReadBatches bs)) None
      w (Thread PostGenerate c (ReadSubjects bs (db_subjects (view c w))))
(* line 196 *)
| t_faculties w c bs ss :
    tstep t w (Thread PostGenerate c (ReadSubjects bs ss)) None
      w (Thread PostGenerate c
           (ReadFaculties bs ss (faculties_dict (db_faculties (view c w)))))
(* line 197 *)
| t_rooms w c bs ss fs :
    tstep t w (Thread PostGenerate c (ReadFaculties bs ss fs)) None
      w (Thread PostGenerate c (ReadRooms bs ss fs (room_id <$> db_rooms (view c w))))
(* lines 199-223, when no subscript raises *)
| t_loops w c bs ss fs rs st :
    allocate DAYS SLOTS_PER_DAY bs ss fs rs (db_timetable (view c w)) (generator w) = Ok st →
    tstep t w (Thread PostGenerate c (ReadRooms bs ss fs rs)) None
      (World (file w) (gen st) (lock w))
      (Thread PostGenerate (Some (commit (view c w) (cur st)))
         (Looped (generator w) bs (unscheduled st)))
(* lines 199-223, when a subscript raises: the generator has advanced *)
| t_raise w c bs ss fs rs e :
    allocate DAYS SLOTS_PER_DAY bs ss fs rs (db_timetable (view c w)) (generator w) = Raise e →
    tstep t w (Thread PostGenerate c (ReadRooms bs ss fs rs)) None
      (World (file w)
         (allocate_gen DAYS SLOTS_PER_DAY bs ss fs rs (db_timetable (view c w))
            (generator w))
         (lock w))
      (Thread PostGenerate
         (Some (commit (view c w)
                  (allocate_cur DAYS SLOTS_PER_DAY bs ss fs rs (db_timetable (view c w))
                     (generator w))))
         (Raised (generator w) e))
(* lines 225-231 *)
| t_commit_generated w d' g0 bs u :
    tstep t w (Thread PostGenerate (Some d') (Looped g0 bs u))
      (Some (PostGenerate, RespGenerated (answer bs u)))
      (World d' (generator w) (release t w))
      (Thread PostGenerate None (Closed (Answered (RespGenerated (answer bs u)))))
(* the connection of a handler that raised is dropped *)
| t_rollback w c g0 e :
    tstep t w (Thread PostGenerate c (Raised g0 e))
      (Some (PostGenerate, InternalServerError e))
      (World (file w) (generator w) (release t w))
      (Thread PostGenerate None (Closed (Answered (InternalServerError e)))).

(** ** The steps of the service *)

Inductive cstep : system → option (request * response) → system → Prop :=
| c_arrive s t req :
    pool s !! t = None →
    cstep s None (System (shared s) (<[t := Thread req None Accepted]> (pool s)))
| c_thread s t th lbl w' th' :
    pool s !! t = Some th →
    tstep t (shared s) th lbl w' th' →
    cstep s lbl (System w' (<[t := th']> (pool s))).

(** Executions, with the exchanges in the order they took effect. *)
Inductive csteps (s0 : system) : list (request * response) → system → Prop :=
| csteps_nil : csteps s0 [] s0
| csteps_snoc tr s lbl s' :
    csteps s0 tr s → cstep s lbl s' → csteps s0 (tr ++ option_list lbl) s'.

(** The steps of the threads in flight, when no further request arrives. *)
Definition drain (s s' : system) : Prop :=
  ∃ t th lbl w' th',
    pool s !! t = Some th ∧ tstep t (shared s) th lbl w' th' ∧
    s' = System w' (<[t := th']> (pool s)).

(** ** The steps as a function of a schedule *)

Inductive event : Type :=
| Arrive (t : tid) (req : request)
| Run (t : tid)
| Timeout (t : tid).

(** The step thread [t] takes when it is scheduled, if it is not blocked. *)
Definition run_thread (t : tid) (w : world) (th : thread)
  : option (option (request * response) * world * thread) :=
  match thread_req th, conn th, at_pc th with
  | req, None, Accepted =>
      match unlocked req (file w), lock w, req with
      | Some resp, _, _ =>
          Some (Some (req, resp), w, Thread req None (Closed (Answered resp)))
      | None, None, PostEntity r =>
          match crud_handle r (file w) with
          | (d', Ok st) =>
              Some (None, World (file w) (generator w) (Some t),
                    Thread (PostEntity r) (Some d') (Executed st))
          | (_, Raise _) => None
          end
      | None, None, PostGenerate =>
          Some (None, World (file w) (generator w) (Some t),
                Thread PostGenerate
                  (Some (commit (file w) (sql_delete_timetable (db_timetable (file w)))))
                  Deleted)
      | _, _, _ => None
      end
  | PostEntity r, Some d', Executed st =>
      let resp := RespStatus st in
      Some (Some (PostEntity r, resp), World d' (generator w) (release t w),
            Thread (PostEntity r) None (Closed (Answered resp)))
  | PostGenerate, c, Deleted =>
      Some (None, w, Thread PostGenerate c (ReadBatches (db_batches (view c w))))
  | PostGenerate, c, ReadBatches bs =>
      Some (None, w, Thread PostGenerate c (ReadSubjects bs (db_subjects (view c w))))
  | PostGenerate, c, ReadSubjects bs ss =>
      Some (None, w, Thread PostGenerate c
              (ReadFaculties bs ss (faculties_dict (db_faculties (view c w)))))
  | PostGenerate, c, ReadFaculties bs ss fs =>
      Some (None, w, Thread PostGenerate c
              (ReadRooms bs ss fs (room_id <$> db_rooms (view c w))))
  | PostGenerate, c, ReadRooms bs ss fs rs =>
      match allocate DAYS SLOTS_PER_DAY bs ss fs rs (db_timetable (view c w))
              (generator w) with
      | Ok st =>
          Some (None, World (file w) (gen st) (lock w),
                Thread PostGenerate (Some (commit (view c w) (cur st)))
                  (Looped (generator w) bs (unscheduled st)))
      | Raise e =>
          Some (None,
                World (file w)
                  (allocate_gen DAYS SLOTS_PER_DAY bs ss fs rs (db_timetable (view c w))
                     (generator w))
                  (lock w),
                Thread PostGenerate
                  (Some (commit (view c w)
                           (allocate_cur DAYS SLOTS_PER_DAY bs ss fs rs
                              (db_timetable (view c w)) (generator w))))
                  (Raised (generator w) e))
      end
  | PostGenerate, Some d', Looped g0 bs u =>
      let resp := RespGenerated (answer bs u) in
      Some (Some (PostGenerate, resp), World d' (generator w) (release t w),
            Thread PostGenerate None (Closed (Answered resp)))
  | PostGenerate, c, Raised g0 e =>
      let resp := InternalServerError e in
      Some (Some (PostGenerate, resp), World (file w) (generator w) (release t w),
            Thread PostGenerate None (Closed (Answered resp)))
  | _, _, _ => None
  end.

(** The wait of thread [t] for the lock ends with the error. *)
Definition timeout_thread (t : tid) (w : world) (th : thread) : option thread :=
  match conn th, at_pc th, unlocked (thread_req th) (file w), lock w with
  | None, Accepted, None, Some t' =>
      if decide (t' = t) then None else Some (Thread (thread_req th) None (Closed DatabaseLocked))
  | _, _, _, _ => None
  end.

Definition fire (ev : event) (s : system)
  : option (option (request * response) * system) :=
  match ev with
  | Arrive t req =>
      match pool s !! t with
      | None => Some (None, System (shared s) (<[t := Thread req None Accepted]> (pool s)))
      | Some _ => None
      end
  | Run t =>
      th ← pool s !! t;
      '(lbl, w', th') ← run_thread t (shared s) th;
      Some (lbl, System w' (<[t := th']> (pool s)))
  | Timeout t =>
      th ← pool s !! t;
      th' ← timeout_thread t (shared s) th;
      Some (None, System (shared s) (<[t := th']> (pool s)))
  end.

(** A schedule, from the first event on; [None] when an event is not
    enabled. *)
Fixpoint schedule (evs : list event) (s : system)
  : option (list (request * response) * system) :=
  match evs with
  | [] => Some ([], s)
  | ev :: evs' =>
      '(lbl, s1) ← fire ev s;
      '(tr, s2) ← schedule evs' s1;
      Some (option_list lbl ++ tr, s2)
  end.

(** ** The function takes steps of the relation *)

Lemma run_thread_tstep t w th lbl w' th' :
  run_thread t w th = Some (lbl, w', th') → tstep t w th lbl w' th'.
Proof.
  destruct th as [req c p], w as [d g l]. unfold run_thread, unlocked. simpl.
  destruct req as [r| | | | | |], c as [d0|], p; simpl; try done;
    repeat match goal with
    | |- context [allocate ?a ?b ?c ?d ?e ?f ?g ?h] =>
        destruct (allocate a b c d e f g h) eqn:?
    | |- context [crud_handle ?r ?d] => destruct (crud_handle r d) as [? [?|?]] eqn:?
    | |- context [match l with _ => _ end] => destruct l
    end; intros; simplify_eq; try done;
    first [by constructor
          |by apply (t_raise t (World _ _ _))
          |apply t_unlocked; simpl;
           match goal with Heq : crud_handle _ _ = _ |- _ => by rewrite Heq end].
Qed.

Lemma timeout_thread_tstep t w th th' :
  timeout_thread t w th = Some th' → tstep t w th None w th'.
Proof.
  destruct th as [req c p]. unfold timeout_thread. simpl.
  destruct c, p; try done. destruct (unlocked req (file w)) eqn:Hread; [done|].
  destruct (lock w) as [t'|] eqn:Hlock; [|done]. case_decide; [done|].
  intros [= <-]. by eapply t_locked.
Qed.

Lemma fire_cstep ev s lbl s' : fire ev s = Some (lbl, s') → cstep s lbl s'.
Proof.
  destruct ev as [t req|t|t]; simpl.
  - destruct (pool s !! t) eqn:Hfree; [done|]. intros [= <- <-]. by constructor.
  - destruct (pool s !! t) as [th|] eqn:Hth; [simpl|done].
    destruct (run_thread t (shared s) th) as [[[lbl' w'] th']|] eqn:Hrun; [simpl|done].
    intros [= <- <-]. eauto using c_thread, run_thread_tstep.
  - destruct (pool s !! t) as [th|] eqn:Hth; [simpl|done].
    destruct (timeout_thread t (shared s) th) as [th'|] eqn:Hto; [simpl|done].
    intros [= <- <-]. destruct s as [w p]. eauto using c_thread, timeout_thread_tstep.
Qed.

Lemma csteps_app s0 tr1 s1 tr2 s2 :
  csteps s0 tr1 s1 → csteps s1 tr2 s2 → csteps s0 (tr1 ++ tr2) s2.
Proof.
  intros H1. induction 1 as [|tr s lbl s' _ IH Hstep].
  - by rewrite app_nil_r.
  - rewrite app_assoc. by econstructor.
Qed.

Lemma cstep_csteps s lbl s' : cstep s lbl s' → csteps s (option_list lbl) s'.
Proof. intros Hstep. apply (csteps_snoc s [] s lbl s'); [constructor|done]. Qed.

(** A schedule that runs gives an execution. *)
Lemma schedule_csteps evs s tr s' : schedule evs s = Some (tr, s') → csteps s tr s'.
Proof.
  revert s tr. induction evs as [|ev evs IH]; intros s tr; simpl.
  - intros [= <- <-]. constructor.
  - destruct (fire ev s) as [[lbl s1]|] eqn:Hfire; [simpl|done].
    destruct (schedule evs s1) as [[tr2 s2]|] eqn:Hrest; [simpl|done].
    intros [= <- <-]. eapply csteps_app; [|by apply IH].
    apply cstep_csteps. by eapply fire_cstep.
Qed.

(** A step of a thread is a step of [drain]. *)
Lemma drain_cstep s s' : drain s s' → ∃ lbl, cstep s lbl s'.
Proof. intros (t & th & lbl & w' & th' & ? & ? & ->). eauto using c_thread. Qed.

(** A thread is closed with an answer by the step that carries the exchange
    as its label. *)
Lemma tstep_closed t w th lbl w' th' resp :
  tstep t w th lbl w' th' → at_pc th' = Closed (Answered resp) →
  lbl = Some (thread_req th', resp).
Proof. destruct 1; simpl; intros [= <-] || done; done. Qed.

(** Every answer a client gets for its request is an exchange of the
    execution: the request took effect, with that answer, at one point of
    the order in which the requests took effect. *)
Theorem answers_in_order d g tr s t th resp :
  csteps (quiet d g) tr s →
  pool s !! t = Some th → at_pc th = Closed (Answered resp) →
  (thread_req th, resp) ∈ tr.
Proof.
  intros Hsteps. revert t th resp.
  induction Hsteps as [|tr s lbl s' _ IH Hstep]; intros t0 th0 resp; [done|].
  rewrite elem_of_app.
  destruct Hstep as [s t req Hfree|s t th lbl w' th' Hth Hstep]; simpl;
    intros [[-> <-]|[Hne Hth0]]%lookup_insert_Some Hpc; try done; eauto.
  right. rewrite (tstep_closed _ _ _ _ _ _ _ Hstep Hpc). apply list_elem_of_here.
Qed.

End concurrent.

(** ** A schedule of three requests

    A run of [generate_timetable] on the database of the examples, a reader
    of the timetable of batch B1 and a second run arrive together.  The
    second run finds the lock taken and gives up; the reader runs between the
    statements of the first run. *)
Definition demo_schedule : list event :=
  [Arrive 0 PostGenerate; Arrive 1 (GetTimetable "B1"); Arrive 2 PostGenerate;
   Run 0; Run 0; Timeout 2; Run 0; Run 0; Run 0; Run 0; Run 1; Run 0]%nat.

(** The first of them up to its last [SELECT]. *)
Definition demo_reads : list event :=
  [Arrive 0 PostGenerate; Arrive 1 (GetTimetable "B1");
   Run 0; Run 0; Run 0; Run 0; Run 0]%nat.

(** The pool with no request in flight on the database that the requests of
    [demo_setup] leave. *)
Definition demo_quiet : system (H := fisher_yates) :=
  quiet (store demo_service) demo_tape.

Lemma demo_schedule_runs : ∃ tr s, schedule demo_schedule demo_quiet = Some (tr, s).
Proof. eexists _, _. vm_compute. reflexivity. Defined.

Lemma answers_in_order_witness :
  ∃ tr s th resp,
    csteps demo_quiet tr s ∧ pool s !! 1%nat = Some th ∧
    at_pc th = Closed (Answered resp) ∧ (thread_req th, resp) ∈ tr.
Proof.
  assert (∃ tr s th resp, schedule demo_schedule demo_quiet = Some (tr, s) ∧
            pool s !! 1%nat = Some th ∧ at_pc th = Closed (Answered resp))
    as (tr & s & th & resp & Hrun%schedule_csteps & Hth & Hpc)
    by (eexists _, _, _, _; split_and!; vm_compute; reflexivity).
  exists tr, s, th, resp. split_and!; [done..|].
  exact (answers_in_order _ _ _ _ _ _ _ Hrun Hth Hpc).
Defined.
