(* ===== verification/ConcurrentInv.v ===== *)
(** * ConcurrentInv: concurrent requests take effect one at a time

    The invariant of the pool of [Concurrent]: the thread that holds the
    write lock is the only one with an open transaction, and what it has read
    is what the file holds.  With it every step of the pool is either
    invisible or one step of the sequential service of [Session]: an
    execution of concurrent requests answers as the sequential service does
    on the requests in the order of their reads and commits. *)

From stdpp Require Import base tactics option list strings gmap fin_maps relations.
From S2P Require Import Prelude Database Shuffle Occupancy Allocator AllocInv AllocTrace.
From S2P Require Import Generate Crud Report Session Concurrent.

#[local] Open Scope Z_scope.

Section invariant.
Context `{Shuffler}.

(** ** The invariant *)

(** The places at which a thread is inside a transaction. *)
Definition holds (p : pc) : bool :=
  match p with
  | Accepted | Closed _ => false
  | _ => true
  end.

(** The view of a [generate_timetable] thread after line 192. *)
Definition deleted (d : db) : db := commit d (sql_delete_timetable (db_timetable d)).

(** What a thread has bound is what the file holds. *)
Definition local_inv (w : world) (th : thread) : Prop :=
  match at_pc th with
  | Accepted | Closed _ => conn th = None
  | Executed st =>
      ∃ r d', thread_req th = PostEntity r ∧ conn th = Some d' ∧
        crud_handle r (file w) = (d', Ok st)
  | Deleted => thread_req th = PostGenerate ∧ conn th = Some (deleted (file w))
  | ReadBatches bs =>
      thread_req th = PostGenerate ∧ conn th = Some (deleted (file w)) ∧
      bs = db_batches (file w)
  | ReadSubjects bs ss =>
      thread_req th = PostGenerate ∧ conn th = Some (deleted (file w)) ∧
      bs = db_batches (file w) ∧ ss = db_subjects (file w)
  | ReadFaculties bs ss fs =>
      thread_req th = PostGenerate ∧ conn th = Some (deleted (file w)) ∧
      bs = db_batches (file w) ∧ ss = db_subjects (file w) ∧
      fs = faculties_dict (db_faculties (file w))
  | ReadRooms bs ss fs rs =>
      thread_req th = PostGenerate ∧ conn th = Some (deleted (file w)) ∧
      bs = db_batches (file w) ∧ ss = db_subjects (file w) ∧
      fs = faculties_dict (db_faculties (file w)) ∧ rs = room_id <$> db_rooms (file w)
  | Looped g0 bs u =>
      thread_req th = PostGenerate ∧
      ∃ d', conn th = Some d' ∧
        generate_timetable (file w) g0 = (d', Ok (generator w, answer bs u))
  | Raised g0 e =>
      thread_req th = PostGenerate ∧
      generate_timetable (file w) g0 = (file w, Raise e) ∧
      generator w = generate_gen (file w) g0
  end.

Record sys_inv (s : system) : Prop := SysInv {
  inv_holder : ∀ t th, pool s !! t = Some th →
    holds (at_pc th) = true ↔ lock (shared s) = Some t;
  inv_lock : ∀ t, lock (shared s) = Some t → is_Some (pool s !! t);
  inv_local : ∀ t th, pool s !! t = Some th → local_inv (shared s) th
}.

(** ** The sequential state a pool stands for

    The file, and the generator as it was before the loops of the run whose
    commit is pending, if there is one. *)

Definition pending (p : pc) : option rng :=
  match p with
  | Looped g0 _ _ | Raised g0 _ => Some g0
  | _ => None
  end.

Definition holder (s : system) : option thread := t ← lock (shared s); pool s !! t.

Definition abs (s : system) : service :=
  Service (file (shared s))
    (default (generator (shared s)) (th ← holder s; pending (at_pc th))).

(** A label is a step of the sequential service, no label is no step. *)
Definition sim_label (lbl : option (request * response)) (a a' : service) : Prop :=
  match lbl with
  | None => a' = a
  | Some (req, resp) => step a req resp a'
  end.

(** ** Lemmas on one thread *)

Lemma unlocked_step req d g resp :
  unlocked req d = Some resp → step (Service d g) req resp (Service d g).
Proof.
  destruct req as [r| | | | | |batch]; simpl; try (intros [= <-]; by constructor).
  - destruct (crud_handle r d) as [d' [st|e]] eqn:Hh; intros [= <-].
    pose proof Hh as (-> & _)%crud_handle_Raise. by constructor.
  - intros [= <-]. destruct (get_timetable_batch batch d) eqn:Hget; by constructor.
Qed.

(** The handler is the loops between the statements of the thread. *)
Lemma generate_timetable_loops d g :
  generate_timetable d g
  = match allocate DAYS SLOTS_PER_DAY (db_batches d) (db_subjects d)
            (faculties_dict (db_faculties d)) (room_id <$> db_rooms d)
            (sql_delete_timetable (db_timetable d)) g with
    | Ok st => (commit d (cur st), Ok (gen st, answer (db_batches d) (unscheduled st)))
    | Raise e => (d, Raise e)
    end.
Proof. done. Qed.

Lemma release_mine t w : lock w = Some t → release t w = None.
Proof. intros Hl. unfold release. by rewrite decide_True. Qed.

(** A step keeps the invariant of the thread that takes it. *)
Lemma tstep_self t w th lbl w' th' :
  tstep t w th lbl w' th' →
  (holds (at_pc th) = true ↔ lock w = Some t) → local_inv w th →
  (holds (at_pc th') = true ↔ lock w' = Some t) ∧ local_inv w' th'.
Proof.
  intros Hstep Hhold Hloc.
  destruct Hstep as [| | | | | | | | |w c bs ss fs rs st Hrun|w c bs ss fs rs e Hrun| |];
    unfold local_inv, view in *; simpl in *;
    try (rewrite release_mine by (by apply Hhold)); destruct_and?; simplify_eq;
    simpl in *; (split; [naive_solver|]); try done; eauto.
  - split; [done|]. eexists. split; [done|]. by rewrite generate_timetable_loops, Hrun.
  - split; [done|]. by rewrite generate_timetable_loops, Hrun.
Qed.

(** A step of a thread leaves the lock of another thread, and what that
    thread relies on, as they are. *)
Lemma tstep_others t w th lbl w' th' t2 :
  tstep t w th lbl w' th' →
  (holds (at_pc th) = true ↔ lock w = Some t) → t2 ≠ t →
  (lock w' = Some t2 ↔ lock w = Some t2) ∧ (lock w = Some t2 → w' = w).
Proof.
  intros Hstep Hhold Hne.
  destruct Hstep; simpl in *; try (by split);
    (assert (lock w = None ∨ lock w = Some t) as [Hl|Hl]
       by (first [by left|right; by apply Hhold]));
    unfold release; rewrite Hl; simpl; rewrite ?decide_True by done;
    (split; [split; congruence|congruence]).
Qed.

(** What a step of the lock holder, or of a thread when the lock is free,
    means for the sequential service. *)
Lemma tstep_label t w th lbl w' th' :
  tstep t w th lbl w' th' →
  (holds (at_pc th) = true ↔ lock w = Some t) → local_inv w th →
  sim_label lbl
    (Service (file w) (default (generator w) (pending (at_pc th))))
    (Service (file w') (default (generator w') (pending (at_pc th')))).
Proof.
  intros Hstep Hhold Hloc.
  destruct Hstep; unfold local_inv, sim_label, view in *; simpl in *; try done.
  - by apply unlocked_step.
  - destruct Hloc as (r' & d'' & [= <-] & [= <-] & Hh). by constructor.
  - destruct Hloc as (_ & d'' & [= <-] & Hgen). by constructor.
  - destruct Hloc as (_ & Hgen & ->). by constructor.
Qed.

(** What a step of a thread outside a transaction means while another
    thread holds the lock. *)
Lemma tstep_idle t w th lbl w' th' g :
  tstep t w th lbl w' th' → holds (at_pc th) = false → lock w ≠ None →
  sim_label lbl (Service (file w) g) (Service (file w) g).
Proof.
  intros Hstep Hidle Hl. destruct Hstep; simpl in *; try done. by apply unlocked_step.
Qed.

Lemma pending_idle p : holds p = false → pending p = None.
Proof. by destruct p. Qed.

Lemma local_inv_idle w w' th : holds (at_pc th) = false → local_inv w th → local_inv w' th.
Proof. unfold local_inv. by destruct (at_pc th). Qed.

(** ** Lemmas on the pool *)

Lemma holds_false_iff (p : pc) (l : option tid) t :
  (holds p = true ↔ l = Some t) → l ≠ Some t → holds p = false.
Proof. intros Hh Hl. destruct (holds p); [|done]. destruct Hl. by apply Hh. Qed.

Lemma abs_self s t th :
  pool s !! t = Some th →
  (holds (at_pc th) = true ↔ lock (shared s) = Some t) →
  lock (shared s) = None ∨ lock (shared s) = Some t →
  abs s = Service (file (shared s)) (default (generator (shared s)) (pending (at_pc th))).
Proof.
  intros Hth Hh [Hl|Hl]; unfold abs, holder; rewrite Hl; simpl.
  - rewrite pending_idle; [done|]. eapply holds_false_iff; [done|]. by rewrite Hl.
  - by rewrite Hth.
Qed.

Lemma abs_insert_other s t th' t2 :
  lock (shared s) = Some t2 → t2 ≠ t →
  abs (System (shared s) (<[t := th']> (pool s))) = abs s.
Proof. intros Hl Hne. unfold abs, holder. simpl. by rewrite Hl; simpl; rewrite lookup_insert_ne. Qed.

Lemma quiet_inv d g : sys_inv (quiet d g).
Proof. split; simpl; [intros t th|intros t|intros t th]; by rewrite ?lookup_empty. Qed.

(** An arrival keeps the invariant and is no step of the sequential
    service. *)
Lemma arrive_sim s t req :
  sys_inv s → pool s !! t = None →
  sys_inv (System (shared s) (<[t := Thread req None Accepted]> (pool s))) ∧
  abs (System (shared s) (<[t := Thread req None Accepted]> (pool s))) = abs s.
Proof.
  intros [Hh Hl Hloc] Hfree.
  assert (lock (shared s) ≠ Some t) as Hne.
  { intros [th Hth]%Hl. by rewrite Hfree in Hth. }
  split; [split; simpl|].
  - intros t0 th0 [[-> <-]|[? Hth0]]%lookup_insert_Some; [by split|by apply Hh].
  - intros t0 Hl0. apply lookup_insert_is_Some'. right. by apply Hl.
  - intros t0 th0 [[-> <-]|[? Hth0]]%lookup_insert_Some; [done|by eapply Hloc].
  - unfold abs, holder. simpl. destruct (lock (shared s)) as [t0|] eqn:Hl0; [simpl|done].
    rewrite lookup_insert_ne; [done|congruence].
Qed.

(** A step of a thread keeps the invariant. *)
Lemma thread_inv_step s t th lbl w' th' :
  sys_inv s → pool s !! t = Some th → tstep t (shared s) th lbl w' th' →
  sys_inv (System w' (<[t := th']> (pool s))).
Proof.
  intros [Hh Hl Hloc] Hth Hstep.
  destruct (tstep_self _ _ _ _ _ _ Hstep (Hh _ _ Hth) (Hloc _ _ Hth)) as [Hh' Hloc'].
  pose proof (λ t2, tstep_others _ _ _ _ _ _ t2 Hstep (Hh _ _ Hth)) as Hothers.
  split; simpl.
  - intros t0 th0 [[-> <-]|[Hne Hth0]]%lookup_insert_Some; [done|].
    destruct (Hothers t0) as [-> _]; [done|]. by apply Hh.
  - intros t0 Hl0. apply lookup_insert_is_Some'. destruct (decide (t = t0)); [by left|right].
    apply Hl. by apply Hothers.
  - intros t0 th0 [[-> <-]|[Hne Hth0]]%lookup_insert_Some; [done|].
    destruct (Hothers t0) as [_ Hsame]; [done|].
    destruct (decide (lock (shared s) = Some t0)) as [Hl0|Hl0].
    + rewrite Hsame by done. by eapply Hloc.
    + eapply local_inv_idle; [|by eapply Hloc]. eapply holds_false_iff; [by apply Hh|done].
Qed.

(** A step of a thread is invisible or one step of the sequential service. *)
Lemma thread_sim_step s t th lbl w' th' :
  sys_inv s → pool s !! t = Some th → tstep t (shared s) th lbl w' th' →
  sim_label lbl (abs s) (abs (System w' (<[t := th']> (pool s)))).
Proof.
  intros Hinv Hth Hstep. pose proof (thread_inv_step _ _ _ _ _ _ Hinv Hth Hstep) as Hinv'.
  pose proof (inv_holder _ Hinv _ _ Hth) as Hh.
  destruct (decide (lock (shared s) = None ∨ lock (shared s) = Some t)) as [Hl|Hl].
  - rewrite (abs_self s t th) by done.
    rewrite (abs_self (System w' (<[t := th']> (pool s))) t th'); simpl.
    + by eapply tstep_label, inv_local.
    + apply lookup_insert_eq.
    + apply (inv_holder _ Hinv' t th'). apply lookup_insert_eq.
    + destruct (lock w') as [t2|] eqn:Hl'; [|by left]. right. f_equal.
      destruct (decide (t2 = t)) as [|Hne]; [done|].
      destruct (tstep_others _ _ _ _ _ _ t2 Hstep Hh Hne) as [Ht2 _].
      rewrite Hl' in Ht2. destruct Hl as [Hl|Hl]; rewrite Hl in Ht2; naive_solver.
  - assert (∃ t2, lock (shared s) = Some t2 ∧ t2 ≠ t) as (t2 & Hl2 & Hne).
    { destruct (lock (shared s)) as [t2|]; [|naive_solver]. exists t2. naive_solver. }
    destruct (tstep_others _ _ _ _ _ _ t2 Hstep Hh Hne) as [_ Hsame].
    rewrite Hsame in * by done. rewrite (abs_insert_other s t th' t2) by done.
    eapply (tstep_idle _ _ _ _ _ _ (random (abs s))); [done| |by rewrite Hl2].
    eapply holds_false_iff; [done|]. rewrite Hl2. congruence.
Qed.

(** ** Every step is invisible or a step of the sequential service *)

Lemma cstep_sim s lbl s' :
  sys_inv s → cstep s lbl s' → sys_inv s' ∧ sim_label lbl (abs s) (abs s').
Proof.
  intros Hinv Hstep. destruct Hstep as [s t req Hfree|s t th lbl w' th' Hth Hstep].
  - by apply arrive_sim.
  - eauto using thread_inv_step, thread_sim_step.
Qed.

Lemma csteps_inv s0 tr s : sys_inv s0 → csteps s0 tr s → sys_inv s.
Proof. intros Hinv. induction 1; [done|]. by eapply cstep_sim. Qed.

(** An execution of the pool is an execution of the sequential service on
    the exchanges in the order they took effect. *)
Lemma csteps_sim s0 tr s : sys_inv s0 → csteps s0 tr s → steps (abs s0) tr (abs s).
Proof.
  intros Hinv. induction 1 as [|tr s lbl s' Hsteps IH Hstep]; [constructor|].
  destruct (cstep_sim s lbl s') as [_ Hsim]; [by eapply csteps_inv|done|].
  destruct lbl as [[req resp]|]; simpl in *.
  - by econstructor.
  - by rewrite app_nil_r, Hsim.
Qed.

(** C16: concurrent requests are serialised.  Whatever the interleaving of
    the statements of the requests in flight, the exchanges of an execution,
    in the order of the reads and of the commits, are an execution of the
    sequential service from the same database and generator, and it ends in
    the state the pool stands for: the answers are those of the handlers run
    one after the other on the requests in that order. *)
Theorem concurrent_serialisable d g tr s :
  csteps (quiet d g) tr s →
  steps (Service d g) tr (abs s) ∧ run tr.*1 (Service d g) = (abs s, tr.*2).
Proof.
  intros Hsteps.
  assert (steps (Service d g) tr (abs s)) as Hseq
    by (by apply (csteps_sim (quiet d g)); [apply quiet_inv|]).
  split; [done|]. by apply steps_run.
Qed.



(** A run works on a snapshot.  When a run of [generate_timetable] has
    read the four tables, what it has bound is what the file holds, and stays
    so until it commits: no other request changes the file in between. *)
Theorem generate_reads_snapshot d g tr s t th bs ss fs rs :
  csteps (quiet d g) tr s →
  pool s !! t = Some th → at_pc th = ReadRooms bs ss fs rs →
  conn th = Some (deleted (file (shared s))) ∧
  bs = db_batches (file (shared s)) ∧ ss = db_subjects (file (shared s)) ∧
  fs = faculties_dict (db_faculties (file (shared s))) ∧
  rs = room_id <$> db_rooms (file (shared s)).
Proof.
  intros Hsteps Hth Hpc.
  pose proof (csteps_inv _ _ _ (quiet_inv d g) Hsteps) as [_ _ Hloc].
  specialize (Hloc _ _ Hth). unfold local_inv in Hloc. rewrite Hpc in Hloc. tauto.
Qed.

End invariant.

(** ** The schedules of [Concurrent] *)

Lemma service_inv_store `{Shuffler} s g : service_inv s → service_inv (Service (store s) g).
Proof. by intros []. Qed.

Lemma concurrent_serialisable_witness :
  ∃ tr s,
    csteps demo_quiet tr s ∧
    steps (Service (store demo_service) demo_tape) tr (abs s) ∧
    run tr.*1 (Service (store demo_service) demo_tape) = (abs s, tr.*2).
Proof.
  destruct demo_schedule_runs as (tr & s & Hrun%schedule_csteps).
  exists tr, s. split; [exact Hrun|]. exact (concurrent_serialisable _ _ _ _ Hrun).
Defined.


Lemma demo_reads_runs :
  ∃ tr s th bs ss fs rs,
    schedule demo_reads demo_quiet = Some (tr, s) ∧
    pool s !! 0%nat = Some th ∧ at_pc th = ReadRooms bs ss fs rs.
Proof. eexists _, _, _, _, _, _, _. split_and!; vm_compute; reflexivity. Defined.


Lemma generate_reads_snapshot_witness :
  ∃ tr s th bs ss fs rs,
    csteps demo_quiet tr s ∧ pool s !! 0%nat = Some th ∧
    at_pc th = ReadRooms bs ss fs rs ∧
    conn th = Some (deleted (file (shared s))) ∧
    bs = db_batches (file (shared s)) ∧ ss = db_subjects (file (shared s)) ∧
    fs = faculties_dict (db_faculties (file (shared s))) ∧
    rs = room_id <$> db_rooms (file (shared s)).
Proof.
  destruct demo_reads_runs
    as (tr & s & th & bs & ss & fs & rs & Hrun%schedule_csteps & Hth & Hpc).
  exists tr, s, th, bs, ss, fs, rs. do 3 (split; [done|]).
  exact (generate_reads_snapshot _ _ _ _ _ _ _ _ _ _ Hrun Hth Hpc).
Defined.
