(* ===== verification/ConcurrentLive.v ===== *)
(** * ConcurrentLive: every request in flight is answered

    The threads of [Concurrent] when no further request arrives: every step
    brings a thread closer to its answer, so every execution ends, and it can
    only end when every thread is closed.  No request waits for ever: the
    thread that holds the write lock can always take its next step, and a
    thread that finds the lock taken is answered with the error of the
    timeout at the latest. *)

From stdpp Require Import base tactics option list strings gmap fin_maps relations.
From S2P Require Import Prelude Database Shuffle Occupancy Allocator AllocInv AllocTrace.
From S2P Require Import Generate Crud Report Session Concurrent ConcurrentInv.

Section live.
Context `{Shuffler}.

(** The statements a thread has left at most, its [return] included. *)
Definition remaining (p : pc) : nat :=
  match p with
  | Accepted => 7
  | Deleted => 6
  | ReadBatches _ => 5
  | ReadSubjects _ _ => 4
  | ReadFaculties _ _ _ => 3
  | ReadRooms _ _ _ _ => 2
  | Executed _ | Looped _ _ _ | Raised _ _ => 1
  | Closed _ => 0
  end.

(** The statements the pool has left at most. *)
Definition work (s : system) : nat := map_sum (λ th, remaining (at_pc th)) (pool s).

Definition is_closed (p : pc) : bool :=
  match p with
  | Closed _ => true
  | _ => false
  end.

(** Every thread has its answer. *)
Definition finished (s : system) : Prop :=
  map_Forall (λ _ th, is_closed (at_pc th) = true) (pool s).

#[export] Instance finished_dec s : Decision (finished s).
Proof. unfold finished. apply _. Defined.

(** ** Every step is a step towards the answer *)

Lemma tstep_remaining t w th lbl w' th' :
  tstep t w th lbl w' th' → remaining (at_pc th') < remaining (at_pc th).
Proof. destruct 1; simpl; lia. Qed.

Lemma drain_work s s' : drain s s' → work s' < work s.
Proof.
  intros (t & th & lbl & w' & th' & Hth & Hstep%tstep_remaining & ->).
  unfold work. simpl.
  pose proof (map_sum_update (λ th, remaining (at_pc th)) (pool s) t th th' Hth). lia.
Qed.

Lemma work_le s : work s ≤ 7 * size (pool s).
Proof. apply map_sum_le. intros th. destruct (at_pc th); simpl; lia. Qed.

(** ** Some thread can always step *)

(** The thread inside a transaction has a next step. *)
Lemma holder_can_step t w th :
  holds (at_pc th) = true → local_inv w th → ∃ lbl w' th', tstep t w th lbl w' th'.
Proof.
  destruct th as [req c p]. unfold local_inv. simpl.
  destruct p as [|st| |bs|bs ss|bs ss fs|bs ss fs rs|g0 bs u|g0 e|o]; try done;
    intros _ Hloc.
  - destruct Hloc as (r & d' & -> & -> & _). eexists _, _, _. constructor.
  - destruct Hloc as [-> _]. eexists _, _, _. constructor.
  - destruct Hloc as [-> _]. eexists _, _, _. constructor.
  - destruct Hloc as [-> _]. eexists _, _, _. constructor.
  - destruct Hloc as [-> _]. eexists _, _, _. constructor.
  - destruct Hloc as [-> _].
    destruct (allocate DAYS SLOTS_PER_DAY bs ss fs rs
                (db_timetable (view c w)) (generator w)) as [st|e] eqn:Hrun.
    + eexists _, _, _. by apply t_loops.
    + eexists _, _, _. by apply (t_raise t w c bs ss fs rs e).
  - destruct Hloc as (-> & d' & -> & _). eexists _, _, _. constructor.
  - destruct Hloc as [-> _]. eexists _, _, _. constructor.
Qed.

(** A thread that has not started has a first step when the lock is free. *)
Lemma idle_can_step t w req :
  lock w = None → ∃ lbl w' th', tstep t w (Thread req None Accepted) lbl w' th'.
Proof.
  intros Hl. destruct (unlocked req (file w)) as [resp|] eqn:Hread.
  - eexists _, _, _. by apply t_unlocked.
  - destruct req as [r| | | | | |]; try done; [|eexists _, _, _; by constructor].
    simpl in Hread. destruct (crud_handle r (file w)) as [d' [st|e]] eqn:Hh; [|done].
    eexists _, _, _. by eapply t_execute.
Qed.

Lemma is_closed_false p :
  is_closed p ≠ true → holds p = true ∨ p = Accepted.
Proof. destruct p; naive_solver. Qed.

(** A closed thread takes no step. *)
Lemma finished_nf s : finished s → nf drain s.
Proof.
  intros Hfin (s' & t & th & lbl & w' & th' & Hth & Hstep & _).
  specialize (Hfin t th Hth). simpl in Hfin. by destruct Hstep.
Qed.

(** No deadlock: while a thread has no answer, some thread can step. *)
Lemma drain_progress s : sys_inv s → ¬ finished s → red drain s.
Proof.
  intros [Hh Hl Hloc] (t & th & Hth & Hopen)%map_not_Forall; [|apply _].
  destruct (lock (shared s)) as [t0|] eqn:Hlock.
  - destruct (Hl t0) as [th0 Hth0]; [done|].
    destruct (holder_can_step t0 (shared s) th0) as (lbl & w' & th' & Hstep);
      [apply (Hh _ _ Hth0); congruence|by eapply Hloc|].
    eexists. by exists t0, th0, lbl, w', th'.
  - assert (at_pc th = Accepted) as Hpc.
    { destruct (is_closed_false _ Hopen) as [Hhold%(Hh _ _ Hth)|]; [congruence|done]. }
    pose proof (Hloc _ _ Hth) as Hc. unfold local_inv in Hc. rewrite Hpc in Hc.
    destruct (idle_can_step t (shared s) (thread_req th)) as (lbl & w' & th' & Hstep);
      [by rewrite Hlock|].
    eexists. exists t, th, lbl, w', th'. destruct th; simpl in *; by subst.
Qed.

(** The steps of the threads keep the invariant. *)
Lemma drain_inv s s' : sys_inv s → rtc drain s s' → sys_inv s'.
Proof.
  intros Hinv. induction 1 as [|s1 s2 s3 (lbl & Hstep)%drain_cstep _ IH]; [done|].
  apply IH. by eapply cstep_sim.
Qed.



(** Such an end is reached, whatever the pool. *)
Lemma drain_reaches_end s : sys_inv s → ∃ s', rtc drain s s' ∧ finished s'.
Proof.
  intros Hinv. remember (work s) as n eqn:Hn. revert s Hinv Hn.
  induction n as [n IH] using lt_wf_ind. intros s Hinv ->.
  destruct (decide (finished s)) as [|Hopen]; [by exists s|].
  destruct (drain_progress s Hinv Hopen) as [s1 Hstep].
  destruct (IH (work s1) (drain_work _ _ Hstep) s1) as (s' & Hrest & Hfin); [|done|].
  - eapply drain_inv; [done|]. by apply rtc_once.
  - exists s'. split; [by eapply rtc_l|done].
Qed.

End live.

(** The schedule of [Concurrent] ends with every thread closed. *)
Lemma demo_schedule_end :
  ∃ tr s, schedule demo_schedule demo_quiet = Some (tr, s) ∧ nf drain s.
Proof.
  eexists _, _. split; [vm_compute; reflexivity|].
  apply finished_nf, (bool_decide_unpack _). by vm_compute.
Defined.


