(* ===== verification/Service.v ===== *)
(** * Service: the whole program

    The layers of [src/app.py] together: requests arrive over HTTP
    ([Http]), the framework routes each to its handler and runs the handler
    in a thread of its pool ([Concurrent]), the handler executes its
    statements on a connection of its own ([Connection]), and the answers
    go back as JSON.  Whatever the interleaving of the threads, the clients
    are answered as if the requests had been handled one after the other,
    each by the statements of its handler run to their end. *)

From stdpp Require Import base tactics option list strings gmap fin_maps relations.
From S2P Require Import Prelude Database Shuffle Occupancy Allocator AllocInv AllocTrace.
From S2P Require Import Generate Crud Report Json Session Connection Http.
From S2P Require Import Concurrent ConcurrentInv ConcurrentLive.

#[local] Arguments allocate : simpl never.
#[local] Arguments allocate_gen : simpl never.
#[local] Arguments allocate_cur : simpl never.
#[local] Arguments get_timetable_batch : simpl never.
#[local] Arguments crud_handle : simpl never.

Section service.
Context `{Shuffler} `{Validator}.

(** The HTTP request [hr] is routed to the handler of [req]: its path is
    the path of a decorator with the method of [hr], and the model of the
    handler accepts its body. *)
Definition routes (hr : http_request) (req : request) : Prop :=
  ∃ e, locate (path hr) = Endpoint e ∧ meth hr ∈ methods e ∧
    arguments e (meth hr) (body hr) = Valid (Api req).

(** The service answering HTTP requests one after the other. *)
Fixpoint http_run (index_exists : bool) (hrs : list http_request) (s : service)
  : option (service * list http_response) :=
  match hrs with
  | [] => Some (s, [])
  | hr :: hrs' =>
      '(s1, r) ← http_handle index_exists hr s;
      '(s2, rs) ← http_run index_exists hrs' s1;
      Some (s2, r :: rs)
  end.

(** What a client receives for its request: the encoded answer of the
    handler, or the error page when the thread gave up on the lock. *)
Definition http_outcome (o : outcome) : http_response :=
  match o with
  | Answered resp => encode resp
  | DatabaseLocked => HttpResponse 500 (Text "Internal Server Error")
  end.

(** The requests one after the other, each by the statements of its
    handler on a connection of its own. *)
Fixpoint serve_all (reqs : list request) (s : service) : service * list response :=
  match reqs with
  | [] => (s, [])
  | req :: reqs' =>
      let '(s1, resp) := serve req s in
      let '(s2, resps) := serve_all reqs' s1 in
      (s2, resp :: resps)
  end.

(** The thread [t] scheduled again and again, no other thread in between,
    until it is closed. *)
Fixpoint run_alone (fuel : nat) (t : tid) (w : world) (th : thread)
  : option (world * outcome) :=
  match at_pc th, fuel with
  | Closed o, _ => Some (w, o)
  | _, 0 => None
  | _, S fuel' => '(_, w', th') ← run_thread t w th; run_alone fuel' t w' th'
  end.

(** ** Lemmas *)

Lemma http_handle_routes index_exists hr req s :
  routes hr req →
  http_handle index_exists hr s = Some ((handle req s).1, encode (handle req s).2).
Proof.
  intros (e & Hloc & Hm & Harg). unfold http_handle.
  rewrite Hloc, decide_True, Harg by done. by destruct (handle req s).
Qed.

Lemma http_run_routes index_exists hrs reqs s :
  Forall2 routes hrs reqs →
  http_run index_exists hrs s = Some ((run reqs s).1, encode <$> (run reqs s).2).
Proof.
  intros Hr. revert s. induction Hr as [|hr req hrs reqs Hroute _ IH]; intros s; [done|].
  simpl. rewrite (http_handle_routes _ _ _ _ Hroute).
  destruct (handle req s) as [s1 resp]. simpl. rewrite IH.
  by destruct (run reqs s1) as [s2 resps].
Qed.

Lemma serve_all_run reqs s : serve_all reqs s = run reqs s.
Proof.
  revert s. induction reqs as [|req reqs IH]; intros s; simpl; [done|].
  unfold serve. rewrite handler_spec.
  destruct (handle req s) as [[d1 g1] []]; simpl; by rewrite IH.
Qed.


(** ** A thread on its own

    The steps of [run_alone], one at a time: rewriting with them keeps the
    remaining steps folded. *)

Lemma run_alone_step fuel t w th lbl w' th' :
  (∀ o, at_pc th ≠ Closed o) →
  run_thread t w th = Some (lbl, w', th') →
  run_alone (S fuel) t w th = run_alone fuel t w' th'.
Proof.
  intros Hopen Hrun. cbn [run_alone]. rewrite Hrun.
  destruct (at_pc th); try done. by destruct (Hopen o).
Qed.

Lemma release_held t d g : release t (World d g (Some t)) = None.
Proof. unfold release. simpl. by rewrite decide_True. Qed.

Lemma run_thread_loops t w c bs ss fs rs st :
  allocate DAYS SLOTS_PER_DAY bs ss fs rs (db_timetable (view c w)) (generator w) = Ok st →
  run_thread t w (Thread PostGenerate c (ReadRooms bs ss fs rs))
  = Some (None, World (file w) (gen st) (lock w),
          Thread PostGenerate (Some (commit (view c w) (cur st)))
            (Looped (generator w) bs (unscheduled st))).
Proof. intros Hrun. unfold run_thread. cbn [thread_req conn at_pc]. destruct c; by rewrite Hrun. Qed.

Lemma run_thread_raise t w c bs ss fs rs e :
  allocate DAYS SLOTS_PER_DAY bs ss fs rs (db_timetable (view c w)) (generator w) = Raise e →
  run_thread t w (Thread PostGenerate c (ReadRooms bs ss fs rs))
  = Some (None,
          World (file w)
            (allocate_gen DAYS SLOTS_PER_DAY bs ss fs rs (db_timetable (view c w))
               (generator w)) (lock w),
          Thread PostGenerate
            (Some (commit (view c w)
                     (allocate_cur DAYS SLOTS_PER_DAY bs ss fs rs
                        (db_timetable (view c w)) (generator w))))
            (Raised (generator w) e)).
Proof. intros Hrun. unfold run_thread. cbn [thread_req conn at_pc]. destruct c; by rewrite Hrun. Qed.

Lemma run_alone_generate t d g :
  run_alone 7 t (World d g None) (Thread PostGenerate None Accepted)
  = Some (World (generate_timetable d g).1 (generate_gen d g) None,
          Answered (match (generate_timetable d g).2 with
                    | Ok (_, resp) => RespGenerated resp
                    | Raise e => InternalServerError e
                    end)).
Proof.
  do 5 (erewrite run_alone_step; [|done|reflexivity]).
  unfold generate_timetable, generate_gen.
  destruct (allocate DAYS SLOTS_PER_DAY (db_batches d) (db_subjects d)
              (faculties_dict (db_faculties d)) (room_id <$> db_rooms d)
              (sql_delete_timetable (db_timetable d)) g) as [st|e] eqn:Hrun.
  - erewrite run_alone_step; [|done|by apply run_thread_loops].
    erewrite run_alone_step; [|done|reflexivity]. simpl.
    by rewrite release_held, (allocate_gen_Ok _ _ _ _ _ _ _ _ _ Hrun).
  - erewrite run_alone_step; [|done|by apply run_thread_raise].
    erewrite run_alone_step; [|done|reflexivity]. simpl. by rewrite release_held.
Qed.

Lemma run_alone_get t req d g resp :
  unlocked req d = Some resp →
  run_alone 7 t (World d g None) (Thread req None Accepted)
  = Some (World d g None, Answered resp).
Proof.
  intros Hread.
  erewrite run_alone_step;
    [|done|unfold run_thread; destruct req as [r| | | | | |b]; simpl in *;
             try destruct (crud_handle r d) as [? [|]]; by simplify_eq].
  done.
Qed.

Lemma run_alone_entity t r d g :
  run_alone 7 t (World d g None) (Thread (PostEntity r) None Accepted)
  = Some (World (crud_handle r d).1 g None,
          Answered (match (crud_handle r d).2 with
                    | Ok st => RespStatus st
                    | Raise e => InternalServerError e
                    end)).
Proof.
  destruct (crud_handle r d) as [d' [st|e]] eqn:Hh.
  - erewrite run_alone_step; [|done|];
      [|unfold run_thread, unlocked; simpl; rewrite Hh; reflexivity].
    erewrite run_alone_step; [|done|reflexivity]. simpl. by rewrite release_held.
  - pose proof Hh as (-> & _)%crud_handle_Raise.
    rewrite (run_alone_get _ _ _ _ (InternalServerError e)); [done|unfold unlocked; by rewrite Hh].
Qed.

(** A thread on its own does what the service does in one step.  A thread
    that finds the lock free and is not interleaved with another goes through
    the statements of its handler in at most seven steps; it leaves the file
    and the generator as [handle] of [Session] does (and so as the statements
    of [Connection], run on a connection of their own); its client gets the
    same answer, and the lock is free again. *)
Theorem thread_alone t req d g :
  let s' := handle req (Service d g) in
  run_alone 7 t (World d g None) (Thread req None Accepted)
  = Some (World (store s'.1) (random s'.1) None, Answered s'.2).
Proof.
  destruct req as [r| | | | | |batch]; cbv zeta;
    rewrite ?run_alone_entity, ?run_alone_generate; try (by erewrite run_alone_get).
  - unfold handle. simpl. by destruct (crud_handle r d) as [d' [st|e]].
  - unfold handle. simpl.
    destruct (generate_timetable d g) as [d' [[g' r]|e]] eqn:Hg; [|done].
    by rewrite (generate_gen_Ok _ _ _ _ _ Hg).
  - erewrite run_alone_get; [|done]. unfold handle. simpl.
    by destruct (get_timetable_batch batch d).
Qed.

(** Every client is answered, with status 200 or 500.  When no further
    request arrives, an execution runs to an end in which every thread is
    closed; what the client of a thread receives then is the encoded answer
    of an exchange of the execution, with status 200 when the handler
    returned, or an error page with status 500, for a handler that raised
    or a thread that gave up on the lock. *)
Theorem service_answers d g tr s s' t th :
  csteps (quiet d g) tr s → rtc drain s s' → nf drain s' →
  pool s' !! t = Some th →
  ∃ o, at_pc th = Closed o ∧ status_code (http_outcome o) ∈ [200; 500]%Z.
Proof.
  intros Hsteps Hdrain Hnf Hth.
  assert (finished s') as Hfin.
  { destruct (decide (finished s')) as [|Hopen]; [done|]. destruct Hnf.
    apply drain_progress; [|done].
    eapply drain_inv; [|done]. by eapply csteps_inv; [apply quiet_inv|]. }
  specialize (Hfin t th Hth). simpl in Hfin.
  destruct (at_pc th) as [| | | | | | | | |o]; try done. exists o. split; [done|].
  destruct o as [[]|]; simpl; set_solver.
Qed.

End service.

(** ** The schedule of [Concurrent] over HTTP *)


Lemma service_answers_witness :
  ∃ tr s th o,
    csteps demo_quiet tr s ∧ pool s !! 2%nat = Some th ∧
    at_pc th = Closed o ∧ status_code (http_outcome o) ∈ [200; 500]%Z.
Proof.
  assert (∃ tr s th, schedule demo_schedule demo_quiet = Some (tr, s) ∧
            pool s !! 2%nat = Some th ∧ finished s)
    as (tr & s & th & Hrun%schedule_csteps & Hth & Hfin%finished_nf).
  { eexists _, _, _. split_and!; [vm_compute; reflexivity..|].
    apply (bool_decide_unpack _). by vm_compute. }
  destruct (service_answers _ _ _ _ _ _ _ Hrun (rtc_refl _ _) Hfin Hth) as (o & Ho & Hc).
  by exists tr, s, th, o.
Defined.
